(** * ObjectAllocator: a fixed-size-block pool allocator

    Shallow embedding of [src/ObjectAllocator/ObjectAllocator.cpp].

    The C++ class keeps its bookkeeping in members and threads its two lists
    (pages, free blocks) through raw storage.  The embedding follows that
    shape: the members are a record, raw storage is a byte-addressed heap
    with the set of buffers obtained from the system allocator, and every
    member function is a computation in a state monad whose outcome is a
    normal return, a thrown [OAException], a fault (the C++ program has no
    defined result) or exhaustion of the step budget given to its loops. *)

From Stdlib Require Import ZArith List Bool Lia.
Import ListNotations.
Local Open Scope Z_scope.

(** ** Constants of the build

    [ObjectAllocator.h] is not part of the sources at hand.  What the
    implementation file takes from it and from the target machine is
    gathered here as parameters: the size of a pointer and the five debug
    byte patterns. *)
Class Platform : Type := {
  ptr_bytes : positive;          (* sizeof(void* ) *)
  UNALLOCATED_PATTERN : Z;
  ALLOCATED_PATTERN : Z;
  FREED_PATTERN : Z;
  PAD_PATTERN : Z;
  ALIGN_PATTERN : Z
}.

Definition sizeof_ptr `{Platform} : Z := Z.pos ptr_bytes.

(** Largest address plus one that fits a pointer. *)
Definition ptr_limit `{Platform} : Z := 256 ^ sizeof_ptr.

(** ** [unsigned] arithmetic *)

Definition UINT_MOD : Z := 2 ^ 32.

(** The value of an [unsigned] expression: reduction modulo [2^32]. *)
Definition u32 (x : Z) : Z := x mod UINT_MOD.

Arguments UINT_MOD : simpl never.
Arguments u32 : simpl never.

(** ** Exceptions *)

Inductive OAException : Type :=
| E_NO_MEMORY
| E_NO_PAGES
| E_BAD_ADDRESS
| E_BAD_BOUNDARY
| E_MULTIPLE_FREE
| E_CORRUPTED_BLOCK.

(** ** Raw storage

    [bytes] gives the content of every address; [live] lists the buffers
    currently owned by the program as (base, size).  A buffer fresh from the
    system allocator keeps whatever [bytes] held there: its content is
    indeterminate. *)
Record Heap : Type := mkHeap {
  bytes : Z -> Z;
  live : list (Z * Z)
}.

Definition in_buffer (a : Z) (b : Z * Z) : bool :=
  (fst b <=? a) && (a <? fst b + snd b).

Definition is_live (h : Heap) (a : Z) : bool := existsb (in_buffer a) (live h).

Definition poke (h : Heap) (a v : Z) : Heap :=
  mkHeap (fun x => if x =? a then v else bytes h x) (live h).

(** Little-endian image of a pointer value in [n] bytes, and back. *)
Fixpoint encode (n : nat) (v : Z) : list Z :=
  match n with
  | O => []
  | S n' => v mod 256 :: encode n' (v / 256)
  end.

Fixpoint decode (l : list Z) : Z :=
  match l with
  | [] => 0
  | b :: l' => b + 256 * decode l'
  end.

(** ** The members of the class *)

Record OAConfig : Type := mkConfig {
  UseCPPMemManager_ : bool;
  ObjectsPerPage_ : Z;
  MaxPages_ : Z;
  DebugOn_ : bool;
  PadBytes_ : Z;
  HeaderBlocks_ : Z;
  Alignment_ : Z;
  LeftAlignSize_ : Z;
  InterAlignSize_ : Z
}.

Record OAStats : Type := mkStats {
  ObjectSize_ : Z;
  PageSize_ : Z;
  FreeObjects_ : Z;
  ObjectsInUse_ : Z;
  PagesInUse_ : Z;
  MostObjects_ : Z;
  Allocations_ : Z;
  Deallocations_ : Z
}.

Record ObjectAllocator : Type := mkOA {
  Config_ : OAConfig;
  OAStats_ : OAStats;
  chunk_size_ : Z;
  block_size_ : Z;
  page_list_ : Z;                (* GenericObject*, 0 is NULL *)
  free_list_ : Z;                (* GenericObject*, 0 is NULL *)
  heap : Heap
}.

Definition set_Config (c : OAConfig) (s : ObjectAllocator) : ObjectAllocator :=
  mkOA c (OAStats_ s) (chunk_size_ s) (block_size_ s) (page_list_ s) (free_list_ s) (heap s).
Definition set_Stats (t : OAStats) (s : ObjectAllocator) : ObjectAllocator :=
  mkOA (Config_ s) t (chunk_size_ s) (block_size_ s) (page_list_ s) (free_list_ s) (heap s).
Definition set_chunk_size (v : Z) (s : ObjectAllocator) : ObjectAllocator :=
  mkOA (Config_ s) (OAStats_ s) v (block_size_ s) (page_list_ s) (free_list_ s) (heap s).
Definition set_block_size (v : Z) (s : ObjectAllocator) : ObjectAllocator :=
  mkOA (Config_ s) (OAStats_ s) (chunk_size_ s) v (page_list_ s) (free_list_ s) (heap s).
Definition set_page_list (v : Z) (s : ObjectAllocator) : ObjectAllocator :=
  mkOA (Config_ s) (OAStats_ s) (chunk_size_ s) (block_size_ s) v (free_list_ s) (heap s).
Definition set_free_list (v : Z) (s : ObjectAllocator) : ObjectAllocator :=
  mkOA (Config_ s) (OAStats_ s) (chunk_size_ s) (block_size_ s) (page_list_ s) v (heap s).
Definition set_heap (h : Heap) (s : ObjectAllocator) : ObjectAllocator :=
  mkOA (Config_ s) (OAStats_ s) (chunk_size_ s) (block_size_ s) (page_list_ s) (free_list_ s) h.

Definition set_ObjectSize (v : Z) (t : OAStats) : OAStats :=
  mkStats v (PageSize_ t) (FreeObjects_ t) (ObjectsInUse_ t) (PagesInUse_ t)
          (MostObjects_ t) (Allocations_ t) (Deallocations_ t).
Definition set_PageSize (v : Z) (t : OAStats) : OAStats :=
  mkStats (ObjectSize_ t) v (FreeObjects_ t) (ObjectsInUse_ t) (PagesInUse_ t)
          (MostObjects_ t) (Allocations_ t) (Deallocations_ t).
Definition set_FreeObjects (v : Z) (t : OAStats) : OAStats :=
  mkStats (ObjectSize_ t) (PageSize_ t) v (ObjectsInUse_ t) (PagesInUse_ t)
          (MostObjects_ t) (Allocations_ t) (Deallocations_ t).
Definition set_ObjectsInUse (v : Z) (t : OAStats) : OAStats :=
  mkStats (ObjectSize_ t) (PageSize_ t) (FreeObjects_ t) v (PagesInUse_ t)
          (MostObjects_ t) (Allocations_ t) (Deallocations_ t).
Definition set_PagesInUse (v : Z) (t : OAStats) : OAStats :=
  mkStats (ObjectSize_ t) (PageSize_ t) (FreeObjects_ t) (ObjectsInUse_ t) v
          (MostObjects_ t) (Allocations_ t) (Deallocations_ t).
Definition set_MostObjects (v : Z) (t : OAStats) : OAStats :=
  mkStats (ObjectSize_ t) (PageSize_ t) (FreeObjects_ t) (ObjectsInUse_ t) (PagesInUse_ t)
          v (Allocations_ t) (Deallocations_ t).
Definition set_Allocations (v : Z) (t : OAStats) : OAStats :=
  mkStats (ObjectSize_ t) (PageSize_ t) (FreeObjects_ t) (ObjectsInUse_ t) (PagesInUse_ t)
          (MostObjects_ t) v (Deallocations_ t).
Definition set_Deallocations (v : Z) (t : OAStats) : OAStats :=
  mkStats (ObjectSize_ t) (PageSize_ t) (FreeObjects_ t) (ObjectsInUse_ t) (PagesInUse_ t)
          (MostObjects_ t) (Allocations_ t) v.

(** ** The monad of member functions *)

Inductive outcome (A : Type) : Type :=
| Ok (a : A)                     (* normal return *)
| Throw (e : OAException)        (* an OAException propagates to the caller *)
| Fault                          (* no defined result: wild access, division by
                                    zero, or an exception outside the throw
                                    specification *)
| Timeout.                       (* a loop used up its step budget *)
Arguments Ok {A} a.
Arguments Throw {A} e.
Arguments Fault {A}.
Arguments Timeout {A}.

Definition M (A : Type) : Type := ObjectAllocator -> outcome A * ObjectAllocator.

Definition ret {A} (a : A) : M A := fun s => (Ok a, s).

Definition bind {A B} (m : M A) (f : A -> M B) : M B :=
  fun s =>
    match m s with
    | (Ok a, s') => f a s'
    | (Throw e, s') => (Throw e, s')
    | (Fault, s') => (Fault, s')
    | (Timeout, s') => (Timeout, s')
    end.

Notation "x <- m ;; k" := (bind m (fun x => k))
  (at level 61, m at next level, right associativity).
Notation "m ;; k" := (bind m (fun _ => k))
  (at level 61, right associativity).

Definition get : M ObjectAllocator := fun s => (Ok s, s).
Definition modify (f : ObjectAllocator -> ObjectAllocator) : M unit :=
  fun s => (Ok tt, f s).
Definition throw {A} (e : OAException) : M A := fun s => (Throw e, s).
Definition fault {A} : M A := fun s => (Fault, s).
Definition timeout {A} : M A := fun s => (Timeout, s).
Definition when (b : bool) (m : M unit) : M unit := if b then m else ret tt.

Definition modify_stats (f : OAStats -> OAStats) : M unit :=
  modify (fun s => set_Stats (f (OAStats_ s)) s).

Section Code.
Context `{Platform}.

(** ** Access to raw storage *)

(** [*p] as an rvalue of type [char] or [unsigned char]. *)
Definition load_byte (a : Z) : M Z :=
  fun s => if is_live (heap s) a then (Ok (bytes (heap s) a), s) else (Fault, s).

(** [*p = v] through a [char*]. *)
Definition store_byte (a v : Z) : M unit :=
  fun s => if is_live (heap s) a
           then (Ok tt, set_heap (poke (heap s) a v) s)
           else (Fault, s).

Fixpoint load_bytes (n : nat) (a : Z) : M (list Z) :=
  match n with
  | O => ret []
  | S n' => b <- load_byte a ;; l <- load_bytes n' (a + 1) ;; ret (b :: l)
  end.

Fixpoint store_bytes (a : Z) (l : list Z) : M unit :=
  match l with
  | [] => ret tt
  | b :: l' => store_byte a b ;; store_bytes (a + 1) l'
  end.

(** [p->Next] read and written, [p] a [GenericObject*]. *)
Definition load_ptr (a : Z) : M Z :=
  l <- load_bytes (Pos.to_nat ptr_bytes) a ;; ret (decode l).

Definition store_ptr (a v : Z) : M unit :=
  store_bytes a (encode (Pos.to_nat ptr_bytes) v).

(** [while(n--) { *p = v; ++p; }], returning the advanced [p]. *)
Fixpoint fill (n : nat) (p v : Z) : M Z :=
  match n with
  | O => ret p
  | S n' => store_byte p v ;; fill n' (p + 1) v
  end.

(** [if(cond) { unsigned t = count; while(t--) { *p = v; ++p; } }] *)
Definition stamp (cond count v p : Z) : M Z :=
  if cond =? 0 then ret p else fill (Z.to_nat count) p v.

(** ** The system allocator

    [sys] is the address the system allocator has in store for the next
    request, [0] when it has no memory.  An address that could not be the
    start of a buffer of the requested size counts as no memory. *)

(** [new (std::nothrow) char[n]] *)
Definition new_nothrow (n sys : Z) : M Z :=
  fun s => if (0 <? sys) && (sys + n <=? ptr_limit)
           then (Ok sys, set_heap (mkHeap (bytes (heap s)) ((sys, n) :: live (heap s))) s)
           else (Ok 0, s).

(** [new char[n]]: on failure [std::bad_alloc] meets the throw
    specification of the caller and the program terminates. *)
Definition new_throwing (n sys : Z) : M Z :=
  p <- new_nothrow n sys ;; if p =? 0 then fault else ret p.

(** [delete [] p] *)
Definition delete_array (p : Z) : M unit :=
  fun s => if p =? 0 then (Ok tt, s)
           else if existsb (fun b => fst b =? p) (live (heap s))
           then (Ok tt, set_heap (mkHeap (bytes (heap s))
                                         (filter (fun b => negb (fst b =? p)) (live (heap s)))) s)
           else (Fault, s).

(** ** SetSignatures *)

(** The body of [for(unsigned i = 0; i < Config_.ObjectsPerPage_; ++i)],
    [n] iterations left. *)
Fixpoint SetSignatures_blocks (n : nat) (i : Z) (set_signatures : Z) : M unit :=
  match n with
  | O => ret tt
  | S n' =>
    s <- get ;;
    let c := Config_ s in
    if DebugOn_ c then
      let p := set_signatures + sizeof_ptr in
      if i =? u32 (ObjectsPerPage_ c - 1) then
        p <- fill (Z.to_nat (u32 (ObjectSize_ (OAStats_ s) - sizeof_ptr))) p UNALLOCATED_PATTERN ;;
        p <- stamp (PadBytes_ c) (PadBytes_ c) PAD_PATTERN p ;;
        SetSignatures_blocks n' (i + 1) p
      else
        p <- fill (Z.to_nat (u32 (ObjectSize_ (OAStats_ s) - sizeof_ptr))) p UNALLOCATED_PATTERN ;;
        p <- stamp (PadBytes_ c) (PadBytes_ c) PAD_PATTERN p ;;
        p <- stamp (InterAlignSize_ c) (InterAlignSize_ c) ALIGN_PATTERN p ;;
        p <- stamp (HeaderBlocks_ c) (HeaderBlocks_ c) 0 p ;;
        p <- stamp (PadBytes_ c) (PadBytes_ c) PAD_PATTERN p ;;
        SetSignatures_blocks n' (i + 1) p
    else
      if i =? u32 (ObjectsPerPage_ c - 1) then ret tt
      else
        let p := set_signatures
                 + u32 (ObjectSize_ (OAStats_ s) + InterAlignSize_ c + PadBytes_ c) in
        p <- stamp (HeaderBlocks_ c) (HeaderBlocks_ c) 0 p ;;
        SetSignatures_blocks n' (i + 1) p
  end.

Definition SetSignatures (set_signatures : Z) : M unit :=
  s <- get ;;
  let c := Config_ s in
  let p := set_signatures + sizeof_ptr in
  p <- (if DebugOn_ c then
          p <- stamp (LeftAlignSize_ c) (Alignment_ c) ALIGN_PATTERN p ;;
          stamp (HeaderBlocks_ c) (HeaderBlocks_ c) 0 p
        else
          stamp (HeaderBlocks_ c) (HeaderBlocks_ c) 0 (p + LeftAlignSize_ c)) ;;
  p <- (if DebugOn_ c then stamp (PadBytes_ c) (PadBytes_ c) PAD_PATTERN p else ret p) ;;
  SetSignatures_blocks (Z.to_nat (ObjectsPerPage_ c)) 0 p.

(** ** AllocatePage *)

(** The free-list loop of [AllocatePage],
    [for(unsigned i = 0; i < ObjectsPerPage_ || commited_bytes >= PageSize_; ++i)],
    entered with the loop variables [i], [commited_bytes] and
    [temp_free_list].  It returns the value [i] has when the loop is left. *)
Fixpoint AllocatePage_loop (fuel : nat) (i commited_bytes temp_free_list : Z) : M Z :=
  match fuel with
  | O => timeout
  | S fuel' =>
    s <- get ;;
    if (i <? ObjectsPerPage_ (Config_ s))
       || (PageSize_ (OAStats_ s) <=? commited_bytes)
    then
      temp_free_list <-
        (if i <? u32 (ObjectsPerPage_ (Config_ s) - 1) then
           let p := temp_free_list + u32 (ObjectSize_ (OAStats_ s) + chunk_size_ s) in
           store_ptr p (free_list_ s) ;;
           modify (set_free_list p) ;;
           ret p
         else ret temp_free_list) ;;
      modify_stats (fun t => set_FreeObjects (u32 (FreeObjects_ t + 1)) t) ;;
      AllocatePage_loop fuel' (u32 (i + 1))
                        (u32 (commited_bytes + ObjectSize_ (OAStats_ s)))
                        temp_free_list
    else ret i
  end.

Definition AllocatePage (fuel : nat) (sys : Z) : M unit :=
  s <- get ;;
  modify_stats (set_PageSize
    (u32 (ObjectsPerPage_ (Config_ s) * ObjectSize_ (OAStats_ s) + sizeof_ptr
          + ObjectsPerPage_ (Config_ s) * chunk_size_ s))) ;;
  modify_stats (fun t => set_PagesInUse (u32 (PagesInUse_ t + 1)) t) ;;
  s <- get ;;
  NewPage <- new_nothrow (PageSize_ (OAStats_ s)) sys ;;
  if NewPage =? 0 then throw E_NO_MEMORY
  else
    SetSignatures NewPage ;;
    s <- get ;;
    (if PagesInUse_ (OAStats_ s) =? 1
     then store_ptr NewPage 0
     else store_ptr NewPage (page_list_ s)) ;;
    modify (set_page_list NewPage) ;;
    let temp_free_list :=
      NewPage + sizeof_ptr + u32 (chunk_size_ s - PadBytes_ (Config_ s)) in
    modify (set_free_list temp_free_list) ;;
    store_ptr temp_free_list 0 ;;
    _ <- AllocatePage_loop fuel 0 0 temp_free_list ;;
    ret tt.

(** ** Constructor *)

Definition ObjectAllocator_ctor (fuel : nat) (ObjectSize : Z) (config : OAConfig)
           (sys : Z) : M unit :=
  modify_stats (set_ObjectSize ObjectSize) ;;
  modify (fun s => set_Config
    (mkConfig (UseCPPMemManager_ config) (ObjectsPerPage_ config) (MaxPages_ config)
              (DebugOn_ config) (PadBytes_ config) (HeaderBlocks_ config)
              (Alignment_ config)
              (LeftAlignSize_ (Config_ s)) (InterAlignSize_ (Config_ s))) s) ;;
  modify (fun s => set_chunk_size
    (u32 (PadBytes_ (Config_ s) * 2 + HeaderBlocks_ (Config_ s) + Alignment_ (Config_ s))) s) ;;
  modify (fun s => set_block_size (u32 (ObjectSize_ (OAStats_ s) + chunk_size_ s)) s) ;;
  modify (set_page_list 0) ;;
  modify (set_free_list 0) ;;
  s <- get ;;
  when (negb (UseCPPMemManager_ (Config_ s))) (AllocatePage fuel sys) ;;
  modify (fun s => set_Config
    (mkConfig (UseCPPMemManager_ (Config_ s)) (ObjectsPerPage_ (Config_ s))
              (MaxPages_ (Config_ s)) (DebugOn_ (Config_ s)) (PadBytes_ (Config_ s))
              (HeaderBlocks_ (Config_ s)) (Alignment_ (Config_ s))
              (Alignment_ (Config_ s)) (Alignment_ (Config_ s))) s).

(** Modelled from the spec: the members before the constructor body runs.
    The default constructors of [OAStats] and [OAConfig] are in
    [ObjectAllocator.h], which is not at hand; the counters are taken to
    start at zero, as the spec counts allocations, releases and pages, and
    the two alignment sizes, which the constructor derives at its end, to
    be zero until then. *)
Definition unconstructed (h : Heap) : ObjectAllocator :=
  mkOA (mkConfig false 0 0 false 0 0 0 0 0) (mkStats 0 0 0 0 0 0 0 0) 0 0 0 0 h.

(** ** Allocate *)

Definition count_allocation : M unit :=
  modify_stats (fun t => set_FreeObjects (u32 (FreeObjects_ t - 1)) t) ;;
  modify_stats (fun t => set_ObjectsInUse (u32 (ObjectsInUse_ t + 1)) t) ;;
  modify_stats (fun t => set_Allocations (u32 (Allocations_ t + 1)) t) ;;
  modify_stats (fun t => if MostObjects_ t <? ObjectsInUse_ t
                         then set_MostObjects (u32 (MostObjects_ t + 1)) t
                         else t).

Definition Allocate (fuel : nat) (sys : Z) : M Z :=
  s <- get ;;
  if UseCPPMemManager_ (Config_ s) then
    new_mem <- new_throwing (ObjectSize_ (OAStats_ s)) sys ;;
    count_allocation ;;
    ret new_mem
  else
    when (FreeObjects_ (OAStats_ s) =? 0)
         (if PagesInUse_ (OAStats_ s) =? MaxPages_ (Config_ s)
          then throw E_NO_PAGES
          else AllocatePage fuel sys) ;;
    s <- get ;;
    let temp := free_list_ s in
    next <- load_ptr temp ;;
    modify (set_free_list next) ;;
    when (DebugOn_ (Config_ s))
         (_ <- fill (Z.to_nat (ObjectSize_ (OAStats_ s))) temp ALLOCATED_PATTERN ;; ret tt) ;;
    when (negb (HeaderBlocks_ (Config_ s) =? 0))
         (store_byte (temp - u32 (PadBytes_ (Config_ s) + 1)) 1) ;;
    count_allocation ;;
    ret temp.

(** ** ValidateObject *)

(** [while(temp_walk != NULL)] over the free list, looking for [temp]. *)
Fixpoint ValidateObject_free_list (fuel : nat) (temp_walk temp : Z) : M unit :=
  match fuel with
  | O => timeout
  | S fuel' =>
    if temp_walk =? 0 then ret tt
    else if temp_walk =? temp then throw E_MULTIPLE_FREE
    else next <- load_ptr temp_walk ;; ValidateObject_free_list fuel' next temp
  end.

(** [while(temp_walk)] over the page list; returns [temp_walk] as the loop
    leaves it. *)
Fixpoint ValidateObject_pages (fuel : nat) (temp_walk page temp : Z) : M Z :=
  match fuel with
  | O => timeout
  | S fuel' =>
    if temp_walk =? 0 then ret temp_walk
    else
      s <- get ;;
      let end_of_page := temp_walk + PageSize_ (OAStats_ s) in
      if (temp_walk <? temp) && (temp <? end_of_page) then ret temp_walk
      else if page =? PagesInUse_ (OAStats_ s) then throw E_BAD_ADDRESS
      else next <- load_ptr temp_walk ;;
           ValidateObject_pages fuel' next (u32 (page + 1)) temp
  end.

(** The guard bytes to the left, nearest first: [n] still to check below
    [temp_free]. *)
Fixpoint ValidateObject_left (n : nat) (temp_free : Z) : M unit :=
  match n with
  | O => ret tt
  | S n' =>
    b <- load_byte (temp_free - 1) ;;
    if b =? PAD_PATTERN then ValidateObject_left n' (temp_free - 1)
    else throw E_CORRUPTED_BLOCK
  end.

(** The guard bytes to the right, [n] still to check from [temp_free] on. *)
Fixpoint ValidateObject_right (n : nat) (temp_free : Z) : M unit :=
  match n with
  | O => ret tt
  | S n' =>
    b <- load_byte temp_free ;;
    if b =? PAD_PATTERN then ValidateObject_right n' (temp_free + 1)
    else throw E_CORRUPTED_BLOCK
  end.

Definition ValidateObject (fuel : nat) (Object : Z) : M unit :=
  s <- get ;;
  let temp := Object in
  (if negb (HeaderBlocks_ (Config_ s) =? 0) then
     b <- load_byte (temp - PadBytes_ (Config_ s)) ;;
     if b =? 0 then throw E_MULTIPLE_FREE else ret tt
   else ValidateObject_free_list fuel (free_list_ s) temp) ;;
  (if page_list_ s =? 0 then throw E_BAD_ADDRESS else ret tt) ;;
  temp_walk <- ValidateObject_pages fuel (page_list_ s) 1 temp ;;
  let block := temp_walk + (sizeof_ptr + chunk_size_ s - PadBytes_ (Config_ s)) in
  let free_block := Object in
  let distance := u32 (free_block - block) in
  let stride := u32 (ObjectSize_ (OAStats_ s) + chunk_size_ s) in
  if stride =? 0 then fault
  else if negb (distance mod stride =? 0) then throw E_BAD_BOUNDARY
  else
    ValidateObject_left (Z.to_nat (PadBytes_ (Config_ s))) free_block ;;
    ValidateObject_right (Z.to_nat (PadBytes_ (Config_ s)))
                         (free_block + ObjectSize_ (OAStats_ s)).

(** ** Free *)

Definition count_deallocation : M unit :=
  modify_stats (fun t => set_FreeObjects (u32 (FreeObjects_ t + 1)) t) ;;
  modify_stats (fun t => set_Deallocations (u32 (Deallocations_ t + 1)) t) ;;
  modify_stats (fun t => set_ObjectsInUse (u32 (ObjectsInUse_ t - 1)) t).

Definition Free (fuel : nat) (Object : Z) : M unit :=
  s <- get ;;
  if UseCPPMemManager_ (Config_ s) then
    delete_array Object ;;
    count_deallocation
  else
    let temp := Object in
    when (DebugOn_ (Config_ s)) (ValidateObject fuel Object) ;;
    when (DebugOn_ (Config_ s))
         (_ <- fill (Z.to_nat (u32 (ObjectSize_ (OAStats_ s) - sizeof_ptr)))
                    (temp + sizeof_ptr) FREED_PATTERN ;; ret tt) ;;
    when (negb (HeaderBlocks_ (Config_ s) =? 0))
         (store_byte (temp - u32 (PadBytes_ (Config_ s) + 1)) 0) ;;
    s <- get ;;
    (if free_list_ s =? 0 then
       modify (set_free_list temp) ;;
       store_ptr temp 0
     else
       store_ptr temp (free_list_ s) ;;
       modify (set_free_list temp)) ;;
    count_deallocation.

(** ** DumpMemoryInUse

    The callback [fn] is modelled by the list of its calls, in order, each
    an (address, size) pair; the function returns that list next to its
    count. *)

(** [while(temp_free)] over the free list for one block; [being_used] is
    cleared when the block is met. *)
Fixpoint DumpMemoryInUse_free_list (fuel : nat) (temp_free t_block : Z)
         (being_used : bool) : M bool :=
  match fuel with
  | O => timeout
  | S fuel' =>
    if temp_free =? 0 then ret being_used
    else
      next <- load_ptr temp_free ;;
      DumpMemoryInUse_free_list fuel' next t_block
        (if temp_free =? t_block then false else being_used)
  end.

(** [for(unsigned i = 0; i < Config_.ObjectsPerPage_; ++i)] on one page,
    [n] iterations left; [acc] is [in_use] with the calls of [fn] so far. *)
Fixpoint DumpMemoryInUse_blocks (fuel : nat) (n : nat) (i temp_block : Z)
         (acc : Z * list (Z * Z)) : M (Z * list (Z * Z)) :=
  match n with
  | O => ret acc
  | S n' =>
    s <- get ;;
    let c := Config_ s in
    let temp_block :=
      if i =? 0 then temp_block + (sizeof_ptr + chunk_size_ s - PadBytes_ c)
      else temp_block + block_size_ s in
    if negb (HeaderBlocks_ c =? 0) then
      b <- load_byte (temp_block - PadBytes_ c - 1) ;;
      DumpMemoryInUse_blocks fuel n' (i + 1) temp_block
        (if b =? 1
         then (u32 (fst acc + 1),
               snd acc ++ [(temp_block + PadBytes_ c, ObjectSize_ (OAStats_ s))])
         else acc)
    else
      let t_block := temp_block in
      being_used <- DumpMemoryInUse_free_list fuel (free_list_ s) t_block true ;;
      DumpMemoryInUse_blocks fuel n' (i + 1) temp_block
        (if being_used
         then (u32 (fst acc + 1), snd acc ++ [(t_block, ObjectSize_ (OAStats_ s))])
         else acc)
  end.

(** [while(temp_page_list)] *)
Fixpoint DumpMemoryInUse_pages (fuel_pages fuel : nat) (temp_page_list : Z)
         (acc : Z * list (Z * Z)) : M (Z * list (Z * Z)) :=
  match fuel_pages with
  | O => timeout
  | S fuel_pages' =>
    if temp_page_list =? 0 then ret acc
    else
      s <- get ;;
      acc <- DumpMemoryInUse_blocks fuel (Z.to_nat (ObjectsPerPage_ (Config_ s))) 0
                                    temp_page_list acc ;;
      next <- load_ptr temp_page_list ;;
      DumpMemoryInUse_pages fuel_pages' fuel next acc
  end.

Definition DumpMemoryInUse (fuel : nat) : M (Z * list (Z * Z)) :=
  s <- get ;;
  DumpMemoryInUse_pages fuel fuel (page_list_ s) (0, []).

(** ** ValidateBlock and ValidatePages

    The callback [fn] of [ValidatePages] is modelled like that of
    [DumpMemoryInUse]. *)

(** The guard bytes to the left of [block], nearest first, [n] still to
    check below [temp_block]. *)
Fixpoint ValidateBlock_left (n : nat) (temp_block : Z) : M bool :=
  match n with
  | O => ret true
  | S n' =>
    b <- load_byte (temp_block - 1) ;;
    if b =? PAD_PATTERN then ValidateBlock_left n' (temp_block - 1) else ret false
  end.

(** The guard bytes to the right, [n] still to check from [temp_block] on. *)
Fixpoint ValidateBlock_right (n : nat) (temp_block : Z) : M bool :=
  match n with
  | O => ret true
  | S n' =>
    b <- load_byte temp_block ;;
    if b =? PAD_PATTERN then ValidateBlock_right n' (temp_block + 1) else ret false
  end.

Definition ValidateBlock (block : Z) : M bool :=
  s <- get ;;
  left_ok <- ValidateBlock_left (Z.to_nat (PadBytes_ (Config_ s))) block ;;
  if left_ok
  then ValidateBlock_right (Z.to_nat (PadBytes_ (Config_ s)))
                           (block + ObjectSize_ (OAStats_ s))
  else ret false.

(** [if(!ValidateBlock(block)) { corruptions++; fn(block, ObjectSize_); }] *)
Definition ValidatePages_block (block : Z) (acc : Z * list (Z * Z))
  : M (Z * list (Z * Z)) :=
  s <- get ;;
  valid <- ValidateBlock block ;;
  ret (if valid then acc
       else (u32 (fst acc + 1), snd acc ++ [(block, ObjectSize_ (OAStats_ s))])).

(** [for(unsigned i = 0; i < Config_.ObjectsPerPage_ - 1; ++i)], [n]
    iterations left. *)
Fixpoint ValidatePages_blocks (n : nat) (block : Z) (acc : Z * list (Z * Z))
  : M (Z * list (Z * Z)) :=
  match n with
  | O => ret acc
  | S n' =>
    s <- get ;;
    let block := block + block_size_ s in
    acc <- ValidatePages_block block acc ;;
    ValidatePages_blocks n' block acc
  end.

(** [while(temp_page_list)] *)
Fixpoint ValidatePages_pages (fuel : nat) (temp_page_list : Z) (acc : Z * list (Z * Z))
  : M (Z * list (Z * Z)) :=
  match fuel with
  | O => timeout
  | S fuel' =>
    if temp_page_list =? 0 then ret acc
    else
      s <- get ;;
      let c := Config_ s in
      let block :=
        temp_page_list
        + (u32 (LeftAlignSize_ c + HeaderBlocks_ c + PadBytes_ c) + sizeof_ptr) in
      acc <- ValidatePages_block block acc ;;
      acc <- ValidatePages_blocks (Z.to_nat (u32 (ObjectsPerPage_ c - 1))) block acc ;;
      next <- load_ptr temp_page_list ;;
      ValidatePages_pages fuel' next acc
  end.

Definition ValidatePages (fuel : nat) : M (Z * list (Z * Z)) :=
  s <- get ;;
  ValidatePages_pages fuel (page_list_ s) (0, []).

(** ** The remaining members *)

Definition SetDebugState (State : bool) : M unit :=
  modify (fun s => set_Config
    (mkConfig (UseCPPMemManager_ (Config_ s)) (ObjectsPerPage_ (Config_ s))
              (MaxPages_ (Config_ s)) State (PadBytes_ (Config_ s))
              (HeaderBlocks_ (Config_ s)) (Alignment_ (Config_ s))
              (LeftAlignSize_ (Config_ s)) (InterAlignSize_ (Config_ s))) s).

Definition GetFreeList : M Z := s <- get ;; ret (free_list_ s).
Definition GetPageList : M Z := s <- get ;; ret (page_list_ s).
Definition GetConfig : M OAConfig := s <- get ;; ret (Config_ s).
Definition GetStats : M OAStats := s <- get ;; ret (OAStats_ s).

(** [while(page_list_)] of [DeAllocatePages] *)
Fixpoint DeAllocatePages (fuel : nat) : M unit :=
  match fuel with
  | O => timeout
  | S fuel' =>
    s <- get ;;
    if page_list_ s =? 0 then ret tt
    else
      temp <- load_ptr (page_list_ s) ;;
      delete_array (page_list_ s) ;;
      modify (set_page_list temp) ;;
      DeAllocatePages fuel'
  end.

Definition ObjectAllocator_dtor (fuel : nat) : M unit :=
  s <- get ;;
  when (negb (UseCPPMemManager_ (Config_ s))) (DeAllocatePages fuel).

(** ** Sequences of client calls *)

Inductive call : Type :=
| CallAllocate (sys : Z)         (* Allocate(), with what the system allocator has in store *)
| CallFree (Object : Z).         (* Free(Object) *)

Definition is_allocate (c : call) : bool :=
  match c with CallAllocate _ => true | CallFree _ => false end.

Definition do_call (fuel : nat) (c : call) : M unit :=
  match c with
  | CallAllocate sys => _ <- Allocate fuel sys ;; ret tt
  | CallFree Object => Free fuel Object
  end.

(** The calls in order, stopping at the first that does not return. *)
Fixpoint run (fuel : nat) (calls : list call) : M unit :=
  match calls with
  | [] => ret tt
  | c :: calls' => do_call fuel c ;; run fuel calls'
  end.

(** [n] calls of [Allocate], the [k]-th with [sys k] in store; the returned
    pointers in order. *)
Fixpoint allocate_many (fuel : nat) (sys : list Z) : M (list Z) :=
  match sys with
  | [] => ret []
  | g :: sys' =>
    p <- Allocate fuel g ;;
    ps <- allocate_many fuel sys' ;;
    ret (p :: ps)
  end.

End Code.

(** * Reasoning about member functions *)

(** [wp m Q s]: running [m] from [s] ends in an outcome and a state that
    satisfy [Q]. *)
Definition wp {A} (m : M A) (Q : outcome A -> ObjectAllocator -> Prop)
           (s : ObjectAllocator) : Prop :=
  Q (fst (m s)) (snd (m s)).

(** The postcondition of [m] that makes [wp (bind m f) Q] hold. *)
Definition wp_next {A B} (f : A -> M B) (Q : outcome B -> ObjectAllocator -> Prop)
  : outcome A -> ObjectAllocator -> Prop :=
  fun r s' =>
    match r with
    | Ok a => wp (f a) Q s'
    | Throw e => Q (Throw e) s'
    | Fault => Q Fault s'
    | Timeout => Q Timeout s'
    end.

(** [m] returns normally with a value and state that satisfy [P]. *)
Definition returns {A} (P : A -> ObjectAllocator -> Prop)
  : outcome A -> ObjectAllocator -> Prop :=
  fun r s' => match r with Ok a => P a s' | _ => False end.

(** [s'] is [s] with other bytes in storage: members and owned buffers are
    the same. *)
Definition only_bytes (s s' : ObjectAllocator) : Prop :=
  exists b, s' = set_heap (mkHeap b (live (heap s))) s.

(** Storage agrees outside [[lo, hi)]. *)
Definition same_outside (lo hi : Z) (s s' : ObjectAllocator) : Prop :=
  forall a, a < lo \/ hi <= a -> bytes (heap s') a = bytes (heap s) a.

(** Every address of [[p, p + n)] lies in an owned buffer. *)
Definition range_live (h : Heap) (p n : Z) : Prop :=
  forall a, p <= a < p + n -> is_live h a = true.

(** The addresses [a, a+1, ..., a+n-1]. *)
Fixpoint addrs (n : nat) (a : Z) : list Z :=
  match n with
  | O => []
  | S n' => a :: addrs n' (a + 1)
  end.

(** The pointer stored at [a], read off the bytes. *)
Definition peek_ptr `{Platform} (h : Heap) (a : Z) : Z :=
  decode (map (bytes h) (addrs (Pos.to_nat ptr_bytes) a)).

(** A step on raw storage: it does not throw, and it changes bytes only. *)
Definition storage_step {A} (s : ObjectAllocator) : outcome A -> ObjectAllocator -> Prop :=
  fun r s' => only_bytes s s' /\ forall e, r <> Throw e.

(** A read of raw storage: it does not throw and changes nothing. *)
Definition storage_read {A} (s : ObjectAllocator) : outcome A -> ObjectAllocator -> Prop :=
  fun r s' => s' = s /\ forall e, r <> Throw e.

(** The statistics [AllocatePage] has written by the time it asks the
    system for the buffer. *)
Definition page_requested `{Platform} (s : ObjectAllocator) : ObjectAllocator :=
  set_Stats
    (set_PagesInUse (u32 (PagesInUse_ (OAStats_ s) + 1))
       (set_PageSize
          (u32 (ObjectsPerPage_ (Config_ s) * ObjectSize_ (OAStats_ s) + sizeof_ptr
                + ObjectsPerPage_ (Config_ s) * chunk_size_ s))
          (OAStats_ s))) s.

(** How many of the calls are [Allocate], how many [Free]. *)
Definition allocations (calls : list call) : Z :=
  Z.of_nat (length (filter is_allocate calls)).
Definition releases (calls : list call) : Z :=
  Z.of_nat (length (filter (fun c => negb (is_allocate c)) calls)).

(** The pool is out of play: no page, no free block, no page counted. *)
Definition no_pool (s : ObjectAllocator) : Prop :=
  UseCPPMemManager_ (Config_ s) = true /\
  page_list_ s = 0 /\ free_list_ s = 0 /\
  PagesInUse_ (OAStats_ s) = 0 /\ PageSize_ (OAStats_ s) = 0.

(** The four counters after [n] allocations and [m] releases that started
    from zero, each kept modulo [2^32]. *)
Definition counted (n m : Z) (s : ObjectAllocator) : Prop :=
  Allocations_ (OAStats_ s) = u32 n /\
  Deallocations_ (OAStats_ s) = u32 m /\
  ObjectsInUse_ (OAStats_ s) = u32 (n - m) /\
  FreeObjects_ (OAStats_ s) = u32 (m - n).


(** The computation leaves the state as it found it, whatever its outcome. *)
Definition unchanged {A} (s : ObjectAllocator) : outcome A -> ObjectAllocator -> Prop :=
  fun _ s' => s' = s.

(** The computation throws no [OAException], whatever the state. *)
Definition never_throws {A} (m : M A) : Prop :=
  forall s e, fst (m s) <> Throw e.

(** The outcome is not the exception [e]. *)
Definition avoids {A} (e : OAException) : outcome A -> ObjectAllocator -> Prop :=
  fun r _ => r <> Throw e.

(** ** Well-formed configurations *)

(** What a client may hand to the constructor: at least one object per
    page, objects of at least [w > 0] bytes, [unsigned] values, and a page
    whose size in bytes is itself an [unsigned] value.  The bookkeeping
    works for [w = 1]; threading the free list through the payloads takes
    objects that hold a link word, [w = sizeof_ptr]. *)
Record wf_config `{Platform} (w ObjectSize : Z) (config : OAConfig) : Prop := {
  wf_objects : 1 <= ObjectsPerPage_ config;
  wf_size : 0 < w <= ObjectSize;
  wf_max : 0 <= MaxPages_ config < UINT_MOD;
  wf_pad : 0 <= PadBytes_ config;
  wf_header : 0 <= HeaderBlocks_ config;
  wf_align : 0 <= Alignment_ config;
  wf_fits :
    ObjectsPerPage_ config
    * (ObjectSize + (PadBytes_ config * 2 + HeaderBlocks_ config + Alignment_ config))
    + sizeof_ptr < UINT_MOD
}.

(** The same, read off the members of a constructed allocator. *)
Record members_ok `{Platform} (w : Z) (s : ObjectAllocator) : Prop := {
  ok_objects : 1 <= ObjectsPerPage_ (Config_ s);
  ok_size : 0 < w <= ObjectSize_ (OAStats_ s);
  ok_max : 0 <= MaxPages_ (Config_ s) < UINT_MOD;
  ok_pad : 0 <= PadBytes_ (Config_ s);
  ok_header : 0 <= HeaderBlocks_ (Config_ s);
  ok_align : 0 <= Alignment_ (Config_ s);
  ok_left : 0 <= LeftAlignSize_ (Config_ s) <= Alignment_ (Config_ s);
  ok_inter : 0 <= InterAlignSize_ (Config_ s) <= Alignment_ (Config_ s);
  ok_chunk :
    chunk_size_ s
    = PadBytes_ (Config_ s) * 2 + HeaderBlocks_ (Config_ s) + Alignment_ (Config_ s);
  ok_block : block_size_ s = ObjectSize_ (OAStats_ s) + chunk_size_ s;
  ok_fits :
    ObjectsPerPage_ (Config_ s) * (ObjectSize_ (OAStats_ s) + chunk_size_ s)
    + sizeof_ptr < UINT_MOD
}.

(** The size of a page in bytes, as [AllocatePage] computes it when nothing
    wraps around. *)
Definition page_bytes `{Platform} (s : ObjectAllocator) : Z :=
  ObjectsPerPage_ (Config_ s) * ObjectSize_ (OAStats_ s) + sizeof_ptr
  + ObjectsPerPage_ (Config_ s) * chunk_size_ s.

(** Distance between the payloads of neighbouring blocks. *)
Definition stride (s : ObjectAllocator) : Z :=
  ObjectSize_ (OAStats_ s) + chunk_size_ s.

(** Address of the payload of block [i] on the page at [page]. *)
Definition payload `{Platform} (s : ObjectAllocator) (page i : Z) : Z :=
  page + sizeof_ptr + (chunk_size_ s - PadBytes_ (Config_ s)) + i * stride s.

(** The configuration and the sizes derived from it are the same. *)
Definition same_setup (s s' : ObjectAllocator) : Prop :=
  Config_ s' = Config_ s /\ chunk_size_ s' = chunk_size_ s /\
  block_size_ s' = block_size_ s /\
  ObjectSize_ (OAStats_ s') = ObjectSize_ (OAStats_ s).

(** The statistics differ in the free-object count at most. *)
Definition same_stats_but_free (s s' : ObjectAllocator) : Prop :=
  exists f, OAStats_ s' = set_FreeObjects f (OAStats_ s).

Section Predicates.
Context `{Platform}.

(** The statistics after [AllocatePage]: the page size recorded, one more
    page counted, and [f] free objects. *)
Definition page_counted (f : Z) (s : ObjectAllocator) : OAStats :=
  set_FreeObjects f
    (set_PagesInUse (u32 (PagesInUse_ (OAStats_ s) + 1))
       (set_PageSize (page_bytes s) (OAStats_ s))).

(** What [Allocate] has done to the members when it took a block off the
    free list without asking for a page. *)
Definition block_taken (s s' : ObjectAllocator) : Prop :=
  same_setup s s' /\
  live (heap s') = live (heap s) /\ page_list_ s' = page_list_ s /\
  PagesInUse_ (OAStats_ s') = PagesInUse_ (OAStats_ s) /\
  PageSize_ (OAStats_ s') = PageSize_ (OAStats_ s) /\
  FreeObjects_ (OAStats_ s') = u32 (FreeObjects_ (OAStats_ s) - 1) /\
  ObjectsInUse_ (OAStats_ s') = u32 (ObjectsInUse_ (OAStats_ s) + 1) /\
  Allocations_ (OAStats_ s') = u32 (Allocations_ (OAStats_ s) + 1) /\
  Deallocations_ (OAStats_ s') = Deallocations_ (OAStats_ s).

(** The members are as they were, up to the bytes in storage and the head
    of the free list. *)
Definition members_kept (s s' : ObjectAllocator) : Prop :=
  same_setup s s' /\ OAStats_ s' = OAStats_ s /\
  live (heap s') = live (heap s) /\ page_list_ s' = page_list_ s.

(** What [Free] has done to the members when it returns. *)
Definition block_returned (s s' : ObjectAllocator) : Prop :=
  FreeObjects_ (OAStats_ s') = u32 (FreeObjects_ (OAStats_ s) + 1) /\
  ObjectsInUse_ (OAStats_ s') = u32 (ObjectsInUse_ (OAStats_ s) - 1) /\
  Deallocations_ (OAStats_ s') = u32 (Deallocations_ (OAStats_ s) + 1) /\
  Allocations_ (OAStats_ s') = Allocations_ (OAStats_ s).

(** What no call of [Free] on the pool touches, however it ends. *)
Definition pages_kept (s s' : ObjectAllocator) : Prop :=
  same_setup s s' /\
  live (heap s') = live (heap s) /\ page_list_ s' = page_list_ s /\
  PagesInUse_ (OAStats_ s') = PagesInUse_ (OAStats_ s) /\
  PageSize_ (OAStats_ s') = PageSize_ (OAStats_ s).

(** The allocator as the constructor leaves it when the pool is in use. *)
Record constructed (w ObjectSize : Z) (config : OAConfig) (sys : Z) (h : Heap)
       (s : ObjectAllocator) : Prop := {
  ctd_members : members_ok w s;
  ctd_pool : UseCPPMemManager_ (Config_ s) = false;
  ctd_objects : ObjectsPerPage_ (Config_ s) = ObjectsPerPage_ config;
  ctd_max : MaxPages_ (Config_ s) = MaxPages_ config;
  ctd_debug : DebugOn_ (Config_ s) = DebugOn_ config;
  ctd_pad : PadBytes_ (Config_ s) = PadBytes_ config;
  ctd_header : HeaderBlocks_ (Config_ s) = HeaderBlocks_ config;
  ctd_align : Alignment_ (Config_ s) = Alignment_ config;
  ctd_left : LeftAlignSize_ (Config_ s) = Alignment_ config;
  ctd_inter : InterAlignSize_ (Config_ s) = Alignment_ config;
  ctd_size : ObjectSize_ (OAStats_ s) = ObjectSize;
  ctd_page_size : PageSize_ (OAStats_ s) = page_bytes s;
  ctd_pages : PagesInUse_ (OAStats_ s) = 1;
  ctd_free : FreeObjects_ (OAStats_ s) = ObjectsPerPage_ config;
  ctd_in_use : ObjectsInUse_ (OAStats_ s) = 0;
  ctd_most : MostObjects_ (OAStats_ s) = 0;
  ctd_allocations : Allocations_ (OAStats_ s) = 0;
  ctd_deallocations : Deallocations_ (OAStats_ s) = 0;
  ctd_page_list : page_list_ s = sys;
  ctd_live : live (heap s) = (sys, page_bytes s) :: live h;
  ctd_sys : 0 < sys /\ sys + page_bytes s <= ptr_limit
}.

(** Pages obtained from the system since the heap was [h]. *)
Definition pages_created (h : Heap) (s : ObjectAllocator) : Z :=
  Z.of_nat (length (live (heap s))) - Z.of_nat (length (live h)).

(** The books after [n] allocations and [m] releases: both counters are
    right modulo [2^32], and the free count never exceeds the blocks that
    exist and are not handed out. *)
Record books (w : Z) (h : Heap) (K n m : Z) (s : ObjectAllocator) : Prop := {
  bk_members : members_ok w s;
  bk_objects : ObjectsPerPage_ (Config_ s) = K;
  bk_pool : UseCPPMemManager_ (Config_ s) = false;
  bk_in_use : ObjectsInUse_ (OAStats_ s) = u32 (n - m);
  bk_free :
    FreeObjects_ (OAStats_ s)
    = u32 (pages_created h s * ObjectsPerPage_ (Config_ s) - (n - m));
  bk_bound :
    0 <= FreeObjects_ (OAStats_ s)
      <= pages_created h s * ObjectsPerPage_ (Config_ s) - (n - m);
  bk_range : FreeObjects_ (OAStats_ s) < UINT_MOD
}.

(** The computation returns a value that satisfies [P], and all it has
    changed are bytes of [[lo, hi)]. *)
Definition writes_within {A} (lo hi : Z) (s : ObjectAllocator) (P : A -> Prop)
  : outcome A -> ObjectAllocator -> Prop :=
  returns (fun a s' => P a /\ only_bytes s s' /\ same_outside lo hi s s').

(** Bytes the blocks of [SetSignatures] may write, [n] blocks left on the
    page. *)
Definition blocks_span (s : ObjectAllocator) (n : nat) : Z :=
  match n with
  | O => 0
  | S n' => Z.of_nat n' * stride s + ObjectSize_ (OAStats_ s) + PadBytes_ (Config_ s)
  end.

(** What block [i] of a page links to when the page has just been threaded:
    the block before it, and nothing for the first. *)
Definition link_of (s : ObjectAllocator) (page i : Z) : Z :=
  if i =? 0 then 0 else payload s page (i - 1).

(** Blocks [0 .. f-1] of [page] are the free list, the last of them at its
    head. *)
Definition chain (s : ObjectAllocator) (page f : Z) : Prop :=
  free_list_ s = link_of s page f /\
  forall i, 0 <= i < f ->
    peek_ptr (heap s) (payload s page i) = link_of s page i.

(** The pool in working order: [page] is the newest page, a buffer the
    allocator owns, and the blocks of it that are still free are the free
    list, as many as the free count says. *)
Record pool (s : ObjectAllocator) (page : Z) : Prop := {
  pool_members : members_ok sizeof_ptr s;
  pool_on : UseCPPMemManager_ (Config_ s) = false;
  pool_page_size : PageSize_ (OAStats_ s) = page_bytes s;
  pool_live : range_live (heap s) page (page_bytes s);
  pool_page : 0 < page /\ page + page_bytes s <= ptr_limit;
  pool_free : 0 <= FreeObjects_ (OAStats_ s) <= ObjectsPerPage_ (Config_ s);
  pool_chain : chain s page (FreeObjects_ (OAStats_ s))
}.

(** The size of a page for a configuration, before any allocator exists. *)
Definition config_page_bytes (ObjectSize : Z) (config : OAConfig) : Z :=
  ObjectsPerPage_ config * ObjectSize + sizeof_ptr
  + ObjectsPerPage_ config
    * (PadBytes_ config * 2 + HeaderBlocks_ config + Alignment_ config).

(** [sys] can be the start of a buffer of [n] bytes. *)
Definition valid_grant (n sys : Z) : Prop := 0 < sys /\ sys + n <= ptr_limit.

(** The pool is in working order and has handed out [handed] blocks since
    it was constructed. *)
Definition serving (s : ObjectAllocator) (handed : Z) : Prop :=
  exists page,
    pool s page /\
    1 <= PagesInUse_ (OAStats_ s) <= MaxPages_ (Config_ s) /\
    handed = (PagesInUse_ (OAStats_ s) - 1) * ObjectsPerPage_ (Config_ s)
             + (ObjectsPerPage_ (Config_ s) - FreeObjects_ (OAStats_ s)).

(** The state after the calls, each started where the one before it left
    the allocator, however that one ended. *)
Fixpoint run_on (fuel : nat) (calls : list call) (s : ObjectAllocator) : ObjectAllocator :=
  match calls with
  | [] => s
  | c :: calls' => run_on fuel calls' (snd (do_call fuel c s))
  end.

(** The nodes of the free list from [p] on, following the link word of
    each, if there are at most [n] of them. *)
Fixpoint free_list_from (h : Heap) (n : nat) (p : Z) : option (list Z) :=
  if p =? 0 then Some []
  else match n with
       | O => None
       | S n' => option_map (cons p) (free_list_from h n' (peek_ptr h p))
       end.

(** The payload addresses of blocks [n-1], ..., [0] of a page. *)
Fixpoint blocks_down (s : ObjectAllocator) (page : Z) (n : nat) : list Z :=
  match n with
  | O => []
  | S n' => payload s page (Z.of_nat n') :: blocks_down s page n'
  end.

End Predicates.

(** ** What the signatures of a page look like *)

(** Every guard byte of every block of the page at [page] holds the guard
    pattern. *)
Definition guard_bytes_stamped `{Platform} (s : ObjectAllocator) (page : Z) : Prop :=
  forall i k,
    0 <= i < ObjectsPerPage_ (Config_ s) -> 0 <= k < PadBytes_ (Config_ s) ->
    bytes (heap s) (payload s page i - 1 - k) = PAD_PATTERN /\
    bytes (heap s) (payload s page i + ObjectSize_ (OAStats_ s) + k) = PAD_PATTERN.

(** Each block of the page has its usage header zeroed. *)
Definition headers_zeroed `{Platform} (s : ObjectAllocator) (page : Z) : Prop :=
  forall i k,
    0 <= i < ObjectsPerPage_ (Config_ s) -> 0 <= k < HeaderBlocks_ (Config_ s) ->
    bytes (heap s) (payload s page i - PadBytes_ (Config_ s) - 1 - k) = 0.

(** Each block of the page has the alignment filler in front of its
    header. *)
Definition alignment_stamped `{Platform} (s : ObjectAllocator) (page : Z) : Prop :=
  forall i k,
    0 <= i < ObjectsPerPage_ (Config_ s) -> 0 <= k < Alignment_ (Config_ s) ->
    bytes (heap s)
      (payload s page i - PadBytes_ (Config_ s) - HeaderBlocks_ (Config_ s) - 1 - k)
    = ALIGN_PATTERN.

(** Each block of the page has its payload, past the link word, in the
    unallocated pattern. *)
Definition payload_unallocated `{Platform} (s : ObjectAllocator) (page : Z) : Prop :=
  forall i k,
    0 <= i < ObjectsPerPage_ (Config_ s) -> sizeof_ptr <= k < ObjectSize_ (OAStats_ s) ->
    bytes (heap s) (payload s page i + k) = UNALLOCATED_PATTERN.

(** [s'] is [s] with some bytes of storage set to zero, and none if
    [header] is zero. *)
Definition zeroed (header : Z) (s s' : ObjectAllocator) : Prop :=
  only_bytes s s' /\
  forall a, bytes (heap s') a = bytes (heap s) a \/ (header <> 0 /\ bytes (heap s') a = 0).

(** Stamps behind the payload of block [j]: the unallocated pattern past
    the link word, and the guard bytes on the right. *)
Definition back_stamped `{Platform} (s : ObjectAllocator) (page : Z) (b : Z -> Z) (j : Z)
  : Prop :=
  forall k,
    (sizeof_ptr <= k < ObjectSize_ (OAStats_ s) ->
     b (payload s page j + k) = UNALLOCATED_PATTERN) /\
    (0 <= k < PadBytes_ (Config_ s) ->
     b (payload s page j + ObjectSize_ (OAStats_ s) + k) = PAD_PATTERN).

(** Stamps in front of the payload of block [j]: guard bytes on the left,
    before them the header, before that the alignment filler. *)
Definition front_stamped `{Platform} (s : ObjectAllocator) (page : Z) (b : Z -> Z) (j : Z)
  : Prop :=
  forall k,
    (0 <= k < PadBytes_ (Config_ s) -> b (payload s page j - 1 - k) = PAD_PATTERN) /\
    (0 <= k < HeaderBlocks_ (Config_ s) ->
     b (payload s page j - PadBytes_ (Config_ s) - 1 - k) = 0) /\
    (0 <= k < Alignment_ (Config_ s) ->
     b (payload s page j - PadBytes_ (Config_ s) - HeaderBlocks_ (Config_ s) - 1 - k)
     = ALIGN_PATTERN).

(** ** A build and some runs to compute with *)

(** A 64-bit build with the byte patterns [0xAA], [0xBB], [0xCC], [0xDD]
    and [0xEE]. *)
Definition reference_build : Platform :=
  {| ptr_bytes := 8;
     UNALLOCATED_PATTERN := 170;
     ALLOCATED_PATTERN := 187;
     FREED_PATTERN := 204;
     PAD_PATTERN := 221;
     ALIGN_PATTERN := 238 |}.

(** A heap that owns nothing yet and reads [0] everywhere. *)
Definition blank_heap : Heap := mkHeap (fun _ => 0) [].

(** Objects of 16 bytes, three to a page, at most two pages. *)
Definition example_config (debug : bool) (pad header : Z) : OAConfig :=
  mkConfig false 3 2 debug pad header 0 0 0.

(** The same with the pool bypassed. *)
Definition pass_through_config : OAConfig :=
  mkConfig true 3 2 false 0 0 0 0 0.

(** Construct, allocate one object, release it twice. *)
Definition double_release (config : OAConfig) : M unit :=
  @ObjectAllocator_ctor reference_build 8 16 config 1000 ;;
  p <- @Allocate reference_build 8 2000 ;;
  @Free reference_build 8 p ;;
  @Free reference_build 8 p.

(** Construct, allocate five objects, release the second and the fourth,
    then dump what is in use; returns the five pointers with the result of
    the dump. *)
Definition five_minus_two (config : OAConfig) : M (list Z * (Z * list (Z * Z))) :=
  @ObjectAllocator_ctor reference_build 8 16 config 1000 ;;
  ps <- @allocate_many reference_build 8 [2000; 2000; 2000; 2000; 2000] ;;
  @Free reference_build 8 (nth 1 ps 0) ;;
  @Free reference_build 8 (nth 3 ps 0) ;;
  r <- @DumpMemoryInUse reference_build 8 ;;
  ret (ps, r).

(** The allocator right after construction. *)
Definition example_start (config : OAConfig) : ObjectAllocator :=
  snd (@ObjectAllocator_ctor reference_build 8 16 config 1000 (unconstructed blank_heap)).

(** Two allocations and the release of the first pointer handed out. *)
Definition example_calls : list call :=
  [CallAllocate 2000; CallAllocate 2000; CallFree 1050].

(** The allocator after one block has been handed out and released
    again. *)
Definition once_released (config : OAConfig) : ObjectAllocator :=
  snd ((@ObjectAllocator_ctor reference_build 8 16 config 1000 ;;
        p <- @Allocate reference_build 8 2000 ;;
        @Free reference_build 8 p) (unconstructed blank_heap)).

(** The allocator of [example_config] with every block of its first page
    handed out. *)
Definition first_page_taken : ObjectAllocator :=
  snd ((@ObjectAllocator_ctor reference_build 8 16 (example_config true 2 0) 1000 ;;
        @allocate_many reference_build 8 [2000; 2000; 2000]) (unconstructed blank_heap)).

(** The allocator of [example_config true 2 1] as [AllocatePage] has it when
    it enters its free-list loop for a first page at [1000]. *)
Definition loop_entry : ObjectAllocator :=
  mkOA (example_config true 2 1) (mkStats 16 71 0 0 1 0 0 0) 5 21 1000 1011
       (mkHeap (fun _ => 0) [(1000, 71)]).

(** A page is created, debug mode is set to [State], and the guard bytes of
    all pages are validated. *)
Definition validated_after (config : OAConfig) (State : bool) : M (Z * list (Z * Z)) :=
  @ObjectAllocator_ctor reference_build 8 16 config 1000 ;;
  SetDebugState State ;;
  @ValidatePages reference_build 8.

(** A block is handed out, debug mode is switched on, and the block is
    released. *)
Definition released_after_toggle (config : OAConfig) : M unit :=
  @ObjectAllocator_ctor reference_build 8 16 config 1000 ;;
  p <- @Allocate reference_build 8 2000 ;;
  SetDebugState true ;;
  @Free reference_build 8 p.
(** * Further notions: exceptions, counters, lists of pages and blocks *)


(** Whatever is thrown satisfies [P]. *)
Definition throws_only {A} (P : OAException -> Prop)
  : outcome A -> ObjectAllocator -> Prop :=
  fun r _ => forall e, r = Throw e -> P e.

(** The errors [ValidateObject] reports. *)
Definition validation_error (e : OAException) : Prop :=
  e = E_MULTIPLE_FREE \/ e = E_BAD_ADDRESS \/ e = E_BAD_BOUNDARY \/ e = E_CORRUPTED_BLOCK.


(** The configuration, the pages counted and the buffers owned are the
    same. *)
Definition pages_same (s s' : ObjectAllocator) : Prop :=
  Config_ s' = Config_ s /\ live (heap s') = live (heap s) /\
  PagesInUse_ (OAStats_ s') = PagesInUse_ (OAStats_ s).

(** The counters of objects in use, of the most in use, of allocations and
    of releases are the same. *)
Definition usage_same (s s' : ObjectAllocator) : Prop :=
  ObjectsInUse_ (OAStats_ s') = ObjectsInUse_ (OAStats_ s) /\
  MostObjects_ (OAStats_ s') = MostObjects_ (OAStats_ s) /\
  Allocations_ (OAStats_ s') = Allocations_ (OAStats_ s) /\
  Deallocations_ (OAStats_ s') = Deallocations_ (OAStats_ s).

(** The allocator when [AllocatePage] has been given its buffer at [sys]. *)
Definition page_granted `{Platform} (sys : Z) (s : ObjectAllocator) : ObjectAllocator :=
  set_heap (mkHeap (bytes (heap s))
                   ((sys, PageSize_ (OAStats_ (page_requested s))) :: live (heap s)))
           (page_requested s).

(** What a call of [Allocate] on the pool can do to the pages, however it
    ends: nothing, or count one more page below the limit and own at most
    one more buffer, the one the system gave. *)
Definition pages_step `{Platform} (sys : Z) (s s' : ObjectAllocator) : Prop :=
  Config_ s' = Config_ s /\
  ((live (heap s') = live (heap s) /\
    PagesInUse_ (OAStats_ s') = PagesInUse_ (OAStats_ s)) \/
   (PagesInUse_ (OAStats_ s) <> MaxPages_ (Config_ s) /\
    PagesInUse_ (OAStats_ s') = u32 (PagesInUse_ (OAStats_ s) + 1) /\
    (live (heap s') = live (heap s) \/
     exists n, live (heap s') = (sys, n) :: live (heap s)))).

(** The computation got from [s] to some state in relation [R] to it and,
    if it returned, went on from there by [count]. *)
Definition then_counted {A} (R : ObjectAllocator -> ObjectAllocator -> Prop)
           (count : M unit) (s : ObjectAllocator)
  : outcome A -> ObjectAllocator -> Prop :=
  fun r s' =>
    exists s2, R s s2 /\
      ((exists a, r = Ok a) -> s' = snd (count s2)) /\
      ((forall a, r <> Ok a) -> s' = s2).

(** The most objects in use at any moment of the run of [calls] from [s],
    [s] itself included. *)
Fixpoint peak `{Platform} (fuel : nat) (calls : list call) (s : ObjectAllocator) : Z :=
  match calls with
  | [] => ObjectsInUse_ (OAStats_ s)
  | c :: calls' =>
    Z.max (ObjectsInUse_ (OAStats_ s)) (peak fuel calls' (snd (do_call fuel c s)))
  end.

(** No call of [Free] in the run of [calls] from [s] returns while the
    allocator counts no object in use. *)
Fixpoint releases_in_use `{Platform} (fuel : nat) (calls : list call)
         (s : ObjectAllocator) : Prop :=
  match calls with
  | [] => True
  | c :: calls' =>
    match c, fst (do_call fuel c s) with
    | CallFree _, Ok _ => 0 < ObjectsInUse_ (OAStats_ s)
    | _, _ => True
    end /\ releases_in_use fuel calls' (snd (do_call fuel c s))
  end.

(** What a call does to the usage counters: a returning [Allocate] counts
    an allocation and raises the most in use if it is exceeded, a returning
    [Free] counts a release, and a call that does not return counts
    nothing. *)
Definition usage_step (c : call) (r : outcome unit) (s s' : ObjectAllocator) : Prop :=
  match c, r with
  | CallAllocate _, Ok _ =>
    ObjectsInUse_ (OAStats_ s') = u32 (ObjectsInUse_ (OAStats_ s) + 1) /\
    MostObjects_ (OAStats_ s')
    = (if MostObjects_ (OAStats_ s) <? u32 (ObjectsInUse_ (OAStats_ s) + 1)
       then u32 (MostObjects_ (OAStats_ s) + 1) else MostObjects_ (OAStats_ s)) /\
    Allocations_ (OAStats_ s') = u32 (Allocations_ (OAStats_ s) + 1) /\
    Deallocations_ (OAStats_ s') = Deallocations_ (OAStats_ s)
  | CallFree _, Ok _ =>
    ObjectsInUse_ (OAStats_ s') = u32 (ObjectsInUse_ (OAStats_ s) - 1) /\
    MostObjects_ (OAStats_ s') = MostObjects_ (OAStats_ s) /\
    Allocations_ (OAStats_ s') = Allocations_ (OAStats_ s) /\
    Deallocations_ (OAStats_ s') = u32 (Deallocations_ (OAStats_ s) + 1)
  | _, _ => usage_same s s'
  end.

(** The payload addresses of [n] blocks of a page from block [top]
    downwards: blocks [top], [top - 1], ... *)
Fixpoint blocks_from `{Platform} (s : ObjectAllocator) (page top : Z) (n : nat) : list Z :=
  match n with
  | O => []
  | S n' => payload s page top :: blocks_from s page (top - 1) n'
  end.

(** The objects at the addresses of [ps], each [size] bytes long, lie in
    [[lo, hi)] one below the other without overlap, the first of [ps]
    highest. *)
Fixpoint stacked (lo hi size : Z) (ps : list Z) : Prop :=
  match ps with
  | [] => True
  | p :: ps' => lo <= p /\ p + size <= hi /\ stacked lo p size ps'
  end.

(** The pages of the page list from [p] on, following the link word at the
    start of each, if there are at most [n] of them. *)
Fixpoint pages_from `{Platform} (h : Heap) (n : nat) (p : Z) : option (list Z) :=
  if p =? 0 then Some []
  else match n with
       | O => None
       | S n' => option_map (cons p) (pages_from h n' (peek_ptr h p))
       end.

(** The buffers of [l] that do not start at one of [pages]. *)
Definition without_pages (pages : list Z) (l : list (Z * Z)) : list (Z * Z) :=
  filter (fun b => negb (existsb (Z.eqb (fst b)) pages)) l.

(** Every one of [pages] is the start of an owned buffer that holds a link
    word at least. *)
Definition pages_owned `{Platform} (h : Heap) (pages : list Z) : Prop :=
  Forall (fun p => exists n, In (p, n) (live h) /\ sizeof_ptr <= n) pages.

(** [Object] lies strictly inside the page at [page], as the page walk of
    [ValidateObject] tests it. *)
Definition on_page (s : ObjectAllocator) (Object page : Z) : bool :=
  (page <? Object) && (Object <? page + PageSize_ (OAStats_ s)).

(** Every address of [l] starts [n] bytes of owned storage. *)
Definition all_owned (h : Heap) (n : Z) (l : list Z) : Prop :=
  Forall (fun p => range_live h p n) l.

(** The payload addresses of [n] blocks of a page from block [i] upwards. *)
Fixpoint blocks_up `{Platform} (s : ObjectAllocator) (page i : Z) (n : nat) : list Z :=
  match n with
  | O => []
  | S n' => payload s page i :: blocks_up s page (i + 1) n'
  end.

(** The payload addresses of all the blocks of a page, in address order. *)
Definition page_blocks `{Platform} (s : ObjectAllocator) (page : Z) : list Z :=
  blocks_up s page 0 (Z.to_nat (ObjectsPerPage_ (Config_ s))).

(** The [PadBytes_] bytes before the object at [block] and the [PadBytes_]
    bytes after it all hold [PAD_PATTERN]. *)
Definition guards_intact `{Platform} (s : ObjectAllocator) (block : Z) : bool :=
  forallb (fun a => bytes (heap s) a =? PAD_PATTERN)
          (addrs (Z.to_nat (PadBytes_ (Config_ s))) (block - PadBytes_ (Config_ s)))
  && forallb (fun a => bytes (heap s) a =? PAD_PATTERN)
             (addrs (Z.to_nat (PadBytes_ (Config_ s)))
                    (block + ObjectSize_ (OAStats_ s))).

(** The blocks of [pages] with a damaged guard byte, page by page in the
    order of [pages] and by address within a page. *)
Definition damaged_blocks `{Platform} (s : ObjectAllocator) (pages : list Z) : list Z :=
  filter (fun b => negb (guards_intact s b)) (flat_map (page_blocks s) pages).

(** The blocks of [pages] that are not nodes of the free list [free], page
    by page in the order of [pages] and by address within a page. *)
Definition blocks_in_use `{Platform} (s : ObjectAllocator) (free pages : list Z) : list Z :=
  filter (fun b => negb (existsb (Z.eqb b) free)) (flat_map (page_blocks s) pages).

(** No owned buffer starts at the null address or below it. *)
Definition buffers_above_null (s : ObjectAllocator) : Prop :=
  Forall (fun b => 0 < fst b) (live (heap s)).

(** If the buffers of [s] all start above null, so do those of [s']. *)
Definition keeps_above_null (s s' : ObjectAllocator) : Prop :=
  buffers_above_null s -> buffers_above_null s'.

(** ** More runs on the reference build *)

(** The allocator after construction and one allocation. *)
Definition one_in_use (config : OAConfig) : ObjectAllocator :=
  snd ((@ObjectAllocator_ctor reference_build 8 16 config 1000 ;;
        @Allocate reference_build 8 2000) (unconstructed blank_heap)).

(** The allocator of [example_config] with a second page begun: four
    blocks handed out, three of the page at [1000] and one of the page at
    [2000]. *)
Definition second_page_begun : ObjectAllocator :=
  snd ((@ObjectAllocator_ctor reference_build 8 16 (example_config true 2 0) 1000 ;;
        @allocate_many reference_build 8 [2000; 2000; 2000; 2000])
         (unconstructed blank_heap)).

(** The allocator of [first_page_taken] after the system has refused the
    buffer for a second page. *)
Definition page_refused : ObjectAllocator :=
  snd (@Allocate reference_build 8 0 first_page_taken).

(** The allocator with one block handed out, at [1050], and the guard byte
    just before it overwritten. *)
Definition guard_overwritten : ObjectAllocator :=
  set_heap (poke (heap (one_in_use (example_config true 2 0))) 1049 0)
           (one_in_use (example_config true 2 0)).


(** ** Calls the system can serve, and configurations at the edge *)

(** With the pool bypassed, the calls are ones the system allocator
    serves, [owned] being the buffers the program owns: each [Allocate]
    finds room for an object of [size] bytes in store, and each [Free] is
    given null or the start of an owned buffer. *)
Fixpoint served `{Platform} (size : Z) (owned : list (Z * Z)) (calls : list call) : bool :=
  match calls with
  | [] => true
  | CallAllocate sys :: calls' =>
    (0 <? sys) && (sys + size <=? ptr_limit)
    && served size ((sys, size) :: owned) calls'
  | CallFree Object :: calls' =>
    if Object =? 0 then served size owned calls'
    else existsb (fun b => fst b =? Object) owned
         && served size (filter (fun b => negb (fst b =? Object)) owned) calls'
  end.

(** Two objects from the system, the first given back. *)
Definition pass_through_calls : list call :=
  [CallAllocate 2000; CallAllocate 3000; CallFree 2000].

(** One object to a page, sixteen guard bytes on each side, at most one
    page.  With objects of [2^32 - 1] bytes a page takes [2^32 + 39] bytes,
    which does not fit an [unsigned]. *)
Definition wrapped_config : OAConfig := mkConfig false 1 1 false 16 0 0 0 0.

(** The allocator of [wrapped_config] for objects of [2^32 - 1] bytes as
    [AllocatePage] has it when it enters its free-list loop for the first
    page at [1000]: the constructor, stopped there for want of a step
    budget. *)
Definition wrapped_entry : ObjectAllocator :=
  snd (@ObjectAllocator_ctor reference_build 0 4294967295 wrapped_config 1000
         (unconstructed blank_heap)).

(** The same with [4294967258] free objects counted. *)
Definition wrapped_start : ObjectAllocator :=
  set_Stats (set_FreeObjects 4294967258 (OAStats_ wrapped_entry)) wrapped_entry.

(** The same with its one block handed out. *)
Definition wrapped_taken : ObjectAllocator :=
  snd (@Allocate reference_build 0 2000 wrapped_start).

(** Three objects to a page, no guard bytes, no headers: a layout for
    objects of four bytes, which cannot hold a link word of eight. *)
Definition small_config : OAConfig := mkConfig false 3 2 false 0 0 0 0 0.

(** The allocator of [small_config] for objects of four bytes as
    [AllocatePage] has it when it enters its free-list loop for the first
    page at [1000]. *)
Definition small_entry : ObjectAllocator :=
  snd (@ObjectAllocator_ctor reference_build 0 4 small_config 1000
         (unconstructed blank_heap)).

(** [example_config] in debug mode with two guard bytes, a one-byte header
    and blocks aligned to four bytes. *)
Definition aligned_config : OAConfig := mkConfig false 3 2 true 2 1 4 0 0.
Section Basics.
Context `{Platform}.

Lemma wp_bind {A B} (m : M A) (f : A -> M B) Q s :
  wp m (wp_next f Q) s -> wp (bind m f) Q s.
Proof.
  unfold wp, wp_next, bind.
  destruct (m s) as [[a | e | | ] s']; simpl; auto.
Qed.

Lemma wp_mono {A} (m : M A) (Q Q' : outcome A -> ObjectAllocator -> Prop) s :
  wp m Q s -> (forall r s', Q r s' -> Q' r s') -> wp m Q' s.
Proof. unfold wp; auto. Qed.

Lemma wp_eq {A} (m : M A) Q s r s' : m s = (r, s') -> Q r s' -> wp m Q s.
Proof. unfold wp; intros ->; auto. Qed.

Lemma wp_inv {A} (m : M A) Q s r s' : wp m Q s -> m s = (r, s') -> Q r s'.
Proof. unfold wp; intros Hq E; rewrite E in Hq; exact Hq. Qed.

Lemma returns_inv {A} (m : M A) P s :
  wp m (returns P) s -> exists a s', m s = (Ok a, s') /\ P a s'.
Proof.
  unfold wp, returns. destruct (m s) as [[a | e | | ] s']; simpl; try tauto.
  intros; eauto.
Qed.

Lemma sizeof_ptr_pos : 0 < sizeof_ptr.
Proof. unfold sizeof_ptr; lia. Qed.

Lemma sizeof_ptr_nat : Z.of_nat (Pos.to_nat ptr_bytes) = sizeof_ptr.
Proof. unfold sizeof_ptr; lia. Qed.

Lemma UINT_MOD_eq : UINT_MOD = 4294967296.
Proof. reflexivity. Qed.

Lemma u32_small x : 0 <= x < UINT_MOD -> u32 x = x.
Proof. intros; unfold u32; apply Z.mod_small; assumption. Qed.

Lemma u32_range x : 0 <= u32 x < UINT_MOD.
Proof. unfold u32; apply Z.mod_pos_bound; reflexivity. Qed.

Lemma u32_add_l x y : u32 (u32 x + y) = u32 (x + y).
Proof. unfold u32; apply Zplus_mod_idemp_l. Qed.

Lemma u32_sub_l x y : u32 (u32 x - y) = u32 (x - y).
Proof. unfold u32; apply Zminus_mod_idemp_l. Qed.

(** *** Owned buffers *)

Lemma is_live_in h b n a :
  In (b, n) (live h) -> b <= a < b + n -> is_live h a = true.
Proof.
  intros Hin Ha. unfold is_live. apply existsb_exists.
  exists (b, n); split; [assumption|].
  unfold in_buffer; simpl. apply andb_true_intro; split; lia.
Qed.

Lemma is_live_ext h h' a : live h' = live h -> is_live h' a = is_live h a.
Proof. unfold is_live; intros ->; reflexivity. Qed.

Lemma range_live_sub h p n q k :
  range_live h p n -> p <= q -> q + k <= p + n -> range_live h q k.
Proof. intros Hl Hq Hk a Ha. apply Hl; lia. Qed.

(** *** [only_bytes] *)

Lemma only_bytes_refl s : only_bytes s s.
Proof.
  exists (bytes (heap s)). destruct s as [c t ch bl pl fl [b l]]; reflexivity.
Qed.

Lemma only_bytes_trans s1 s2 s3 :
  only_bytes s1 s2 -> only_bytes s2 s3 -> only_bytes s1 s3.
Proof. intros [b ->] [b' ->]. exists b'. reflexivity. Qed.

Lemma only_bytes_fields s s' :
  only_bytes s s' ->
  Config_ s' = Config_ s /\ OAStats_ s' = OAStats_ s /\
  chunk_size_ s' = chunk_size_ s /\ block_size_ s' = block_size_ s /\
  page_list_ s' = page_list_ s /\ free_list_ s' = free_list_ s /\
  live (heap s') = live (heap s).
Proof. intros [b ->]; simpl; tauto. Qed.

Lemma same_outside_refl lo hi s : same_outside lo hi s s.
Proof. intros a _; reflexivity. Qed.

Lemma same_outside_trans lo hi s1 s2 s3 :
  same_outside lo hi s1 s2 -> same_outside lo hi s2 s3 -> same_outside lo hi s1 s3.
Proof. intros H12 H23 a Ha. rewrite H23, H12; auto. Qed.

Lemma same_outside_weaken lo hi lo' hi' s s' :
  same_outside lo hi s s' -> lo' <= lo -> hi <= hi' -> same_outside lo' hi' s s'.
Proof. intros Hs Hlo Hhi a Ha. apply Hs; lia. Qed.

End Basics.

(** * Raw storage: what loads and stores do *)

Ltac zbool :=
  repeat match goal with
         | |- context [?a <=? ?b] => destruct (Z.leb_spec a b)
         | |- context [?a <? ?b] => destruct (Z.ltb_spec a b)
         | |- context [?a =? ?b] => destruct (Z.eqb_spec a b)
         end; simpl; try reflexivity; try lia.

Section HeapLemmas.
Context `{Platform}.

Lemma load_byte_ok a s :
  is_live (heap s) a = true -> load_byte a s = (Ok (bytes (heap s) a), s).
Proof. unfold load_byte; intros ->; reflexivity. Qed.

Lemma store_byte_ok a v s :
  is_live (heap s) a = true ->
  store_byte a v s = (Ok tt, set_heap (poke (heap s) a v) s).
Proof. unfold store_byte; intros ->; reflexivity. Qed.

Lemma only_bytes_poke s a v : only_bytes s (set_heap (poke (heap s) a v) s).
Proof. eexists; reflexivity. Qed.

Lemma fill_spec n : forall p v s,
  range_live (heap s) p (Z.of_nat n) ->
  exists s', fill n p v s = (Ok (p + Z.of_nat n), s') /\ only_bytes s s' /\
    forall a, bytes (heap s') a =
              if (p <=? a) && (a <? p + Z.of_nat n) then v else bytes (heap s) a.
Proof.
  induction n as [|n IH]; intros p v s Hl.
  - exists s. simpl. rewrite Z.add_0_r. split; [reflexivity|].
    split; [apply only_bytes_refl|]. intros a. zbool.
  - assert (Hp : is_live (heap s) p = true) by (apply Hl; lia).
    destruct (IH (p + 1) v (set_heap (poke (heap s) p v) s)) as (s' & E & Hb & Hv).
    { intros a Ha. simpl.
      rewrite (is_live_ext (heap s)); [apply Hl; lia | reflexivity]. }
    exists s'. split; [|split].
    + simpl. unfold bind. rewrite (store_byte_ok _ _ _ Hp). rewrite E.
      f_equal. f_equal. lia.
    + eapply only_bytes_trans; [apply only_bytes_poke | exact Hb].
    + intros a. rewrite Hv. simpl. zbool.
Qed.

Lemma load_bytes_ok n : forall a s,
  range_live (heap s) a (Z.of_nat n) ->
  load_bytes n a s = (Ok (map (bytes (heap s)) (addrs n a)), s).
Proof.
  induction n as [|n IH]; intros a s Hl; [reflexivity|].
  simpl. unfold bind.
  rewrite load_byte_ok by (apply Hl; lia).
  rewrite IH by (intros x Hx; apply Hl; lia).
  reflexivity.
Qed.

Lemma store_bytes_spec l : forall a s,
  range_live (heap s) a (Z.of_nat (length l)) ->
  exists s', store_bytes a l s = (Ok tt, s') /\ only_bytes s s' /\
    map (bytes (heap s')) (addrs (length l) a) = l /\
    same_outside a (a + Z.of_nat (length l)) s s'.
Proof.
  induction l as [|b l IH]; intros a s Hl.
  - exists s. simpl. split; [reflexivity|]. split; [apply only_bytes_refl|].
    split; [reflexivity | apply same_outside_refl].
  - assert (Hp : is_live (heap s) a = true) by (apply Hl; simpl length; lia).
    destruct (IH (a + 1) (set_heap (poke (heap s) a b) s)) as (s' & E & Hb & Hv & Ho).
    { intros x Hx. simpl.
      rewrite (is_live_ext (heap s)); [apply Hl; simpl length; lia | reflexivity]. }
    exists s'. split; [|split; [|split]].
    + simpl. unfold bind. rewrite (store_byte_ok _ _ _ Hp). exact E.
    + eapply only_bytes_trans; [apply only_bytes_poke | exact Hb].
    + simpl. rewrite Hv. f_equal.
      rewrite Ho by lia. simpl. rewrite Z.eqb_refl. reflexivity.
    + intros x Hx. simpl length in Hx. rewrite Ho by lia. simpl.
      destruct (Z.eqb_spec x a); [lia | reflexivity].
Qed.

Lemma encode_length n : forall v, length (encode n v) = n.
Proof. induction n; intros; simpl; [reflexivity | f_equal; auto]. Qed.

Lemma decode_encode n : forall v, decode (encode n v) = v mod 256 ^ Z.of_nat n.
Proof.
  induction n as [|n IH]; intros v.
  - simpl. rewrite Z.mod_1_r. reflexivity.
  - cbn [encode decode]. rewrite IH.
    rewrite Nat2Z.inj_succ, Z.pow_succ_r by lia.
    rewrite Z.rem_mul_r by lia. lia.
Qed.

Lemma map_addrs_ext (f g : Z -> Z) n : forall a,
  (forall x, a <= x < a + Z.of_nat n -> f x = g x) ->
  map f (addrs n a) = map g (addrs n a).
Proof.
  induction n as [|n IH]; intros a Hfg; [reflexivity|].
  simpl. f_equal; [apply Hfg; lia | apply IH; intros; apply Hfg; lia].
Qed.

Lemma peek_ptr_same h h' a :
  (forall x, a <= x < a + sizeof_ptr -> bytes h' x = bytes h x) ->
  peek_ptr h' a = peek_ptr h a.
Proof.
  intros Hx. unfold peek_ptr. f_equal. apply map_addrs_ext.
  intros x Hr. apply Hx. rewrite <- sizeof_ptr_nat. exact Hr.
Qed.

Lemma load_ptr_ok a s :
  range_live (heap s) a sizeof_ptr ->
  load_ptr a s = (Ok (peek_ptr (heap s) a), s).
Proof.
  intros Hl. unfold load_ptr, bind.
  rewrite load_bytes_ok by (rewrite sizeof_ptr_nat; exact Hl).
  reflexivity.
Qed.

Lemma store_ptr_spec a v s :
  range_live (heap s) a sizeof_ptr -> 0 <= v < ptr_limit ->
  exists s', store_ptr a v s = (Ok tt, s') /\ only_bytes s s' /\
    peek_ptr (heap s') a = v /\ same_outside a (a + sizeof_ptr) s s'.
Proof.
  intros Hl Hv. unfold store_ptr.
  destruct (store_bytes_spec (encode (Pos.to_nat ptr_bytes) v) a s) as (s' & E & Hb & Hm & Ho).
  { rewrite encode_length, sizeof_ptr_nat. exact Hl. }
  rewrite encode_length in Hm, Ho. rewrite sizeof_ptr_nat in Ho.
  exists s'. repeat split; try assumption.
  unfold peek_ptr. rewrite Hm, decode_encode, sizeof_ptr_nat.
  apply Z.mod_small. exact Hv.
Qed.

(** Whatever the outcome, loads leave the state alone and stores change
    bytes only. *)

End HeapLemmas.

(** * Rules for the monad *)

Section Rules.
Context `{Platform}.

Lemma wp_ret {A} (a : A) Q s : Q (Ok a) s -> wp (ret a) Q s.
Proof. exact (fun q => q). Qed.

Lemma wp_throw {A} e (Q : outcome A -> _) s : Q (Throw e) s -> wp (throw e) Q s.
Proof. exact (fun q => q). Qed.

Lemma wp_fault {A} (Q : outcome A -> _) s : Q Fault s -> wp fault Q s.
Proof. exact (fun q => q). Qed.

Lemma wp_timeout {A} (Q : outcome A -> _) s : Q Timeout s -> wp timeout Q s.
Proof. exact (fun q => q). Qed.

Lemma wp_get_bind {B} (k : ObjectAllocator -> M B) Q s :
  wp (k s) Q s -> wp (bind get k) Q s.
Proof. exact (fun q => q). Qed.

Lemma wp_ret_bind {A B} (a : A) (k : A -> M B) Q s :
  wp (k a) Q s -> wp (bind (ret a) k) Q s.
Proof. exact (fun q => q). Qed.

Lemma wp_modify_bind {B} f (k : unit -> M B) Q s :
  wp (k tt) Q (f s) -> wp (bind (modify f) k) Q s.
Proof. exact (fun q => q). Qed.

Lemma wp_modify f Q s : Q (Ok tt) (f s) -> wp (modify f) Q s.
Proof. exact (fun q => q). Qed.

Lemma wp_modify_stats_bind {B} f (k : unit -> M B) Q s :
  wp (k tt) Q (set_Stats (f (OAStats_ s)) s) -> wp (bind (modify_stats f) k) Q s.
Proof. exact (fun q => q). Qed.

Lemma wp_modify_stats f Q s :
  Q (Ok tt) (set_Stats (f (OAStats_ s)) s) -> wp (modify_stats f) Q s.
Proof. exact (fun q => q). Qed.

Lemma wp_throw_bind {A B} e (k : A -> M B) Q s :
  Q (Throw e) s -> wp (bind (throw e) k) Q s.
Proof. exact (fun q => q). Qed.

Lemma wp_when (b : bool) (m : M unit) Q s :
  (b = true -> wp m Q s) -> (b = false -> Q (Ok tt) s) -> wp (when b m) Q s.
Proof.
  intros Ht Hf. destruct b; [apply Ht; reflexivity | apply (Hf eq_refl)].
Qed.

(** A normal return known by its equation carries the proof on. *)
Lemma wp_bind_ok {A B} (m : M A) (k : A -> M B) Q s a s' :
  m s = (Ok a, s') -> wp (k a) Q s' -> wp (bind m k) Q s.
Proof. unfold wp, bind. intros ->. auto. Qed.

(** *** Loads and stores, whatever their outcome *)

Lemma load_byte_read a s : wp (load_byte a) (storage_read s) s.
Proof.
  unfold wp, load_byte, storage_read.
  destruct (is_live (heap s) a); simpl; split; congruence.
Qed.

Lemma store_byte_step a v s : wp (store_byte a v) (storage_step s) s.
Proof.
  unfold wp, store_byte, storage_step.
  destruct (is_live (heap s) a); simpl; split;
    try congruence; [apply only_bytes_poke | apply only_bytes_refl].
Qed.

Lemma storage_step_bind {A B} (m : M A) (k : A -> M B) s :
  wp m (storage_step s) s ->
  (forall a s', only_bytes s s' -> wp (k a) (storage_step s') s') ->
  wp (bind m k) (storage_step s) s.
Proof.
  intros Hm Hk. apply wp_bind. eapply wp_mono; [exact Hm|].
  intros r s' [Hb Hnt]. destruct r as [a | e | | ]; simpl.
  - eapply wp_mono; [apply Hk; exact Hb|].
    intros r' s'' [Hb' Hnt']. split; [eapply only_bytes_trans; eassumption | exact Hnt'].
  - exfalso; eapply Hnt; reflexivity.
  - split; [exact Hb | congruence].
  - split; [exact Hb | congruence].
Qed.

Lemma storage_read_bind {A B} (m : M A) (k : A -> M B) s :
  wp m (storage_read s) s ->
  (forall a, wp (k a) (storage_read s) s) ->
  wp (bind m k) (storage_read s) s.
Proof.
  intros Hm Hk. apply wp_bind. eapply wp_mono; [exact Hm|].
  intros r s' [-> Hnt]. destruct r as [a | e | | ]; simpl.
  - apply Hk.
  - exfalso; eapply Hnt; reflexivity.
  - split; [reflexivity | congruence].
  - split; [reflexivity | congruence].
Qed.

Lemma storage_read_step {A} (m : M A) s :
  wp m (storage_read s) s -> wp m (storage_step s) s.
Proof.
  intros Hm. eapply wp_mono; [exact Hm|].
  intros r s' [-> Hnt]. split; [apply only_bytes_refl | exact Hnt].
Qed.

Lemma ret_read {A} (a : A) s : wp (ret a) (storage_read s) s.
Proof. apply wp_ret. split; [reflexivity | congruence]. Qed.

Lemma ret_step {A} (a : A) s : wp (ret a) (storage_step s) s.
Proof. apply storage_read_step, ret_read. Qed.

Lemma fill_step n : forall p v s, wp (fill n p v) (storage_step s) s.
Proof.
  induction n as [|n IH]; intros p v s; simpl.
  - apply ret_step.
  - apply storage_step_bind; [apply store_byte_step | intros; apply IH].
Qed.

Lemma stamp_step c n v p s : wp (stamp c n v p) (storage_step s) s.
Proof. unfold stamp. destruct (c =? 0); [apply ret_step | apply fill_step]. Qed.

Lemma store_bytes_step l : forall a s, wp (store_bytes a l) (storage_step s) s.
Proof.
  induction l as [|b l IH]; intros a s; simpl.
  - apply ret_step.
  - apply storage_step_bind; [apply store_byte_step | intros; apply IH].
Qed.

Lemma store_ptr_step a v s : wp (store_ptr a v) (storage_step s) s.
Proof. apply store_bytes_step. Qed.

Lemma load_bytes_read n : forall a s, wp (load_bytes n a) (storage_read s) s.
Proof.
  induction n as [|n IH]; intros a s; simpl.
  - apply ret_read.
  - apply storage_read_bind; [apply load_byte_read|]. intros b.
    apply storage_read_bind; [apply IH|]. intros l. apply ret_read.
Qed.

Lemma load_ptr_read a s : wp (load_ptr a) (storage_read s) s.
Proof.
  unfold load_ptr. apply storage_read_bind; [apply load_bytes_read|].
  intros l. apply ret_read.
Qed.

End Rules.

(** * Running out of system memory *)

Section OutOfMemory.
Context `{Platform}.

Lemma AllocatePage_no_memory fuel s :
  AllocatePage fuel 0 s = (Throw E_NO_MEMORY, page_requested s).
Proof. reflexivity. Qed.

Lemma u32_succ_neq x : 0 <= x < UINT_MOD -> u32 (x + 1) <> x.
Proof.
  intros Hx E. unfold u32 in E. rewrite UINT_MOD_eq in *.
  destruct (Z.eq_dec x 4294967295) as [-> | Hne].
  - vm_compute in E. discriminate.
  - rewrite Z.mod_small in E by lia. lia.
Qed.

(** C10.  When the system allocator has no memory for a new page,
    [Allocate] fails with [E_NO_MEMORY] only after the pages-in-use counter
    has been incremented and the page size recorded: the statistics of the
    state it leaves behind differ from those before the call. *)
Theorem C10_out_of_memory_leaves_statistics_mutated fuel s :
  UseCPPMemManager_ (Config_ s) = false ->
  FreeObjects_ (OAStats_ s) = 0 ->
  PagesInUse_ (OAStats_ s) <> MaxPages_ (Config_ s) ->
  0 <= PagesInUse_ (OAStats_ s) < UINT_MOD ->
  exists s',
    Allocate fuel 0 s = (Throw E_NO_MEMORY, s') /\
    PagesInUse_ (OAStats_ s') = u32 (PagesInUse_ (OAStats_ s) + 1) /\
    PageSize_ (OAStats_ s') =
      u32 (ObjectsPerPage_ (Config_ s) * ObjectSize_ (OAStats_ s) + sizeof_ptr
           + ObjectsPerPage_ (Config_ s) * chunk_size_ s) /\
    PagesInUse_ (OAStats_ s') <> PagesInUse_ (OAStats_ s) /\
    OAStats_ s' <> OAStats_ s.
Proof.
  intros Hcpp Hfree Hmax Hrange.
  exists (page_requested s).
  assert (Hneq : u32 (PagesInUse_ (OAStats_ s) + 1) <> PagesInUse_ (OAStats_ s))
    by (apply u32_succ_neq; exact Hrange).
  split; [|split; [reflexivity | split; [reflexivity | split]]].
  - unfold Allocate, bind at 1, get. rewrite Hcpp. unfold bind at 1.
    rewrite Hfree. simpl (0 =? 0). unfold when.
    apply Z.eqb_neq in Hmax. rewrite Hmax.
    rewrite AllocatePage_no_memory. reflexivity.
  - exact Hneq.
  - intros E. apply Hneq. simpl in E.
    change (PagesInUse_ (OAStats_ (page_requested s)) = PagesInUse_ (OAStats_ s)).
    unfold page_requested. simpl. rewrite <- E at 2. reflexivity.
Qed.

End OutOfMemory.

(** * Pass-through mode *)

Section PassThrough.
Context `{Platform}.

Lemma ctor_pass_through fuel ObjectSize config sys h :
  UseCPPMemManager_ config = true ->
  exists s0,
    ObjectAllocator_ctor fuel ObjectSize config sys (unconstructed h) = (Ok tt, s0) /\
    no_pool s0 /\ counted 0 0 s0 /\ heap s0 = h.
Proof.
  intros Hcpp. destruct config as [cpp K P dbg pad hdr al la ia].
  simpl in Hcpp. subst cpp.
  eexists. split; [reflexivity|]. repeat split.
Qed.

Lemma Allocate_pass_through fuel sys s n m :
  no_pool s -> counted n m s ->
  forall r s', Allocate fuel sys s = (r, s') ->
    no_pool s' /\ (forall p, r = Ok p -> counted (n + 1) m s').
Proof.
  intros (Hcpp & Hpl & Hfl & Hpu & Hps) (Ha & Hd & Hi & Hf) r s'.
  unfold Allocate, bind at 1, get. rewrite Hcpp.
  unfold new_throwing, new_nothrow, bind.
  destruct ((0 <? sys) && (sys + ObjectSize_ (OAStats_ s) <=? ptr_limit)) eqn:Hsys.
  - destruct (sys =? 0) eqn:Hz; simpl; intros E; inversion E; subst; clear E.
    + split; [unfold no_pool; simpl; repeat split; assumption | discriminate].
    + unfold no_pool, counted; simpl.
      destruct (MostObjects_ (OAStats_ s) <? u32 (ObjectsInUse_ (OAStats_ s) + 1));
        simpl; rewrite Ha, Hd, Hi, Hf, u32_add_l, u32_add_l, u32_sub_l;
        (split; [repeat split; assumption |]); intros p _;
        repeat split; f_equal; lia.
  - simpl. intros E; inversion E; subst; clear E.
    split; [unfold no_pool; simpl; repeat split; assumption | discriminate].
Qed.

Lemma Free_pass_through fuel Object s n m :
  no_pool s -> counted n m s ->
  forall r s', Free fuel Object s = (r, s') ->
    no_pool s' /\ (r = Ok tt -> counted n (m + 1) s').
Proof.
  intros (Hcpp & Hpl & Hfl & Hpu & Hps) (Ha & Hd & Hi & Hf) r s'.
  unfold Free, bind at 1, get. rewrite Hcpp.
  unfold delete_array, bind.
  destruct (Object =? 0).
  - simpl. intros E; inversion E; subst; clear E.
    split; [unfold no_pool; simpl; repeat split; assumption |]. intros _.
    unfold counted; simpl. rewrite Ha, Hd, Hi, Hf.
    rewrite u32_add_l, u32_add_l, u32_sub_l.
    repeat split; try reflexivity; f_equal; lia.
  - destruct (existsb (fun b => fst b =? Object) (live (heap s)));
      simpl; intros E; inversion E; subst; clear E.
    + split; [unfold no_pool; simpl; repeat split; assumption |]. intros _.
      unfold counted; simpl. rewrite Ha, Hd, Hi, Hf.
      rewrite u32_add_l, u32_add_l, u32_sub_l.
      repeat split; try reflexivity; f_equal; lia.
    + split; [unfold no_pool; simpl; repeat split; assumption | discriminate].
Qed.

Lemma run_pass_through fuel calls : forall s n m,
  no_pool s -> counted n m s ->
  forall r s', run fuel calls s = (r, s') ->
    no_pool s' /\
    (r = Ok tt -> counted (n + allocations calls) (m + releases calls) s').
Proof.
  induction calls as [|c calls IH]; intros s n m Hp Hc r s' E.
  - simpl in E. inversion E; subst; clear E. split; [assumption|]. intros _.
    unfold allocations, releases; simpl. rewrite !Z.add_0_r. assumption.
  - simpl in E. unfold bind in E.
    destruct (do_call fuel c s) as [r1 s1] eqn:E1.
    assert (Hstep : no_pool s1 /\
              (r1 = Ok tt ->
               counted (n + (if is_allocate c then 1 else 0))
                       (m + (if is_allocate c then 0 else 1)) s1)).
    { destruct c as [sys | Object]; simpl in E1.
      - unfold bind in E1.
        destruct (Allocate fuel sys s) as [r0 s0] eqn:E0.
        destruct (Allocate_pass_through fuel sys s n m Hp Hc _ _ E0) as [Hp0 Hc0].
        destruct r0; inversion E1; subst; clear E1; split; try assumption;
          try discriminate.
        intros _. simpl. rewrite Z.add_0_r. eapply Hc0; reflexivity.
      - destruct (Free_pass_through fuel Object s n m Hp Hc _ _ E1) as [Hp0 Hc0].
        split; [assumption|]. intros Hr. simpl. rewrite Z.add_0_r. auto. }
    destruct Hstep as [Hp1 Hc1].
    destruct r1 as [[] | e | | ]; try (inversion E; subst; clear E; split;
      [assumption | discriminate]).
    destruct (IH s1 _ _ Hp1 (Hc1 eq_refl) r s' E) as [Hp' Hc'].
    split; [assumption|]. intros Hr. specialize (Hc' Hr).
    unfold allocations, releases in *. simpl.
    destruct (is_allocate c); simpl in *;
      rewrite ?Nat2Z.inj_succ;
      match goal with
      | Hx : counted ?a ?b s' |- counted ?a' ?b' s' =>
        replace a' with a by lia; replace b' with b by lia; exact Hx
      end.
Qed.

(** With the pool bypassed, [Allocate] returns what the system has in
    store when that is room for an object. *)
Lemma Allocate_served fuel sys s :
  UseCPPMemManager_ (Config_ s) = true ->
  (0 <? sys) && (sys + ObjectSize_ (OAStats_ s) <=? ptr_limit) = true ->
  exists s1,
    Allocate fuel sys s = (Ok sys, s1) /\
    Config_ s1 = Config_ s /\
    ObjectSize_ (OAStats_ s1) = ObjectSize_ (OAStats_ s) /\
    live (heap s1) = (sys, ObjectSize_ (OAStats_ s)) :: live (heap s).
Proof.
  intros Hcpp Hgrant.
  pose proof Hgrant as Hpos. apply andb_prop in Hpos. destruct Hpos as [Hpos _].
  apply Z.ltb_lt in Hpos.
  unfold Allocate, new_throwing, new_nothrow, count_allocation, modify_stats, modify,
    bind, get, ret, fault.
  rewrite Hcpp, Hgrant.
  replace (sys =? 0) with false by (symmetry; apply Z.eqb_neq; lia).
  eexists. split; [reflexivity|]. cbn.
  repeat split;
    match goal with |- context [if ?c then _ else _] => destruct c end; reflexivity.
Qed.

(** With the pool bypassed, [Free] returns when it is given null or the
    start of an owned buffer, which it gives back to the system. *)
Lemma Free_served fuel Object s :
  UseCPPMemManager_ (Config_ s) = true ->
  (if Object =? 0 then true
   else existsb (fun b => fst b =? Object) (live (heap s))) = true ->
  exists s1,
    Free fuel Object s = (Ok tt, s1) /\
    Config_ s1 = Config_ s /\
    ObjectSize_ (OAStats_ s1) = ObjectSize_ (OAStats_ s) /\
    live (heap s1)
    = (if Object =? 0 then live (heap s)
       else filter (fun b => negb (fst b =? Object)) (live (heap s))).
Proof.
  intros Hcpp Hown.
  unfold Free, delete_array, count_deallocation, modify_stats, modify, bind, get.
  rewrite Hcpp. destruct (Object =? 0).
  - eexists. split; [reflexivity|]. repeat split.
  - rewrite Hown. eexists. split; [reflexivity|]. repeat split.
Qed.

(** With the pool bypassed, calls the system serves all return. *)
Lemma served_run fuel calls : forall s,
  UseCPPMemManager_ (Config_ s) = true ->
  served (ObjectSize_ (OAStats_ s)) (live (heap s)) calls = true ->
  exists s', run fuel calls s = (Ok tt, s').
Proof.
  induction calls as [|c calls IH]; intros s Hcpp Hs.
  - exists s. reflexivity.
  - destruct c as [sys | Object]; cbn [served] in Hs; cbn [run do_call].
    + apply andb_prop in Hs. destruct Hs as [Hgrant Hs].
      destruct (Allocate_served fuel sys s Hcpp Hgrant) as (s1 & E1 & Hc1 & Hz1 & Hl1).
      destruct (IH s1) as [s' E].
      * rewrite Hc1. exact Hcpp.
      * rewrite Hz1, Hl1. exact Hs.
      * exists s'. unfold bind at 1 2. rewrite E1. exact E.
    + destruct (Free_served fuel Object s Hcpp) as (s1 & E1 & Hc1 & Hz1 & Hl1).
      { destruct (Object =? 0); [reflexivity|].
        apply andb_prop in Hs. exact (proj1 Hs). }
      destruct (IH s1) as [s' E].
      * rewrite Hc1. exact Hcpp.
      * rewrite Hz1, Hl1. destruct (Object =? 0); [exact Hs|].
        apply andb_prop in Hs. exact (proj2 Hs).
      * exists s'. unfold bind at 1. rewrite E1. exact E.
Qed.

(** C8.  With pass-through enabled the constructor creates no page, and
    after any sequence of [Allocate] and [Free] calls, however it ends, the
    page list and the free list are still empty and no page is counted.
    When the calls are ones the system serves (room for an object at every
    [Allocate], null or the start of an owned buffer at every [Free]) they
    all return, and the lifetime allocation and deallocation counts are
    then the numbers of calls made and the in-use count is their
    difference, each kept modulo [2^32] as [unsigned] counters are. *)
Theorem C8_pass_through_frame fuel ObjectSize config sys h calls :
  UseCPPMemManager_ config = true ->
  exists s0,
    ObjectAllocator_ctor fuel ObjectSize config sys (unconstructed h) = (Ok tt, s0) /\
    page_list_ s0 = 0 /\ free_list_ s0 = 0 /\ PagesInUse_ (OAStats_ s0) = 0 /\
    live (heap s0) = live h /\
    (forall r s, run fuel calls s0 = (r, s) ->
       page_list_ s = 0 /\ free_list_ s = 0 /\ PagesInUse_ (OAStats_ s) = 0) /\
    (served ObjectSize (live h) calls = true ->
     exists s,
       run fuel calls s0 = (Ok tt, s) /\
       Allocations_ (OAStats_ s) = u32 (allocations calls) /\
       Deallocations_ (OAStats_ s) = u32 (releases calls) /\
       ObjectsInUse_ (OAStats_ s) = u32 (allocations calls - releases calls)).
Proof.
  intros Hcpp.
  destruct (ctor_pass_through fuel ObjectSize config sys h Hcpp)
    as (s0 & E0 & Hp0 & Hc0 & Hh0).
  exists s0. split; [exact E0|].
  pose proof Hp0 as (Hc & Hpl & Hfl & Hpu & Hps).
  repeat (split; [first [assumption | rewrite Hh0; reflexivity] |]).
  split.
  - intros r s E.
    destruct (run_pass_through fuel calls s0 0 0 Hp0 Hc0 r s E)
      as [(_ & Hpl' & Hfl' & Hpu' & _) _].
    repeat split; assumption.
  - intros Hserved.
    assert (Hsize : ObjectSize_ (OAStats_ s0) = ObjectSize).
    { unfold ObjectAllocator_ctor in E0.
      destruct config as [cpp K P dbg pad hdr al la ia]. simpl in Hcpp. subst cpp.
      injection E0 as <-. reflexivity. }
    destruct (served_run fuel calls s0 Hc) as [s E].
    { rewrite Hsize, Hh0. exact Hserved. }
    exists s. split; [exact E|].
    destruct (run_pass_through fuel calls s0 0 0 Hp0 Hc0 _ s E) as [_ Hcnt].
    destruct (Hcnt eq_refl) as (Ha & Hd & Hi & _).
    rewrite !Z.add_0_l in *. repeat split; assumption.
Qed.

End PassThrough.

(** * A failed release changes nothing *)

Section ReleaseAtomicity.
Context `{Platform}.

Lemma unchanged_bind {A B} (m : M A) (k : A -> M B) s :
  wp m (unchanged s) s -> (forall a, wp (k a) (unchanged s) s) ->
  wp (bind m k) (unchanged s) s.
Proof.
  intros Hm Hk. apply wp_bind. eapply wp_mono; [exact Hm|].
  intros r s' ->. destruct r; simpl; try reflexivity. apply Hk.
Qed.

Lemma unchanged_read {A} (m : M A) s :
  wp m (storage_read s) s -> wp m (unchanged s) s.
Proof. intros Hm. eapply wp_mono; [exact Hm|]. intros r s' [-> _]. reflexivity. Qed.

Lemma ValidateObject_free_list_unchanged fuel : forall temp_walk temp s,
  wp (ValidateObject_free_list fuel temp_walk temp) (unchanged s) s.
Proof.
  induction fuel as [|fuel IH]; intros temp_walk temp s; simpl.
  - reflexivity.
  - destruct (temp_walk =? 0); [reflexivity|].
    destruct (temp_walk =? temp); [reflexivity|].
    apply unchanged_bind; [apply unchanged_read, load_ptr_read | intros; apply IH].
Qed.

Lemma ValidateObject_pages_unchanged fuel : forall temp_walk page temp s,
  wp (ValidateObject_pages fuel temp_walk page temp) (unchanged s) s.
Proof.
  induction fuel as [|fuel IH]; intros temp_walk page temp s; simpl.
  - reflexivity.
  - destruct (temp_walk =? 0); [reflexivity|].
    apply wp_get_bind.
    destruct ((temp_walk <? temp) && (temp <? temp_walk + PageSize_ (OAStats_ s)));
      [reflexivity|].
    destruct (page =? PagesInUse_ (OAStats_ s)); [reflexivity|].
    apply unchanged_bind; [apply unchanged_read, load_ptr_read | intros; apply IH].
Qed.

Lemma ValidateObject_left_unchanged n : forall temp_free s,
  wp (ValidateObject_left n temp_free) (unchanged s) s.
Proof.
  induction n as [|n IH]; intros temp_free s; simpl; [reflexivity|].
  apply unchanged_bind; [apply unchanged_read, load_byte_read|].
  intros b. destruct (b =? PAD_PATTERN); [apply IH | reflexivity].
Qed.

Lemma ValidateObject_right_unchanged n : forall temp_free s,
  wp (ValidateObject_right n temp_free) (unchanged s) s.
Proof.
  induction n as [|n IH]; intros temp_free s; simpl; [reflexivity|].
  apply unchanged_bind; [apply unchanged_read, load_byte_read|].
  intros b. destruct (b =? PAD_PATTERN); [apply IH | reflexivity].
Qed.

(** [ValidateObject] only reads. *)
Lemma ValidateObject_unchanged fuel Object s :
  wp (ValidateObject fuel Object) (unchanged s) s.
Proof.
  unfold ValidateObject. apply wp_get_bind.
  apply unchanged_bind.
  { destruct (negb (HeaderBlocks_ (Config_ s) =? 0)).
    - apply unchanged_bind; [apply unchanged_read, load_byte_read|].
      intros b. destruct (b =? 0); reflexivity.
    - apply ValidateObject_free_list_unchanged. }
  intros _. apply unchanged_bind.
  { destruct (page_list_ s =? 0); reflexivity. }
  intros _. apply unchanged_bind; [apply ValidateObject_pages_unchanged|].
  intros temp_walk.
  destruct (u32 (ObjectSize_ (OAStats_ s) + chunk_size_ s) =? 0); [reflexivity|].
  match goal with |- context [negb ?c] => destruct c end; simpl; [|reflexivity].
  apply unchanged_bind; [apply ValidateObject_left_unchanged|].
  intros _. apply ValidateObject_right_unchanged.
Qed.

(** *** What cannot throw *)

Lemma never_throws_bind {A B} (m : M A) (k : A -> M B) :
  never_throws m -> (forall a, never_throws (k a)) -> never_throws (bind m k).
Proof.
  intros Hm Hk s e. unfold bind. specialize (Hm s).
  destruct (m s) as [[a | e' | | ] s']; simpl in *; try congruence.
  - apply Hk.
  - exfalso. eapply Hm; reflexivity.
Qed.

Lemma never_throws_ret {A} (a : A) : never_throws (ret a).
Proof. intros s e; simpl; congruence. Qed.

Lemma never_throws_get : never_throws get.
Proof. intros s e; simpl; congruence. Qed.

Lemma never_throws_modify f : never_throws (modify f).
Proof. intros s e; simpl; congruence. Qed.

Lemma never_throws_modify_stats f : never_throws (modify_stats f).
Proof. intros s e; simpl; congruence. Qed.

Lemma never_throws_when b m : never_throws m -> never_throws (when b m).
Proof. intros Hm. destruct b; [exact Hm | apply never_throws_ret]. Qed.

Lemma never_throws_step {A} (m : M A) :
  (forall s, wp m (storage_step s) s) -> never_throws m.
Proof. intros Hm s e. destruct (Hm s) as [_ Hnt]. apply Hnt. Qed.

Lemma never_throws_delete_array p : never_throws (delete_array p).
Proof.
  intros s e. unfold delete_array.
  destruct (p =? 0); [simpl; congruence|].
  destruct (existsb _ _); simpl; congruence.
Qed.

Lemma never_throws_count_deallocation : never_throws count_deallocation.
Proof.
  unfold count_deallocation.
  repeat (apply never_throws_bind; [apply never_throws_modify_stats | intros _]).
  apply never_throws_modify_stats.
Qed.

(** C6.  A release that fails with an [OAException] (these are
    [E_MULTIPLE_FREE], [E_BAD_ADDRESS], [E_BAD_BOUNDARY] and
    [E_CORRUPTED_BLOCK], raised by the validation that debug mode runs
    first) leaves the whole state of the allocator, members and every byte
    of storage, exactly as it was before the call. *)
Theorem C6_failed_release_changes_nothing fuel Object s e s' :
  Free fuel Object s = (Throw e, s') -> s' = s.
Proof.
  unfold Free. unfold bind at 1. unfold get at 1.
  destruct (UseCPPMemManager_ (Config_ s)).
  - intros E. exfalso.
    assert (Hnt : never_throws (delete_array Object ;; count_deallocation)).
    { apply never_throws_bind; [apply never_throws_delete_array|].
      intros _. apply never_throws_count_deallocation. }
    apply (Hnt s e). rewrite E. reflexivity.
  - unfold bind at 1.
    assert (Hv : wp (when (DebugOn_ (Config_ s)) (ValidateObject fuel Object))
                    (unchanged s) s).
    { destruct (DebugOn_ (Config_ s)); [apply ValidateObject_unchanged | reflexivity]. }
    unfold wp, unchanged in Hv.
    destruct (when (DebugOn_ (Config_ s)) (ValidateObject fuel Object) s)
      as [r1 s1]. simpl in Hv. subst s1.
    destruct r1 as [[] | e1 | | ]; try (intros E; inversion E; reflexivity).
    intros E. exfalso.
    match type of E with ?m s = _ =>
      assert (Hnt : never_throws m) end.
    { apply never_throws_bind.
      { apply never_throws_when, never_throws_bind;
          [apply never_throws_step; intros; apply fill_step
          | intros; apply never_throws_ret]. }
      intros _. apply never_throws_bind.
      { apply never_throws_when, never_throws_step; intros; apply store_byte_step. }
      intros _. apply never_throws_bind; [apply never_throws_get|].
      intros s2. apply never_throws_bind; [|intros; apply never_throws_count_deallocation].
      destruct (free_list_ s2 =? 0).
      - apply never_throws_bind; [apply never_throws_modify|].
        intros _. apply never_throws_step; intros; apply store_ptr_step.
      - apply never_throws_bind;
          [apply never_throws_step; intros; apply store_ptr_step|].
        intros _. apply never_throws_modify. }
    apply (Hnt s e). rewrite E. reflexivity.
Qed.

End ReleaseAtomicity.

(** * The multiple-free check of ValidateObject *)

Section MultipleFree.
Context `{Platform}.

Lemma avoids_bind {A B} e (m : M A) (k : A -> M B) s :
  wp m (avoids e) s -> (forall a s', wp (k a) (avoids e) s') ->
  wp (bind m k) (avoids e) s.
Proof.
  intros Hm Hk. apply wp_bind. eapply wp_mono; [exact Hm|].
  intros r s' Hr. destruct r as [a | e' | | ]; simpl.
  - apply Hk.
  - intros E. apply Hr. congruence.
  - discriminate.
  - discriminate.
Qed.

Lemma avoids_read {A} e (m : M A) s : wp m (storage_read s) s -> wp m (avoids e) s.
Proof. intros Hm. eapply wp_mono; [exact Hm|]. intros r s' [_ Hnt]. apply Hnt. Qed.

Lemma ValidateObject_pages_avoids fuel : forall temp_walk page temp s,
  wp (ValidateObject_pages fuel temp_walk page temp) (avoids E_MULTIPLE_FREE) s.
Proof.
  induction fuel as [|fuel IH]; intros temp_walk page temp s; simpl.
  - discriminate.
  - destruct (temp_walk =? 0); [discriminate|].
    apply wp_get_bind.
    destruct ((temp_walk <? temp) && (temp <? temp_walk + PageSize_ (OAStats_ s)));
      [discriminate|].
    destruct (page =? PagesInUse_ (OAStats_ s)); [discriminate|].
    apply avoids_bind; [apply avoids_read, load_ptr_read | intros; apply IH].
Qed.

Lemma ValidateObject_left_avoids n : forall temp_free s,
  wp (ValidateObject_left n temp_free) (avoids E_MULTIPLE_FREE) s.
Proof.
  induction n as [|n IH]; intros temp_free s; simpl; [discriminate|].
  apply avoids_bind; [apply avoids_read, load_byte_read|].
  intros b s'. destruct (b =? PAD_PATTERN); [apply IH | discriminate].
Qed.

Lemma ValidateObject_right_avoids n : forall temp_free s,
  wp (ValidateObject_right n temp_free) (avoids E_MULTIPLE_FREE) s.
Proof.
  induction n as [|n IH]; intros temp_free s; simpl; [discriminate|].
  apply avoids_bind; [apply avoids_read, load_byte_read|].
  intros b s'. destruct (b =? PAD_PATTERN); [apply IH | discriminate].
Qed.

(** With usage headers enabled, [ValidateObject] reports a multiple free
    exactly when the byte at [Object - PadBytes_] reads zero. *)
Lemma ValidateObject_header_check fuel Object s :
  HeaderBlocks_ (Config_ s) <> 0 ->
  fst (ValidateObject fuel Object s) = Throw E_MULTIPLE_FREE <->
  is_live (heap s) (Object - PadBytes_ (Config_ s)) = true /\
  bytes (heap s) (Object - PadBytes_ (Config_ s)) = 0.
Proof.
  intros Hhb.
  change (wp (ValidateObject fuel Object)
             (fun r _ => r = Throw E_MULTIPLE_FREE <->
                         is_live (heap s) (Object - PadBytes_ (Config_ s)) = true /\
                         bytes (heap s) (Object - PadBytes_ (Config_ s)) = 0) s).
  unfold ValidateObject. apply wp_get_bind.
  apply Z.eqb_neq in Hhb. rewrite Hhb. cbn [negb].
  apply wp_bind.
  destruct (is_live (heap s) (Object - PadBytes_ (Config_ s))) eqn:Hlive.
  - eapply wp_bind_ok; [apply load_byte_ok; exact Hlive|].
    destruct (Z.eqb_spec (bytes (heap s) (Object - PadBytes_ (Config_ s))) 0) as [E | Hne].
    + apply wp_throw. split; [intros _; split; [reflexivity | exact E] | reflexivity].
    + apply wp_ret. cbn [wp_next].
      eapply wp_mono.
      { apply avoids_bind with (e := E_MULTIPLE_FREE).
        { destruct (page_list_ s =? 0); discriminate. }
        intros _ s1. apply avoids_bind; [apply ValidateObject_pages_avoids|].
        intros temp_walk s2. cbv zeta.
        destruct (u32 (ObjectSize_ (OAStats_ s) + chunk_size_ s) =? 0); [discriminate|].
        destruct (negb _); [discriminate|].
        apply avoids_bind; [apply ValidateObject_left_avoids|].
        intros _ s3. apply ValidateObject_right_avoids. }
      intros r s' Hr. split; [intros E; contradiction | intros [_ E]; contradiction].
  - eapply wp_eq with (r := Fault) (s' := s).
    + unfold bind, load_byte. rewrite Hlive. reflexivity.
    + split; [discriminate | intros [E _]; discriminate].
Qed.

End MultipleFree.

(** * What DumpMemoryInUse hands to the callback *)

Section DumpCalls.
Context `{Platform}.

(** With usage headers enabled, the calls of the callback for one page are
    made for blocks whose flag byte reads [1], and each is given the
    payload address of its block plus [PadBytes_]. *)
Lemma DumpMemoryInUse_blocks_headers page fuel n : forall i temp_block acc s,
  HeaderBlocks_ (Config_ s) <> 0 ->
  block_size_ s = stride s ->
  0 <= i ->
  temp_block = (if i =? 0 then page else payload s page (i - 1)) ->
  wp (DumpMemoryInUse_blocks fuel n i temp_block acc)
     (fun r s' => s' = s /\ forall res, r = Ok res ->
        exists visited,
          snd res = snd acc ++ visited /\
          Forall (fun c => exists j,
                    i <= j < i + Z.of_nat n /\
                    bytes (heap s) (payload s page j - PadBytes_ (Config_ s) - 1) = 1 /\
                    c = (payload s page j + PadBytes_ (Config_ s),
                         ObjectSize_ (OAStats_ s))) visited) s.
Proof.
  induction n as [|n IH]; intros i temp_block acc s Hhb Hbs Hi Htb.
  - apply wp_ret. split; [reflexivity|].
    intros res E. injection E as <-. exists []. split; [|constructor].
    rewrite app_nil_r. reflexivity.
  - cbn [DumpMemoryInUse_blocks]. apply wp_get_bind.
    pose proof Hhb as Hhb'. apply Z.eqb_neq in Hhb'. rewrite Hhb'. cbn [negb].
    assert (Hat : (if i =? 0
                   then temp_block + (sizeof_ptr + chunk_size_ s - PadBytes_ (Config_ s))
                   else temp_block + block_size_ s) = payload s page i).
    { rewrite Htb, Hbs. unfold payload. destruct (Z.eqb_spec i 0) as [-> | Hi0]; lia. }
    rewrite Hat. apply wp_bind.
    destruct (is_live (heap s) (payload s page i - PadBytes_ (Config_ s) - 1)) eqn:Hlive.
    + eapply wp_eq; [apply load_byte_ok; exact Hlive|]. cbn [wp_next].
      eapply wp_mono.
      { apply (IH (i + 1)); [exact Hhb | exact Hbs | lia |].
        destruct (Z.eqb_spec (i + 1) 0); [lia|]. f_equal. lia. }
      intros r s' [Hs Hr]. split; [exact Hs|].
      intros res E. destruct (Hr res E) as (visited & Hv & Hall).
      assert (Hall' : Forall (fun c => exists j,
                    i <= j < i + Z.of_nat (S n) /\
                    bytes (heap s) (payload s page j - PadBytes_ (Config_ s) - 1) = 1 /\
                    c = (payload s page j + PadBytes_ (Config_ s),
                         ObjectSize_ (OAStats_ s))) visited).
      { eapply Forall_impl; [|exact Hall]. intros c (j & Hj & Hb & Hc).
        exists j. split; [lia|]. split; assumption. }
      destruct (Z.eqb_spec (bytes (heap s) (payload s page i - PadBytes_ (Config_ s) - 1)) 1)
        as [Hone | Hnot].
      * cbn [snd] in Hv. rewrite <- app_assoc in Hv. eexists. split; [exact Hv|].
        constructor; [|exact Hall'].
        exists i. split; [lia|]. split; [exact Hone | reflexivity].
      * exists visited. split; [exact Hv | exact Hall'].
    + eapply wp_eq with (r := Fault) (s' := s).
      * unfold load_byte. rewrite Hlive. reflexivity.
      * cbn [wp_next]. split; [reflexivity | discriminate].
Qed.

(** The same for all pages: whatever [DumpMemoryInUse] hands to the callback
    when usage headers are enabled is the payload address of a block whose
    flag byte reads [1], plus [PadBytes_]. *)
Lemma DumpMemoryInUse_pages_headers fuel_pages fuel : forall temp_page_list acc s,
  HeaderBlocks_ (Config_ s) <> 0 ->
  block_size_ s = stride s ->
  wp (DumpMemoryInUse_pages fuel_pages fuel temp_page_list acc)
     (fun r _ => forall res, r = Ok res ->
        exists visited,
          snd res = snd acc ++ visited /\
          Forall (fun c => exists page j,
                    0 <= j < ObjectsPerPage_ (Config_ s) /\
                    bytes (heap s) (payload s page j - PadBytes_ (Config_ s) - 1) = 1 /\
                    c = (payload s page j + PadBytes_ (Config_ s),
                         ObjectSize_ (OAStats_ s))) visited) s.
Proof.
  induction fuel_pages as [|fuel_pages IH]; intros temp_page_list acc s Hhb Hbs;
    cbn [DumpMemoryInUse_pages].
  - apply wp_timeout. discriminate.
  - destruct (temp_page_list =? 0).
    { apply wp_ret. intros res E. injection E as <-. exists []. split; [|constructor].
      rewrite app_nil_r. reflexivity. }
    apply wp_get_bind. apply wp_bind.
    eapply wp_mono;
      [apply (DumpMemoryInUse_blocks_headers temp_page_list); try assumption;
       [lia | reflexivity]|].
    intros r s' [-> Hr]. destruct r as [acc1 | e | | ]; cbn [wp_next]; try discriminate.
    destruct (Hr acc1 eq_refl) as (visited1 & Hv1 & Hall1).
    apply wp_bind. eapply wp_mono; [apply load_ptr_read|].
    intros r2 s2 [-> _]. destruct r2 as [next | e | | ]; cbn [wp_next]; try discriminate.
    eapply wp_mono; [apply (IH next acc1 s Hhb Hbs)|].
    intros r3 s3 Hr3 res E. destruct (Hr3 res E) as (visited2 & Hv2 & Hall2).
    exists (visited1 ++ visited2). split.
    + rewrite Hv2, Hv1, app_assoc. reflexivity.
    + apply Forall_app. split; [|exact Hall2].
      eapply Forall_impl; [|exact Hall1]. intros c (j & Hj & Hb & Hc).
      exists temp_page_list, j. split; [lia|]. split; assumption.
Qed.

End DumpCalls.

(** * What the member functions do to the members *)

(** A load or store at the head of the goal: the state after it is the
    state before it with other bytes. *)
Ltac wp_storage spec :=
  apply wp_bind; eapply wp_mono; [apply spec|];
  let r := fresh "r" in
  let b := fresh "b" in
  let Hnt := fresh "Hnt" in
  intros r ? [[b ->] Hnt];
  destruct r as [? | ? | | ];
  [ | exfalso; eapply Hnt; reflexivity | | ];
  cbv beta iota delta [wp_next]; clear Hnt.

Ltac wp_reading spec :=
  apply wp_bind; eapply wp_mono; [apply spec|];
  let r := fresh "r" in
  let Hnt := fresh "Hnt" in
  intros r ? [-> Hnt];
  destruct r as [? | ? | | ];
  [ | exfalso; eapply Hnt; reflexivity | | ];
  cbv beta iota delta [wp_next]; clear Hnt.

Section Members.
Context `{Platform} {w : Z}.

Lemma same_setup_refl s : same_setup s s.
Proof. repeat split. Qed.

Lemma same_setup_trans s1 s2 s3 :
  same_setup s1 s2 -> same_setup s2 s3 -> same_setup s1 s3.
Proof.
  intros (A1 & A2 & A3 & A4) (B1 & B2 & B3 & B4).
  repeat split; congruence.
Qed.

Lemma same_stats_but_free_same s s' :
  OAStats_ s' = OAStats_ s -> same_stats_but_free s s'.
Proof.
  intros E. exists (FreeObjects_ (OAStats_ s)). rewrite E.
  destruct (OAStats_ s); reflexivity.
Qed.

Lemma members_ok_same_setup s s' :
  members_ok w s -> same_setup s s' -> members_ok w s'.
Proof.
  intros [] (E1 & E2 & E3 & E4).
  constructor; rewrite ?E1, ?E2, ?E3, ?E4; assumption.
Qed.

Lemma wf_config_size w' ObjectSize config :
  wf_config w ObjectSize config -> 0 < w' <= ObjectSize -> wf_config w' ObjectSize config.
Proof. intros [] Hw. constructor; assumption. Qed.

Lemma members_ok_size w' s :
  members_ok w s -> 0 < w' <= ObjectSize_ (OAStats_ s) -> members_ok w' s.
Proof. intros [] Hw. constructor; assumption. Qed.

Lemma page_bytes_range s :
  members_ok w s ->
  page_bytes s = ObjectsPerPage_ (Config_ s) * stride s + sizeof_ptr /\
  0 <= chunk_size_ s /\ 0 < stride s /\
  ObjectsPerPage_ (Config_ s) * ObjectSize_ (OAStats_ s) < page_bytes s /\
  page_bytes s < UINT_MOD /\
  ObjectsPerPage_ (Config_ s) < UINT_MOD /\
  stride s < UINT_MOD.
Proof.
  intros []. unfold page_bytes, stride.
  pose proof sizeof_ptr_pos.
  assert (0 <= chunk_size_ s) by lia.
  repeat split; try nia.
Qed.

(** The free-list loop of [AllocatePage] runs [ObjectsPerPage_] times, one
    free object counted each time. *)
Lemma AllocatePage_loop_members fuel : forall i commited temp_free_list s,
  members_ok w s ->
  PageSize_ (OAStats_ s) = page_bytes s ->
  (i = ObjectsPerPage_ (Config_ s) -> 0 <= FreeObjects_ (OAStats_ s) < UINT_MOD) ->
  0 <= i <= ObjectsPerPage_ (Config_ s) ->
  commited = i * ObjectSize_ (OAStats_ s) ->
  wp (AllocatePage_loop fuel i commited temp_free_list)
     (fun r s' =>
        same_setup s s' /\ same_stats_but_free s s' /\
        page_list_ s' = page_list_ s /\ live (heap s') = live (heap s) /\
        (forall e, r <> Throw e) /\
        forall i', r = Ok i' ->
          i' = ObjectsPerPage_ (Config_ s) /\
          FreeObjects_ (OAStats_ s')
          = u32 (FreeObjects_ (OAStats_ s) + (ObjectsPerPage_ (Config_ s) - i))) s.
Proof.
  induction fuel as [|fuel IH]; intros i commited tfl s Hok Hps Hf Hi Hc.
  - simpl. apply wp_timeout.
    repeat split; try discriminate. apply same_stats_but_free_same; reflexivity.
  - destruct (page_bytes_range s Hok) as (Hpb & Hch & Hst & Hlt & Hmod & HK & Hsm).
    unfold stride in *.
    pose proof (ok_size _ s Hok) as Hsz. pose proof sizeof_ptr_pos as Hpp.
    cbn [AllocatePage_loop]. apply wp_get_bind.
    destruct (Z.ltb_spec i (ObjectsPerPage_ (Config_ s))) as [Hlt' | Hge].
    + cbn [orb].
      (* the state after the optional link step *)
      assert (Hstep : forall (b : Z -> Z) fl p,
        wp (modify_stats (fun t => set_FreeObjects (u32 (FreeObjects_ t + 1)) t) ;;
            AllocatePage_loop fuel (u32 (i + 1))
              (u32 (commited + ObjectSize_ (OAStats_ s))) p)
           (fun r s' =>
              same_setup s s' /\ same_stats_but_free s s' /\
              page_list_ s' = page_list_ s /\ live (heap s') = live (heap s) /\
              (forall e, r <> Throw e) /\
              forall i', r = Ok i' ->
                i' = ObjectsPerPage_ (Config_ s) /\
                FreeObjects_ (OAStats_ s')
                = u32 (FreeObjects_ (OAStats_ s) + (ObjectsPerPage_ (Config_ s) - i)))
           (set_free_list fl (set_heap (mkHeap b (live (heap s))) s))).
      { intros b fl p. apply wp_modify_stats_bind.
        eapply wp_mono.
        - apply IH.
          + destruct Hok; constructor; simpl; assumption.
          + simpl. exact Hps.
          + simpl. intros _. apply u32_range.
          + simpl. rewrite u32_small by lia. lia.
          + simpl. subst commited.
            assert (0 <= i * ObjectSize_ (OAStats_ s)
                    /\ (i + 1) * ObjectSize_ (OAStats_ s)
                       <= ObjectsPerPage_ (Config_ s) * ObjectSize_ (OAStats_ s))
              by nia.
            rewrite (u32_small (i + 1)) by lia.
            rewrite u32_small by lia. ring.
        - cbv beta. simpl. intros r s' (Hs & [f Hf'] & Hpl & Hlv & Hnt & Hr).
          split; [exact Hs|]. split; [exists f; rewrite Hf'; reflexivity|].
          split; [exact Hpl|]. split; [exact Hlv|]. split; [exact Hnt|].
          intros i' Ei. destruct (Hr i' Ei) as [-> HF]. split; [reflexivity|].
          rewrite HF. simpl.
          rewrite (u32_small (i + 1)) by lia.
          rewrite u32_add_l. f_equal. lia. }
      apply wp_bind.
      destruct (i <? u32 (ObjectsPerPage_ (Config_ s) - 1)).
      * wp_storage store_ptr_step.
        -- apply wp_modify_bind. apply wp_ret. cbv beta iota delta [wp_next].
           apply Hstep.
        -- simpl. repeat split; try discriminate.
           apply same_stats_but_free_same; reflexivity.
        -- simpl. repeat split; try discriminate.
           apply same_stats_but_free_same; reflexivity.
      * apply wp_ret. cbv beta iota delta [wp_next].
        replace s with (set_free_list (free_list_ s)
                          (set_heap (mkHeap (bytes (heap s)) (live (heap s))) s)) at 1
          by (destruct s as [c t ch bl pl fl [b l]]; reflexivity).
        eapply wp_mono; [apply Hstep|]. cbv beta. tauto.
    + assert (i = ObjectsPerPage_ (Config_ s)) by lia. subst i.
      assert (Hle : (PageSize_ (OAStats_ s) <=? commited) = false).
      { apply Z.leb_gt. rewrite Hps, Hc. lia. }
      rewrite Hle. cbn [orb]. apply wp_ret.
      split; [apply same_setup_refl|].
      split; [apply same_stats_but_free_same; reflexivity|].
      split; [reflexivity|]. split; [reflexivity|]. split; [congruence|].
      intros i' E; inversion E; subst. split; [reflexivity|].
      rewrite Z.sub_diag, Z.add_0_r. symmetry. apply u32_small.
      apply Hf. reflexivity.
Qed.

Lemma store_bytes_total l : forall a s,
  wp (store_bytes a l) (fun r s' => only_bytes s s' /\ (r = Ok tt \/ r = Fault)) s.
Proof.
  induction l as [|b l IH]; intros a s; cbn [store_bytes].
  - apply wp_ret. split; [apply only_bytes_refl | left; reflexivity].
  - apply wp_bind. unfold wp at 1, store_byte.
    destruct (is_live (heap s) a); cbn [fst snd wp_next].
    + eapply wp_mono; [apply IH|]. intros r s' [Hb Hr]. split; [|exact Hr].
      eapply only_bytes_trans; [apply only_bytes_poke | exact Hb].
    + split; [apply only_bytes_refl | right; reflexivity].
Qed.

(** The free-list loop of [AllocatePage] needs no more than
    [ObjectsPerPage_ - i + 1] passes through its condition. *)
Lemma AllocatePage_loop_terminates fuel : forall i commited temp_free_list s,
  members_ok w s ->
  PageSize_ (OAStats_ s) = page_bytes s ->
  0 <= i <= ObjectsPerPage_ (Config_ s) ->
  commited = i * ObjectSize_ (OAStats_ s) ->
  (Z.to_nat (ObjectsPerPage_ (Config_ s) - i) < fuel)%nat ->
  wp (AllocatePage_loop fuel i commited temp_free_list) (fun r _ => r <> Timeout) s.
Proof.
  induction fuel as [|fuel IH]; intros i commited tfl s Hok Hps Hi Hc Hfuel; [lia|].
  destruct (page_bytes_range s Hok) as (Hpb & Hch & Hst & Hlt & Hmod & HK & Hsm).
  unfold stride in *.
  pose proof (ok_size _ s Hok) as Hsz. pose proof sizeof_ptr_pos as Hpp.
  cbn [AllocatePage_loop]. apply wp_get_bind.
  destruct (Z.ltb_spec i (ObjectsPerPage_ (Config_ s))) as [Hlt' | Hge].
  - cbn [orb].
    assert (Hstep : forall (b : Z -> Z) fl p,
      wp (modify_stats (fun t => set_FreeObjects (u32 (FreeObjects_ t + 1)) t) ;;
          AllocatePage_loop fuel (u32 (i + 1))
            (u32 (commited + ObjectSize_ (OAStats_ s))) p)
         (fun r _ => r <> Timeout)
         (set_free_list fl (set_heap (mkHeap b (live (heap s))) s))).
    { intros b fl p. apply wp_modify_stats_bind. apply IH.
      - destruct Hok; constructor; simpl; assumption.
      - simpl. exact Hps.
      - simpl. rewrite u32_small by lia. lia.
      - simpl. subst commited.
        assert (0 <= i * ObjectSize_ (OAStats_ s)
                /\ (i + 1) * ObjectSize_ (OAStats_ s)
                   <= ObjectsPerPage_ (Config_ s) * ObjectSize_ (OAStats_ s))
          by nia.
        rewrite (u32_small (i + 1)) by lia.
        rewrite u32_small by lia. ring.
      - simpl. rewrite u32_small by lia. lia. }
    apply wp_bind.
    destruct (i <? u32 (ObjectsPerPage_ (Config_ s) - 1)).
    + apply wp_bind. eapply wp_mono; [apply store_bytes_total|].
      intros r s1 [[b ->] [-> | ->]]; cbn [wp_next]; [|discriminate].
      apply wp_modify_bind. apply wp_ret. cbv beta iota delta [wp_next].
      apply Hstep.
    + apply wp_ret. cbv beta iota delta [wp_next].
      replace s with (set_free_list (free_list_ s)
                        (set_heap (mkHeap (bytes (heap s)) (live (heap s))) s)) at 1
        by (destruct s as [c t ch bl pl fl [b l]]; reflexivity).
      apply Hstep.
  - assert (i = ObjectsPerPage_ (Config_ s)) by lia. subst i.
    assert (Hle : (PageSize_ (OAStats_ s) <=? commited) = false).
    { apply Z.leb_gt. rewrite Hps, Hc. lia. }
    rewrite Hle. cbn [orb]. apply wp_ret. discriminate.
Qed.

Lemma if_step {A} (c : bool) (m1 m2 : M A) s :
  wp m1 (storage_step s) s -> wp m2 (storage_step s) s ->
  wp (if c then m1 else m2) (storage_step s) s.
Proof. destruct c; auto. Qed.

Lemma when_step (c : bool) (m : M unit) s :
  wp m (storage_step s) s -> wp (when c m) (storage_step s) s.
Proof. destruct c; [auto | intros _; apply ret_step]. Qed.

Lemma SetSignatures_blocks_step n : forall i p s,
  wp (SetSignatures_blocks n i p) (storage_step s) s.
Proof.
  induction n as [|n IH]; intros i p s; cbn [SetSignatures_blocks].
  - apply ret_step.
  - apply wp_get_bind.
    destruct (DebugOn_ (Config_ s)).
    + destruct (i =? u32 (ObjectsPerPage_ (Config_ s) - 1)).
      * apply storage_step_bind; [apply fill_step | intros].
        apply storage_step_bind; [apply stamp_step | intros]. apply IH.
      * apply storage_step_bind; [apply fill_step | intros].
        do 4 (apply storage_step_bind; [apply stamp_step | intros]). apply IH.
    + destruct (i =? u32 (ObjectsPerPage_ (Config_ s) - 1)); [apply ret_step|].
      apply storage_step_bind; [apply stamp_step | intros]. apply IH.
Qed.

Lemma SetSignatures_step p s : wp (SetSignatures p) (storage_step s) s.
Proof.
  unfold SetSignatures. apply wp_get_bind.
  apply storage_step_bind.
  { destruct (DebugOn_ (Config_ s)); [|apply stamp_step].
    apply storage_step_bind; [apply stamp_step | intros; apply stamp_step]. }
  intros p1 s1 Hb1. apply storage_step_bind.
  { destruct (DebugOn_ (Config_ s)); [apply stamp_step | apply ret_step]. }
  intros p2 s2 Hb2. apply SetSignatures_blocks_step.
Qed.

Lemma AllocatePage_members fuel sys s :
  members_ok w s ->
  wp (AllocatePage fuel sys)
     (fun r s' =>
        same_setup s s' /\
        (exists f, OAStats_ s' = page_counted f s) /\
        (forall e, r = Throw e ->
           e = E_NO_MEMORY /\ live (heap s') = live (heap s) /\
           page_list_ s' = page_list_ s /\ free_list_ s' = free_list_ s) /\
        (r = Ok tt ->
           OAStats_ s'
           = page_counted (u32 (FreeObjects_ (OAStats_ s) + ObjectsPerPage_ (Config_ s))) s /\
           live (heap s') = (sys, page_bytes s) :: live (heap s) /\
           page_list_ s' = sys /\ 0 < sys /\ sys + page_bytes s <= ptr_limit)) s.
Proof.
  intros Hok.
  destruct (page_bytes_range s Hok) as (Hpb & Hch & Hst & Hlt & Hmod & HK & Hsm).
  pose proof sizeof_ptr_pos as Hpp.
  assert (Hps : u32 (ObjectsPerPage_ (Config_ s) * ObjectSize_ (OAStats_ s) + sizeof_ptr
                     + ObjectsPerPage_ (Config_ s) * chunk_size_ s) = page_bytes s).
  { apply u32_small. fold (page_bytes s). pose proof (ok_objects _ s Hok).
    pose proof (ok_size _ s Hok). unfold page_bytes in *. nia. }
  unfold AllocatePage. apply wp_get_bind.
  apply wp_modify_stats_bind. apply wp_modify_stats_bind. apply wp_get_bind.
  rewrite Hps.
  set (s1 := set_Stats _ _).
  assert (Hs1 : same_setup s s1) by (repeat split).
  assert (Hst1 : OAStats_ s1 = page_counted (FreeObjects_ (OAStats_ s)) s).
  { unfold s1, page_counted. simpl. destruct (OAStats_ s); reflexivity. }
  apply wp_bind. unfold wp at 1. unfold new_nothrow.
  replace (PageSize_ (OAStats_ s1)) with (page_bytes s) by reflexivity.
  destruct ((0 <? sys) && (sys + page_bytes s <=? ptr_limit)) eqn:Hsys;
    cbn [fst snd wp_next].
  2: { rewrite Z.eqb_refl. apply wp_throw.
       split; [exact Hs1|]. split; [eexists; exact Hst1|].
       split; [|discriminate]. intros e E. inversion E. repeat split. }
  apply andb_prop in Hsys. destruct Hsys as [Hsys1 Hsys2].
  apply Z.ltb_lt in Hsys1. apply Z.leb_le in Hsys2.
  replace (sys =? 0) with false by (symmetry; apply Z.eqb_neq; lia).
  set (s2 := set_heap _ s1).
  assert (Hs2 : same_setup s s2) by (repeat split).
  (* what is left to show once the page is linked in *)
  assert (Hend : forall r s',
    same_setup s2 s' -> same_stats_but_free s2 s' ->
    (forall e, r <> Throw e) ->
    (r = Ok tt ->
       FreeObjects_ (OAStats_ s') = u32 (FreeObjects_ (OAStats_ s) + ObjectsPerPage_ (Config_ s))
       /\ live (heap s') = (sys, page_bytes s) :: live (heap s) /\ page_list_ s' = sys) ->
    same_setup s s' /\
    (exists f, OAStats_ s' = page_counted f s) /\
    (forall e, r = Throw e ->
       e = E_NO_MEMORY /\ live (heap s') = live (heap s) /\
       page_list_ s' = page_list_ s /\ free_list_ s' = free_list_ s) /\
    (r = Ok tt ->
       OAStats_ s'
       = page_counted (u32 (FreeObjects_ (OAStats_ s) + ObjectsPerPage_ (Config_ s))) s /\
       live (heap s') = (sys, page_bytes s) :: live (heap s) /\
       page_list_ s' = sys /\ 0 < sys /\ sys + page_bytes s <= ptr_limit)).
  { intros r s' Hs' [f Hf'] Hnt Hr.
    split; [exact (same_setup_trans _ _ _ Hs2 Hs')|].
    assert (Hst' : OAStats_ s' = page_counted f s).
    { rewrite Hf'. unfold s2, s1, page_counted. simpl.
      destruct (OAStats_ s); reflexivity. }
    split; [exists f; exact Hst'|].
    split; [intros e E; exfalso; eapply Hnt; exact E|].
    intros E. destruct (Hr E) as (HF & Hlv & Hpl).
    repeat split; try assumption.
    rewrite Hst' in HF. simpl in HF. rewrite Hst', HF. reflexivity. }
  wp_storage SetSignatures_step.
  2, 3: apply Hend; [repeat split | apply same_stats_but_free_same; reflexivity
                    | congruence | discriminate].
  apply wp_get_bind.
  apply wp_bind. eapply wp_mono.
  { apply if_step; apply store_ptr_step. }
  intros r s3 [[b3 ->] Hnt3]. destruct r as [[] | e | | ];
    [ | exfalso; eapply Hnt3; reflexivity | | ]; cbv beta iota delta [wp_next].
  2, 3: apply Hend; [repeat split | apply same_stats_but_free_same; reflexivity
                    | congruence | discriminate].
  apply wp_modify_bind. apply wp_modify_bind.
  wp_storage store_ptr_step.
  2, 3: apply Hend; [repeat split | apply same_stats_but_free_same; reflexivity
                    | congruence | discriminate].
  apply wp_bind. eapply wp_mono.
  { apply AllocatePage_loop_members.
    - destruct Hok; constructor; simpl; assumption.
    - reflexivity.
    - simpl. intros E. exfalso. pose proof (ok_objects _ s Hok). lia.
    - simpl. pose proof (ok_objects _ s Hok). lia.
    - simpl. lia. }
  cbv beta. intros r s' (Hs' & Hsf & Hpl & Hlv & Hnt & Hr).
  destruct r as [i' | e | | ]; cbv beta iota delta [wp_next].
  - apply wp_ret. apply Hend.
    + exact Hs'.
    + exact Hsf.
    + congruence.
    + intros _. destruct (Hr i' eq_refl) as [_ HF].
      simpl in HF. rewrite Z.sub_0_r in HF.
      repeat split; assumption.
  - exfalso. eapply Hnt; reflexivity.
  - apply Hend; [exact Hs' | exact Hsf | congruence | discriminate].
  - apply Hend; [exact Hs' | exact Hsf | congruence | discriminate].
Qed.

Lemma count_allocation_effect s :
  block_taken s (snd (count_allocation s)) /\ fst (count_allocation s) = Ok tt /\
  free_list_ (snd (count_allocation s)) = free_list_ s /\
  heap (snd (count_allocation s)) = heap s.
Proof.
  unfold count_allocation, bind, modify_stats, modify. simpl.
  match goal with |- context [if ?c then _ else _] => destruct c end;
    unfold block_taken, same_setup; simpl; repeat split; reflexivity.
Qed.

Lemma Allocate_members fuel sys s :
  members_ok w s ->
  UseCPPMemManager_ (Config_ s) = false ->
  wp (Allocate fuel sys)
     (fun r s' =>
        same_setup s s' /\
        (PagesInUse_ (OAStats_ s') = PagesInUse_ (OAStats_ s) \/
         PagesInUse_ (OAStats_ s') = u32 (PagesInUse_ (OAStats_ s) + 1)) /\
        (r = Throw E_NO_PAGES ->
           FreeObjects_ (OAStats_ s) = 0 /\
           PagesInUse_ (OAStats_ s) = MaxPages_ (Config_ s) /\ s' = s) /\
        (forall p, r = Ok p ->
           (FreeObjects_ (OAStats_ s) <> 0 /\ block_taken s s') \/
           (FreeObjects_ (OAStats_ s) = 0 /\
            PagesInUse_ (OAStats_ s) <> MaxPages_ (Config_ s) /\
            exists s1,
              OAStats_ s1 = page_counted (u32 (ObjectsPerPage_ (Config_ s))) s /\
              live (heap s1) = (sys, page_bytes s) :: live (heap s) /\
              page_list_ s1 = sys /\ same_setup s s1 /\
              block_taken s1 s'))) s.
Proof.
  intros Hok Hcpp.
  unfold Allocate. apply wp_get_bind. rewrite Hcpp.
  match goal with |- wp (bind _ ?k) _ _ =>
    assert (Htail : forall s1, wp (k tt)
      (fun r s' => (forall e, r <> Throw e) /\
                   (PagesInUse_ (OAStats_ s') = PagesInUse_ (OAStats_ s1)) /\
                   same_setup s1 s' /\
                   forall p, r = Ok p -> block_taken s1 s') s1)
  end.
  { intros s1. cbv beta. apply wp_get_bind.
    assert (Hkeep : forall (r : outcome Z) s',
      members_kept s1 s' -> (forall e, r <> Throw e) -> (forall p, r <> Ok p) ->
      (forall e, r <> Throw e) /\
      (PagesInUse_ (OAStats_ s') = PagesInUse_ (OAStats_ s1)) /\
      same_setup s1 s' /\ forall p, r = Ok p -> block_taken s1 s').
    { intros r s' (Hs & Hst & _) Hnt Hno. split; [exact Hnt|].
      split; [rewrite Hst; reflexivity|]. split; [exact Hs|].
      intros p E. exfalso. eapply Hno; exact E. }
    wp_reading load_ptr_read.
    2, 3: apply Hkeep; [repeat split | congruence | congruence].
    apply wp_modify_bind.
    apply wp_bind. eapply wp_mono.
    { apply when_step.
      apply storage_step_bind; [apply fill_step | intros; apply ret_step]. }
    intros r s2 [[b2 ->] Hnt2]. destruct r as [[] | e | | ];
      [ | exfalso; eapply Hnt2; reflexivity | | ]; cbv beta iota delta [wp_next].
    2, 3: apply Hkeep; [repeat split | congruence | congruence].
    apply wp_bind. eapply wp_mono.
    { apply when_step. apply store_byte_step. }
    intros r s3 [[b3 ->] Hnt3]. destruct r as [[] | e | | ];
      [ | exfalso; eapply Hnt3; reflexivity | | ]; cbv beta iota delta [wp_next].
    2, 3: apply Hkeep; [repeat split | congruence | congruence].
    apply wp_bind. unfold wp at 1.
    match goal with |- wp_next _ _ (fst (count_allocation ?x)) _ =>
      destruct (count_allocation_effect x) as (Hbt & Hok' & _ & _);
      rewrite Hok'; set (s4 := snd (count_allocation x)) in *
    end.
    cbv beta iota delta [wp_next]. apply wp_ret.
    split; [congruence|].
    destruct Hbt as (Hs & Hlv & Hpl & Hpu & Hps & HF & HI & HA & HD).
    split; [exact Hpu|]. split; [exact Hs|].
    intros p _. repeat split; try assumption; apply Hs. }
  apply wp_bind.
  destruct (Z.eqb_spec (FreeObjects_ (OAStats_ s)) 0) as [Hz | Hnz]; cbn [when].
  - destruct (Z.eqb_spec (PagesInUse_ (OAStats_ s)) (MaxPages_ (Config_ s)))
      as [Hmax | Hmax].
    + apply wp_throw. cbv beta iota delta [wp_next].
      split; [apply same_setup_refl|]. split; [left; reflexivity|].
      split; [intros _; repeat split; assumption | discriminate].
    + eapply wp_mono; [apply AllocatePage_members; assumption|].
      cbv beta. intros r s1 (Hs1 & [f Hst1] & Hthrow & Hr).
      assert (Hpu1 : PagesInUse_ (OAStats_ s1) = u32 (PagesInUse_ (OAStats_ s) + 1))
        by (rewrite Hst1; reflexivity).
      destruct r as [[] | e | | ]; cbv beta iota delta [wp_next].
      * destruct (Hr eq_refl) as (Hst & Hlv & Hpl & Hsys).
        eapply wp_mono; [apply Htail|]. cbv beta.
        intros r s' (Hnt & Hpu & Hs' & Hbt).
        split; [exact (same_setup_trans _ _ _ Hs1 Hs')|].
        split; [right; congruence|].
        split; [intros E; exfalso; eapply Hnt; exact E|].
        intros p E. right. split; [exact Hz|]. split; [exact Hmax|].
        exists s1. rewrite Hz, Z.add_0_l in Hst.
        split; [exact Hst|]. split; [exact Hlv|]. split; [exact Hpl|].
        split; [exact Hs1|]. eapply Hbt; exact E.
      * split; [exact Hs1|]. split; [right; exact Hpu1|].
        split; [|discriminate].
        intros E. destruct (Hthrow e eq_refl) as [-> _]. discriminate.
      * split; [exact Hs1|]. split; [right; exact Hpu1|].
        split; discriminate.
      * split; [exact Hs1|]. split; [right; exact Hpu1|].
        split; discriminate.
  - apply wp_ret. cbv beta iota delta [wp_next].
    eapply wp_mono; [apply Htail|]. cbv beta.
    intros r s' (Hnt & Hpu & Hs' & Hbt).
    split; [exact Hs'|]. split; [left; exact Hpu|].
    split; [intros E; exfalso; eapply Hnt; exact E|].
    intros p E. left. split; [exact Hnz|]. eapply Hbt; exact E.
Qed.

Lemma Free_members fuel Object s :
  UseCPPMemManager_ (Config_ s) = false ->
  wp (Free fuel Object)
     (fun r s' => pages_kept s s' /\ (r = Ok tt -> block_returned s s')) s.
Proof.
  intros Hcpp. unfold Free. apply wp_get_bind. rewrite Hcpp.
  assert (Hkeep : forall (r : outcome unit) s',
    members_kept s s' -> r <> Ok tt ->
    pages_kept s s' /\ (r = Ok tt -> block_returned s s')).
  { intros r s' (Hs & Hst & Hlv & Hpl) Hno.
    split; [|intros E; contradiction].
    unfold pages_kept. rewrite Hst. repeat split; try assumption; apply Hs. }
  apply wp_bind. eapply wp_mono.
  { apply (wp_when _ _ (unchanged s)).
    - intros _. apply ValidateObject_unchanged.
    - intros _. reflexivity. }
  intros r s1 ->. destruct r as [[] | e | | ]; cbv beta iota delta [wp_next].
  2, 3, 4: apply Hkeep; [repeat split | discriminate].
  apply wp_bind. eapply wp_mono.
  { apply when_step.
    apply storage_step_bind; [apply fill_step | intros; apply ret_step]. }
  intros r s2 [[b2 ->] Hnt2]. destruct r as [[] | e | | ];
    [ | exfalso; eapply Hnt2; reflexivity | | ]; cbv beta iota delta [wp_next].
  2, 3: apply Hkeep; [repeat split | discriminate].
  apply wp_bind. eapply wp_mono.
  { apply when_step. apply store_byte_step. }
  intros r s3 [[b3 ->] Hnt3]. destruct r as [[] | e | | ];
    [ | exfalso; eapply Hnt3; reflexivity | | ]; cbv beta iota delta [wp_next].
  2, 3: apply Hkeep; [repeat split | discriminate].
  apply wp_get_bind.
  apply wp_bind.
  match goal with |- context [if ?c then _ else _] => destruct c end.
  - apply wp_modify_bind.
    eapply wp_mono; [apply store_ptr_step|].
    intros r s4 [[b4 ->] Hnt4]. destruct r as [[] | e | | ];
      [ | exfalso; eapply Hnt4; reflexivity | | ]; cbv beta iota delta [wp_next].
    2, 3: apply Hkeep; [repeat split | discriminate].
    unfold wp, count_deallocation, bind, modify_stats, modify,
      pages_kept, block_returned, same_setup; simpl.
    repeat split; reflexivity.
  - wp_storage store_ptr_step.
    2, 3: apply Hkeep; [repeat split | discriminate].
    apply wp_modify. cbv beta iota delta [wp_next].
    unfold wp, count_deallocation, bind, modify_stats, modify,
      pages_kept, block_returned, same_setup; simpl.
    repeat split; reflexivity.
Qed.

Lemma ctor_members fuel ObjectSize config sys h :
  wf_config w ObjectSize config ->
  UseCPPMemManager_ config = false ->
  wp (ObjectAllocator_ctor fuel ObjectSize config sys)
     (fun r s' =>
        (forall e, r = Throw e -> e = E_NO_MEMORY) /\
        (r = Ok tt -> constructed w ObjectSize config sys h s'))
     (unconstructed h).
Proof.
  intros Hwf Hcpp. destruct Hwf.
  destruct config as [cpp K P dbg pad hdr al la ia]. simpl in *. subst cpp.
  pose proof sizeof_ptr_pos as Hpp.
  assert (Hchunk : u32 (pad * 2 + hdr + al) = pad * 2 + hdr + al).
  { apply u32_small. nia. }
  assert (Hblock : u32 (ObjectSize + (pad * 2 + hdr + al))
                   = ObjectSize + (pad * 2 + hdr + al)).
  { apply u32_small. nia. }
  unfold ObjectAllocator_ctor.
  apply wp_modify_stats_bind.
  do 5 apply wp_modify_bind. apply wp_get_bind.
  simpl. rewrite Hchunk, Hblock.
  apply wp_bind. eapply wp_mono.
  { apply AllocatePage_members.
    constructor; simpl; try lia; try reflexivity. }
  cbv beta. simpl. intros r s1 (Hs1 & [f Hst1] & Hthrow & Hr).
  destruct r as [[] | e | | ]; cbv beta iota delta [wp_next].
  - apply wp_modify. split; [discriminate|]. intros _.
    destruct (Hr eq_refl) as (Hst & Hlv & Hpl & Hsys).
    destruct Hs1 as (Ec & Ech & Ebl & Eos). simpl in *.
    assert (HK : u32 K = K) by (apply u32_small; nia).
    rewrite HK in Hst.
    constructor; simpl; rewrite ?Ec, ?Ech, ?Ebl, ?Hst; simpl;
      try reflexivity; try assumption; try lia.
    + constructor; simpl; rewrite ?Ec, ?Ech, ?Ebl, ?Hst; simpl;
        try reflexivity; try lia.
    + unfold page_bytes. simpl. rewrite ?Ec, ?Ech, ?Hst. reflexivity.
    + rewrite Hlv. unfold page_bytes; simpl. rewrite ?Ec, ?Ech, ?Hst. reflexivity.
    + unfold page_bytes in *; simpl in *. rewrite ?Ec, ?Ech, ?Hst. simpl. exact Hsys.
  - split; [|discriminate]. intros e' E; inversion E; subst.
    apply (Hthrow e' eq_refl).
  - split; discriminate.
  - split; discriminate.
Qed.

End Members.

(** * Conservation of blocks *)

Section Conservation.
Context `{Platform} {w : Z}.

Lemma u32_le x : 0 <= x -> u32 x <= x.
Proof. intros Hx. unfold u32. apply Z.mod_le; [exact Hx | reflexivity]. Qed.

Lemma u32_zero_shift x y : u32 x = 0 -> u32 (x + y) = u32 y.
Proof. intros E. rewrite <- u32_add_l, E. reflexivity. Qed.

Lemma books_Allocate fuel sys h K n m s :
  books w h K n m s ->
  forall p s', Allocate fuel sys s = (Ok p, s') -> books w h K (n + 1) m s'.
Proof.
  intros [Hok HKc Hcpp Hin Hfree Hbound Hrange] p s' E.
  pose proof (Allocate_members fuel sys s Hok Hcpp) as Hm.
  apply (wp_inv _ _ _ _ _ Hm) in E. cbv beta in E.
  destruct E as (Hs & _ & _ & Hr).
  destruct (page_bytes_range s Hok) as (_ & _ & _ & _ & _ & HK & _).
  pose proof (ok_objects _ s Hok) as HK1.
  assert (Hc : Config_ s' = Config_ s) by apply Hs.
  destruct (Hr p eq_refl) as [[Hnz Hbt] | (Hz & _ & s1 & Hst1 & Hlv1 & _ & _ & Hbt)];
    destruct Hbt as (Hs' & Hlv & _ & _ & _ & HF & HI & _).
  - assert (Hpc : pages_created h s' = pages_created h s)
      by (unfold pages_created; rewrite Hlv; reflexivity).
    assert (HF' : FreeObjects_ (OAStats_ s') = FreeObjects_ (OAStats_ s) - 1)
      by (rewrite HF; apply u32_small; lia).
    constructor; rewrite ?Hc, ?Hpc.
    + exact (members_ok_same_setup _ _ Hok Hs).
    + exact HKc.
    + exact Hcpp.
    + rewrite HI, Hin, u32_add_l. f_equal; lia.
    + rewrite HF, Hfree, u32_sub_l. f_equal; lia.
    + lia.
    + lia.
  - assert (Hpc : pages_created h s' = pages_created h s + 1).
    { unfold pages_created. rewrite Hlv, Hlv1. simpl length. lia. }
    assert (HF1 : FreeObjects_ (OAStats_ s1) = ObjectsPerPage_ (Config_ s)).
    { rewrite Hst1. simpl. apply u32_small. lia. }
    assert (HI1 : ObjectsInUse_ (OAStats_ s1) = ObjectsInUse_ (OAStats_ s))
      by (rewrite Hst1; reflexivity).
    assert (HF' : FreeObjects_ (OAStats_ s') = ObjectsPerPage_ (Config_ s) - 1)
      by (rewrite HF, HF1; apply u32_small; lia).
    constructor; rewrite ?Hc, ?Hpc.
    + exact (members_ok_same_setup _ _ Hok Hs).
    + exact HKc.
    + exact Hcpp.
    + rewrite HI, HI1, Hin, u32_add_l. f_equal; lia.
    + rewrite HF'. rewrite Hz in Hfree. symmetry in Hfree.
      replace ((pages_created h s + 1) * ObjectsPerPage_ (Config_ s) - (n + 1 - m))
        with (pages_created h s * ObjectsPerPage_ (Config_ s) - (n - m)
              + (ObjectsPerPage_ (Config_ s) - 1)) by ring.
      rewrite (u32_zero_shift _ _ Hfree). symmetry. apply u32_small. lia.
    + rewrite HF'. lia.
    + lia.
Qed.

Lemma books_Free fuel Object h K n m s :
  books w h K n m s ->
  forall s', Free fuel Object s = (Ok tt, s') -> books w h K n (m + 1) s'.
Proof.
  intros [Hok HKc Hcpp Hin Hfree Hbound Hrange] s' E.
  pose proof (Free_members fuel Object s Hcpp) as Hm.
  apply (wp_inv _ _ _ _ _ Hm) in E. cbv beta in E.
  destruct E as ((Hs & Hlv & _) & Hr).
  destruct (Hr eq_refl) as (HF & HI & _).
  assert (Hc : Config_ s' = Config_ s) by apply Hs.
  assert (Hpc : pages_created h s' = pages_created h s)
    by (unfold pages_created; rewrite Hlv; reflexivity).
  pose proof (u32_le (FreeObjects_ (OAStats_ s) + 1)) as Hle.
  pose proof (u32_range (FreeObjects_ (OAStats_ s) + 1)) as Hr'.
  constructor; rewrite ?Hc, ?Hpc.
  - exact (members_ok_same_setup _ _ Hok Hs).
  - exact HKc.
  - exact Hcpp.
  - rewrite HI, Hin, u32_sub_l. f_equal; lia.
  - rewrite HF, Hfree, u32_add_l. f_equal; lia.
  - rewrite HF. lia.
  - rewrite HF. lia.
Qed.

Lemma books_run fuel h K calls : forall n m s s',
  books w h K n m s ->
  run fuel calls s = (Ok tt, s') ->
  books w h K (n + allocations calls) (m + releases calls) s'.
Proof.
  induction calls as [|c calls IH]; intros n m s s' Hb E.
  - simpl in E. inversion E; subst.
    unfold allocations, releases; simpl. rewrite !Z.add_0_r. exact Hb.
  - simpl in E. unfold bind in E.
    destruct (do_call fuel c s) as [r1 s1] eqn:E1.
    destruct r1 as [[] | e | | ]; try discriminate.
    assert (Hb1 : books w h K (n + (if is_allocate c then 1 else 0))
                            (m + (if is_allocate c then 0 else 1)) s1).
    { destruct c as [sys | Object]; simpl in *.
      - unfold bind in E1. destruct (Allocate fuel sys s) as [r0 s0] eqn:E0.
        destruct r0 as [p | e | | ]; try discriminate.
        inversion E1; subst. rewrite Z.add_0_r.
        eapply books_Allocate; eassumption.
      - rewrite Z.add_0_r. eapply books_Free; eassumption. }
    specialize (IH _ _ _ _ Hb1 E).
    unfold allocations, releases in *. simpl.
    destruct (is_allocate c); simpl in *; rewrite ?Nat2Z.inj_succ;
      match goal with
      | Hx : books w h K ?a ?b s' |- books w h K ?a' ?b' s' =>
        replace a' with a by lia; replace b' with b by lia; exact Hx
      end.
Qed.

Lemma books_constructed ObjectSize config sys h s :
  constructed w ObjectSize config sys h s ->
  books w h (ObjectsPerPage_ config) 0 0 s.
Proof.
  intros Hc.
  assert (Hpc : pages_created h s = 1).
  { unfold pages_created. rewrite (ctd_live _ _ _ _ _ _ Hc). simpl length. lia. }
  pose proof (ctd_members _ _ _ _ _ _ Hc) as Hok.
  destruct (page_bytes_range s Hok) as (_ & _ & _ & _ & _ & HK & _).
  pose proof (ok_objects _ s Hok) as HK1.
  pose proof (ctd_objects _ _ _ _ _ _ Hc) as HKc.
  pose proof (ctd_free _ _ _ _ _ _ Hc) as HF.
  pose proof (ctd_in_use _ _ _ _ _ _ Hc) as HI.
  constructor; rewrite ?Hpc, ?HF, ?HI, ?HKc in *; try assumption; try lia.
  - exact (ctd_pool _ _ _ _ _ _ Hc).
  - rewrite u32_small by lia. lia.
  - rewrite u32_small by lia. lia.
Qed.

End Conservation.


(** * Writing inside a page *)

Section Writes.
Context `{Platform}.

Lemma writes_within_bind {A B} (m : M A) (k : A -> M B) lo hi s P Q :
  wp m (writes_within lo hi s P) s ->
  (forall a s', P a -> only_bytes s s' -> same_outside lo hi s s' ->
                wp (k a) (writes_within lo hi s' Q) s') ->
  wp (bind m k) (writes_within lo hi s Q) s.
Proof.
  intros Hm Hk. apply wp_bind. eapply wp_mono; [exact Hm|].
  intros r s' Hr. destruct r as [a | e | | ]; simpl in Hr; try contradiction.
  destruct Hr as (Hp & Hb & Ho). simpl.
  eapply wp_mono; [apply Hk; assumption|].
  intros r' s'' Hr'. destruct r' as [b | e | | ]; simpl in *; try contradiction.
  destruct Hr' as (Hq & Hb' & Ho').
  split; [exact Hq|]. split; [eapply only_bytes_trans; eassumption|].
  eapply same_outside_trans; eassumption.
Qed.

Lemma writes_within_ret {A} (a : A) lo hi s (P : A -> Prop) :
  P a -> wp (ret a) (writes_within lo hi s P) s.
Proof.
  intros Hp. apply wp_ret. split; [exact Hp|].
  split; [apply only_bytes_refl | apply same_outside_refl].
Qed.

Lemma fill_in lo hi n p v s :
  range_live (heap s) lo (hi - lo) -> lo <= p -> p + Z.of_nat n <= hi ->
  wp (fill n p v) (writes_within lo hi s (fun p' => p' = p + Z.of_nat n)) s.
Proof.
  intros Hl Hlo Hhi.
  destruct (fill_spec n p v s) as (s' & E & Hb & Hv).
  { eapply range_live_sub; [exact Hl | lia | lia]. }
  eapply wp_eq; [exact E|]. split; [reflexivity|]. split; [exact Hb|].
  intros a Ha. rewrite Hv.
  destruct (Z.leb_spec p a); destruct (Z.ltb_spec a (p + Z.of_nat n));
    simpl; try reflexivity; lia.
Qed.

(** [stamp] whose count is its condition advances by the count. *)
Lemma stamp_in lo hi n v p s :
  range_live (heap s) lo (hi - lo) -> 0 <= n -> lo <= p -> p + n <= hi ->
  wp (stamp n n v p) (writes_within lo hi s (fun p' => p' = p + n)) s.
Proof.
  intros Hl Hn Hlo Hhi. unfold stamp. destruct (Z.eqb_spec n 0) as [-> | Hnz].
  - apply writes_within_ret. lia.
  - eapply wp_mono; [apply (fill_in lo hi); [exact Hl | exact Hlo | lia]|].
    intros r s' Hr. destruct r; simpl in *; try contradiction.
    rewrite Z2Nat.id in Hr by exact Hn. exact Hr.
Qed.

(** [stamp] in general advances by the count or not at all. *)
Lemma stamp_in_cond lo hi c n v p s :
  range_live (heap s) lo (hi - lo) -> 0 <= n -> lo <= p -> p + n <= hi ->
  wp (stamp c n v p) (writes_within lo hi s (fun p' => p <= p' <= p + n)) s.
Proof.
  intros Hl Hn Hlo Hhi. unfold stamp. destruct (c =? 0).
  - apply writes_within_ret. lia.
  - eapply wp_mono; [apply (fill_in lo hi); [exact Hl | exact Hlo | lia]|].
    intros r s' Hr. destruct r; simpl in *; try contradiction.
    rewrite Z2Nat.id in Hr by exact Hn. destruct Hr as (-> & Hr). split; [lia | exact Hr].
Qed.

Lemma store_ptr_within a v s :
  range_live (heap s) a sizeof_ptr -> 0 <= v < ptr_limit ->
  wp (store_ptr a v)
     (returns (fun _ s' => only_bytes s s' /\ same_outside a (a + sizeof_ptr) s s' /\
                           peek_ptr (heap s') a = v)) s.
Proof.
  intros Hl Hv. destruct (store_ptr_spec a v s Hl Hv) as (s' & E & Hb & Hp & Ho).
  eapply wp_eq; [exact E|]. simpl. tauto.
Qed.

(** One stamping step inside [[lo, hi)], then the rest from the state it
    leaves, which has the same members. *)
Lemma within_step {A B} (m : M A) (k : A -> M B) lo hi s (P : A -> Prop) Q :
  wp m (writes_within lo hi s P) s ->
  (forall a b, P a ->
     wp (k a) (writes_within lo hi (set_heap (mkHeap b (live (heap s))) s) Q)
        (set_heap (mkHeap b (live (heap s))) s)) ->
  wp (bind m k) (writes_within lo hi s Q) s.
Proof.
  intros Hm Hk. eapply writes_within_bind; [exact Hm|].
  intros a s' Hp [b ->] _. apply Hk. exact Hp.
Qed.

Lemma range_live_live h h' p n :
  live h' = live h -> range_live h p n -> range_live h' p n.
Proof. intros E Hl a Ha. rewrite (is_live_ext h h' a E). apply Hl, Ha. Qed.

Lemma range_live_set_bytes s b p n :
  range_live (heap s) p n ->
  range_live (heap (set_heap (mkHeap b (live (heap s))) s)) p n.
Proof. intros Hl a Ha. apply Hl in Ha. exact Ha. Qed.

Lemma members_ok_set_bytes s b :
  members_ok sizeof_ptr s -> members_ok sizeof_ptr (set_heap (mkHeap b (live (heap s))) s).
Proof. intros []; constructor; assumption. Qed.

Lemma SetSignatures_blocks_within n : forall i p s lo hi,
  members_ok sizeof_ptr s ->
  i = ObjectsPerPage_ (Config_ s) - Z.of_nat n ->
  0 <= i ->
  range_live (heap s) lo (hi - lo) ->
  lo <= p -> p + blocks_span s n <= hi ->
  wp (SetSignatures_blocks n i p) (writes_within lo hi s (fun _ => True)) s.
Proof.
  induction n as [|n IH]; intros i p s lo hi Hok Hi Hi0 Hl Hlo Hhi.
  - apply writes_within_ret. exact I.
  - destruct (page_bytes_range s Hok) as (_ & Hch & Hst & _ & _ & HK & Hsm).
    pose proof Hok as [HK1 Hsz _ Hpad Hhdr Hal Hla Hia Hchunk Hblock Hfits].
    pose proof sizeof_ptr_pos as Hpp.
    assert (Hu : u32 (ObjectsPerPage_ (Config_ s) - 1) = ObjectsPerPage_ (Config_ s) - 1)
      by (apply u32_small; lia).
    assert (Hos : Z.of_nat (Z.to_nat (u32 (ObjectSize_ (OAStats_ s) - sizeof_ptr)))
                  = ObjectSize_ (OAStats_ s) - sizeof_ptr).
    { rewrite u32_small by (unfold stride in *; lia). lia. }
    assert (Hskip : u32 (ObjectSize_ (OAStats_ s) + InterAlignSize_ (Config_ s)
                         + PadBytes_ (Config_ s))
                    = ObjectSize_ (OAStats_ s) + InterAlignSize_ (Config_ s)
                      + PadBytes_ (Config_ s)).
    { apply u32_small. unfold stride in *. lia. }
    unfold stride in *.
    cbn [SetSignatures_blocks]. apply wp_get_bind. rewrite Hu, Hskip.
    cbn [blocks_span] in Hhi. unfold stride in Hhi.
    destruct (DebugOn_ (Config_ s)).
    + destruct (Z.eqb_spec i (ObjectsPerPage_ (Config_ s) - 1)) as [Hlast | Hnl].
      * assert (n = O) by lia. subst n.
        eapply within_step; [apply fill_in; [exact Hl | lia | rewrite Hos; lia]|].
        intros p1 b1 ->. rewrite Hos.
        eapply within_step;
          [apply stamp_in; [eapply range_live_live; [|exact Hl]; reflexivity | exact Hpad | lia | lia]|].
        intros p2 b2 ->. simpl.
        apply writes_within_ret. exact I.
      * assert (Hn : (1 <= n)%nat) by lia.
        assert (Hnn : (Z.of_nat n - 1) * (ObjectSize_ (OAStats_ s) + chunk_size_ s) >= 0)
          by nia.
        eapply within_step; [apply fill_in; [exact Hl | lia | rewrite Hos; nia]|].
        intros p1 b1 ->. rewrite Hos.
        eapply within_step;
          [apply stamp_in; [eapply range_live_live; [|exact Hl]; reflexivity | exact Hpad | lia | nia]|].
        intros p2 b2 ->. simpl.
        eapply within_step;
          [apply stamp_in; [eapply range_live_live; [|exact Hl]; reflexivity | lia | lia | nia]|].
        intros p3 b3 ->. simpl.
        eapply within_step;
          [apply stamp_in; [eapply range_live_live; [|exact Hl]; reflexivity | lia | lia | nia]|].
        intros p4 b4 ->. simpl.
        eapply within_step;
          [apply stamp_in; [eapply range_live_live; [|exact Hl]; reflexivity | lia | lia | nia]|].
        intros p5 b5 ->. simpl.
        apply IH.
        -- apply (members_ok_same_setup _ _ Hok); repeat split.
        -- simpl. lia.
        -- lia.
        -- eapply range_live_live; [|exact Hl]; reflexivity.
        -- lia.
        -- destruct n as [|n']; [lia|]. cbn [blocks_span]. unfold stride. simpl.
           rewrite Nat2Z.inj_succ in *. nia.
    + destruct (Z.eqb_spec i (ObjectsPerPage_ (Config_ s) - 1)) as [Hlast | Hnl].
      * apply writes_within_ret. exact I.
      * assert (Hn : (1 <= n)%nat) by lia.
        assert (Hnn : (Z.of_nat n - 1) * (ObjectSize_ (OAStats_ s) + chunk_size_ s) >= 0)
          by nia.
        eapply within_step;
          [apply stamp_in; [exact Hl | lia | lia | nia]|].
        intros p1 b1 ->. simpl.
        apply IH.
        -- apply (members_ok_same_setup _ _ Hok); repeat split.
        -- simpl. lia.
        -- lia.
        -- eapply range_live_live; [|exact Hl]; reflexivity.
        -- lia.
        -- destruct n as [|n']; [lia|]. cbn [blocks_span]. unfold stride. simpl.
           rewrite Nat2Z.inj_succ in *. nia.
Qed.

Lemma blocks_span_page s :
  1 <= ObjectsPerPage_ (Config_ s) ->
  blocks_span s (Z.to_nat (ObjectsPerPage_ (Config_ s)))
  = (ObjectsPerPage_ (Config_ s) - 1) * (ObjectSize_ (OAStats_ s) + chunk_size_ s)
    + ObjectSize_ (OAStats_ s) + PadBytes_ (Config_ s).
Proof.
  intros HK1.
  destruct (Z.to_nat (ObjectsPerPage_ (Config_ s))) as [|k] eqn:Ek; [lia|].
  cbn [blocks_span]. unfold stride.
  replace (Z.of_nat k) with (ObjectsPerPage_ (Config_ s) - 1) by lia.
  reflexivity.
Qed.

Lemma SetSignatures_within page s :
  members_ok sizeof_ptr s ->
  range_live (heap s) page (page_bytes s) ->
  wp (SetSignatures page)
     (writes_within page (page + page_bytes s) s (fun _ => True)) s.
Proof.
  intros Hok Hl.
  destruct (page_bytes_range s Hok) as (Hpb & Hch & Hst & _ & _ & HK & Hsm).
  pose proof Hok as [HK1 Hsz _ Hpad Hhdr Hal Hla Hia Hchunk Hblock Hfits].
  pose proof sizeof_ptr_pos as Hpp.
  unfold stride in *.
  assert (Hl' : range_live (heap s) page (page + page_bytes s - page))
    by (replace (page + page_bytes s - page) with (page_bytes s) by lia; exact Hl).
  assert (Hkk : (ObjectsPerPage_ (Config_ s) - 1) * (ObjectSize_ (OAStats_ s) + chunk_size_ s) >= 0)
    by nia.
  unfold SetSignatures. apply wp_get_bind.
  destruct (DebugOn_ (Config_ s)).
  - eapply within_step.
    { eapply within_step;
        [apply stamp_in_cond; [exact Hl' | exact Hal | lia | lia]|].
      intros p1 b1 Hp1. cbv beta in Hp1. simpl.
      eapply wp_mono;
        [apply stamp_in; [eapply range_live_live; [|exact Hl']; reflexivity | exact Hhdr | lia | lia]|].
      intros r s' Hr. destruct r as [p2 | | | ]; simpl in *; try contradiction.
      destruct Hr as (-> & Hr). split; [|exact Hr].
      instantiate (1 := fun p2 => page + sizeof_ptr + HeaderBlocks_ (Config_ s) <= p2
                                  <= page + sizeof_ptr + Alignment_ (Config_ s)
                                     + HeaderBlocks_ (Config_ s)).
      cbv beta. lia. }
    intros p2 b2 Hp2. cbv beta in Hp2. simpl.
    eapply within_step;
      [apply stamp_in; [eapply range_live_live; [|exact Hl']; reflexivity | exact Hpad | lia | lia]|].
    intros p3 b3 ->. simpl.
    apply SetSignatures_blocks_within.
    + apply (members_ok_same_setup _ _ Hok); repeat split.
    + simpl. lia.
    + lia.
    + eapply range_live_live; [|exact Hl']; reflexivity.
    + lia.
    + match goal with |- context [blocks_span ?x ?n] =>
        change (blocks_span x n) with (blocks_span s n) end.
      rewrite (blocks_span_page s HK1). lia.
  - eapply within_step;
      [apply stamp_in; [exact Hl' | exact Hhdr | lia | lia]|].
    intros p1 b1 ->. simpl.
    apply wp_ret_bind.
    apply SetSignatures_blocks_within.
    + apply (members_ok_same_setup _ _ Hok); repeat split.
    + simpl. lia.
    + lia.
    + eapply range_live_live; [|exact Hl']; reflexivity.
    + lia.
    + match goal with |- context [blocks_span ?x ?n] =>
        change (blocks_span x n) with (blocks_span s n) end.
      rewrite (blocks_span_page s HK1). lia.
Qed.

End Writes.

(** * The free list of a fresh page *)

Section Chain.
Context `{Platform}.

Lemma wp_conj {A} (m : M A) Q1 Q2 s :
  wp m Q1 s -> wp m Q2 s -> wp m (fun r s' => Q1 r s' /\ Q2 r s') s.
Proof. unfold wp; auto. Qed.

Lemma if_within {A} lo hi (c : bool) (m1 m2 : M A) s P :
  wp m1 (writes_within lo hi s P) s -> wp m2 (writes_within lo hi s P) s ->
  wp (if c then m1 else m2) (writes_within lo hi s P) s.
Proof. destruct c; auto. Qed.

Lemma payload_step s page i :
  payload s page (i + 1) = payload s page i + stride s.
Proof. unfold payload. ring. Qed.

Lemma payload_bounds s page i :
  members_ok sizeof_ptr s -> 0 <= i < ObjectsPerPage_ (Config_ s) ->
  page + sizeof_ptr <= payload s page i /\
  payload s page i + ObjectSize_ (OAStats_ s) + PadBytes_ (Config_ s)
  <= page + page_bytes s /\
  (HeaderBlocks_ (Config_ s) <> 0 ->
   page + sizeof_ptr <= payload s page i - PadBytes_ (Config_ s) - 1).
Proof.
  intros Hok Hi.
  destruct (page_bytes_range s Hok) as (Hpb & Hch & Hst & _ & _ & HK & Hsm).
  destruct Hok as [HK1 Hsz _ Hpad Hhdr Hal Hla Hia Hchunk Hblock Hfits].
  unfold payload, stride in *. rewrite Hpb.
  assert (0 <= i * (ObjectSize_ (OAStats_ s) + chunk_size_ s)) by nia.
  assert ((i + 1) * (ObjectSize_ (OAStats_ s) + chunk_size_ s)
          <= ObjectsPerPage_ (Config_ s) * (ObjectSize_ (OAStats_ s) + chunk_size_ s))
    by nia.
  repeat split; lia.
Qed.

Lemma payload_apart s page i j :
  members_ok sizeof_ptr s -> 0 <= i < j ->
  payload s page i + stride s <= payload s page j.
Proof.
  intros Hok Hij.
  destruct (page_bytes_range s Hok) as (_ & _ & Hst & _).
  unfold payload. nia.
Qed.

Lemma stride_room s :
  members_ok sizeof_ptr s ->
  sizeof_ptr <= stride s /\
  ObjectSize_ (OAStats_ s) + PadBytes_ (Config_ s) <= stride s /\
  (HeaderBlocks_ (Config_ s) <> 0 ->
   ObjectSize_ (OAStats_ s) + PadBytes_ (Config_ s) + 1 <= stride s).
Proof.
  intros [HK1 Hsz _ Hpad Hhdr Hal Hla Hia Hchunk Hblock Hfits].
  unfold stride. repeat split; lia.
Qed.

Lemma link_of_range s page i :
  members_ok sizeof_ptr s -> 0 < page -> page + page_bytes s <= ptr_limit ->
  0 <= i <= ObjectsPerPage_ (Config_ s) ->
  0 <= link_of s page i < ptr_limit.
Proof.
  intros Hok Hp Hlim Hi. unfold link_of.
  pose proof sizeof_ptr_pos.
  destruct (Z.eqb_spec i 0) as [-> | Hnz].
  - unfold ptr_limit. split; [lia|]. apply Z.pow_pos_nonneg; lia.
  - destruct (payload_bounds s page (i - 1) Hok) as (Hlo & Hhi & _); [lia|].
    pose proof (ok_size _ s Hok). pose proof (ok_pad _ s Hok). lia.
Qed.

(** A pointer kept by storage that only changed outside its bytes. *)
Lemma peek_ptr_outside lo hi s s' a :
  same_outside lo hi s s' -> a + sizeof_ptr <= lo \/ hi <= a ->
  peek_ptr (heap s') a = peek_ptr (heap s) a.
Proof.
  intros Ho Ha. apply peek_ptr_same. intros x Hx. apply Ho.
  pose proof sizeof_ptr_pos. lia.
Qed.

(** The free-list loop of [AllocatePage], entered at index [i] with the
    blocks up to [i] already threaded, threads the rest and leaves with
    [i = ObjectsPerPage_] as soon as the step budget allows that many
    iterations. *)
Lemma AllocatePage_loop_chain page fuel : forall i s,
  members_ok sizeof_ptr s ->
  PageSize_ (OAStats_ s) = page_bytes s ->
  range_live (heap s) page (page_bytes s) ->
  0 < page -> page + page_bytes s <= ptr_limit ->
  0 <= i <= ObjectsPerPage_ (Config_ s) ->
  (Z.to_nat (ObjectsPerPage_ (Config_ s) - i) < fuel)%nat ->
  chain s page (Z.min (i + 1) (ObjectsPerPage_ (Config_ s))) ->
  wp (AllocatePage_loop fuel i (i * ObjectSize_ (OAStats_ s))
        (payload s page (Z.min i (ObjectsPerPage_ (Config_ s) - 1))))
     (returns (fun i' s' =>
        i' = ObjectsPerPage_ (Config_ s) /\
        chain s' page (ObjectsPerPage_ (Config_ s)) /\
        same_outside page (page + page_bytes s) s s')) s.
Proof.
  induction fuel as [|fuel IH]; intros i s Hok Hps Hl Hp Hlim Hi Hfuel Hchain;
    [lia|].
  destruct (page_bytes_range s Hok) as (Hpb & Hch & Hst & Hlt & Hmod & HK & Hsm).
  pose proof Hok as [HK1 Hsz _ Hpad Hhdr Hal Hla Hia Hchunk Hblock Hfits].
  pose proof sizeof_ptr_pos as Hpp.
  set (K := ObjectsPerPage_ (Config_ s)) in *.
  cbn [AllocatePage_loop]. apply wp_get_bind. fold K.
  destruct (Z.ltb_spec i K) as [Hlt' | Hge].
  - cbn [orb].
    assert (Hu1 : u32 (K - 1) = K - 1) by (apply u32_small; lia).
    assert (Hu2 : u32 (ObjectSize_ (OAStats_ s) + chunk_size_ s) = stride s)
      by (apply u32_small; unfold stride in *; lia).
    assert (Hu3 : u32 (i + 1) = i + 1) by (apply u32_small; lia).
    assert (Hu4 : u32 (i * ObjectSize_ (OAStats_ s) + ObjectSize_ (OAStats_ s))
                  = (i + 1) * ObjectSize_ (OAStats_ s)).
    { rewrite u32_small by (unfold K in *; nia). ring. }
    rewrite Hu1, Hu2, Hu3, Hu4.
    rewrite (Z.min_l i (K - 1)) by lia.
    apply wp_bind.
    destruct (Z.ltb_spec i (K - 1)) as [Hlink | Hlast].
    + (* block [i + 1] is linked in front of block [i] *)
      rewrite (Z.min_l (i + 1) K) in Hchain by lia.
      destruct Hchain as [Hhead Hlinks].
      rewrite <- payload_step.
      destruct (payload_bounds s page (i + 1) Hok) as (Hlo1 & Hhi1 & _);
        [fold K; lia|].
      apply wp_bind. eapply wp_mono.
      { apply store_ptr_within.
        - eapply range_live_sub; [exact Hl | lia | lia].
        - rewrite Hhead. apply link_of_range; try assumption. fold K; lia. }
      intros r s1 Hr. destruct r as [[] | | | ]; simpl in Hr; try contradiction.
      destruct Hr as ([b1 ->] & Ho1 & Hpk1).
      cbv beta iota delta [wp_next].
      apply wp_modify_bind. apply wp_ret. cbv beta iota delta [wp_next].
      apply wp_modify_stats_bind.
      match goal with |- wp _ _ ?st => set (s2 := st) end.
      assert (Hc2 : chain s2 page (Z.min (i + 1 + 1) K)).
      { rewrite Z.min_l by lia. split.
        - unfold link_of. replace (i + 1 + 1 =? 0) with false
            by (symmetry; apply Z.eqb_neq; lia).
          replace (i + 1 + 1 - 1) with (i + 1) by lia. reflexivity.
        - intros j Hj. change (payload s2 page j) with (payload s page j).
          change (link_of s2 page j) with (link_of s page j).
          change (heap s2) with (mkHeap b1 (live (heap s))).
          destruct (Z.eq_dec j (i + 1)) as [-> | Hne].
          + simpl in Hpk1. rewrite Hpk1, Hhead. reflexivity.
          + rewrite <- (Hlinks j) by lia.
            apply (peek_ptr_outside _ _ s _ _ Ho1).
            left. pose proof (payload_apart s page j (i + 1) Hok).
            destruct (stride_room s Hok) as (Hr1 & _). lia. }
      eapply wp_mono.
      { replace ((i + 1) * ObjectSize_ (OAStats_ s))
          with ((i + 1) * ObjectSize_ (OAStats_ s2)) by reflexivity.
        replace (payload s page (i + 1))
          with (payload s2 page (Z.min (i + 1) (ObjectsPerPage_ (Config_ s2) - 1)))
          by (change (ObjectsPerPage_ (Config_ s2)) with K;
              rewrite Z.min_l by lia; reflexivity).
        apply IH.
        - apply (members_ok_same_setup _ _ Hok); repeat split.
        - exact Hps.
        - eapply range_live_live; [|exact Hl]; reflexivity.
        - exact Hp.
        - exact Hlim.
        - change (ObjectsPerPage_ (Config_ s2)) with K. lia.
        - change (ObjectsPerPage_ (Config_ s2)) with K. lia.
        - exact Hc2. }
      intros r s' Hr. destruct r as [i' | | | ]; simpl in Hr; try contradiction.
      destruct Hr as (Hi' & Hc' & Ho'). simpl.
      split; [exact Hi'|]. split; [exact Hc'|].
      intros a Ha. transitivity (bytes (heap s2) a); [apply Ho'; exact Ha|].
      apply Ho1. lia.
    + (* the last iteration links nothing *)
      assert (i = K - 1) by lia. subst i.
      apply wp_ret. cbv beta iota delta [wp_next].
      apply wp_modify_stats_bind.
      match goal with |- wp _ _ ?st => set (s2 := st) end.
      eapply wp_mono.
      { replace ((K - 1 + 1) * ObjectSize_ (OAStats_ s))
          with ((K - 1 + 1) * ObjectSize_ (OAStats_ s2)) by reflexivity.
        replace (payload s page (K - 1))
          with (payload s2 page (Z.min (K - 1 + 1) (ObjectsPerPage_ (Config_ s2) - 1)))
          by (change (ObjectsPerPage_ (Config_ s2)) with K;
              rewrite Z.min_r by lia; reflexivity).
        apply IH.
        - apply (members_ok_same_setup _ _ Hok); repeat split.
        - exact Hps.
        - exact Hl.
        - exact Hp.
        - exact Hlim.
        - change (ObjectsPerPage_ (Config_ s2)) with K. lia.
        - change (ObjectsPerPage_ (Config_ s2)) with K. lia.
        - change (ObjectsPerPage_ (Config_ s2)) with K.
          rewrite Z.min_r by lia. rewrite Z.min_r in Hchain by lia.
          exact Hchain. }
      intros r s' Hr. destruct r as [i' | | | ]; simpl in Hr; try contradiction.
      exact Hr.
  - assert (i = K) by lia. subst i.
    replace (PageSize_ (OAStats_ s) <=? K * ObjectSize_ (OAStats_ s)) with false
      by (symmetry; apply Z.leb_gt; rewrite Hps; unfold K; lia).
    cbn [orb]. apply wp_ret. simpl.
    split; [reflexivity|]. split; [|apply same_outside_refl].
    rewrite Z.min_r in Hchain by lia. exact Hchain.
Qed.

Lemma store_ptr_in lo hi a v s :
  range_live (heap s) lo (hi - lo) -> lo <= a -> a + sizeof_ptr <= hi ->
  wp (store_ptr a v) (writes_within lo hi s (fun _ => True)) s.
Proof.
  intros Hl Hlo Hhi. unfold store_ptr.
  destruct (store_bytes_spec (encode (Pos.to_nat ptr_bytes) v) a s)
    as (s' & E & Hb & _ & Ho).
  { rewrite encode_length, sizeof_ptr_nat.
    eapply range_live_sub; [exact Hl | lia | lia]. }
  rewrite encode_length, sizeof_ptr_nat in Ho.
  eapply wp_eq; [exact E|]. split; [exact I|]. split; [exact Hb|].
  eapply same_outside_weaken; [exact Ho | lia | lia].
Qed.

(** Given a buffer by the system, [AllocatePage] returns with the blocks
    of the new page as the free list, and has written inside the new page
    only. *)
Lemma AllocatePage_chain fuel sys s :
  members_ok sizeof_ptr s ->
  0 < sys -> sys + page_bytes s <= ptr_limit ->
  (Z.to_nat (ObjectsPerPage_ (Config_ s)) < fuel)%nat ->
  wp (AllocatePage fuel sys)
     (returns (fun _ s' =>
        chain s' sys (ObjectsPerPage_ (Config_ s)) /\
        (forall a, a < sys \/ sys + page_bytes s <= a ->
                   bytes (heap s') a = bytes (heap s) a))) s.
Proof.
  intros Hok Hsys1 Hsys2 Hfuel.
  destruct (page_bytes_range s Hok) as (Hpb & Hch & Hst & Hlt & Hmod & HK & Hsm).
  pose proof Hok as [HK1 Hsz _ Hpad Hhdr Hal Hla Hia Hchunk Hblock Hfits].
  pose proof sizeof_ptr_pos as Hpp.
  assert (Hps : u32 (ObjectsPerPage_ (Config_ s) * ObjectSize_ (OAStats_ s) + sizeof_ptr
                     + ObjectsPerPage_ (Config_ s) * chunk_size_ s) = page_bytes s).
  { apply u32_small. fold (page_bytes s). unfold page_bytes in *. nia. }
  assert (Hoff : u32 (chunk_size_ s - PadBytes_ (Config_ s))
                 = chunk_size_ s - PadBytes_ (Config_ s)).
  { apply u32_small. unfold stride in *. lia. }
  unfold AllocatePage. apply wp_get_bind.
  apply wp_modify_stats_bind. apply wp_modify_stats_bind. apply wp_get_bind.
  rewrite Hps.
  set (s1 := set_Stats _ _).
  apply wp_bind. unfold wp at 1. unfold new_nothrow.
  replace (PageSize_ (OAStats_ s1)) with (page_bytes s) by reflexivity.
  replace ((0 <? sys) && (sys + page_bytes s <=? ptr_limit)) with true.
  2: { symmetry. apply andb_true_intro. split; [apply Z.ltb_lt | apply Z.leb_le]; lia. }
  cbn [fst snd wp_next].
  replace (sys =? 0) with false by (symmetry; apply Z.eqb_neq; lia).
  set (s2 := set_heap _ s1).
  assert (Hok2 : members_ok sizeof_ptr s2) by (apply (members_ok_same_setup _ _ Hok); repeat split).
  assert (Hl2 : range_live (heap s2) sys (sys + page_bytes s - sys)).
  { replace (sys + page_bytes s - sys) with (page_bytes s) by lia.
    intros a Ha. apply (is_live_in _ sys (page_bytes s)); [left; reflexivity | exact Ha]. }
  assert (Hbytes2 : forall a, bytes (heap s2) a = bytes (heap s) a) by reflexivity.
  (* the four writing steps stay inside the page *)
  apply wp_bind. eapply wp_mono.
  { apply (SetSignatures_within sys s2 Hok2).
    replace (page_bytes s2) with (sys + page_bytes s - sys) by (unfold page_bytes; simpl; lia).
    exact Hl2. }
  change (page_bytes s2) with (page_bytes s).
  intros r s3 Hr. destruct r as [[] | | | ]; simpl in Hr; try contradiction.
  destruct Hr as (_ & [b3 ->] & Ho3). cbv beta iota delta [wp_next].
  apply wp_get_bind.
  match goal with |- wp _ _ ?st => set (s3 := st) in * end.
  apply wp_bind. eapply wp_mono.
  { apply (if_within sys (sys + page_bytes s));
      apply store_ptr_in;
      try (eapply range_live_live; [|exact Hl2]; reflexivity); lia. }
  intros r s4 Hr. destruct r as [[] | | | ]; simpl in Hr; try contradiction.
  destruct Hr as (_ & [b4 ->] & Ho4). cbv beta iota delta [wp_next].
  apply wp_modify_bind. apply wp_modify_bind.
  change (chunk_size_ s3) with (chunk_size_ s).
  change (Config_ s3) with (Config_ s). rewrite Hoff.
  replace (sys + sizeof_ptr + (chunk_size_ s - PadBytes_ (Config_ s)))
    with (payload s sys 0) by (unfold payload; ring).
  destruct (payload_bounds s sys 0 Hok) as (Hlo0 & Hhi0 & _); [lia|].
  apply wp_bind. eapply wp_mono.
  { apply store_ptr_within.
    - eapply range_live_live; [reflexivity|].
      eapply range_live_sub; [exact Hl2 | lia | lia].
    - unfold ptr_limit. split; [lia|]. apply Z.pow_pos_nonneg; lia. }
  intros r s5 Hr. destruct r as [[] | | | ]; simpl in Hr; try contradiction.
  destruct Hr as ([b5 ->] & Ho5 & Hpk5). cbv beta iota delta [wp_next].
  match goal with |- wp _ _ ?st => set (s5 := st) in * end.
  apply wp_bind. eapply wp_mono.
  { replace 0 with (0 * ObjectSize_ (OAStats_ s5)) at 2 by reflexivity.
    replace (payload s sys 0)
      with (payload s5 sys (Z.min 0 (ObjectsPerPage_ (Config_ s5) - 1)))
      by (change (ObjectsPerPage_ (Config_ s5)) with (ObjectsPerPage_ (Config_ s));
          rewrite Z.min_l by lia; reflexivity).
    apply (AllocatePage_loop_chain sys).
    - apply (members_ok_same_setup _ _ Hok); repeat split.
    - reflexivity.
    - eapply range_live_live; [reflexivity|].
      replace (page_bytes s5) with (sys + page_bytes s - sys)
        by (unfold page_bytes; simpl; lia). exact Hl2.
    - exact Hsys1.
    - exact Hsys2.
    - change (ObjectsPerPage_ (Config_ s5)) with (ObjectsPerPage_ (Config_ s)). lia.
    - change (ObjectsPerPage_ (Config_ s5)) with (ObjectsPerPage_ (Config_ s)).
      rewrite Z.sub_0_r. exact Hfuel.
    - change (ObjectsPerPage_ (Config_ s5)) with (ObjectsPerPage_ (Config_ s)).
      rewrite Z.min_l by lia. split.
      + reflexivity.
      + intros i Hi. assert (i = 0) by lia. subst i. exact Hpk5. }
  intros r s6 Hr. destruct r as [i' | | | ]; simpl in Hr; try contradiction.
  destruct Hr as (_ & Hc6 & Ho6). cbv beta iota delta [wp_next].
  apply wp_ret. simpl. split; [exact Hc6|].
  intros a Ha.
  transitivity (bytes (heap s5) a); [apply Ho6; exact Ha|].
  transitivity (b4 a); [apply Ho5; lia|].
  transitivity (b3 a); [apply Ho4; exact Ha|].
  apply Ho3. exact Ha.
Qed.

End Chain.

(** * Allocation from the pool *)

Section Pool.
Context `{Platform}.

Lemma when_within lo hi (c : bool) (m : M unit) s :
  (c = true -> wp m (writes_within lo hi s (fun _ => True)) s) ->
  wp (when c m) (writes_within lo hi s (fun _ => True)) s.
Proof.
  intros Hm. destruct c; [apply Hm; reflexivity|].
  apply writes_within_ret. exact I.
Qed.

Lemma store_byte_in lo hi a v s :
  range_live (heap s) lo (hi - lo) -> lo <= a < hi ->
  wp (store_byte a v) (writes_within lo hi s (fun _ => True)) s.
Proof.
  intros Hl Ha.
  eapply wp_eq; [apply store_byte_ok; apply Hl; lia|].
  split; [exact I|]. split; [apply only_bytes_poke|].
  intros x Hx. simpl. destruct (Z.eqb_spec x a); [lia | reflexivity].
Qed.

(** With a free block at hand [Allocate] needs no page: it returns the
    head of the free list and leaves the rest of the page's blocks as the
    free list. *)
Lemma Allocate_from_free_list fuel sys s page :
  pool s page ->
  1 <= FreeObjects_ (OAStats_ s) ->
  wp (Allocate fuel sys)
     (returns (fun p s' =>
        p = payload s page (FreeObjects_ (OAStats_ s) - 1) /\
        block_taken s s' /\ pool s' page)) s.
Proof.
  intros [Hok Hcpp Hpsz Hl [Hp Hlim] Hf [Hhead Hlinks]] Hf1.
  destruct (page_bytes_range s Hok) as (Hpb & Hch & Hst & Hlt & Hmod & HK & Hsm).
  pose proof Hok as [HK1 Hsz _ Hpad Hhdr Hal Hla Hia Hchunk Hblock Hfits].
  pose proof sizeof_ptr_pos as Hpp.
  set (F := FreeObjects_ (OAStats_ s)) in *.
  set (temp := payload s page (F - 1)).
  assert (Htemp : free_list_ s = temp).
  { rewrite Hhead. unfold link_of.
    replace (F =? 0) with false by (symmetry; apply Z.eqb_neq; lia). reflexivity. }
  destruct (payload_bounds s page (F - 1) Hok) as (Hlo & Hhi & Hhd); [lia|].
  fold temp in Hlo, Hhi, Hhd.
  destruct (stride_room s Hok) as (Hr1 & Hr2 & Hr3).
  assert (Hup : u32 (PadBytes_ (Config_ s) + 1) = PadBytes_ (Config_ s) + 1)
    by (apply u32_small; unfold stride in *; lia).
  unfold Allocate. apply wp_get_bind. rewrite Hcpp.
  replace (FreeObjects_ (OAStats_ s) =? 0) with false
    by (symmetry; apply Z.eqb_neq; fold F; lia).
  cbn [when]. apply wp_ret_bind. apply wp_get_bind.
  rewrite Htemp.
  eapply wp_bind_ok.
  { apply load_ptr_ok. eapply range_live_sub; [exact Hl | lia | lia]. }
  fold temp. replace (peek_ptr (heap s) temp) with (link_of s page (F - 1))
    by (symmetry; apply Hlinks; lia).
  apply wp_modify_bind.
  (* the window the two stamping steps write in *)
  set (lo := if HeaderBlocks_ (Config_ s) =? 0 then temp
             else temp - PadBytes_ (Config_ s) - 1).
  set (hi := temp + ObjectSize_ (OAStats_ s)).
  assert (Hwin : page <= lo /\ lo <= temp /\ hi <= page + page_bytes s).
  { unfold lo, hi. destruct (Z.eqb_spec (HeaderBlocks_ (Config_ s)) 0); lia. }
  assert (Hl' : range_live (heap s) lo (hi - lo))
    by (eapply range_live_sub; [exact Hl | lia | lia]).
  match goal with |- wp _ _ ?st => set (s1 := st) end.
  apply wp_bind. eapply wp_mono.
  { apply (when_within lo hi). intros _.
    eapply writes_within_bind.
    - apply fill_in;
        [eapply range_live_live; [|exact Hl']; reflexivity | lia |].
      change (ObjectSize_ (OAStats_ s1)) with (ObjectSize_ (OAStats_ s)).
      unfold hi. lia.
    - intros. apply writes_within_ret. exact I. }
  intros r s2 Hr. destruct r as [[] | | | ]; simpl in Hr; try contradiction.
  destruct Hr as (_ & [b2 ->] & Ho2). cbv beta iota delta [wp_next].
  match goal with |- wp _ _ ?st => set (s2 := st) in * end.
  apply wp_bind. eapply wp_mono.
  { apply (when_within lo hi). intros Hh.
    apply store_byte_in;
      [eapply range_live_live; [|exact Hl']; reflexivity|].
    change (Config_ s1) with (Config_ s). rewrite Hup.
    apply negb_true_iff, Z.eqb_neq in Hh.
    unfold lo, hi. destruct (Z.eqb_spec (HeaderBlocks_ (Config_ s)) 0); lia. }
  intros r s3 Hr. destruct r as [[] | | | ]; simpl in Hr; try contradiction.
  destruct Hr as (_ & [b3 ->] & Ho3). cbv beta iota delta [wp_next].
  match goal with |- wp _ _ ?st => set (s3 := st) in * end.
  apply wp_bind. unfold wp at 1.
  destruct (count_allocation_effect s3) as (Hbt & Hok' & Hfl & Hhp).
  rewrite Hok'. set (s4 := snd (count_allocation s3)) in *.
  cbv beta iota delta [wp_next]. apply wp_ret.
  assert (Hbt' : block_taken s s4).
  { destruct Hbt as (Hs & Hlv & Hpl & Hpu & Hps' & HF & HI & HA & HD).
    repeat split; try assumption; apply Hs. }
  assert (HF4 : FreeObjects_ (OAStats_ s4) = F - 1).
  { destruct Hbt' as (_ & _ & _ & _ & _ & HF & _). rewrite HF. fold F.
    apply u32_small. lia. }
  assert (Hs4 : same_setup s s4) by apply Hbt'.
  simpl. split; [reflexivity|]. split; [exact Hbt'|].
  assert (Hpb4 : page_bytes s4 = page_bytes s).
  { destruct Hs4 as (E1 & E2 & E3 & E4). unfold page_bytes. rewrite E1, E2, E4. reflexivity. }
  assert (Hpay : forall i, payload s4 page i = payload s page i).
  { intros i. destruct Hs4 as (E1 & E2 & E3 & E4).
    unfold payload, stride. rewrite E1, E2, E4. reflexivity. }
  constructor.
  - exact (members_ok_same_setup _ _ Hok Hs4).
  - destruct Hs4 as (E1 & _). rewrite E1. exact Hcpp.
  - rewrite Hpb4. destruct Hbt' as (_ & _ & _ & _ & Hps' & _). rewrite Hps'. exact Hpsz.
  - rewrite Hpb4. eapply range_live_live; [|exact Hl].
    destruct Hbt' as (_ & Hlv & _). exact Hlv.
  - rewrite Hpb4. split; assumption.
  - rewrite HF4. destruct Hs4 as (E1 & _). rewrite E1. lia.
  - rewrite HF4. split.
    + rewrite Hfl. change (free_list_ s3) with (link_of s page (F - 1)).
      unfold link_of. rewrite Hpay. reflexivity.
    + intros i Hi. unfold link_of. rewrite !Hpay, Hhp.
      transitivity (peek_ptr (heap s) (payload s page i)); [|apply Hlinks; lia].
      apply peek_ptr_same. intros x Hx.
      transitivity (bytes (heap s2) x).
      * apply Ho3. pose proof (payload_apart s page i (F - 1) Hok).
        fold temp in H0. unfold lo.
        destruct (Z.eqb_spec (HeaderBlocks_ (Config_ s)) 0); lia.
      * apply Ho2. pose proof (payload_apart s page i (F - 1) Hok).
        fold temp in H0. unfold lo.
        destruct (Z.eqb_spec (HeaderBlocks_ (Config_ s)) 0); lia.
Qed.

Lemma bind_get_eq {B} (k : ObjectAllocator -> M B) s : bind get k s = k s s.
Proof. reflexivity. Qed.

Lemma Allocate_after_page fuel sys s s1 :
  UseCPPMemManager_ (Config_ s) = false ->
  FreeObjects_ (OAStats_ s) = 0 ->
  PagesInUse_ (OAStats_ s) <> MaxPages_ (Config_ s) ->
  AllocatePage fuel sys s = (Ok tt, s1) ->
  UseCPPMemManager_ (Config_ s1) = false ->
  FreeObjects_ (OAStats_ s1) <> 0 ->
  Allocate fuel sys s = Allocate fuel sys s1.
Proof.
  intros Hcpp Hf Hmax E Hcpp1 Hf1.
  unfold Allocate. rewrite !bind_get_eq.
  rewrite Hcpp, Hcpp1, Hf.
  apply Z.eqb_neq in Hmax, Hf1. rewrite Hmax, Hf1.
  cbn [Z.eqb when]. unfold bind at 1. rewrite E.
  reflexivity.
Qed.

(** The page [AllocatePage] has just set up is a pool in working order. *)
Lemma AllocatePage_pool fuel sys s :
  members_ok sizeof_ptr s ->
  UseCPPMemManager_ (Config_ s) = false ->
  0 < sys -> sys + page_bytes s <= ptr_limit ->
  (Z.to_nat (ObjectsPerPage_ (Config_ s)) < fuel)%nat ->
  exists s1,
    AllocatePage fuel sys s = (Ok tt, s1) /\
    same_setup s s1 /\
    OAStats_ s1
    = page_counted (u32 (FreeObjects_ (OAStats_ s) + ObjectsPerPage_ (Config_ s))) s /\
    live (heap s1) = (sys, page_bytes s) :: live (heap s) /\
    page_list_ s1 = sys /\
    chain s1 sys (ObjectsPerPage_ (Config_ s)) /\
    (forall a, a < sys \/ sys + page_bytes s <= a ->
               bytes (heap s1) a = bytes (heap s) a).
Proof.
  intros Hok Hcpp Hsys1 Hsys2 Hfuel.
  pose proof (wp_conj _ _ _ _
                (AllocatePage_chain fuel sys s Hok Hsys1 Hsys2 Hfuel)
                (AllocatePage_members fuel sys s Hok)) as Hw.
  unfold wp in Hw.
  destruct (AllocatePage fuel sys s) as [r s1]. simpl in Hw.
  destruct Hw as [Hret (Hs1 & _ & _ & Hr)].
  destruct r as [[] | | | ]; simpl in Hret; try contradiction.
  destruct Hret as [Hc Hfr].
  destruct (Hr eq_refl) as (Hst & Hlv & Hpl & _).
  exists s1. repeat split; try assumption; apply Hs1 || apply Hc.
Qed.

Lemma pool_after_page sys s s1 :
  members_ok sizeof_ptr s ->
  UseCPPMemManager_ (Config_ s) = false ->
  FreeObjects_ (OAStats_ s) = 0 ->
  0 < sys -> sys + page_bytes s <= ptr_limit ->
  same_setup s s1 ->
  OAStats_ s1
  = page_counted (u32 (FreeObjects_ (OAStats_ s) + ObjectsPerPage_ (Config_ s))) s ->
  live (heap s1) = (sys, page_bytes s) :: live (heap s) ->
  chain s1 sys (ObjectsPerPage_ (Config_ s)) ->
  pool s1 sys /\ FreeObjects_ (OAStats_ s1) = ObjectsPerPage_ (Config_ s).
Proof.
  intros Hok Hcpp Hf Hsys1 Hsys2 Hs1 Hst Hlv Hc.
  destruct (page_bytes_range s Hok) as (_ & _ & _ & _ & _ & HK & _).
  pose proof (ok_objects _ s Hok) as HK1.
  assert (HF1 : FreeObjects_ (OAStats_ s1) = ObjectsPerPage_ (Config_ s)).
  { rewrite Hst, Hf. simpl. apply u32_small. lia. }
  assert (Hpb : page_bytes s1 = page_bytes s).
  { destruct Hs1 as (E1 & E2 & E3 & E4). unfold page_bytes. rewrite E1, E2, E4. reflexivity. }
  split; [|exact HF1].
  constructor.
  - exact (members_ok_same_setup _ _ Hok Hs1).
  - destruct Hs1 as (E1 & _). rewrite E1. exact Hcpp.
  - rewrite Hpb, Hst. reflexivity.
  - rewrite Hpb. intros a Ha.
    apply (is_live_in _ sys (page_bytes s)); [rewrite Hlv; left; reflexivity | exact Ha].
  - rewrite Hpb. split; assumption.
  - rewrite HF1. destruct Hs1 as (E1 & _). rewrite E1. lia.
  - rewrite HF1. exact Hc.
Qed.

(** With no free block and room for a page, [Allocate] takes the buffer the
    system gives, threads it, and returns its last block. *)
Lemma Allocate_from_new_page fuel sys s :
  members_ok sizeof_ptr s ->
  UseCPPMemManager_ (Config_ s) = false ->
  FreeObjects_ (OAStats_ s) = 0 ->
  PagesInUse_ (OAStats_ s) <> MaxPages_ (Config_ s) ->
  0 < sys -> sys + page_bytes s <= ptr_limit ->
  (Z.to_nat (ObjectsPerPage_ (Config_ s)) < fuel)%nat ->
  wp (Allocate fuel sys)
     (returns (fun p s' =>
        p = payload s sys (ObjectsPerPage_ (Config_ s) - 1) /\
        pool s' sys /\ same_setup s s' /\
        FreeObjects_ (OAStats_ s') = ObjectsPerPage_ (Config_ s) - 1 /\
        PagesInUse_ (OAStats_ s') = u32 (PagesInUse_ (OAStats_ s) + 1))) s.
Proof.
  intros Hok Hcpp Hf Hmax Hsys1 Hsys2 Hfuel.
  destruct (AllocatePage_pool fuel sys s Hok Hcpp Hsys1 Hsys2 Hfuel)
    as (s1 & E & Hs1 & Hst & Hlv & Hpl & Hc & Hfr).
  destruct (pool_after_page sys s s1 Hok Hcpp Hf Hsys1 Hsys2 Hs1 Hst Hlv Hc)
    as [Hpool HF1].
  pose proof (ok_objects _ s Hok) as HK1.
  destruct (page_bytes_range s Hok) as (_ & _ & _ & _ & _ & HK & _).
  unfold wp.
  rewrite (Allocate_after_page fuel sys s s1 Hcpp Hf Hmax E
             (pool_on _ _ Hpool)) by lia.
  pose proof (Allocate_from_free_list fuel sys s1 sys Hpool) as Hw.
  unfold wp in Hw. specialize (Hw ltac:(lia)).
  destruct (Allocate fuel sys s1) as [r s']. simpl in *.
  destruct r as [p | | | ]; simpl in *; try contradiction.
  destruct Hw as (Hp & Hbt & Hpool').
  destruct Hbt as (Hs' & _ & _ & Hpu & _ & HF & _).
  assert (Hpay : payload s1 sys (FreeObjects_ (OAStats_ s1) - 1)
                 = payload s sys (ObjectsPerPage_ (Config_ s) - 1)).
  { rewrite HF1. destruct Hs1 as (E1 & E2 & E3 & E4).
    unfold payload, stride. rewrite E1, E2, E4. reflexivity. }
  split; [rewrite Hp; exact Hpay|]. split; [exact Hpool'|].
  split; [exact (same_setup_trans _ _ _ Hs1 Hs')|].
  split.
  - rewrite HF, HF1. apply u32_small. lia.
  - rewrite Hpu, Hst. reflexivity.
Qed.

(** The constructor, given a buffer by the system, returns with the pool in
    working order. *)
Lemma ctor_pool fuel ObjectSize config sys h :
  wf_config sizeof_ptr ObjectSize config ->
  UseCPPMemManager_ config = false ->
  0 < sys ->
  sys + (ObjectsPerPage_ config * ObjectSize + sizeof_ptr
         + ObjectsPerPage_ config
           * (PadBytes_ config * 2 + HeaderBlocks_ config + Alignment_ config))
  <= ptr_limit ->
  (Z.to_nat (ObjectsPerPage_ config) < fuel)%nat ->
  exists s,
    ObjectAllocator_ctor fuel ObjectSize config sys (unconstructed h) = (Ok tt, s) /\
    constructed sizeof_ptr ObjectSize config sys h s /\ pool s sys.
Proof.
  intros Hwf Hcpp Hsys1 Hsys2 Hfuel.
  pose proof (ctor_members fuel ObjectSize config sys h Hwf Hcpp) as Hm.
  assert (Hw : wp (ObjectAllocator_ctor fuel ObjectSize config sys)
                  (returns (fun _ s => pool s sys)) (unconstructed h)).
  { destruct Hwf.
    destruct config as [cpp K P dbg pad hdr al la ia]. simpl in *. subst cpp.
    pose proof sizeof_ptr_pos as Hpp.
    assert (Hchunk : u32 (pad * 2 + hdr + al) = pad * 2 + hdr + al).
    { apply u32_small. nia. }
    assert (Hblock : u32 (ObjectSize + (pad * 2 + hdr + al))
                     = ObjectSize + (pad * 2 + hdr + al)).
    { apply u32_small. nia. }
    unfold ObjectAllocator_ctor.
    apply wp_modify_stats_bind.
    do 5 apply wp_modify_bind. apply wp_get_bind.
    simpl. rewrite Hchunk, Hblock.
    match goal with |- wp _ _ ?st => set (s0 := st) end.
    assert (Hok0 : members_ok sizeof_ptr s0) by (constructor; simpl; try lia; try reflexivity).
    destruct (AllocatePage_pool fuel sys s0 Hok0 eq_refl Hsys1)
      as (s1 & E & Hs1 & Hst & Hlv & Hpl & Hc & Hfr); [exact Hsys2 | exact Hfuel |].
    eapply wp_bind_ok; [exact E|]. apply wp_modify.
    destruct (pool_after_page sys s0 s1 Hok0 eq_refl eq_refl Hsys1 Hsys2 Hs1 Hst Hlv Hc)
      as [[Hok1 Hcpp1 Hps1 Hl1 Hpg1 Hf1 Hc1] HF1].
    simpl. destruct Hok1. constructor; try assumption.
    constructor; simpl; try assumption; lia. }
  pose proof (wp_conj _ _ _ _ Hw Hm) as Hboth. unfold wp in Hboth.
  destruct (ObjectAllocator_ctor fuel ObjectSize config sys (unconstructed h))
    as [r s]. simpl in Hboth. destruct Hboth as [Hret [_ Hctd]].
  destruct r as [[] | | | ]; simpl in Hret; try contradiction.
  exists s. split; [reflexivity|]. split; [apply Hctd; reflexivity | exact Hret].
Qed.

End Pool.

(** * Capacity *)

Section Capacity.
Context `{Platform}.

Lemma page_bytes_same_setup s s' : same_setup s s' -> page_bytes s' = page_bytes s.
Proof.
  intros (E1 & E2 & E3 & E4). unfold page_bytes. rewrite E1, E2, E4. reflexivity.
Qed.

Lemma serving_Allocate fuel sys s handed :
  serving s handed ->
  handed < MaxPages_ (Config_ s) * ObjectsPerPage_ (Config_ s) ->
  valid_grant (page_bytes s) sys ->
  (Z.to_nat (ObjectsPerPage_ (Config_ s)) < fuel)%nat ->
  exists p s',
    Allocate fuel sys s = (Ok p, s') /\ serving s' (handed + 1) /\ same_setup s s'.
Proof.
  intros (page & Hpool & Hpages & Hh) Hlt [Hsys1 Hsys2] Hfuel.
  pose proof (pool_members _ _ Hpool) as Hok.
  pose proof (pool_free _ _ Hpool) as Hf.
  pose proof (ok_objects _ s Hok) as HK1.
  pose proof (ok_max _ s Hok) as HP.
  destruct (Z.eq_dec (FreeObjects_ (OAStats_ s)) 0) as [Hz | Hnz].
  - assert (Hmax : PagesInUse_ (OAStats_ s) <> MaxPages_ (Config_ s))
      by (clear - Hh Hlt Hz; intros Eq; rewrite Eq, Hz in Hh; lia).
    destruct (returns_inv _ _ _
                (Allocate_from_new_page fuel sys s Hok (pool_on _ _ Hpool)
                   Hz Hmax Hsys1 Hsys2 Hfuel))
      as (p & s' & E & _ & Hpool' & Hs' & HF & HP').
    exists p, s'. split; [exact E|]. split; [|exact Hs'].
    exists sys. split; [exact Hpool'|].
    destruct Hs' as (E1 & _). rewrite E1, HF, HP'.
    rewrite u32_small by (clear - Hpages HP Hmax; lia). split; [lia | nia].
  - destruct (returns_inv _ _ _
                (Allocate_from_free_list fuel sys s page Hpool ltac:(lia)))
      as (p & s' & E & _ & Hbt & Hpool').
    exists p, s'. split; [exact E|].
    destruct Hbt as (Hs' & _ & _ & Hpu & _ & HF & _).
    split; [|exact Hs'].
    exists page. split; [exact Hpool'|].
    destruct Hs' as (E1 & _). rewrite E1, HF, Hpu.
    rewrite u32_small by (clear - Hf Hnz HK1 Hok; pose proof (page_bytes_range s Hok); lia).
    split; [lia | nia].
Qed.

Lemma serving_full fuel sys s :
  serving s (MaxPages_ (Config_ s) * ObjectsPerPage_ (Config_ s)) ->
  Allocate fuel sys s = (Throw E_NO_PAGES, s).
Proof.
  intros (page & Hpool & Hpages & Hh).
  pose proof (pool_members _ _ Hpool) as Hok.
  pose proof (pool_free _ _ Hpool) as Hf.
  pose proof (ok_objects _ s Hok) as HK1.
  assert (Hz : FreeObjects_ (OAStats_ s) = 0) by nia.
  assert (Hmax : PagesInUse_ (OAStats_ s) = MaxPages_ (Config_ s)) by nia.
  unfold Allocate. rewrite bind_get_eq, (pool_on _ _ Hpool).
  unfold bind. rewrite Hz, Hmax, !Z.eqb_refl. reflexivity.
Qed.

Lemma serving_many fuel grants : forall s handed,
  serving s handed ->
  handed + Z.of_nat (length grants)
  <= MaxPages_ (Config_ s) * ObjectsPerPage_ (Config_ s) ->
  Forall (valid_grant (page_bytes s)) grants ->
  (Z.to_nat (ObjectsPerPage_ (Config_ s)) < fuel)%nat ->
  exists ps s',
    allocate_many fuel grants s = (Ok ps, s') /\
    length ps = length grants /\
    serving s' (handed + Z.of_nat (length grants)) /\ same_setup s s'.
Proof.
  induction grants as [|g grants IH]; intros s handed Hsrv Hle Hg Hfuel.
  - exists [], s. simpl. rewrite Z.add_0_r.
    repeat split; assumption.
  - inversion Hg as [|? ? Hg1 Hg2]; subst.
    simpl length in *. rewrite Nat2Z.inj_succ in *.
    destruct (serving_Allocate fuel g s handed Hsrv ltac:(lia) Hg1 Hfuel)
      as (p & s1 & E1 & Hsrv1 & Hs1).
    pose proof Hs1 as (Ec & _).
    destruct (IH s1 (handed + 1) Hsrv1) as (ps & s' & E & Hlen & Hsrv' & Hs').
    + rewrite Ec. lia.
    + rewrite (page_bytes_same_setup _ _ Hs1). exact Hg2.
    + rewrite Ec. exact Hfuel.
    + exists (p :: ps), s'. split; [|split; [|split]].
      * simpl. unfold bind. rewrite E1, E. reflexivity.
      * simpl. rewrite Hlen. reflexivity.
      * replace (handed + Z.succ (Z.of_nat (length grants)))
          with (handed + 1 + Z.of_nat (length grants)) by lia. exact Hsrv'.
      * exact (same_setup_trans _ _ _ Hs1 Hs').
Qed.

End Capacity.

(** * Page creation *)

Section PageCreation.
Context `{Platform}.

Lemma blocks_down_length s page n : length (blocks_down s page n) = n.
Proof. induction n; simpl; congruence. Qed.

Lemma chain_free_list s page n :
  members_ok sizeof_ptr s -> 0 < page ->
  (Z.of_nat n <= ObjectsPerPage_ (Config_ s)) ->
  (forall i, 0 <= i < Z.of_nat n ->
     peek_ptr (heap s) (payload s page i) = link_of s page i) ->
  free_list_from (heap s) n (link_of s page (Z.of_nat n))
  = Some (blocks_down s page n).
Proof.
  intros Hok Hp. induction n as [|n IH]; intros Hn Hlinks.
  - reflexivity.
  - pose proof sizeof_ptr_pos.
    destruct (payload_bounds s page (Z.of_nat n) Hok) as (Hlo & _); [lia|].
    unfold link_of at 1.
    replace (Z.of_nat (S n) =? 0) with false by (symmetry; apply Z.eqb_neq; lia).
    replace (Z.of_nat (S n) - 1) with (Z.of_nat n) by lia.
    cbn [free_list_from blocks_down].
    replace (payload s page (Z.of_nat n) =? 0) with false
      by (symmetry; apply Z.eqb_neq; lia).
    rewrite Hlinks by lia. rewrite IH; [reflexivity | lia |].
    intros i Hi. apply Hlinks. lia.
Qed.

(** Entered as [AllocatePage] enters it on a page buffer it owns, the loop
    completes and leaves the blocks of the page as the free list. *)
Lemma AllocatePage_loop_complete fuel s page :
  members_ok sizeof_ptr s ->
  PageSize_ (OAStats_ s) = page_bytes s ->
  range_live (heap s) page (page_bytes s) ->
  valid_grant (page_bytes s) page ->
  free_list_ s = payload s page 0 ->
  peek_ptr (heap s) (payload s page 0) = 0 ->
  FreeObjects_ (OAStats_ s) + ObjectsPerPage_ (Config_ s) < UINT_MOD ->
  0 <= FreeObjects_ (OAStats_ s) ->
  (Z.to_nat (ObjectsPerPage_ (Config_ s)) < fuel)%nat ->
  exists s',
    AllocatePage_loop fuel 0 0 (payload s page 0) s
    = (Ok (ObjectsPerPage_ (Config_ s)), s') /\
    FreeObjects_ (OAStats_ s')
    = FreeObjects_ (OAStats_ s) + ObjectsPerPage_ (Config_ s) /\
    free_list_from (heap s') (Z.to_nat (ObjectsPerPage_ (Config_ s))) (free_list_ s')
    = Some (blocks_down s page (Z.to_nat (ObjectsPerPage_ (Config_ s)))) /\
    length (blocks_down s page (Z.to_nat (ObjectsPerPage_ (Config_ s))))
    = Z.to_nat (ObjectsPerPage_ (Config_ s)) /\
    same_setup s s' /\ same_stats_but_free s s'.
Proof.
  intros Hok Hps Hl [Hp Hlim] Hfl Hpk HF HF0 Hfuel.
  pose proof (ok_objects _ s Hok) as HK1.
  pose proof (AllocatePage_loop_chain page fuel 0 s Hok Hps Hl Hp Hlim) as Hc.
  rewrite Z.min_l in Hc by lia. rewrite Z.sub_0_r, Z.mul_0_l in Hc.
  rewrite Z.min_l in Hc by lia.
  specialize (Hc ltac:(lia) Hfuel).
  assert (Hc0 : chain s page (0 + 1)).
  { split; [exact Hfl|]. intros i Hi. assert (i = 0) by lia. subst i. exact Hpk. }
  specialize (Hc Hc0).
  pose proof (AllocatePage_loop_members fuel 0 0 (payload s page 0) s Hok Hps) as Hm.
  specialize (Hm ltac:(lia) ltac:(lia) ltac:(lia)).
  pose proof (wp_conj _ _ _ _ Hc Hm) as Hw. unfold wp in Hw.
  destruct (AllocatePage_loop fuel 0 0 (payload s page 0) s) as [r s'].
  cbn [fst snd] in Hw. destruct Hw as [Hret (Hs' & Hsf & _ & _ & _ & Hr)].
  destruct r as [i' | | | ]; simpl in Hret; try contradiction.
  destruct Hret as (-> & [Hhead Hlinks] & _).
  destruct (Hr _ eq_refl) as [_ HF'].
  exists s'. split; [reflexivity|].
  split; [rewrite HF', Z.sub_0_r; apply u32_small; lia|].
  split; [|split; [apply blocks_down_length | split; assumption]].
  assert (Hpay : forall i, payload s' page i = payload s page i).
  { intros i. destruct Hs' as (E1 & E2 & E3 & E4).
    unfold payload, stride. rewrite E1, E2, E4. reflexivity. }
  assert (Hbd : forall n, blocks_down s' page n = blocks_down s page n).
  { induction n; simpl; [reflexivity | rewrite Hpay; congruence]. }
  rewrite <- Hbd, Hhead.
  pose proof (chain_free_list s' page (Z.to_nat (ObjectsPerPage_ (Config_ s)))
                (members_ok_same_setup _ _ Hok Hs') Hp) as Hfl'.
  rewrite Z2Nat.id in Hfl' by lia. apply Hfl'.
  - destruct Hs' as (E1 & _). rewrite E1. lia.
  - exact Hlinks.
Qed.

(** C7.  For a configuration with at least one object per page, objects
    that hold the link word of the free list and a page size that fits an
    [unsigned]: the free-list loop of [AllocatePage], entered as
    [AllocatePage] enters it on the buffer of the new page (loop variable
    and byte count at zero, the first block alone on the free list),
    completes within any budget of more than [ObjectsPerPage_] steps; its
    loop variable, which counts the iterations, is then exactly
    [ObjectsPerPage_], the free-object count has grown by
    [ObjectsPerPage_], and the free list is the [ObjectsPerPage_] blocks of
    the new page and nothing else. *)
Theorem C7_page_population_loop fuel s page :
  members_ok sizeof_ptr s ->
  PageSize_ (OAStats_ s) = page_bytes s ->
  range_live (heap s) page (page_bytes s) ->
  valid_grant (page_bytes s) page ->
  free_list_ s = payload s page 0 ->
  peek_ptr (heap s) (payload s page 0) = 0 ->
  0 <= FreeObjects_ (OAStats_ s) ->
  FreeObjects_ (OAStats_ s) + ObjectsPerPage_ (Config_ s) < UINT_MOD ->
  (Z.to_nat (ObjectsPerPage_ (Config_ s)) < fuel)%nat ->
  exists s',
    AllocatePage_loop fuel 0 0 (payload s page 0) s
    = (Ok (ObjectsPerPage_ (Config_ s)), s') /\
    FreeObjects_ (OAStats_ s')
    = FreeObjects_ (OAStats_ s) + ObjectsPerPage_ (Config_ s) /\
    free_list_from (heap s') (Z.to_nat (ObjectsPerPage_ (Config_ s))) (free_list_ s')
    = Some (blocks_down s page (Z.to_nat (ObjectsPerPage_ (Config_ s)))) /\
    length (blocks_down s page (Z.to_nat (ObjectsPerPage_ (Config_ s))))
    = Z.to_nat (ObjectsPerPage_ (Config_ s)) /\
    same_setup s s' /\ same_stats_but_free s s'.
Proof.
  intros Hok Hps Hl Hg Hfl Hpk HF0 HF Hfuel.
  exact (AllocatePage_loop_complete fuel s page Hok Hps Hl Hg Hfl Hpk HF HF0 Hfuel).
Qed.

(** C9.  For a configuration with at least one object per page, objects of
    at least one byte and a page size that fits an [unsigned]: with
    pass-through disabled the constructor creates the first page itself.
    Whenever it returns, one page is counted, the page list is not empty,
    the free-object count is [ObjectsPerPage_] and the buffer of the page
    is owned.  And it does return, with the blocks of that page as the free
    list, whenever the system allocator gives it the buffer and the objects
    hold a link word. *)
Theorem C9_eager_first_page fuel ObjectSize config sys h :
  wf_config 1 ObjectSize config ->
  UseCPPMemManager_ config = false ->
  (forall s,
     ObjectAllocator_ctor fuel ObjectSize config sys (unconstructed h) = (Ok tt, s) ->
     PagesInUse_ (OAStats_ s) = 1 /\
     page_list_ s <> 0 /\
     FreeObjects_ (OAStats_ s) = ObjectsPerPage_ config /\
     live (heap s) = (page_list_ s, config_page_bytes ObjectSize config) :: live h) /\
  (sizeof_ptr <= ObjectSize ->
   valid_grant (config_page_bytes ObjectSize config) sys ->
   (Z.to_nat (ObjectsPerPage_ config) < fuel)%nat ->
   exists s,
     ObjectAllocator_ctor fuel ObjectSize config sys (unconstructed h) = (Ok tt, s) /\
     free_list_from (heap s) (Z.to_nat (ObjectsPerPage_ config)) (free_list_ s)
     = Some (blocks_down s (page_list_ s) (Z.to_nat (ObjectsPerPage_ config)))).
Proof.
  intros Hwf Hcpp. split.
  - intros s E.
    pose proof (ctor_members fuel ObjectSize config sys h Hwf Hcpp) as Hm.
    apply (wp_inv _ _ _ _ _ Hm) in E. destruct E as [_ Hctd].
    specialize (Hctd eq_refl).
    assert (Hpb : page_bytes s = config_page_bytes ObjectSize config).
    { unfold page_bytes, config_page_bytes.
      rewrite (ctd_objects _ _ _ _ _ _ Hctd), (ctd_size _ _ _ _ _ _ Hctd).
      rewrite (ok_chunk _ _ (ctd_members _ _ _ _ _ _ Hctd)).
      rewrite (ctd_pad _ _ _ _ _ _ Hctd), (ctd_header _ _ _ _ _ _ Hctd),
        (ctd_align _ _ _ _ _ _ Hctd). reflexivity. }
    split; [exact (ctd_pages _ _ _ _ _ _ Hctd)|].
    split; [rewrite (ctd_page_list _ _ _ _ _ _ Hctd);
            pose proof (ctd_sys _ _ _ _ _ _ Hctd); lia|].
    split; [exact (ctd_free _ _ _ _ _ _ Hctd)|].
    rewrite (ctd_live _ _ _ _ _ _ Hctd), (ctd_page_list _ _ _ _ _ _ Hctd), Hpb.
    reflexivity.
  - intros Hsz [Hs1 Hs2] Hfuel.
    pose proof sizeof_ptr_pos as Hpp.
    destruct (ctor_pool fuel ObjectSize config sys h
                (wf_config_size sizeof_ptr _ _ Hwf (conj Hpp Hsz)) Hcpp Hs1 Hs2 Hfuel)
      as (s & E & Hctd & Hpool).
    exists s. split; [exact E|].
    destruct (pool_chain _ _ Hpool) as [Hhead Hlinks].
    rewrite (ctd_free _ _ _ _ _ _ Hctd) in Hhead, Hlinks.
    rewrite (ctd_page_list _ _ _ _ _ _ Hctd), Hhead.
    pose proof (wf_objects _ _ _ Hwf) as HK1.
    pose proof (chain_free_list s sys (Z.to_nat (ObjectsPerPage_ config))
                  (pool_members _ _ Hpool) Hs1) as Hfl.
    rewrite Z2Nat.id in Hfl by lia. apply Hfl.
    + rewrite (ctd_objects _ _ _ _ _ _ Hctd). lia.
    + exact Hlinks.
Qed.

End PageCreation.

(** * The signatures of a new page *)

Section Signatures.
Context `{Platform}.

Lemma in_range p q a : p <= a < q -> (p <=? a) && (a <? q) = true.
Proof. intros Ha. zbool. Qed.

Lemma off_range p q a : a < p \/ q <= a -> (p <=? a) && (a <? q) = false.
Proof. intros Ha. zbool. Qed.

Ltac range_cases :=
  repeat match goal with
         | |- context [(?p <=? ?a) && (?a <? ?q)] =>
           first [ rewrite (in_range p q a) by lia | rewrite (off_range p q a) by lia ]
         end.

(** ** With debug mode off: zeroes, and only for headers *)

Lemma zeroed_refl hb s : zeroed hb s s.
Proof. split; [apply only_bytes_refl | intros a; left; reflexivity]. Qed.

Lemma zeroed_trans hb s1 s2 s3 : zeroed hb s1 s2 -> zeroed hb s2 s3 -> zeroed hb s1 s3.
Proof.
  intros [Hb1 Hz1] [Hb2 Hz2]. split; [eapply only_bytes_trans; eassumption|].
  intros a. destruct (Hz2 a) as [E2 | E2]; [|right; exact E2].
  rewrite E2. apply Hz1.
Qed.

Lemma zeroed_bind {A B} hb (m : M A) (k : A -> M B) s :
  wp m (fun _ s' => zeroed hb s s') s ->
  (forall a s', zeroed hb s s' -> wp (k a) (fun _ s'' => zeroed hb s' s'') s') ->
  wp (bind m k) (fun _ s'' => zeroed hb s s'') s.
Proof.
  intros Hm Hk. apply wp_bind. eapply wp_mono; [exact Hm|].
  intros r s' Hz. destruct r as [a | e | | ]; simpl; try exact Hz.
  eapply wp_mono; [apply Hk; exact Hz|].
  intros r' s'' Hz'. eapply zeroed_trans; eassumption.
Qed.

Lemma store_byte_zeroed hb a s :
  hb <> 0 -> wp (store_byte a 0) (fun _ s' => zeroed hb s s') s.
Proof.
  intros Hhb. unfold wp, store_byte. destruct (is_live (heap s) a); simpl.
  - split; [apply only_bytes_poke|]. intros x. simpl.
    destruct (Z.eqb_spec x a); [right; split; [exact Hhb | reflexivity] | left; reflexivity].
  - apply zeroed_refl.
Qed.

Lemma fill_zeroed hb n : forall p s,
  hb <> 0 -> wp (fill n p 0) (fun _ s' => zeroed hb s s') s.
Proof.
  induction n as [|n IH]; intros p s Hhb; simpl.
  - apply wp_ret, zeroed_refl.
  - apply zeroed_bind; [apply store_byte_zeroed; exact Hhb|].
    intros _ s' _. apply IH. exact Hhb.
Qed.

Lemma stamp_zeroed hb p s : wp (stamp hb hb 0 p) (fun _ s' => zeroed hb s s') s.
Proof.
  unfold stamp. destruct (Z.eqb_spec hb 0) as [E | Hhb].
  - apply wp_ret, zeroed_refl.
  - apply fill_zeroed. exact Hhb.
Qed.

Lemma SetSignatures_blocks_zeroed n : forall i p s,
  DebugOn_ (Config_ s) = false ->
  wp (SetSignatures_blocks n i p)
     (fun _ s' => zeroed (HeaderBlocks_ (Config_ s)) s s') s.
Proof.
  induction n as [|n IH]; intros i p s Hd; cbn [SetSignatures_blocks].
  - apply wp_ret, zeroed_refl.
  - apply wp_get_bind. rewrite Hd.
    destruct (i =? u32 (ObjectsPerPage_ (Config_ s) - 1)); [apply wp_ret, zeroed_refl|].
    apply zeroed_bind; [apply stamp_zeroed|].
    intros p' s' [Hb Hz].
    pose proof (only_bytes_fields _ _ Hb) as (Ec & _).
    rewrite <- Ec. apply IH. rewrite Ec. exact Hd.
Qed.

Lemma SetSignatures_zeroed page s :
  DebugOn_ (Config_ s) = false ->
  wp (SetSignatures page) (fun _ s' => zeroed (HeaderBlocks_ (Config_ s)) s s') s.
Proof.
  intros Hd. unfold SetSignatures. apply wp_get_bind. rewrite Hd.
  apply zeroed_bind; [apply stamp_zeroed|].
  intros p1 s1 [Hb1 Hz1]. apply wp_ret_bind.
  pose proof (only_bytes_fields _ _ Hb1) as (Ec & _).
  rewrite <- Ec. apply SetSignatures_blocks_zeroed. rewrite Ec. exact Hd.
Qed.

(** ** Exact stamping *)

Lemma stamp_exact n v p s :
  range_live (heap s) p n -> 0 <= n ->
  wp (stamp n n v p)
     (returns (fun p' s' =>
        exists b, s' = set_heap (mkHeap b (live (heap s))) s /\ p' = p + n /\
          forall a, b a = if (p <=? a) && (a <? p + n) then v else bytes (heap s) a)) s.
Proof.
  intros Hl Hn. unfold stamp. destruct (Z.eqb_spec n 0) as [-> | Hnz].
  - apply wp_ret. exists (bytes (heap s)). split; [|split].
    + destruct s as [? ? ? ? ? ? []]; reflexivity.
    + lia.
    + intros a. rewrite off_range by lia. reflexivity.
  - destruct (fill_spec (Z.to_nat n) p v s) as (s' & E & [b ->] & Hv).
    { rewrite Z2Nat.id by lia. exact Hl. }
    eapply wp_eq; [exact E|]. exists b. rewrite Z2Nat.id in * by lia.
    split; [reflexivity|]. split; [reflexivity|]. exact Hv.
Qed.

Lemma fill_exact n v p s :
  range_live (heap s) p n -> 0 <= n ->
  wp (fill (Z.to_nat n) p v)
     (returns (fun p' s' =>
        exists b, s' = set_heap (mkHeap b (live (heap s))) s /\ p' = p + n /\
          forall a, b a = if (p <=? a) && (a <? p + n) then v else bytes (heap s) a)) s.
Proof.
  intros Hl Hn.
  destruct (fill_spec (Z.to_nat n) p v s) as (s' & E & [b ->] & Hv).
  { rewrite Z2Nat.id by lia. exact Hl. }
  eapply wp_eq; [exact E|]. exists b. rewrite Z2Nat.id in * by lia.
  split; [reflexivity|]. split; [reflexivity|]. exact Hv.
Qed.

(** One exact step, then the rest from the state it leaves. *)
Lemma exact_step {A B} (m : M A) (k : A -> M B) s (P : A -> (Z -> Z) -> Prop) Q :
  wp m (returns (fun a s' =>
          exists b, s' = set_heap (mkHeap b (live (heap s))) s /\ P a b)) s ->
  (forall a b, P a b -> wp (k a) Q (set_heap (mkHeap b (live (heap s))) s)) ->
  wp (bind m k) Q s.
Proof.
  intros Hm Hk. apply wp_bind. eapply wp_mono; [exact Hm|].
  intros r s' Hr. destruct r as [a | e | | ]; simpl in *; try contradiction.
  destruct Hr as (b & -> & Hp). apply Hk. exact Hp.
Qed.

Lemma range_live_part h lo n p m :
  range_live h lo n -> lo <= p -> p + m <= lo + n -> range_live h p m.
Proof. intros Hl Hlo Hhi a Ha. apply Hl. lia. Qed.

(** ** With debug mode on: every block signed *)

Lemma SetSignatures_blocks_debug page n : forall i s,
  members_ok sizeof_ptr s ->
  DebugOn_ (Config_ s) = true ->
  InterAlignSize_ (Config_ s) = Alignment_ (Config_ s) ->
  i = ObjectsPerPage_ (Config_ s) - Z.of_nat n ->
  0 <= i ->
  range_live (heap s) page (page_bytes s) ->
  wp (SetSignatures_blocks n i (payload s page i))
     (returns (fun _ s' =>
        exists b, s' = set_heap (mkHeap b (live (heap s))) s /\
          (forall a, a < payload s page i -> b a = bytes (heap s) a) /\
          (forall j, i <= j < ObjectsPerPage_ (Config_ s) -> back_stamped s page b j) /\
          (forall j, i < j < ObjectsPerPage_ (Config_ s) -> front_stamped s page b j))) s.
Proof.
  induction n as [|n IH]; intros i s Hok Hd Hia Hi Hi0 Hl.
  - apply wp_ret. exists (bytes (heap s)). split; [|split; [|split]].
    + destruct s as [? ? ? ? ? ? []]; reflexivity.
    + reflexivity.
    + intros j Hj. lia.
    + intros j Hj. lia.
  - destruct (page_bytes_range s Hok) as (Hpb & Hch & Hst & _ & _ & HK & Hsm).
    pose proof Hok as [HK1 Hsz _ Hpad Hhdr Hal Hla _ Hchunk Hblock Hfits].
    pose proof sizeof_ptr_pos as Hpp.
    assert (Hu : u32 (ObjectsPerPage_ (Config_ s) - 1) = ObjectsPerPage_ (Config_ s) - 1)
      by (apply u32_small; lia).
    assert (Hos : u32 (ObjectSize_ (OAStats_ s) - sizeof_ptr)
                  = ObjectSize_ (OAStats_ s) - sizeof_ptr)
      by (apply u32_small; unfold stride in *; lia).
    assert (Hrest : (ObjectsPerPage_ (Config_ s) - 1 - i) * stride s >= 0) by nia.
    assert (Hlow : i * stride s >= 0) by nia.
    cbn [SetSignatures_blocks]. apply wp_get_bind. rewrite Hd, Hu, Hos, Hia.
    assert (Hany : forall b, range_live (heap (set_heap (mkHeap b (live (heap s))) s))
                               page (page_bytes s))
      by (intros b; apply range_live_set_bytes; exact Hl).
    destruct (Z.eqb_spec i (ObjectsPerPage_ (Config_ s) - 1)) as [Hlast | Hnl].
    + assert (n = O) by lia. subst n.
      eapply exact_step.
      { apply fill_exact; [|lia].
        eapply range_live_part; [exact Hl | |]; unfold payload, stride in *; lia. }
      intros p1 b1 [-> H1].
      eapply exact_step.
      { apply stamp_exact; [|lia].
        eapply range_live_part; [apply Hany | |]; unfold payload, stride in *; lia. }
      intros p2 b2 [-> H2]. cbn [SetSignatures_blocks].
      apply wp_ret. exists b2. split; [reflexivity|].
      cbn [heap set_heap bytes] in *.
      split; [|split].
      * intros a Ha. rewrite H2, H1. range_cases. reflexivity.
      * intros j Hj. assert (j = i) by lia. subst j.
        intros k. split; intros Hk; rewrite H2, H1; range_cases; reflexivity.
      * intros j Hj. lia.
    + assert (Hn : (1 <= n)%nat) by lia.
      assert (Hrest' : (ObjectsPerPage_ (Config_ s) - 2 - i) * stride s >= 0) by nia.
      assert (Hnext : payload s page (i + 1) = payload s page i + stride s)
        by (unfold payload; lia).
      eapply exact_step.
      { apply fill_exact; [|lia].
        eapply range_live_part; [exact Hl | |]; unfold payload, stride in *; lia. }
      intros p1 b1 [-> H1].
      eapply exact_step.
      { apply stamp_exact; [|lia].
        eapply range_live_part; [apply Hany | |]; unfold payload, stride in *; lia. }
      intros p2 b2 [-> H2].
      eapply exact_step.
      { apply stamp_exact; [|lia].
        eapply range_live_part; [apply Hany | |]; unfold payload, stride in *; lia. }
      intros p3 b3 [-> H3].
      eapply exact_step.
      { apply stamp_exact; [|lia].
        eapply range_live_part; [apply Hany | |]; unfold payload, stride in *; lia. }
      intros p4 b4 [-> H4].
      eapply exact_step.
      { apply stamp_exact; [|lia].
        eapply range_live_part; [apply Hany | |]; unfold payload, stride in *; lia. }
      intros p5 b5 [-> H5].
      cbn [heap set_heap bytes live Config_ OAStats_] in *.
      change (set_heap (mkHeap b5 (live (heap s))) _)
        with (set_heap (mkHeap b5 (live (heap s))) s).
      eapply wp_mono.
      { match goal with
        | |- wp (SetSignatures_blocks _ _ ?p) _ ?st =>
          replace p with (payload st page (i + 1))
            by (change (payload st page (i + 1)) with (payload s page (i + 1));
                rewrite Hnext; unfold stride; lia)
        end.
        apply IH.
        - apply members_ok_set_bytes. exact Hok.
        - exact Hd.
        - exact Hia.
        - cbn [set_heap Config_]. lia.
        - lia.
        - apply Hany. }
      intros r s' Hr. destruct r as [[] | e | | ]; simpl in Hr; try contradiction.
      destruct Hr as (b & -> & Hpre & Hback & Hfront).
      exists b. split; [reflexivity|].
      change (forall a, a < payload s page (i + 1) -> b a = b5 a) in Hpre.
      change (forall j, i + 1 <= j < ObjectsPerPage_ (Config_ s) -> back_stamped s page b j)
        in Hback.
      change (forall j, i + 1 < j < ObjectsPerPage_ (Config_ s) -> front_stamped s page b j)
        in Hfront.
      unfold stride in Hnext.
      split; [|split].
      * intros a Ha. rewrite Hpre by lia. rewrite H5, H4, H3, H2, H1. range_cases.
        reflexivity.
      * intros j Hj. destruct (Z.eq_dec j i) as [-> | Hji]; [|apply Hback; lia].
        intros k. split; intros Hk; rewrite Hpre by lia;
          rewrite H5, H4, H3, H2, H1; range_cases; reflexivity.
      * intros j Hj. destruct (Z.eq_dec j (i + 1)) as [-> | Hji]; [|apply Hfront; lia].
        intros k. rewrite Hnext. split; [|split]; intros Hk; rewrite Hpre by lia;
          rewrite H5, H4, H3, H2, H1; range_cases; reflexivity.
Qed.

(** ** With debug mode off and no guard bytes: headers in place *)

Lemma SetSignatures_blocks_plain page n : forall i s,
  members_ok sizeof_ptr s ->
  DebugOn_ (Config_ s) = false ->
  InterAlignSize_ (Config_ s) = Alignment_ (Config_ s) ->
  PadBytes_ (Config_ s) = 0 ->
  i = ObjectsPerPage_ (Config_ s) - Z.of_nat n ->
  0 <= i ->
  range_live (heap s) page (page_bytes s) ->
  wp (SetSignatures_blocks n i (payload s page i))
     (returns (fun _ s' =>
        exists b, s' = set_heap (mkHeap b (live (heap s))) s /\
          (forall a, a < payload s page i -> b a = bytes (heap s) a) /\
          (forall j k, i < j < ObjectsPerPage_ (Config_ s) ->
             0 <= k < HeaderBlocks_ (Config_ s) -> b (payload s page j - 1 - k) = 0))) s.
Proof.
  induction n as [|n IH]; intros i s Hok Hd Hia Hp0 Hi Hi0 Hl.
  - apply wp_ret. exists (bytes (heap s)). split; [|split].
    + destruct s as [? ? ? ? ? ? []]; reflexivity.
    + reflexivity.
    + intros j k Hj. lia.
  - destruct (page_bytes_range s Hok) as (Hpb & Hch & Hst & _ & _ & HK & Hsm).
    pose proof Hok as [HK1 Hsz _ Hpad Hhdr Hal Hla _ Hchunk Hblock Hfits].
    pose proof sizeof_ptr_pos as Hpp.
    assert (Hu : u32 (ObjectsPerPage_ (Config_ s) - 1) = ObjectsPerPage_ (Config_ s) - 1)
      by (apply u32_small; lia).
    assert (Hskip : u32 (ObjectSize_ (OAStats_ s) + Alignment_ (Config_ s) + 0)
                    = ObjectSize_ (OAStats_ s) + Alignment_ (Config_ s))
      by (rewrite Z.add_0_r; apply u32_small; unfold stride in *; lia).
    assert (Hlow : i * stride s >= 0) by nia.
    cbn [SetSignatures_blocks]. apply wp_get_bind. rewrite Hd, Hu, Hia, Hp0, Hskip.
    destruct (Z.eqb_spec i (ObjectsPerPage_ (Config_ s) - 1)) as [Hlast | Hnl].
    + apply wp_ret. exists (bytes (heap s)). split; [|split].
      * destruct s as [? ? ? ? ? ? []]; reflexivity.
      * reflexivity.
      * intros j k Hj. lia.
    + assert (Hrest : (ObjectsPerPage_ (Config_ s) - 2 - i) * stride s >= 0) by nia.
      assert (Hnext : payload s page (i + 1) = payload s page i + stride s)
        by (unfold payload; lia).
      eapply exact_step.
      { apply stamp_exact; [|lia].
        eapply range_live_part; [exact Hl | |]; unfold payload, stride in *; lia. }
      intros p1 b1 [-> H1].
      eapply wp_mono.
      { match goal with
        | |- wp (SetSignatures_blocks _ _ ?p) _ ?st =>
          replace p with (payload st page (i + 1))
            by (change (payload st page (i + 1)) with (payload s page (i + 1));
                rewrite Hnext; unfold stride; lia)
        end.
        apply IH.
        - apply members_ok_set_bytes. exact Hok.
        - exact Hd.
        - exact Hia.
        - exact Hp0.
        - cbn [set_heap Config_]. lia.
        - lia.
        - apply range_live_set_bytes. exact Hl. }
      intros r s' Hr. destruct r as [[] | e | | ]; simpl in Hr; try contradiction.
      destruct Hr as (b & -> & Hpre & Hhdrs).
      exists b. split; [reflexivity|].
      change (forall a, a < payload s page (i + 1) -> b a = b1 a) in Hpre.
      change (forall j k, i + 1 < j < ObjectsPerPage_ (Config_ s) ->
                0 <= k < HeaderBlocks_ (Config_ s) -> b (payload s page j - 1 - k) = 0)
        in Hhdrs.
      unfold stride in Hnext.
      split.
      * intros a Ha. rewrite Hpre by lia. rewrite H1. range_cases. reflexivity.
      * intros j k Hj Hk.
        destruct (Z.eq_dec j (i + 1)) as [-> | Hji]; [|apply Hhdrs; lia].
        rewrite Hnext. rewrite Hpre by lia. rewrite H1. range_cases. reflexivity.
Qed.

Lemma SetSignatures_debug page s :
  members_ok sizeof_ptr s ->
  DebugOn_ (Config_ s) = true ->
  LeftAlignSize_ (Config_ s) = Alignment_ (Config_ s) ->
  InterAlignSize_ (Config_ s) = Alignment_ (Config_ s) ->
  range_live (heap s) page (page_bytes s) ->
  wp (SetSignatures page)
     (returns (fun _ s' =>
        exists b, s' = set_heap (mkHeap b (live (heap s))) s /\
          forall j, 0 <= j < ObjectsPerPage_ (Config_ s) ->
            front_stamped s page b j /\ back_stamped s page b j)) s.
Proof.
  intros Hok Hd Hla Hia Hl.
  destruct (page_bytes_range s Hok) as (Hpb & Hch & Hst & _ & _ & HK & Hsm).
  pose proof Hok as [HK1 Hsz _ Hpad Hhdr Hal _ _ Hchunk Hblock Hfits].
  pose proof sizeof_ptr_pos as Hpp.
  assert (Hrest : (ObjectsPerPage_ (Config_ s) - 1) * stride s >= 0) by nia.
  assert (Hany : forall b, range_live (heap (set_heap (mkHeap b (live (heap s))) s))
                             page (page_bytes s))
    by (intros b; apply range_live_set_bytes; exact Hl).
  unfold SetSignatures. apply wp_get_bind. rewrite Hd, Hla.
  eapply exact_step.
  { eapply exact_step.
    { apply stamp_exact; [|lia].
      eapply range_live_part; [exact Hl | |]; unfold stride in *; lia. }
    intros p1 b1 [-> H1].
    eapply wp_mono.
    { apply stamp_exact; [|lia].
      eapply range_live_part; [apply Hany | |]; unfold stride in *; lia. }
    intros r s' Hr. destruct r as [p2 | e | | ]; simpl in Hr; try contradiction.
    destruct Hr as (b2 & -> & -> & H2). exists b2. split; [reflexivity|].
    instantiate (1 := fun p2 b2 =>
      p2 = page + sizeof_ptr + Alignment_ (Config_ s) + HeaderBlocks_ (Config_ s) /\
      forall a, b2 a =
        if (page + sizeof_ptr + Alignment_ (Config_ s) <=? a)
           && (a <? page + sizeof_ptr + Alignment_ (Config_ s) + HeaderBlocks_ (Config_ s))
        then 0
        else if (page + sizeof_ptr <=? a) && (a <? page + sizeof_ptr + Alignment_ (Config_ s))
             then ALIGN_PATTERN else bytes (heap s) a).
    cbv beta. split; [reflexivity|]. intros a.
    cbn [heap set_heap bytes] in H2. rewrite H2, H1. reflexivity. }
  intros p2 b2 [-> H2].
  eapply exact_step.
  { apply stamp_exact; [|lia].
    eapply range_live_part; [apply Hany | |]; unfold stride in *; lia. }
  intros p3 b3 [-> H3].
  cbn [heap set_heap bytes live Config_ OAStats_] in *.
  change (set_heap (mkHeap b3 (live (heap s))) _)
    with (set_heap (mkHeap b3 (live (heap s))) s).
  assert (Hfirst : payload s page 0
                   = page + sizeof_ptr + Alignment_ (Config_ s) + HeaderBlocks_ (Config_ s)
                     + PadBytes_ (Config_ s))
    by (unfold payload; lia).
  eapply wp_mono.
  { match goal with
    | |- wp (SetSignatures_blocks _ _ ?p) _ ?st =>
      replace p with (payload st page 0)
        by (change (payload st page 0) with (payload s page 0); rewrite Hfirst; lia)
    end.
    apply SetSignatures_blocks_debug.
    - apply members_ok_set_bytes. exact Hok.
    - exact Hd.
    - exact Hia.
    - cbn [set_heap Config_]. lia.
    - lia.
    - apply Hany. }
  intros r s' Hr. destruct r as [[] | e | | ]; simpl in Hr; try contradiction.
  destruct Hr as (b & -> & Hpre & Hback & Hfront).
  exists b. split; [reflexivity|].
  change (forall a, a < payload s page 0 -> b a = b3 a) in Hpre.
  change (forall j, 0 <= j < ObjectsPerPage_ (Config_ s) -> back_stamped s page b j)
    in Hback.
  change (forall j, 0 < j < ObjectsPerPage_ (Config_ s) -> front_stamped s page b j)
    in Hfront.
  intros j Hj. split; [|apply Hback; exact Hj].
  destruct (Z.eq_dec j 0) as [-> | Hj0]; [|apply Hfront; lia].
  intros k. rewrite Hfirst in *.
  split; [|split]; intros Hk; rewrite Hpre by lia; rewrite H3, H2; range_cases; reflexivity.
Qed.

Lemma SetSignatures_plain page s :
  members_ok sizeof_ptr s ->
  DebugOn_ (Config_ s) = false ->
  LeftAlignSize_ (Config_ s) = Alignment_ (Config_ s) ->
  InterAlignSize_ (Config_ s) = Alignment_ (Config_ s) ->
  PadBytes_ (Config_ s) = 0 ->
  range_live (heap s) page (page_bytes s) ->
  wp (SetSignatures page)
     (returns (fun _ s' =>
        exists b, s' = set_heap (mkHeap b (live (heap s))) s /\
          forall j k, 0 <= j < ObjectsPerPage_ (Config_ s) ->
            0 <= k < HeaderBlocks_ (Config_ s) -> b (payload s page j - 1 - k) = 0)) s.
Proof.
  intros Hok Hd Hla Hia Hp0 Hl.
  destruct (page_bytes_range s Hok) as (Hpb & Hch & Hst & _ & _ & HK & Hsm).
  pose proof Hok as [HK1 Hsz _ Hpad Hhdr Hal _ _ Hchunk Hblock Hfits].
  pose proof sizeof_ptr_pos as Hpp.
  assert (Hrest : (ObjectsPerPage_ (Config_ s) - 1) * stride s >= 0) by nia.
  unfold SetSignatures. apply wp_get_bind. rewrite Hd, Hla.
  eapply exact_step.
  { apply stamp_exact; [|lia].
    eapply range_live_part; [exact Hl | |]; unfold stride in *; lia. }
  intros p1 b1 [-> H1]. apply wp_ret_bind.
  assert (Hfirst : payload s page 0
                   = page + sizeof_ptr + Alignment_ (Config_ s) + HeaderBlocks_ (Config_ s))
    by (unfold payload; lia).
  eapply wp_mono.
  { match goal with
    | |- wp (SetSignatures_blocks _ _ ?p) _ ?st =>
      replace p with (payload st page 0)
        by (change (payload st page 0) with (payload s page 0); rewrite Hfirst; lia)
    end.
    apply SetSignatures_blocks_plain.
    - apply members_ok_set_bytes. exact Hok.
    - exact Hd.
    - exact Hia.
    - exact Hp0.
    - cbn [set_heap Config_]. lia.
    - lia.
    - apply range_live_set_bytes. exact Hl. }
  intros r s' Hr. destruct r as [[] | e | | ]; simpl in Hr; try contradiction.
  destruct Hr as (b & -> & Hpre & Hhdrs).
  exists b. split; [reflexivity|].
  change (forall a, a < payload s page 0 -> b a = b1 a) in Hpre.
  change (forall j k, 0 < j < ObjectsPerPage_ (Config_ s) ->
            0 <= k < HeaderBlocks_ (Config_ s) -> b (payload s page j - 1 - k) = 0)
    in Hhdrs.
  intros j k Hj Hk.
  destruct (Z.eq_dec j 0) as [-> | Hj0]; [|apply Hhdrs; lia].
  rewrite Hfirst in *. rewrite Hpre by lia. rewrite H1. range_cases. reflexivity.
Qed.

(** C4.  What [SetSignatures] puts on a new page follows the debug
    flag.  With debug mode on, and the two alignment sizes equal to the
    configured alignment as the constructor leaves them, every block gets
    its guard bytes on both sides, its alignment filler, its zeroed header
    and the unallocated pattern.  With debug mode off no guard, alignment
    or payload pattern is stamped: the only bytes written are zeroes, and
    none if headers are disabled. *)
Theorem C4_stamping_follows_debug_flag page s :
  members_ok sizeof_ptr s ->
  range_live (heap s) page (page_bytes s) ->
  exists s',
    SetSignatures page s = (Ok tt, s') /\ only_bytes s s' /\
    (DebugOn_ (Config_ s) = true ->
     LeftAlignSize_ (Config_ s) = Alignment_ (Config_ s) ->
     InterAlignSize_ (Config_ s) = Alignment_ (Config_ s) ->
     guard_bytes_stamped s' page /\ alignment_stamped s' page /\
     headers_zeroed s' page /\ payload_unallocated s' page) /\
    (DebugOn_ (Config_ s) = false -> zeroed (HeaderBlocks_ (Config_ s)) s s').
Proof.
  intros Hok Hl.
  destruct (returns_inv _ _ _ (SetSignatures_within page s Hok Hl))
    as ([] & s' & E & _ & Hb & _).
  exists s'. split; [exact E|]. split; [exact Hb|]. split.
  - intros Hd Hla Hia.
    pose proof (wp_inv _ _ _ _ _ (SetSignatures_debug page s Hok Hd Hla Hia Hl) E)
      as (b & -> & Hall).
    split; [|split; [|split]]; intros i k Hi Hk;
      destruct (Hall i Hi) as [Hfront Hback];
      destruct (Hfront k) as (Hf1 & Hf2 & Hf3); destruct (Hback k) as (Hb1 & Hb2).
    + split; [apply Hf1 | apply Hb2]; exact Hk.
    + apply Hf3. exact Hk.
    + apply Hf2. exact Hk.
    + apply Hb1. exact Hk.
  - intros Hd. exact (wp_inv _ _ _ _ _ (SetSignatures_zeroed page s Hd) E).
Qed.

End Signatures.
(** * Which exceptions the member functions throw *)

Section Exceptions.
Context `{Platform}.

Lemma throws_only_bind {A B} P (m : M A) (k : A -> M B) s :
  wp m (throws_only P) s -> (forall a s', wp (k a) (throws_only P) s') ->
  wp (bind m k) (throws_only P) s.
Proof.
  intros Hm Hk. apply wp_bind. eapply wp_mono; [exact Hm|].
  intros r s' Hr. destruct r as [a | e' | | ]; simpl.
  - apply Hk.
  - intros e E. apply Hr. congruence.
  - discriminate.
  - discriminate.
Qed.

Lemma throws_only_step {A} P (m : M A) s :
  wp m (storage_step s) s -> wp m (throws_only P) s.
Proof.
  intros Hm. eapply wp_mono; [exact Hm|].
  intros r s' [_ Hnt] e E. exfalso. exact (Hnt e E).
Qed.

Lemma throws_only_read {A} P (m : M A) s :
  wp m (storage_read s) s -> wp m (throws_only P) s.
Proof. intros Hm. apply throws_only_step, storage_read_step, Hm. Qed.

Lemma throws_only_never {A} P (m : M A) s : never_throws m -> wp m (throws_only P) s.
Proof. intros Hm e E. exfalso. exact (Hm s e E). Qed.

Lemma throws_only_when P (b : bool) (m : M unit) s :
  (b = true -> wp m (throws_only P) s) -> wp (when b m) (throws_only P) s.
Proof. intros Hm. destruct b; [apply Hm; reflexivity | discriminate]. Qed.

Lemma never_throws_fill n p v : never_throws (fill n p v).
Proof. apply never_throws_step. intros s. apply fill_step. Qed.

Lemma never_throws_store_byte a v : never_throws (store_byte a v).
Proof. apply never_throws_step. intros s. apply store_byte_step. Qed.

Lemma never_throws_store_ptr a v : never_throws (store_ptr a v).
Proof. apply never_throws_step. intros s. apply store_ptr_step. Qed.

Lemma never_throws_load_ptr a : never_throws (load_ptr a).
Proof. apply never_throws_step. intros s. apply storage_read_step, load_ptr_read. Qed.

Lemma never_throws_count_allocation : never_throws count_allocation.
Proof.
  unfold count_allocation.
  repeat (apply never_throws_bind; [apply never_throws_modify_stats | intros _]).
  apply never_throws_modify_stats.
Qed.

(** What [Free] does once the object has been accepted. *)
Lemma Free_accepted_never_throws s0 Object :
  never_throws
    (when (DebugOn_ (Config_ s0))
          (_ <- fill (Z.to_nat (u32 (ObjectSize_ (OAStats_ s0) - sizeof_ptr)))
                     (Object + sizeof_ptr) FREED_PATTERN ;; ret tt) ;;
     when (negb (HeaderBlocks_ (Config_ s0) =? 0))
          (store_byte (Object - u32 (PadBytes_ (Config_ s0) + 1)) 0) ;;
     s <- get ;;
     (if free_list_ s =? 0 then
        modify (set_free_list Object) ;;
        store_ptr Object 0
      else
        store_ptr Object (free_list_ s) ;;
        modify (set_free_list Object)) ;;
     count_deallocation).
Proof.
  apply never_throws_bind.
  { apply never_throws_when, never_throws_bind;
      [apply never_throws_fill | intros; apply never_throws_ret]. }
  intros _. apply never_throws_bind.
  { apply never_throws_when, never_throws_store_byte. }
  intros _. apply never_throws_bind; [apply never_throws_get|].
  intros s2. apply never_throws_bind; [|intros; apply never_throws_count_deallocation].
  destruct (free_list_ s2 =? 0).
  - apply never_throws_bind; [apply never_throws_modify|].
    intros _. apply never_throws_store_ptr.
  - apply never_throws_bind; [apply never_throws_store_ptr|].
    intros _. apply never_throws_modify.
Qed.

Lemma ValidateObject_free_list_throws fuel : forall temp_walk temp s,
  wp (ValidateObject_free_list fuel temp_walk temp) (throws_only validation_error) s.
Proof.
  induction fuel as [|fuel IH]; intros temp_walk temp s; simpl.
  - discriminate.
  - destruct (temp_walk =? 0); [discriminate|].
    destruct (temp_walk =? temp).
    + intros e E. injection E as <-. left. reflexivity.
    + apply throws_only_bind; [apply throws_only_read, load_ptr_read | intros; apply IH].
Qed.

Lemma ValidateObject_pages_throws fuel : forall temp_walk page temp s,
  wp (ValidateObject_pages fuel temp_walk page temp) (throws_only validation_error) s.
Proof.
  induction fuel as [|fuel IH]; intros temp_walk page temp s; simpl.
  - discriminate.
  - destruct (temp_walk =? 0); [discriminate|].
    apply wp_get_bind.
    destruct ((temp_walk <? temp) && (temp <? temp_walk + PageSize_ (OAStats_ s)));
      [discriminate|].
    destruct (page =? PagesInUse_ (OAStats_ s)).
    + intros e E. injection E as <-. right. left. reflexivity.
    + apply throws_only_bind; [apply throws_only_read, load_ptr_read | intros; apply IH].
Qed.

Lemma ValidateObject_left_throws (P : OAException -> Prop) n :
  P E_CORRUPTED_BLOCK ->
  forall temp_free s, wp (ValidateObject_left n temp_free) (throws_only P) s.
Proof.
  intros HP. induction n as [|n IH]; intros temp_free s; simpl; [discriminate|].
  apply throws_only_bind; [apply throws_only_read, load_byte_read|].
  intros b s'. destruct (b =? PAD_PATTERN); [apply IH|].
  intros e E. injection E as <-. exact HP.
Qed.

Lemma ValidateObject_right_throws (P : OAException -> Prop) n :
  P E_CORRUPTED_BLOCK ->
  forall temp_free s, wp (ValidateObject_right n temp_free) (throws_only P) s.
Proof.
  intros HP. induction n as [|n IH]; intros temp_free s; simpl; [discriminate|].
  apply throws_only_bind; [apply throws_only_read, load_byte_read|].
  intros b s'. destruct (b =? PAD_PATTERN); [apply IH|].
  intros e E. injection E as <-. exact HP.
Qed.

Lemma ValidateObject_throws fuel Object s :
  wp (ValidateObject fuel Object) (throws_only validation_error) s.
Proof.
  unfold ValidateObject. apply wp_get_bind.
  apply throws_only_bind.
  { destruct (negb (HeaderBlocks_ (Config_ s) =? 0)).
    - apply throws_only_bind; [apply throws_only_read, load_byte_read|].
      intros b s'. destruct (b =? 0); [|discriminate].
      intros e E. injection E as <-. left. reflexivity.
    - apply ValidateObject_free_list_throws. }
  intros _ s1. apply throws_only_bind.
  { destruct (page_list_ s =? 0); [|discriminate].
    intros e E. injection E as <-. right. left. reflexivity. }
  intros _ s2. apply throws_only_bind; [apply ValidateObject_pages_throws|].
  intros temp_walk s3. cbv zeta.
  destruct (u32 (ObjectSize_ (OAStats_ s) + chunk_size_ s) =? 0); [discriminate|].
  destruct (negb _).
  { intros e E. injection E as <-. right. right. left. reflexivity. }
  assert (HP : validation_error E_CORRUPTED_BLOCK)
    by (right; right; right; reflexivity).
  apply throws_only_bind; [apply ValidateObject_left_throws, HP|].
  intros _ s4. apply ValidateObject_right_throws, HP.
Qed.

(** X1.  [Free] throws only in debug mode on the pool, and then one of the four
    errors of [ValidateObject]. *)
Theorem Free_throws_only_validation_errors fuel Object s e :
  fst (Free fuel Object s) = Throw e ->
  UseCPPMemManager_ (Config_ s) = false /\ DebugOn_ (Config_ s) = true /\
  validation_error e.
Proof.
  assert (Hw : wp (Free fuel Object)
                  (throws_only (fun e =>
                     UseCPPMemManager_ (Config_ s) = false /\
                     DebugOn_ (Config_ s) = true /\ validation_error e)) s).
  { unfold Free. apply wp_get_bind.
    destruct (UseCPPMemManager_ (Config_ s)).
    - apply throws_only_never.
      apply never_throws_bind; [apply never_throws_delete_array|].
      intros _. apply never_throws_count_deallocation.
    - apply throws_only_bind.
      + apply throws_only_when. intros Hd. eapply wp_mono; [apply ValidateObject_throws|].
        intros r s' Hr e' E. split; [reflexivity|]. split; [exact Hd | exact (Hr e' E)].
      + intros _ s'. apply throws_only_never. apply Free_accepted_never_throws. }
  intros E. exact (Hw e E).
Qed.

End Exceptions.


Section Exceptions2.
Context `{Platform}.

Lemma never_throws_AllocatePage_loop fuel : forall i commited_bytes temp_free_list,
  never_throws (AllocatePage_loop fuel i commited_bytes temp_free_list).
Proof.
  induction fuel as [|fuel IH]; intros i c p; cbn [AllocatePage_loop].
  - intros s e. discriminate.
  - apply never_throws_bind; [apply never_throws_get|]. intros s.
    destruct ((i <? ObjectsPerPage_ (Config_ s)) || (PageSize_ (OAStats_ s) <=? c));
      [|apply never_throws_ret].
    apply never_throws_bind.
    { destruct (i <? u32 (ObjectsPerPage_ (Config_ s) - 1)); [|apply never_throws_ret].
      apply never_throws_bind; [apply never_throws_store_ptr|]. intros _.
      apply never_throws_bind; [apply never_throws_modify | intros; apply never_throws_ret]. }
    intros p'. apply never_throws_bind; [apply never_throws_modify_stats|].
    intros _. apply IH.
Qed.

Lemma never_throws_SetSignatures p : never_throws (SetSignatures p).
Proof. apply never_throws_step. intros s. apply SetSignatures_step. Qed.

(** A computation that keeps to [Q] and never throws. *)
Lemma wp_conj_avoid {A} (m : M A) (P Q : ObjectAllocator -> Prop) s :
  wp m (fun _ s' => Q s') s -> never_throws m ->
  wp m (fun r s' => (r = Throw E_NO_MEMORY /\ P s') \/
                    (r <> Throw E_NO_MEMORY /\ Q s')) s.
Proof. intros Hq Hnt. unfold wp in *. right. split; [apply Hnt | exact Hq]. Qed.

(** [AllocatePage] throws nothing but [E_NO_MEMORY], and that with the page
    already counted. *)
Lemma AllocatePage_throws fuel sys s :
  wp (AllocatePage fuel sys)
     (fun r s' => forall e, r = Throw e -> e = E_NO_MEMORY /\ s' = page_requested s) s.
Proof.
  unfold AllocatePage. apply wp_get_bind.
  apply wp_modify_stats_bind. apply wp_modify_stats_bind. apply wp_get_bind.
  apply wp_bind. unfold wp at 1, new_nothrow.
  destruct ((0 <? sys) && (sys + _ <=? ptr_limit)) eqn:Hgrant; cbn [fst snd wp_next].
  - apply andb_prop in Hgrant. destruct Hgrant as [Hpos _]. apply Z.ltb_lt in Hpos.
    replace (sys =? 0) with false by (symmetry; apply Z.eqb_neq; lia).
    match goal with |- wp ?m _ ?st => assert (Hnt : never_throws m) end.
    { apply never_throws_bind; [apply never_throws_SetSignatures|]. intros _.
      apply never_throws_bind; [apply never_throws_get|]. intros s2.
      apply never_throws_bind.
      { destruct (PagesInUse_ (OAStats_ s2) =? 1); apply never_throws_store_ptr. }
      intros _. apply never_throws_bind; [apply never_throws_modify|]. intros _.
      apply never_throws_bind; [apply never_throws_modify|]. intros _.
      apply never_throws_bind; [apply never_throws_store_ptr|]. intros _.
      apply never_throws_bind; [apply never_throws_AllocatePage_loop|]. intros _.
      apply never_throws_ret. }
    intros e E. exfalso. exact (Hnt _ e E).
  - cbn [Z.eqb]. intros e E. injection E as <-. split; reflexivity.
Qed.

(** X2.  [Allocate] throws only on the pool with no free object left: at the
    page limit [E_NO_PAGES], with the allocator as it was; below it
    [E_NO_MEMORY], with the page that could not be had counted. *)
Theorem Allocate_throws_no_pages_or_no_memory fuel sys s e s' :
  Allocate fuel sys s = (Throw e, s') ->
  UseCPPMemManager_ (Config_ s) = false /\ FreeObjects_ (OAStats_ s) = 0 /\
  ((e = E_NO_PAGES /\ PagesInUse_ (OAStats_ s) = MaxPages_ (Config_ s) /\ s' = s) \/
   (e = E_NO_MEMORY /\ PagesInUse_ (OAStats_ s) <> MaxPages_ (Config_ s) /\
    s' = page_requested s)).
Proof.
  intros E.
  assert (Hw : wp (Allocate fuel sys)
    (fun r s' => forall e, r = Throw e ->
       UseCPPMemManager_ (Config_ s) = false /\ FreeObjects_ (OAStats_ s) = 0 /\
       ((e = E_NO_PAGES /\ PagesInUse_ (OAStats_ s) = MaxPages_ (Config_ s) /\ s' = s) \/
        (e = E_NO_MEMORY /\ PagesInUse_ (OAStats_ s) <> MaxPages_ (Config_ s) /\
         s' = page_requested s))) s).
  { unfold Allocate. apply wp_get_bind.
    destruct (UseCPPMemManager_ (Config_ s)).
    - match goal with |- wp ?m _ _ => assert (Hnt : never_throws m) end.
      { apply never_throws_bind.
        { unfold new_throwing. apply never_throws_bind.
          - intros s1 e1. unfold new_nothrow. destruct (_ && _); discriminate.
          - intros p. destruct (p =? 0); [intros s1 e1; discriminate | apply never_throws_ret]. }
        intros p. apply never_throws_bind; [apply never_throws_count_allocation|].
        intros _. apply never_throws_ret. }
      intros e1 E1. exfalso. exact (Hnt _ e1 E1).
    - assert (Hrest : forall s1, wp
        (s2 <- get ;;
         let temp := free_list_ s2 in
         next <- load_ptr temp ;;
         modify (set_free_list next) ;;
         when (DebugOn_ (Config_ s2))
              (_ <- fill (Z.to_nat (ObjectSize_ (OAStats_ s2))) temp ALLOCATED_PATTERN ;;
               ret tt) ;;
         when (negb (HeaderBlocks_ (Config_ s2) =? 0))
              (store_byte (temp - u32 (PadBytes_ (Config_ s2) + 1)) 1) ;;
         count_allocation ;;
         ret temp) (throws_only (fun _ => False)) s1).
      { intros s1. apply throws_only_never.
        apply never_throws_bind; [apply never_throws_get|]. intros s2. cbv zeta.
        apply never_throws_bind; [apply never_throws_load_ptr|]. intros next.
        apply never_throws_bind; [apply never_throws_modify|]. intros _.
        apply never_throws_bind.
        { apply never_throws_when, never_throws_bind;
            [apply never_throws_fill | intros; apply never_throws_ret]. }
        intros _. apply never_throws_bind.
        { apply never_throws_when, never_throws_store_byte. }
        intros _. apply never_throws_bind; [apply never_throws_count_allocation|].
        intros _. apply never_throws_ret. }
      apply wp_bind.
      destruct (Z.eqb_spec (FreeObjects_ (OAStats_ s)) 0) as [HF | HF]; cbn [when].
      + destruct (Z.eqb_spec (PagesInUse_ (OAStats_ s)) (MaxPages_ (Config_ s)))
          as [HP | HP].
        * apply wp_throw. cbn [wp_next]. intros e1 E1. injection E1 as <-.
          split; [reflexivity|]. split; [exact HF|]. left. repeat split. exact HP.
        * eapply wp_mono; [apply AllocatePage_throws|].
          intros r s1 Hr. destruct r as [[] | e1 | | ]; cbn [wp_next].
          -- eapply wp_mono; [apply Hrest|]. intros r2 s2 Hr2 e2 E2.
             exfalso. exact (Hr2 e2 E2).
          -- intros e2 E2. injection E2 as <-. destruct (Hr e1 eq_refl) as [-> ->].
             split; [reflexivity|]. split; [exact HF|]. right. repeat split. exact HP.
          -- discriminate.
          -- discriminate.
      + apply wp_ret. cbn [wp_next].
        eapply wp_mono; [apply Hrest|]. intros r2 s2 Hr2 e2 E2.
        exfalso. exact (Hr2 e2 E2). }
  exact (wp_inv _ _ _ _ _ Hw E e eq_refl).
Qed.

End Exceptions2.


Section Exceptions3.
Context `{Platform}.

(** X3.  The constructor throws nothing but [E_NO_MEMORY], and only when it is
    to set up the pool and the system has no buffer for the first page:
    storage is then as it was and both lists are empty, though the page
    that could not be had is counted. *)
Theorem constructor_throws_no_memory fuel ObjectSize config sys s e s' :
  ObjectAllocator_ctor fuel ObjectSize config sys s = (Throw e, s') ->
  e = E_NO_MEMORY /\ UseCPPMemManager_ config = false /\
  heap s' = heap s /\ page_list_ s' = 0 /\ free_list_ s' = 0 /\
  PagesInUse_ (OAStats_ s') = u32 (PagesInUse_ (OAStats_ s) + 1) /\
  FreeObjects_ (OAStats_ s') = FreeObjects_ (OAStats_ s).
Proof.
  intros E.
  assert (Hw : wp (ObjectAllocator_ctor fuel ObjectSize config sys)
    (fun r s' => forall e, r = Throw e ->
       e = E_NO_MEMORY /\ UseCPPMemManager_ config = false /\
       heap s' = heap s /\ page_list_ s' = 0 /\ free_list_ s' = 0 /\
       PagesInUse_ (OAStats_ s') = u32 (PagesInUse_ (OAStats_ s) + 1) /\
       FreeObjects_ (OAStats_ s') = FreeObjects_ (OAStats_ s)) s).
  { unfold ObjectAllocator_ctor.
    apply wp_modify_stats_bind. do 5 apply wp_modify_bind. apply wp_get_bind.
    apply wp_bind. cbn [Config_ set_free_list set_page_list set_block_size set_chunk_size
                        set_Config UseCPPMemManager_].
    destruct (UseCPPMemManager_ config); cbn [negb when].
    - apply wp_ret. cbn [wp_next]. apply wp_modify. discriminate.
    - eapply wp_mono; [apply AllocatePage_throws|].
      intros r s1 Hr. destruct r as [[] | e1 | | ]; cbn [wp_next];
        try (apply wp_modify); try discriminate.
      intros e2 E2. injection E2 as <-. destruct (Hr e1 eq_refl) as [-> ->].
      split; [reflexivity|]. split; [reflexivity|]. repeat split. }
  exact (wp_inv _ _ _ _ _ Hw E e eq_refl).
Qed.

End Exceptions3.

(** * What a relation on states needs to survive page creation *)

Section Kept.
Context `{Platform}.
Variable R : ObjectAllocator -> ObjectAllocator -> Prop.
Hypothesis R_refl : forall s, R s s.
Hypothesis R_trans : forall s1 s2 s3, R s1 s2 -> R s2 s3 -> R s1 s3.
Hypothesis R_bytes : forall s s', only_bytes s s' -> R s s'.
Hypothesis R_free_list : forall s v, R s (set_free_list v s).
Hypothesis R_page_list : forall s v, R s (set_page_list v s).
Hypothesis R_free_objects :
  forall s f, R s (set_Stats (set_FreeObjects f (OAStats_ s)) s).

Lemma kept_bind {A B} (m : M A) (k : A -> M B) s :
  wp m (fun _ s' => R s s') s ->
  (forall a s', R s s' -> wp (k a) (fun _ s'' => R s' s'') s') ->
  wp (bind m k) (fun _ s'' => R s s'') s.
Proof.
  intros Hm Hk. apply wp_bind. eapply wp_mono; [exact Hm|].
  intros r s' Hr. destruct r as [a | e | | ]; simpl; try exact Hr.
  eapply wp_mono; [apply Hk; exact Hr|].
  intros r' s'' Hr'. eapply R_trans; eassumption.
Qed.

Lemma kept_step {A} (m : M A) s :
  wp m (storage_step s) s -> wp m (fun _ s' => R s s') s.
Proof. intros Hm. eapply wp_mono; [exact Hm|]. intros r s' [Hb _]. apply R_bytes, Hb. Qed.

Lemma kept_modify (f : ObjectAllocator -> ObjectAllocator) {B} (k : unit -> M B) s :
  R s (f s) -> wp (k tt) (fun _ s'' => R (f s) s'') (f s) ->
  wp (bind (modify f) k) (fun _ s'' => R s s'') s.
Proof.
  intros Hf Hk. apply wp_modify_bind. eapply wp_mono; [exact Hk|].
  intros r s' Hr. eapply R_trans; eassumption.
Qed.

Lemma AllocatePage_loop_kept fuel : forall i commited temp_free_list s,
  wp (AllocatePage_loop fuel i commited temp_free_list) (fun _ s' => R s s') s.
Proof.
  induction fuel as [|fuel IH]; intros i c p s; cbn [AllocatePage_loop].
  - apply wp_timeout, R_refl.
  - apply wp_get_bind.
    destruct ((i <? ObjectsPerPage_ (Config_ s)) || (PageSize_ (OAStats_ s) <=? c));
      [|apply wp_ret, R_refl].
    apply kept_bind.
    { destruct (i <? u32 (ObjectsPerPage_ (Config_ s) - 1)); [|apply wp_ret, R_refl].
      apply kept_bind; [apply kept_step, store_ptr_step|].
      intros _ s1 _. apply kept_modify; [apply R_free_list | apply wp_ret, R_refl]. }
    intros p' s1 _. apply kept_modify; [apply R_free_objects | apply IH].
Qed.

(** [AllocatePage] from the request for the buffer on. *)
Lemma AllocatePage_kept fuel sys s :
  wp (AllocatePage fuel sys)
     (fun r s' =>
        (r = Throw E_NO_MEMORY /\ s' = page_requested s) \/
        (r <> Throw E_NO_MEMORY /\ R (page_granted sys s) s')) s.
Proof.
  unfold AllocatePage. apply wp_get_bind.
  apply wp_modify_stats_bind. apply wp_modify_stats_bind. apply wp_get_bind.
  apply wp_bind. unfold wp at 1, new_nothrow.
  destruct ((0 <? sys) && (sys + _ <=? ptr_limit)) eqn:Hgrant; cbn [fst snd wp_next].
  - apply andb_prop in Hgrant. destruct Hgrant as [Hpos _]. apply Z.ltb_lt in Hpos.
    replace (sys =? 0) with false by (symmetry; apply Z.eqb_neq; lia).
    change (set_heap _ _) with (page_granted sys s).
    apply wp_conj_avoid.
    + apply kept_bind; [apply kept_step, SetSignatures_step|].
      intros _ s2 _. apply wp_get_bind.
      apply kept_bind.
      { destruct (PagesInUse_ (OAStats_ s2) =? 1); apply kept_step, store_ptr_step. }
      intros _ s3 _. apply kept_modify; [apply R_page_list|].
      apply kept_modify; [apply R_free_list|].
      apply kept_bind; [apply kept_step, store_ptr_step|].
      intros _ s4 _. apply kept_bind; [apply AllocatePage_loop_kept|].
      intros _ s5 _. apply wp_ret, R_refl.
    + apply never_throws_bind; [apply never_throws_SetSignatures|]. intros _.
      apply never_throws_bind; [apply never_throws_get|]. intros s2.
      apply never_throws_bind.
      { destruct (PagesInUse_ (OAStats_ s2) =? 1); apply never_throws_store_ptr. }
      intros _. apply never_throws_bind; [apply never_throws_modify|]. intros _.
      apply never_throws_bind; [apply never_throws_modify|]. intros _.
      apply never_throws_bind; [apply never_throws_store_ptr|]. intros _.
      apply never_throws_bind; [apply never_throws_AllocatePage_loop|]. intros _.
      apply never_throws_ret.
  - cbn [Z.eqb]. apply wp_throw. left. split; reflexivity.
Qed.

Lemma then_counted_bind {A B} count (m : M A) (k : A -> M B) s :
  wp m (fun _ s' => R s s') s ->
  (forall a s', R s s' -> wp (k a) (then_counted R count s') s') ->
  wp (bind m k) (then_counted R count s) s.
Proof.
  intros Hm Hk. apply wp_bind. eapply wp_mono; [exact Hm|].
  intros r s' Hr. destruct r as [a | e | | ]; cbn [wp_next].
  - eapply wp_mono; [apply Hk; exact Hr|].
    intros r' s'' (s2 & H2 & Hok & Hno). exists s2.
    split; [eapply R_trans; eassumption|]. split; assumption.
  - exists s'. split; [exact Hr|]. split; [intros [a E]; discriminate | reflexivity].
  - exists s'. split; [exact Hr|]. split; [intros [a E]; discriminate | reflexivity].
  - exists s'. split; [exact Hr|]. split; [intros [a E]; discriminate | reflexivity].
Qed.

Lemma then_counted_modify {B} count f (k : unit -> M B) s :
  R s (f s) -> wp (k tt) (then_counted R count (f s)) (f s) ->
  wp (bind (modify f) k) (then_counted R count s) s.
Proof.
  intros Hf Hk. apply wp_modify_bind. eapply wp_mono; [exact Hk|].
  intros r s' (s2 & H2 & Hok & Hno). exists s2.
  split; [eapply R_trans; eassumption|]. split; assumption.
Qed.

Lemma then_counted_last {A} (count : M unit) (a : A) s :
  (forall s1, fst (count s1) = Ok tt) ->
  wp (count ;; ret a) (then_counted R count s) s.
Proof.
  intros Htotal. unfold wp, bind, ret. specialize (Htotal s).
  destruct (count s) as [r s1] eqn:E. cbn [fst snd] in *. subst r. cbn [fst snd].
  exists s. split; [apply R_refl|]. split; [intros _; rewrite E; reflexivity|].
  intros Hno. exfalso. exact (Hno a eq_refl).
Qed.

(** [Allocate] once a free block is at hand. *)
Lemma Allocate_take_kept s :
  wp (s2 <- get ;;
      let temp := free_list_ s2 in
      next <- load_ptr temp ;;
      modify (set_free_list next) ;;
      when (DebugOn_ (Config_ s2))
           (_ <- fill (Z.to_nat (ObjectSize_ (OAStats_ s2))) temp ALLOCATED_PATTERN ;;
            ret tt) ;;
      when (negb (HeaderBlocks_ (Config_ s2) =? 0))
           (store_byte (temp - u32 (PadBytes_ (Config_ s2) + 1)) 1) ;;
      count_allocation ;;
      ret temp) (then_counted R count_allocation s) s.
Proof.
  apply wp_get_bind. cbv zeta.
  apply then_counted_bind; [apply kept_step, storage_read_step, load_ptr_read|].
  intros next s1 _. apply then_counted_modify; [apply R_free_list|].
  apply then_counted_bind.
  { apply kept_step, when_step, storage_step_bind;
      [apply fill_step | intros; apply ret_step]. }
  intros _ s3 _. apply then_counted_bind.
  { apply kept_step, when_step, store_byte_step. }
  intros _ s4 _. apply then_counted_last.
  intros s5. apply count_allocation_effect.
Qed.

(** [Free] once the object has been accepted. *)
Lemma Free_accepted_kept s0 Object s :
  wp (when (DebugOn_ (Config_ s0))
           (_ <- fill (Z.to_nat (u32 (ObjectSize_ (OAStats_ s0) - sizeof_ptr)))
                      (Object + sizeof_ptr) FREED_PATTERN ;; ret tt) ;;
      when (negb (HeaderBlocks_ (Config_ s0) =? 0))
           (store_byte (Object - u32 (PadBytes_ (Config_ s0) + 1)) 0) ;;
      s2 <- get ;;
      (if free_list_ s2 =? 0 then
         modify (set_free_list Object) ;;
         store_ptr Object 0
       else
         store_ptr Object (free_list_ s2) ;;
         modify (set_free_list Object)) ;;
      count_deallocation) (then_counted R count_deallocation s) s.
Proof.
  assert (Hlast : forall s1,
            wp count_deallocation (then_counted R count_deallocation s1) s1).
  { intros s1. exists s1. split; [apply R_refl|]. split; [reflexivity|].
    intros Hno. exfalso. exact (Hno tt eq_refl). }
  apply then_counted_bind.
  { apply kept_step, when_step, storage_step_bind;
      [apply fill_step | intros; apply ret_step]. }
  intros _ s1 _. apply then_counted_bind.
  { apply kept_step, when_step, store_byte_step. }
  intros _ s2 _. apply wp_get_bind.
  apply then_counted_bind; [|intros; apply Hlast].
  destruct (free_list_ s2 =? 0).
  - apply kept_modify; [apply R_free_list | apply kept_step, store_ptr_step].
  - apply kept_bind; [apply kept_step, store_ptr_step|].
    intros _ s3 _. apply wp_modify. apply R_free_list.
Qed.

End Kept.

Section Pages.
Context `{Platform}.

Lemma then_counted_kept {A} (R : ObjectAllocator -> ObjectAllocator -> Prop)
      (count : M unit) s (r : outcome A) s' :
  (forall s1 s2 s3, R s1 s2 -> R s2 s3 -> R s1 s3) ->
  (forall s2, R s2 (snd (count s2))) ->
  then_counted R count s r s' -> R s s'.
Proof.
  intros Htrans Hcount (s2 & H2 & Hok & Hno). destruct r as [a | e | | ].
  - rewrite (Hok (ex_intro _ a eq_refl)). eapply Htrans; [exact H2 | apply Hcount].
  - rewrite Hno; [exact H2 | discriminate].
  - rewrite Hno; [exact H2 | discriminate].
  - rewrite Hno; [exact H2 | discriminate].
Qed.

Lemma pages_same_refl s : pages_same s s.
Proof. repeat split. Qed.

Lemma pages_same_trans s1 s2 s3 : pages_same s1 s2 -> pages_same s2 s3 -> pages_same s1 s3.
Proof. intros (A1 & B1 & C1) (A2 & B2 & C2). repeat split; congruence. Qed.

Lemma pages_same_bytes s s' : only_bytes s s' -> pages_same s s'.
Proof. intros [b ->]. repeat split. Qed.

Lemma pages_same_count_allocation s : pages_same s (snd (count_allocation s)).
Proof.
  unfold count_allocation, modify_stats, bind, modify. cbn.
  match goal with |- context [if ?c then _ else _] => destruct c end; repeat split.
Qed.

(** What [Allocate] on the pool does to the pages, however it ends. *)
Lemma Allocate_pages fuel sys s :
  UseCPPMemManager_ (Config_ s) = false ->
  wp (Allocate fuel sys) (fun _ s' => pages_step sys s s') s.
Proof.
  intros Hpool. unfold Allocate. apply wp_get_bind. rewrite Hpool.
  assert (Htail : forall s1 : ObjectAllocator, wp
        (s2 <- get ;;
         let temp := free_list_ s2 in
         next <- load_ptr temp ;;
         modify (set_free_list next) ;;
         when (DebugOn_ (Config_ s2))
              (_ <- fill (Z.to_nat (ObjectSize_ (OAStats_ s2))) temp ALLOCATED_PATTERN ;;
               ret tt) ;;
         when (negb (HeaderBlocks_ (Config_ s2) =? 0))
              (store_byte (temp - u32 (PadBytes_ (Config_ s2) + 1)) 1) ;;
         count_allocation ;;
         ret temp) (fun _ s' => pages_same s1 s') s1).
  { intros s1. eapply wp_mono.
    - apply (Allocate_take_kept pages_same pages_same_refl pages_same_trans
               pages_same_bytes); intros; repeat split.
    - intros r s' Hr. eapply then_counted_kept; [apply pages_same_trans | | exact Hr].
      apply pages_same_count_allocation. }
  apply wp_bind.
  destruct (Z.eqb_spec (FreeObjects_ (OAStats_ s)) 0) as [HF | HF]; cbn [when].
  - destruct (Z.eqb_spec (PagesInUse_ (OAStats_ s)) (MaxPages_ (Config_ s))) as [HP | HP].
    + apply wp_throw. cbn [wp_next]. split; [reflexivity|]. left. split; reflexivity.
    + eapply wp_mono.
      * apply (AllocatePage_kept pages_same pages_same_refl pages_same_trans
                 pages_same_bytes); intros; repeat split.
      * intros r s1 [[-> ->] | [Hr Hs1]]; cbn [wp_next].
        { split; [reflexivity|]. right. split; [exact HP|].
          split; [reflexivity|]. left. reflexivity. }
        assert (Hstep : forall s', pages_same s1 s' -> pages_step sys s s').
        { intros s' Hs'. destruct (pages_same_trans _ _ _ Hs1 Hs') as (Hc & Hl & Hp).
          split; [exact Hc|]. right. split; [exact HP|].
          split; [exact Hp|]. right. eexists. exact Hl. }
        destruct r as [[] | e | | ]; cbn [wp_next];
          try (apply Hstep, pages_same_refl).
        eapply wp_mono; [apply Htail|]. intros r s' Hs'. apply Hstep, Hs'.
  - apply wp_ret. cbn [wp_next]. eapply wp_mono; [apply Htail|].
    intros r s' (Hc & Hl & Hp). split; [exact Hc|]. left. split; assumption.
Qed.

(** What [Free] does to the pages of the pool, however it ends. *)
Lemma Free_pages fuel Object s :
  UseCPPMemManager_ (Config_ s) = false ->
  pages_same s (snd (Free fuel Object s)).
Proof.
  intros Hpool.
  pose proof (Free_members fuel Object s Hpool) as Hf. unfold wp in Hf.
  destruct Hf as [((Hc & _) & Hl & _ & Hp & _) _]. repeat split; assumption.
Qed.

(** X4.  The pool keeps to its page limit: once it counts at least one page and
    no more than [MaxPages_], and owns no more pages than it counts, this
    stays so after any sequence of calls of [Allocate] and [Free], whatever
    their arguments and however each of them ends. *)
Theorem pages_within_limit fuel h s calls :
  UseCPPMemManager_ (Config_ s) = false ->
  MaxPages_ (Config_ s) < UINT_MOD ->
  1 <= PagesInUse_ (OAStats_ s) <= MaxPages_ (Config_ s) ->
  1 <= pages_created h s <= PagesInUse_ (OAStats_ s) ->
  MaxPages_ (Config_ (run_on fuel calls s)) = MaxPages_ (Config_ s) /\
  1 <= PagesInUse_ (OAStats_ (run_on fuel calls s)) <= MaxPages_ (Config_ s) /\
  1 <= pages_created h (run_on fuel calls s)
    <= PagesInUse_ (OAStats_ (run_on fuel calls s)).
Proof.
  intros Hpool Hrange Hpages Hown.
  remember (MaxPages_ (Config_ s)) as P eqn:HP. symmetry in HP.
  revert s Hpool HP Hpages Hown.
  induction calls as [|c calls IH]; intros s Hp Hm Hn Hl; cbn [run_on].
  - split; [exact Hm|]. split; assumption.
  - apply IH; destruct c as [g | Object]; cbn [do_call].
    1, 3, 5, 7:
      pose proof (Allocate_pages fuel g s Hp) as Ha; unfold wp in Ha;
      unfold bind; destruct (Allocate fuel g s) as [r s1]; cbn [fst snd] in Ha;
      assert (Hs1 : snd (match r with
                         | Ok a => ret tt s1
                         | Throw e => (Throw e, s1)
                         | Fault => (Fault, s1)
                         | Timeout => (Timeout, s1)
                         end) = s1) by (destruct r; reflexivity);
      rewrite Hs1; destruct Ha as [Hcfg [[Hlive Hpg] | (Hne & Hpg & Hlive)]];
      try (rewrite Hcfg; assumption).
    + rewrite Hpg. exact Hn.
    + rewrite Hm in Hne. rewrite Hpg, u32_small by lia. lia.
    + rewrite Hpg. unfold pages_created in *. rewrite Hlive. exact Hl.
    + rewrite Hm in Hne. rewrite Hpg, u32_small by lia. unfold pages_created in *.
      destruct Hlive as [Hlive | [n Hlive]]; rewrite Hlive; cbn [length]; lia.
    + destruct (Free_pages fuel Object s Hp) as (Hcfg & _). rewrite Hcfg. exact Hp.
    + destruct (Free_pages fuel Object s Hp) as (Hcfg & _). rewrite Hcfg. exact Hm.
    + destruct (Free_pages fuel Object s Hp) as (_ & _ & Hpg). rewrite Hpg. exact Hn.
    + destruct (Free_pages fuel Object s Hp) as (_ & Hlive & Hpg). rewrite Hpg.
      unfold pages_created in *. rewrite Hlive. exact Hl.
Qed.

End Pages.

Section Usage.
Context `{Platform}.

Lemma usage_same_refl s : usage_same s s.
Proof. repeat split. Qed.

Lemma usage_same_trans s1 s2 s3 : usage_same s1 s2 -> usage_same s2 s3 -> usage_same s1 s3.
Proof. intros (A1 & B1 & C1 & D1) (A2 & B2 & C2 & D2). repeat split; congruence. Qed.

Lemma usage_same_bytes s s' : only_bytes s s' -> usage_same s s'.
Proof. intros [b ->]. repeat split. Qed.

Lemma usage_same_live s l : usage_same s (set_heap (mkHeap (bytes (heap s)) l) s).
Proof. repeat split. Qed.

(** [Allocate], in either mode: the usage counters are untouched until the
    block is at hand and counted. *)
Lemma Allocate_usage fuel sys s :
  wp (Allocate fuel sys) (then_counted usage_same count_allocation s) s.
Proof.
  unfold Allocate. apply wp_get_bind.
  destruct (UseCPPMemManager_ (Config_ s)).
  - apply (then_counted_bind usage_same usage_same_trans).
    + unfold new_throwing, new_nothrow, bind, wp.
      destruct ((0 <? sys) && (_ <=? ptr_limit)); cbn [fst snd].
      * destruct (sys =? 0); apply usage_same_live.
      * cbn [Z.eqb fault fst snd]. apply usage_same_refl.
    + intros p s1 _. apply (then_counted_last usage_same usage_same_refl).
      intros s2. apply count_allocation_effect.
  - apply (then_counted_bind usage_same usage_same_trans).
    + destruct (FreeObjects_ (OAStats_ s) =? 0); cbn [when];
        [|apply wp_ret, usage_same_refl].
      destruct (PagesInUse_ (OAStats_ s) =? MaxPages_ (Config_ s));
        [apply wp_throw, usage_same_refl|].
      eapply wp_mono.
      * apply (AllocatePage_kept usage_same usage_same_refl usage_same_trans
                 usage_same_bytes); intros; repeat split.
      * intros r s1 [[_ ->] | [_ Hs1]]; [repeat split|].
        eapply usage_same_trans; [|exact Hs1]. repeat split.
    + intros _ s1 _.
      apply (Allocate_take_kept usage_same usage_same_refl usage_same_trans
               usage_same_bytes); intros; repeat split.
Qed.

(** [Free], in either mode: the usage counters are untouched until the
    block is back on the free list and counted. *)
Lemma Free_usage fuel Object s :
  wp (Free fuel Object) (then_counted usage_same count_deallocation s) s.
Proof.
  assert (Hlast : forall s1 : ObjectAllocator,
            wp count_deallocation (then_counted usage_same count_deallocation s1) s1).
  { intros s1. exists s1. split; [apply usage_same_refl|]. split; [reflexivity|].
    intros Hno. exfalso. exact (Hno tt eq_refl). }
  unfold Free. apply wp_get_bind.
  destruct (UseCPPMemManager_ (Config_ s)).
  - apply (then_counted_bind usage_same usage_same_trans); [|intros; apply Hlast].
    unfold delete_array, wp. destruct (Object =? 0); [apply usage_same_refl|].
    destruct (existsb _ _); cbn [fst snd]; [apply usage_same_live | apply usage_same_refl].
  - cbv zeta. apply (then_counted_bind usage_same usage_same_trans).
    + eapply wp_mono.
      * apply (wp_when _ _ (unchanged s)).
        -- intros _. apply ValidateObject_unchanged.
        -- intros _. reflexivity.
      * intros r s1 ->. apply usage_same_refl.
    + intros _ s1 _.
      apply (Free_accepted_kept usage_same usage_same_refl usage_same_trans
               usage_same_bytes); intros; repeat split.
Qed.

Lemma do_call_usage fuel c s :
  usage_step c (fst (do_call fuel c s)) s (snd (do_call fuel c s)).
Proof.
  destruct c as [sys | Object]; cbn [do_call].
  - pose proof (Allocate_usage fuel sys s) as Ha. unfold wp in Ha.
    unfold bind. destruct (Allocate fuel sys s) as [r s1]. cbn [fst snd] in Ha.
    destruct Ha as (s2 & (Hi & Hm & Ha & Hd) & Hok & Hno).
    destruct r as [p | e | | ]; cbn [ret fst snd usage_step].
    + rewrite (Hok (ex_intro _ p eq_refl)).
      unfold count_allocation, modify_stats, bind, modify. cbn.
      rewrite Hi, Hm, Ha.
      destruct (MostObjects_ (OAStats_ s) <? u32 (ObjectsInUse_ (OAStats_ s) + 1));
        repeat split; assumption.
    + rewrite Hno by discriminate. repeat split; assumption.
    + rewrite Hno by discriminate. repeat split; assumption.
    + rewrite Hno by discriminate. repeat split; assumption.
  - pose proof (Free_usage fuel Object s) as Hf. unfold wp in Hf.
    destruct (Free fuel Object s) as [r s1]. cbn [fst snd] in *.
    destruct Hf as (s2 & (Hi & Hm & Ha & Hd) & Hok & Hno).
    destruct r as [[] | e | | ]; cbn [usage_step].
    + rewrite (Hok (ex_intro _ tt eq_refl)). cbn. rewrite Hi, Hd.
      repeat split; assumption.
    + rewrite Hno by discriminate. repeat split; assumption.
    + rewrite Hno by discriminate. repeat split; assumption.
    + rewrite Hno by discriminate. repeat split; assumption.
Qed.

Lemma peak_start fuel calls s : ObjectsInUse_ (OAStats_ s) <= peak fuel calls s.
Proof. destruct calls; cbn [peak]; lia. Qed.

(** X5.  [MostObjects_] is the high-water mark of [ObjectsInUse_]: if it is not
    below the objects in use now, then after any sequence of calls of
    [Allocate] and [Free], however each of them ends, it is the larger of
    its old value and the most objects in use at any moment since, as long
    as no call of [Free] returns while no object is counted in use and the
    counter cannot wrap around. *)
Theorem MostObjects_high_water_mark fuel calls s :
  0 <= ObjectsInUse_ (OAStats_ s) <= MostObjects_ (OAStats_ s) ->
  MostObjects_ (OAStats_ s) + Z.of_nat (length calls) < UINT_MOD ->
  releases_in_use fuel calls s ->
  MostObjects_ (OAStats_ (run_on fuel calls s))
  = Z.max (MostObjects_ (OAStats_ s)) (peak fuel calls s) /\
  ObjectsInUse_ (OAStats_ (run_on fuel calls s))
  <= MostObjects_ (OAStats_ (run_on fuel calls s)).
Proof.
  revert s. induction calls as [|c calls IH]; intros s Hin Hroom Hrel;
    cbn [run_on peak].
  - split; lia.
  - cbn [releases_in_use] in Hrel. destruct Hrel as [Hc Hrel].
    cbn [length] in Hroom. rewrite Nat2Z.inj_succ in Hroom.
    pose proof (do_call_usage fuel c s) as Hstep.
    pose proof (peak_start fuel calls (snd (do_call fuel c s))) as Hpk.
    assert (Hsmall : forall x, 0 <= x < UINT_MOD -> u32 x = x).
    { intros x Hx. unfold u32. apply Z.mod_small. exact Hx. }
    destruct c as [sys | Object];
      destruct (fst (do_call fuel _ s)) as [[] | e | | ]; cbn [usage_step] in Hstep.
    2, 3, 4, 6, 7, 8:
      destruct Hstep as (Hi & Hm & _);
      destruct (IH _ ltac:(rewrite Hi, Hm; exact Hin) ltac:(rewrite Hm; lia) Hrel)
        as [IH1 IH2];
      split; [rewrite IH1, Hm; rewrite Hi in Hpk; lia | exact IH2].
    + destruct Hstep as (Hi & Hm & _).
      rewrite (Hsmall (ObjectsInUse_ (OAStats_ s) + 1)) in Hi, Hm by lia.
      rewrite (Hsmall (MostObjects_ (OAStats_ s) + 1)) in Hm by lia.
      destruct (Z.ltb_spec (MostObjects_ (OAStats_ s)) (ObjectsInUse_ (OAStats_ s) + 1)).
      * destruct (IH _ ltac:(rewrite Hi, Hm; lia) ltac:(rewrite Hm; lia) Hrel)
          as [IH1 IH2].
        split; [rewrite IH1, Hm; rewrite Hi in Hpk; lia | exact IH2].
      * destruct (IH _ ltac:(rewrite Hi, Hm; lia) ltac:(rewrite Hm; lia) Hrel)
          as [IH1 IH2].
        split; [rewrite IH1, Hm; rewrite Hi in Hpk; lia | exact IH2].
    + destruct Hstep as (Hi & Hm & _).
      rewrite (Hsmall (ObjectsInUse_ (OAStats_ s) - 1)) in Hi by lia.
      destruct (IH _ ltac:(rewrite Hi, Hm; lia) ltac:(rewrite Hm; lia) Hrel)
        as [IH1 IH2].
      split; [rewrite IH1, Hm; rewrite Hi in Hpk; lia | exact IH2].
Qed.

End Usage.

(** * Blocks handed out and taken back *)

Section Order.
Context `{Platform}.

Lemma payload_same_setup s s' page i :
  same_setup s s' -> payload s' page i = payload s page i.
Proof.
  intros (E1 & E2 & E3 & E4). unfold payload, stride. rewrite E1, E2, E4. reflexivity.
Qed.

Lemma blocks_from_same_setup s s' page n : forall top,
  same_setup s s' -> blocks_from s' page top n = blocks_from s page top n.
Proof.
  induction n as [|n IH]; intros top Hs; [reflexivity|].
  cbn [blocks_from]. rewrite (payload_same_setup _ _ _ _ Hs), IH by exact Hs.
  reflexivity.
Qed.

(** As long as the newest page has free blocks, [Allocate] hands them out
    from the head of the free list down. *)
Lemma pool_allocations fuel page grants : forall s,
  pool s page ->
  Z.of_nat (length grants) <= FreeObjects_ (OAStats_ s) ->
  exists s',
    allocate_many fuel grants s
    = (Ok (blocks_from s page (FreeObjects_ (OAStats_ s) - 1) (length grants)), s') /\
    pool s' page /\ same_setup s s'.
Proof.
  induction grants as [|g grants IH]; intros s Hpool Hlen.
  - exists s. split; [reflexivity|]. split; [exact Hpool | apply same_setup_refl].
  - cbn [length] in *. rewrite Nat2Z.inj_succ in Hlen.
    destruct (returns_inv _ _ _ (Allocate_from_free_list fuel g s page Hpool ltac:(lia)))
      as (p & s1 & E1 & Hp & Hbt & Hpool1).
    pose proof Hbt as (Hs1 & _ & _ & _ & _ & HF & _).
    destruct (page_bytes_range s (pool_members _ _ Hpool)) as (_ & _ & _ & _ & _ & HK & _).
    pose proof (pool_free _ _ Hpool) as HFr.
    assert (HF1 : FreeObjects_ (OAStats_ s1) = FreeObjects_ (OAStats_ s) - 1).
    { rewrite HF. apply u32_small. lia. }
    destruct (IH s1 Hpool1 ltac:(lia)) as (s' & E & Hpool' & Hs').
    exists s'. split; [|split; [exact Hpool' | exact (same_setup_trans _ _ _ Hs1 Hs')]].
    cbn [allocate_many blocks_from]. unfold bind. rewrite E1, E. cbn [ret].
    rewrite Hp, HF1, (blocks_from_same_setup _ _ _ _ _ Hs1). reflexivity.
Qed.

Lemma blocks_from_stacked s page n : forall top hi,
  members_ok sizeof_ptr s ->
  Z.of_nat n <= top + 1 <= ObjectsPerPage_ (Config_ s) ->
  payload s page top + ObjectSize_ (OAStats_ s) <= hi ->
  stacked (page + sizeof_ptr) hi (ObjectSize_ (OAStats_ s)) (blocks_from s page top n).
Proof.
  induction n as [|n IH]; intros top hi Hok Htop Hhi; cbn [blocks_from stacked]; [exact I|].
  rewrite Nat2Z.inj_succ in Htop.
  destruct (payload_bounds s page top Hok ltac:(lia)) as (Hlo & _).
  split; [exact Hlo|]. split; [exact Hhi|].
  destruct n as [|n']; [exact I|].
  apply IH; [exact Hok | lia |].
  destruct (stride_room s Hok) as (_ & Hr & _).
  pose proof (ok_pad _ _ Hok).
  pose proof (payload_step s page (top - 1)) as Hst.
  replace (top - 1 + 1) with top in Hst by lia. lia.
Qed.

(** X6.  [Allocate] hands out the free blocks of the newest page from the head
    of the free list down: on a pool in working order as many calls of
    [Allocate] as the page has free blocks, or fewer, all return, and the
    objects they return lie inside the page after its link word, each
    [ObjectSize_] bytes long and entirely below the one returned before
    it. *)
Theorem Allocate_hands_out_page_in_order fuel s page grants :
  pool s page ->
  Z.of_nat (length grants) <= FreeObjects_ (OAStats_ s) ->
  exists s',
    allocate_many fuel grants s
    = (Ok (blocks_from s page (FreeObjects_ (OAStats_ s) - 1) (length grants)), s') /\
    stacked (page + sizeof_ptr) (page + page_bytes s) (ObjectSize_ (OAStats_ s))
            (blocks_from s page (FreeObjects_ (OAStats_ s) - 1) (length grants)).
Proof.
  intros Hpool Hlen.
  destruct (pool_allocations fuel page grants s Hpool Hlen) as (s' & E & _ & _).
  exists s'. split; [exact E|].
  pose proof (pool_members _ _ Hpool) as Hok.
  pose proof (pool_free _ _ Hpool) as HF.
  destruct grants as [|g grants]; [exact I|].
  cbn [length] in Hlen. rewrite Nat2Z.inj_succ in Hlen.
  apply blocks_from_stacked; [exact Hok | cbn [length]; lia |].
  destruct (payload_bounds s page (FreeObjects_ (OAStats_ s) - 1) Hok ltac:(lia))
    as (_ & Hhi & _).
  pose proof (ok_pad _ _ Hok). lia.
Qed.

End Order.

Section Inversion.
Context `{Platform}.

Lemma bind_inv {A B} (m : M A) (k : A -> M B) s b s' :
  bind m k s = (Ok b, s') -> exists a s1, m s = (Ok a, s1) /\ k a s1 = (Ok b, s').
Proof.
  unfold bind. destruct (m s) as [[a | e | | ] s1]; intros E; try discriminate.
  exists a, s1. split; [reflexivity | exact E].
Qed.

Lemma store_byte_inv a v s s' :
  store_byte a v s = (Ok tt, s') ->
  is_live (heap s) a = true /\ s' = set_heap (poke (heap s) a v) s.
Proof.
  unfold store_byte. destruct (is_live (heap s) a); intros E; [|discriminate].
  injection E as <-. split; reflexivity.
Qed.

Lemma load_byte_inv a s b s' :
  load_byte a s = (Ok b, s') ->
  is_live (heap s) a = true /\ s' = s /\ b = bytes (heap s) a.
Proof.
  unfold load_byte. destruct (is_live (heap s) a); intros E; [|discriminate].
  injection E as <- <-. repeat split.
Qed.

Lemma fill_inv n : forall p v s q s',
  fill n p v s = (Ok q, s') -> range_live (heap s) p (Z.of_nat n).
Proof.
  induction n as [|n IH]; intros p v s q s' E a Ha; [lia|].
  cbn [fill] in E. apply bind_inv in E as ([] & s1 & E1 & E2).
  apply store_byte_inv in E1 as [Hl ->].
  destruct (Z.eq_dec a p) as [-> | Hne]; [exact Hl|].
  exact (IH _ _ _ _ _ E2 a ltac:(lia)).
Qed.

Lemma store_bytes_inv l : forall a s s',
  store_bytes a l s = (Ok tt, s') -> range_live (heap s) a (Z.of_nat (length l)).
Proof.
  induction l as [|b l IH]; intros a s s' E x Hx; cbn [length] in Hx; [lia|].
  cbn [store_bytes] in E. apply bind_inv in E as ([] & s1 & E1 & E2).
  apply store_byte_inv in E1 as [Hl ->].
  destruct (Z.eq_dec x a) as [-> | Hne]; [exact Hl|].
  exact (IH _ _ _ E2 x ltac:(lia)).
Qed.

Lemma load_bytes_inv n : forall a s l s',
  load_bytes n a s = (Ok l, s') -> range_live (heap s) a (Z.of_nat n).
Proof.
  induction n as [|n IH]; intros a s l s' E x Hx; [lia|].
  cbn [load_bytes] in E. apply bind_inv in E as (b & s1 & E1 & E2).
  apply load_byte_inv in E1 as (Hl & -> & _).
  apply bind_inv in E2 as (l' & s2 & E2 & _).
  destruct (Z.eq_dec x a) as [-> | Hne]; [exact Hl|].
  exact (IH _ _ _ _ E2 x ltac:(lia)).
Qed.

Lemma store_ptr_inv a v s s' :
  store_ptr a v s = (Ok tt, s') ->
  range_live (heap s) a sizeof_ptr /\ only_bytes s s' /\
  peek_ptr (heap s') a = v mod ptr_limit /\ same_outside a (a + sizeof_ptr) s s'.
Proof.
  intros E. unfold store_ptr in E.
  pose proof (store_bytes_inv _ _ _ _ E) as Hl.
  destruct (store_bytes_spec _ a s Hl) as (s1 & E1 & Hb & Hm & Ho).
  rewrite E in E1. injection E1 as <-.
  rewrite encode_length in *. rewrite sizeof_ptr_nat in *.
  repeat split; try assumption.
  unfold peek_ptr. rewrite Hm, decode_encode, sizeof_ptr_nat. reflexivity.
Qed.

Lemma load_ptr_inv a s v s' :
  load_ptr a s = (Ok v, s') ->
  range_live (heap s) a sizeof_ptr /\ s' = s /\ v = peek_ptr (heap s) a.
Proof.
  intros E. pose proof E as E'. unfold load_ptr in E'.
  apply bind_inv in E' as (l & s1 & E1 & _).
  apply load_bytes_inv in E1. rewrite sizeof_ptr_nat in E1.
  rewrite (load_ptr_ok _ _ E1) in E. injection E as <- <-. repeat split. exact E1.
Qed.

(** A fill that returns has written its value over the whole range. *)
Lemma fill_returned n p v s q s' :
  fill n p v s = (Ok q, s') ->
  range_live (heap s) p (Z.of_nat n) /\ only_bytes s s' /\
  forall a, bytes (heap s') a =
            if (p <=? a) && (a <? p + Z.of_nat n) then v else bytes (heap s) a.
Proof.
  intros E. pose proof (fill_inv _ _ _ _ _ _ E) as Hl.
  destruct (fill_spec n p v s Hl) as (s1 & E1 & Hb & Hv).
  rewrite E in E1. injection E1 as _ <-. repeat split; assumption.
Qed.

(** What [Free] has done on the pool when it returns: the bytes it has
    written and the storage it has found owned on the way. *)
Lemma Free_returned fuel Object s s1 :
  UseCPPMemManager_ (Config_ s) = false ->
  Free fuel Object s = (Ok tt, s1) ->
  exists s4,
    s1 = snd (count_deallocation (set_free_list Object s4)) /\
    only_bytes s s4 /\
    range_live (heap s) Object sizeof_ptr /\
    peek_ptr (heap s4) Object = free_list_ s mod ptr_limit /\
    (DebugOn_ (Config_ s) = true ->
     range_live (heap s) (Object + sizeof_ptr)
                (u32 (ObjectSize_ (OAStats_ s) - sizeof_ptr))) /\
    (HeaderBlocks_ (Config_ s) <> 0 ->
     is_live (heap s) (Object - u32 (PadBytes_ (Config_ s) + 1)) = true) /\
    forall a, a < Object \/ Object + sizeof_ptr <= a ->
      bytes (heap s4) a
      = if negb (HeaderBlocks_ (Config_ s) =? 0)
           && (a =? Object - u32 (PadBytes_ (Config_ s) + 1))
        then 0
        else if DebugOn_ (Config_ s)
                && ((Object + sizeof_ptr <=? a)
                    && (a <? Object + sizeof_ptr
                             + u32 (ObjectSize_ (OAStats_ s) - sizeof_ptr)))
             then FREED_PATTERN
             else bytes (heap s) a.
Proof.
  intros Hpool E. unfold Free in E. rewrite bind_get_eq in E. rewrite Hpool in E.
  cbv zeta in E.
  apply bind_inv in E as ([] & s0 & E0 & E).
  assert (Hs0 : s0 = s).
  { destruct (DebugOn_ (Config_ s)); cbn [when] in E0.
    - exact (wp_inv _ _ _ _ _ (ValidateObject_unchanged fuel Object s) E0).
    - injection E0 as <-. reflexivity. }
  subst s0. clear E0.
  apply bind_inv in E as ([] & s2 & E2 & E).
  apply bind_inv in E as ([] & s3 & E3 & E).
  rewrite bind_get_eq in E. apply bind_inv in E as ([] & s4' & E4 & E5).
  pose proof (u32_range (ObjectSize_ (OAStats_ s) - sizeof_ptr)) as Hn.
  (* the pattern *)
  assert (H2 : only_bytes s s2 /\
               (DebugOn_ (Config_ s) = true ->
                range_live (heap s) (Object + sizeof_ptr)
                           (u32 (ObjectSize_ (OAStats_ s) - sizeof_ptr))) /\
               forall a, bytes (heap s2) a
                 = if DebugOn_ (Config_ s)
                      && ((Object + sizeof_ptr <=? a)
                          && (a <? Object + sizeof_ptr
                                   + u32 (ObjectSize_ (OAStats_ s) - sizeof_ptr)))
                   then FREED_PATTERN else bytes (heap s) a).
  { destruct (DebugOn_ (Config_ s)); cbn [when andb] in *.
    - apply bind_inv in E2 as (q & s2' & E2 & Er). injection Er as <-.
      apply fill_returned in E2 as (Hl & Hb & Hv).
      rewrite Z2Nat.id in Hl, Hv by lia.
      split; [exact Hb|]. split; [intros _; exact Hl | exact Hv].
    - injection E2 as <-. split; [apply only_bytes_refl|].
      split; [discriminate | reflexivity]. }
  destruct H2 as (Hb2 & Hl2 & Hv2).
  destruct (only_bytes_fields _ _ Hb2) as (Hc2 & Ht2 & _ & _ & _ & Hf2 & Hlv2).
  (* the header flag *)
  assert (H3 : only_bytes s2 s3 /\
               (HeaderBlocks_ (Config_ s) <> 0 ->
                is_live (heap s) (Object - u32 (PadBytes_ (Config_ s) + 1)) = true) /\
               forall a, bytes (heap s3) a
                 = if negb (HeaderBlocks_ (Config_ s) =? 0)
                      && (a =? Object - u32 (PadBytes_ (Config_ s) + 1))
                   then 0 else bytes (heap s2) a).
  { destruct (Z.eqb_spec (HeaderBlocks_ (Config_ s)) 0) as [Hh | Hh];
      cbn [negb when andb] in *.
    - injection E3 as <-. split; [apply only_bytes_refl|].
      split; [intros Hne; contradiction | reflexivity].
    - apply store_byte_inv in E3 as [Hl ->].
      split; [apply only_bytes_poke|]. split.
      + intros _. rewrite <- (is_live_ext _ _ _ Hlv2). exact Hl.
      + intros a. reflexivity. }
  destruct H3 as (Hb3 & Hl3 & Hv3).
  destruct (only_bytes_fields _ _ Hb3) as (_ & _ & _ & _ & _ & Hf3 & Hlv3).
  (* the link *)
  assert (H4 : exists s4, s4' = set_free_list Object s4 /\ only_bytes s3 s4 /\
                 range_live (heap s3) Object sizeof_ptr /\
                 peek_ptr (heap s4) Object = free_list_ s mod ptr_limit /\
                 same_outside Object (Object + sizeof_ptr) s3 s4).
  { destruct (Z.eqb_spec (free_list_ s3) 0) as [Hz | Hz].
    - apply bind_inv in E4 as ([] & s5 & E5' & E4). injection E5' as <-.
      apply store_ptr_inv in E4 as (Hl & [b ->] & Hp & Ho).
      exists (set_heap (mkHeap b (live (heap s3))) s3).
      split; [reflexivity|]. split; [eexists; reflexivity|].
      split; [exact Hl|]. split; [|exact Ho].
      rewrite <- Hf2, <- Hf3, Hz. exact Hp.
    - apply bind_inv in E4 as ([] & s5 & E4 & E5'). injection E5' as <-.
      apply store_ptr_inv in E4 as (Hl & Hb & Hp & Ho).
      exists s5. split; [reflexivity|]. split; [exact Hb|].
      split; [exact Hl|]. split; [|exact Ho].
      rewrite <- Hf2, <- Hf3. exact Hp. }
  destruct H4 as (s4 & -> & Hb4 & Hl4 & Hp4 & Ho4).
  exists s4. split; [rewrite E5; reflexivity|].
  split; [exact (only_bytes_trans _ _ _ Hb2 (only_bytes_trans _ _ _ Hb3 Hb4))|].
  split.
  { intros a Ha. rewrite <- (is_live_ext _ _ _ Hlv2), <- (is_live_ext _ _ _ Hlv3).
    apply Hl4, Ha. }
  split; [exact Hp4|]. split; [exact Hl2|]. split; [exact Hl3|].
  intros a Ha. rewrite (Ho4 a Ha), Hv3, Hv2. reflexivity.
Qed.

End Inversion.

Section RoundTrip.
Context `{Platform}.

(** X7.  A block that [Free] has just taken back is the next one [Allocate]
    hands out: on the pool, when [Free] returns, the next call of
    [Allocate] returns the same object without asking for a page, and the
    head of the free list and the count of free objects are again what
    they were before the release. *)
Theorem Free_then_Allocate_returns_block fuel fuel' sys Object s s1 :
  UseCPPMemManager_ (Config_ s) = false ->
  0 <= FreeObjects_ (OAStats_ s) < UINT_MOD - 1 ->
  ObjectSize_ (OAStats_ s) < UINT_MOD ->
  0 <= free_list_ s < ptr_limit ->
  Free fuel Object s = (Ok tt, s1) ->
  exists s2,
    Allocate fuel' sys s1 = (Ok Object, s2) /\
    free_list_ s2 = free_list_ s /\
    FreeObjects_ (OAStats_ s2) = FreeObjects_ (OAStats_ s) /\
    page_list_ s2 = page_list_ s /\
    PagesInUse_ (OAStats_ s2) = PagesInUse_ (OAStats_ s) /\
    live (heap s2) = live (heap s).
Proof.
  intros Hpool HF Hsize Hfl E.
  destruct (Free_returned fuel Object s s1 Hpool E)
    as (s4 & -> & [b ->] & Hlink & Hpeek & Hfill & Hflag & _).
  rewrite (Z.mod_small _ _ Hfl) in Hpeek.
  pose proof sizeof_ptr_pos as Hpp.
  set (s1 := snd (count_deallocation _)).
  assert (HF1 : FreeObjects_ (OAStats_ s1) = FreeObjects_ (OAStats_ s) + 1).
  { cbn. apply u32_small. lia. }
  assert (Hw : wp (Allocate fuel' sys)
    (returns (fun p s2 =>
       p = Object /\ free_list_ s2 = free_list_ s /\
       FreeObjects_ (OAStats_ s2) = FreeObjects_ (OAStats_ s) /\
       page_list_ s2 = page_list_ s /\
       PagesInUse_ (OAStats_ s2) = PagesInUse_ (OAStats_ s) /\
       live (heap s2) = live (heap s))) s1).
  { unfold Allocate. apply wp_get_bind.
    change (UseCPPMemManager_ (Config_ s1)) with (UseCPPMemManager_ (Config_ s)).
    rewrite Hpool, HF1.
    replace (FreeObjects_ (OAStats_ s) + 1 =? 0) with false
      by (symmetry; apply Z.eqb_neq; lia).
    cbn [when]. apply wp_ret_bind. apply wp_get_bind.
    change (free_list_ s1) with Object.
    change (Config_ s1) with (Config_ s).
    change (ObjectSize_ (OAStats_ s1)) with (ObjectSize_ (OAStats_ s)).
    eapply wp_bind_ok; [apply load_ptr_ok; exact Hlink|].
    change (heap s1) with (heap (set_heap (mkHeap b (live (heap s))) s)).
    rewrite Hpeek.
    apply wp_modify_bind.
    match goal with |- wp _ _ ?st => set (s2 := st) end.
    (* the pattern *)
    assert (H3 : exists s3,
               when (DebugOn_ (Config_ s))
                    (_ <- fill (Z.to_nat (ObjectSize_ (OAStats_ s))) Object
                               ALLOCATED_PATTERN ;; ret tt) s2 = (Ok tt, s3) /\
               only_bytes s2 s3).
    { destruct (DebugOn_ (Config_ s)) eqn:Hd; cbn [when].
      - destruct (fill_spec (Z.to_nat (ObjectSize_ (OAStats_ s))) Object
                            ALLOCATED_PATTERN s2) as (s3 & E3 & Hb3 & _).
        { intros a Ha. change (is_live (heap s) a = true).
          destruct (Z.lt_ge_cases a (Object + sizeof_ptr)) as [Hlt | Hge].
          - apply Hlink. lia.
          - apply (Hfill eq_refl).
            assert (ObjectSize_ (OAStats_ s) - sizeof_ptr
                    <= u32 (ObjectSize_ (OAStats_ s) - sizeof_ptr)).
            { pose proof (u32_range (ObjectSize_ (OAStats_ s) - sizeof_ptr)).
              destruct (Z.lt_ge_cases (ObjectSize_ (OAStats_ s) - sizeof_ptr) 0);
                [lia|]. rewrite u32_small; lia. }
            lia. }
        exists s3. unfold bind. rewrite E3. split; [reflexivity | exact Hb3].
      - exists s2. split; [reflexivity | apply only_bytes_refl]. }
    destruct H3 as (s3 & E3 & [b3 Hs3]).
    eapply wp_bind_ok; [exact E3|].
    (* the header flag *)
    assert (H4 : exists s4,
               when (negb (HeaderBlocks_ (Config_ s) =? 0))
                    (store_byte (Object - u32 (PadBytes_ (Config_ s) + 1)) 1) s3
               = (Ok tt, s4) /\ only_bytes s3 s4).
    { destruct (Z.eqb_spec (HeaderBlocks_ (Config_ s)) 0) as [Hh | Hh]; cbn [negb when].
      - exists s3. split; [reflexivity | apply only_bytes_refl].
      - eexists. split; [|apply only_bytes_poke].
        apply store_byte_ok. rewrite Hs3. exact (Hflag Hh). }
    destruct H4 as (s4 & E4 & [b4 Hs4]).
    eapply wp_bind_ok; [exact E4|].
    apply wp_bind. unfold wp at 1.
    destruct (count_allocation_effect s4) as (Hbt & Hok & Hfl4 & _).
    rewrite Hok. cbn [wp_next]. apply wp_ret. cbn [returns].
    destruct Hbt as (_ & Hlv & Hpl & Hpu & _ & HFo & _).
    split; [reflexivity|].
    split; [rewrite Hfl4, Hs4, Hs3; reflexivity|].
    split.
    { rewrite HFo, Hs4, Hs3.
      change (FreeObjects_ (OAStats_ (set_heap _ (set_heap _ s2))))
        with (FreeObjects_ (OAStats_ s1)).
      rewrite HF1. replace (FreeObjects_ (OAStats_ s) + 1 - 1)
        with (FreeObjects_ (OAStats_ s)) by lia.
      apply u32_small. lia. }
    split; [rewrite Hpl, Hs4, Hs3; reflexivity|].
    split; [rewrite Hpu, Hs4, Hs3; reflexivity|].
    rewrite Hlv, Hs4, Hs3. reflexivity. }
  destruct (returns_inv _ _ _ Hw) as (p & s2 & E2 & -> & Hrest).
  exists s2. split; [exact E2 | exact Hrest].
Qed.

End RoundTrip.

Section Marks.
Context `{Platform}.

(** X8.  What [Free] writes on the pool: when it returns, the object is the
    head of the free list and its link word holds the old head; with the
    debug flag on the rest of the object, [ObjectSize_ - sizeof_ptr] bytes
    as [unsigned], holds [FREED_PATTERN]; with header blocks the byte
    [PadBytes_ + 1] below the object is [0]; and no other byte has
    changed. *)
Theorem Free_marks_block fuel Object s s1 :
  UseCPPMemManager_ (Config_ s) = false ->
  u32 (PadBytes_ (Config_ s) + 1) <> 0 ->
  Free fuel Object s = (Ok tt, s1) ->
  free_list_ s1 = Object /\
  peek_ptr (heap s1) Object = free_list_ s mod ptr_limit /\
  (DebugOn_ (Config_ s) = true ->
   forall a, Object + sizeof_ptr <= a
             < Object + sizeof_ptr + u32 (ObjectSize_ (OAStats_ s) - sizeof_ptr) ->
     bytes (heap s1) a = FREED_PATTERN) /\
  (HeaderBlocks_ (Config_ s) <> 0 ->
   bytes (heap s1) (Object - u32 (PadBytes_ (Config_ s) + 1)) = 0) /\
  (forall a,
     a < Object \/ Object + sizeof_ptr <= a ->
     HeaderBlocks_ (Config_ s) = 0 \/ a <> Object - u32 (PadBytes_ (Config_ s) + 1) ->
     DebugOn_ (Config_ s) = false \/ a < Object + sizeof_ptr \/
     Object + sizeof_ptr + u32 (ObjectSize_ (OAStats_ s) - sizeof_ptr) <= a ->
     bytes (heap s1) a = bytes (heap s) a).
Proof.
  intros Hpool Hpad E.
  destruct (Free_returned fuel Object s s1 Hpool E)
    as (s4 & -> & _ & _ & Hpeek & _ & _ & Hbytes).
  pose proof (u32_range (PadBytes_ (Config_ s) + 1)) as Hp.
  pose proof (u32_range (ObjectSize_ (OAStats_ s) - sizeof_ptr)) as Hn.
  pose proof sizeof_ptr_pos as Hpp.
  split; [reflexivity|]. split; [exact Hpeek|].
  change (heap (snd (count_deallocation (set_free_list Object s4)))) with (heap s4).
  split; [|split].
  - intros Hd a Ha. rewrite Hbytes by lia. rewrite Hd.
    replace (a =? Object - u32 (PadBytes_ (Config_ s) + 1)) with false
      by (symmetry; apply Z.eqb_neq; lia).
    rewrite andb_false_r. cbn [andb].
    replace (Object + sizeof_ptr <=? a) with true by (symmetry; apply Z.leb_le; lia).
    replace (a <? Object + sizeof_ptr + u32 (ObjectSize_ (OAStats_ s) - sizeof_ptr))
      with true by (symmetry; apply Z.ltb_lt; lia).
    reflexivity.
  - intros Hh. rewrite Hbytes by lia.
    replace (HeaderBlocks_ (Config_ s) =? 0) with false
      by (symmetry; apply Z.eqb_neq; exact Hh).
    rewrite Z.eqb_refl. reflexivity.
  - intros a Ha Hflag Hfill. rewrite Hbytes by exact Ha.
    replace (negb (HeaderBlocks_ (Config_ s) =? 0)
             && (a =? Object - u32 (PadBytes_ (Config_ s) + 1))) with false.
    2: { symmetry. destruct Hflag as [-> | Hne]; [reflexivity|].
         apply andb_false_intro2, Z.eqb_neq, Hne. }
    replace (DebugOn_ (Config_ s)
             && ((Object + sizeof_ptr <=? a)
                 && (a <? Object + sizeof_ptr
                          + u32 (ObjectSize_ (OAStats_ s) - sizeof_ptr)))) with false;
      [reflexivity|].
    symmetry. destruct Hfill as [-> | [Hlt | Hge]]; [reflexivity| |].
    + apply andb_false_intro2, andb_false_intro1, Z.leb_gt, Hlt.
    + apply andb_false_intro2, andb_false_intro2, Z.ltb_ge, Hge.
Qed.

Lemma same_setup_bytes s s' : only_bytes s s' -> same_setup s s'.
Proof. intros [b ->]. repeat split. Qed.

(** [Allocate] on the pool, when it returns: the state it took the block
    in, and what it has written there. *)
Lemma Allocate_returned fuel sys s p s' :
  UseCPPMemManager_ (Config_ s) = false ->
  Allocate fuel sys s = (Ok p, s') ->
  exists s1 s4,
    (if FreeObjects_ (OAStats_ s) =? 0
     then AllocatePage fuel sys s = (Ok tt, s1) else s1 = s) /\
    same_setup s s1 /\
    p = free_list_ s1 /\
    range_live (heap s1) p sizeof_ptr /\
    s' = snd (count_allocation s4) /\
    only_bytes (set_free_list (peek_ptr (heap s1) p) s1) s4 /\
    (DebugOn_ (Config_ s) = true ->
     range_live (heap s1) p (Z.of_nat (Z.to_nat (ObjectSize_ (OAStats_ s))))) /\
    (HeaderBlocks_ (Config_ s) <> 0 ->
     is_live (heap s1) (p - u32 (PadBytes_ (Config_ s) + 1)) = true) /\
    forall a,
      bytes (heap s4) a
      = if negb (HeaderBlocks_ (Config_ s) =? 0)
           && (a =? p - u32 (PadBytes_ (Config_ s) + 1))
        then 1
        else if DebugOn_ (Config_ s)
                && ((p <=? a)
                    && (a <? p + Z.of_nat (Z.to_nat (ObjectSize_ (OAStats_ s)))))
             then ALLOCATED_PATTERN
             else bytes (heap s1) a.
Proof.
  intros Hpool E. unfold Allocate in E. rewrite bind_get_eq in E. rewrite Hpool in E.
  apply bind_inv in E as ([] & s1 & E1 & E).
  assert (H1 : (if FreeObjects_ (OAStats_ s) =? 0
                then AllocatePage fuel sys s = (Ok tt, s1) else s1 = s) /\
               same_setup s s1).
  { destruct (FreeObjects_ (OAStats_ s) =? 0); cbn [when] in E1.
    - destruct (PagesInUse_ (OAStats_ s) =? MaxPages_ (Config_ s)); [discriminate|].
      split; [exact E1|].
      pose proof (AllocatePage_kept same_setup same_setup_refl same_setup_trans
                    same_setup_bytes ltac:(intros; repeat split)
                    ltac:(intros; repeat split) ltac:(intros; repeat split)
                    fuel sys s) as Hk.
      apply (wp_inv _ _ _ _ _ Hk) in E1. destruct E1 as [[Ht _] | [_ Hs]];
        [discriminate|].
      eapply same_setup_trans; [|exact Hs]. repeat split.
    - injection E1 as <-. split; [reflexivity | apply same_setup_refl]. }
  destruct H1 as (Hpage & Hsetup). pose proof Hsetup as (Hc & _ & _ & Hsz).
  rewrite bind_get_eq in E. cbv zeta in E. rewrite Hc, Hsz in E.
  apply bind_inv in E as (next & s2 & E2 & E).
  apply load_ptr_inv in E2 as (Hlink & -> & ->).
  apply bind_inv in E as ([] & s2 & E2 & E). injection E2 as <-.
  apply bind_inv in E as ([] & s3 & E3 & E).
  apply bind_inv in E as ([] & s4 & E4 & E).
  apply bind_inv in E as ([] & s5 & E5 & E). injection E as <- <-.
  exists s1, s4. split; [exact Hpage|]. split; [exact Hsetup|].
  split; [reflexivity|]. split; [exact Hlink|]. split; [rewrite E5; reflexivity|].
  set (s2 := set_free_list _ s1) in *.
  assert (H3 : only_bytes s2 s3 /\
               (DebugOn_ (Config_ s) = true ->
                range_live (heap s1) (free_list_ s1)
                           (Z.of_nat (Z.to_nat (ObjectSize_ (OAStats_ s))))) /\
               forall a, bytes (heap s3) a
                 = if DebugOn_ (Config_ s)
                      && ((free_list_ s1 <=? a)
                          && (a <? free_list_ s1
                                   + Z.of_nat (Z.to_nat (ObjectSize_ (OAStats_ s)))))
                   then ALLOCATED_PATTERN else bytes (heap s1) a).
  { destruct (DebugOn_ (Config_ s)); cbn [when andb] in *.
    - apply bind_inv in E3 as (q & s3' & E3 & Er). injection Er as <-.
      apply fill_returned in E3 as (Hl & Hb & Hv).
      split; [exact Hb|]. split; [intros _; exact Hl | exact Hv].
    - injection E3 as <-. split; [apply only_bytes_refl|].
      split; [discriminate | reflexivity]. }
  destruct H3 as (Hb3 & Hl3 & Hv3).
  destruct (only_bytes_fields _ _ Hb3) as (_ & _ & _ & _ & _ & _ & Hlv3).
  assert (H4 : only_bytes s3 s4 /\
               (HeaderBlocks_ (Config_ s) <> 0 ->
                is_live (heap s1)
                        (free_list_ s1 - u32 (PadBytes_ (Config_ s) + 1)) = true) /\
               forall a, bytes (heap s4) a
                 = if negb (HeaderBlocks_ (Config_ s) =? 0)
                      && (a =? free_list_ s1 - u32 (PadBytes_ (Config_ s) + 1))
                   then 1 else bytes (heap s3) a).
  { destruct (Z.eqb_spec (HeaderBlocks_ (Config_ s)) 0) as [Hh | Hh];
      cbn [negb when andb] in *.
    - injection E4 as <-. split; [apply only_bytes_refl|].
      split; [intros Hne; contradiction | reflexivity].
    - apply store_byte_inv in E4 as [Hl ->].
      split; [apply only_bytes_poke|]. split.
      + intros _. rewrite (is_live_ext _ _ _ Hlv3) in Hl. exact Hl.
      + intros a. reflexivity. }
  destruct H4 as (Hb4 & Hl4 & Hv4).
  split; [exact (only_bytes_trans _ _ _ Hb3 Hb4)|].
  split; [exact Hl3|]. split; [exact Hl4|].
  intros a. rewrite Hv4, Hv3. reflexivity.
Qed.

(** X9.  What [Allocate] writes on the pool: when it returns, with the debug
    flag on every byte of the object holds [ALLOCATED_PATTERN], and with
    header blocks the byte [PadBytes_ + 1] below the object is [1].  When
    a free block was at hand, the object is the old head of the free list,
    the new head is the link word that was in it, and no other byte has
    changed. *)
Theorem Allocate_marks_block fuel sys s p s' :
  UseCPPMemManager_ (Config_ s) = false ->
  u32 (PadBytes_ (Config_ s) + 1) <> 0 ->
  Allocate fuel sys s = (Ok p, s') ->
  (DebugOn_ (Config_ s) = true ->
   forall a, p <= a < p + ObjectSize_ (OAStats_ s) ->
     bytes (heap s') a = ALLOCATED_PATTERN) /\
  (HeaderBlocks_ (Config_ s) <> 0 ->
   bytes (heap s') (p - u32 (PadBytes_ (Config_ s) + 1)) = 1) /\
  (FreeObjects_ (OAStats_ s) <> 0 ->
   p = free_list_ s /\ free_list_ s' = peek_ptr (heap s) p /\
   forall a,
     HeaderBlocks_ (Config_ s) = 0 \/ a <> p - u32 (PadBytes_ (Config_ s) + 1) ->
     DebugOn_ (Config_ s) = false \/ a < p \/ p + ObjectSize_ (OAStats_ s) <= a ->
     bytes (heap s') a = bytes (heap s) a).
Proof.
  intros Hpool Hpad E.
  destruct (Allocate_returned fuel sys s p s' Hpool E)
    as (s1 & s4 & Hpage & _ & Hp & _ & -> & Hb4 & _ & _ & Hbytes).
  pose proof (u32_range (PadBytes_ (Config_ s) + 1)) as Hpd.
  destruct (count_allocation_effect s4) as (_ & _ & Hfl & Hhp). rewrite Hhp.
  split; [|split].
  - intros Hd a Ha. rewrite Hbytes, Hd.
    replace (a =? p - u32 (PadBytes_ (Config_ s) + 1)) with false
      by (symmetry; apply Z.eqb_neq; lia).
    rewrite andb_false_r. cbn [andb].
    replace (p <=? a) with true by (symmetry; apply Z.leb_le; lia).
    replace (a <? p + Z.of_nat (Z.to_nat (ObjectSize_ (OAStats_ s))))
      with true by (symmetry; apply Z.ltb_lt; lia).
    reflexivity.
  - intros Hh. rewrite Hbytes.
    replace (HeaderBlocks_ (Config_ s) =? 0) with false
      by (symmetry; apply Z.eqb_neq; exact Hh).
    rewrite Z.eqb_refl. reflexivity.
  - intros HF. replace (FreeObjects_ (OAStats_ s) =? 0) with false in Hpage
      by (symmetry; apply Z.eqb_neq; exact HF).
    subst s1. split; [exact Hp|]. split.
    + rewrite Hfl. destruct Hb4 as [b ->]. reflexivity.
    + intros a Hflag Hfill. rewrite Hbytes.
      replace (negb (HeaderBlocks_ (Config_ s) =? 0)
               && (a =? p - u32 (PadBytes_ (Config_ s) + 1))) with false.
      2: { symmetry. destruct Hflag as [-> | Hne]; [reflexivity|].
           apply andb_false_intro2, Z.eqb_neq, Hne. }
      replace (DebugOn_ (Config_ s)
               && ((p <=? a)
                   && (a <? p + Z.of_nat (Z.to_nat (ObjectSize_ (OAStats_ s))))))
        with false; [reflexivity|].
      symmetry. destruct Hfill as [-> | [Hlt | Hge]]; [reflexivity| |].
      * apply andb_false_intro2, andb_false_intro1, Z.leb_gt, Hlt.
      * apply andb_false_intro2.
        destruct (Z.leb_spec p a); [apply Z.ltb_ge; lia | reflexivity].
Qed.

End Marks.

(** * The page list and the free list at work *)

Section Destructor.
Context `{Platform}.

Lemma pages_from_bytes h h' n : forall p,
  bytes h' = bytes h -> pages_from h' n p = pages_from h n p.
Proof.
  induction n as [|n IH]; intros p Hb; cbn [pages_from]; [reflexivity|].
  destruct (p =? 0); [reflexivity|].
  unfold peek_ptr. rewrite Hb. rewrite IH by exact Hb. reflexivity.
Qed.

Lemma without_pages_cons p pages l :
  without_pages (p :: pages) l
  = without_pages pages (filter (fun b => negb (fst b =? p)) l).
Proof.
  unfold without_pages. induction l as [|b l IH]; [reflexivity|].
  simpl. destruct (Z.eqb_spec (fst b) p) as [E | E]; simpl.
  - exact IH.
  - destruct (existsb (Z.eqb (fst b)) pages); simpl;
      [exact IH | apply (f_equal (cons b)); exact IH].
Qed.

(** [DeAllocatePages] on a page list whose pages are owned buffers. *)
Lemma DeAllocatePages_releases pages : forall fuel s,
  pages_from (heap s) (length pages) (page_list_ s) = Some pages ->
  NoDup pages -> pages_owned (heap s) pages ->
  (length pages < fuel)%nat ->
  DeAllocatePages fuel s
  = (Ok tt, set_page_list 0
              (set_heap (mkHeap (bytes (heap s)) (without_pages pages (live (heap s)))) s)).
Proof.
  induction pages as [|p pages IH]; intros fuel s Hfrom Hnd Hown Hfuel;
    (destruct fuel as [|fuel]; [cbn [length] in Hfuel; lia|]);
    cbn [DeAllocatePages]; rewrite bind_get_eq.
  - cbn [length pages_from] in Hfrom.
    destruct (Z.eqb_spec (page_list_ s) 0) as [Hz | Hz]; [|discriminate].
    cbn [ret]. f_equal. unfold without_pages. cbn [existsb negb].
    rewrite <- Hz.
    replace (filter (fun _ => true) (live (heap s))) with (live (heap s)).
    + destruct s as [c t ch bl pl fl [b l]]. reflexivity.
    + induction (live (heap s)) as [|x l IHl]; [reflexivity|].
      cbn [filter]. rewrite <- IHl. reflexivity.
  - cbn [length pages_from] in Hfrom.
    destruct (Z.eqb_spec (page_list_ s) 0) as [Hz | Hz]; [discriminate|].
    destruct (pages_from (heap s) (length pages) (peek_ptr (heap s) (page_list_ s)))
      as [l|] eqn:Hrest; [|discriminate].
    cbn [option_map] in Hfrom. injection Hfrom as Hp Hl. subst l.
    inversion Hnd as [|? ? Hnotin Hnd']; subst.
    inversion Hown as [|? ? (n & Hin & Hn) Hown']; subst.
    set (p := page_list_ s) in *.
    assert (Hlive : range_live (heap s) p sizeof_ptr).
    { intros a Ha. apply (is_live_in _ p n); [exact Hin | lia]. }
    unfold bind at 1. rewrite (load_ptr_ok _ _ Hlive).
    unfold bind at 1, delete_array.
    replace (p =? 0) with false by (symmetry; apply Z.eqb_neq; exact Hz).
    replace (existsb (fun b => fst b =? p) (live (heap s))) with true.
    2: { symmetry. apply existsb_exists. exists (p, n).
         split; [exact Hin | apply Z.eqb_refl]. }
    unfold bind at 1, modify.
    rewrite IH.
    + f_equal. cbn. rewrite without_pages_cons. reflexivity.
    + cbn. rewrite <- Hrest. apply pages_from_bytes. reflexivity.
    + exact Hnd'.
    + cbn. unfold pages_owned in *. rewrite Forall_forall in *.
      intros q Hq. destruct (Hown' q Hq) as (m & Hm & Hsz).
      exists m. split; [|exact Hsz].
      apply filter_In. split; [exact Hm|]. cbn [fst].
      apply negb_true_iff, Z.eqb_neq. intros ->. exact (Hnotin Hq).
    + cbn [length] in Hfuel. lia.
Qed.

(** X10.  The destructor gives every page of the pool back to the system: when
    the page list consists of distinct owned buffers, it returns with the
    page list empty and exactly those buffers released, and it changes
    nothing else. *)
Theorem destructor_releases_every_page fuel s pages :
  UseCPPMemManager_ (Config_ s) = false ->
  pages_from (heap s) (length pages) (page_list_ s) = Some pages ->
  NoDup pages ->
  pages_owned (heap s) pages ->
  (length pages < fuel)%nat ->
  ObjectAllocator_dtor fuel s
  = (Ok tt, set_page_list 0
              (set_heap (mkHeap (bytes (heap s)) (without_pages pages (live (heap s)))) s)).
Proof.
  intros Hpool Hfrom Hnd Hown Hfuel.
  unfold ObjectAllocator_dtor. rewrite bind_get_eq, Hpool. cbn [negb when].
  apply DeAllocatePages_releases; assumption.
Qed.

End Destructor.

Section Validation.
Context `{Platform}.

Lemma free_list_from_inv h n p l :
  free_list_from h n p = Some l ->
  (p = 0 /\ l = []) \/
  (p <> 0 /\ exists n' l', n = S n' /\ l = p :: l' /\
                           free_list_from h n' (peek_ptr h p) = Some l').
Proof.
  destruct n as [|n]; cbn [free_list_from];
    destruct (Z.eqb_spec p 0) as [Hz | Hz]; intros E.
  - left. injection E as <-. split; [exact Hz | reflexivity].
  - discriminate.
  - left. injection E as <-. split; [exact Hz | reflexivity].
  - right. split; [exact Hz|].
    destruct (free_list_from h n (peek_ptr h p)) as [l'|] eqn:Hrest; [|discriminate].
    injection E as <-. exists n, l'. repeat split. exact Hrest.
Qed.

Lemma pages_from_inv h n p l :
  pages_from h n p = Some l ->
  (p = 0 /\ l = []) \/
  (p <> 0 /\ exists n' l', n = S n' /\ l = p :: l' /\
                           pages_from h n' (peek_ptr h p) = Some l').
Proof.
  destruct n as [|n]; cbn [pages_from];
    destruct (Z.eqb_spec p 0) as [Hz | Hz]; intros E.
  - left. injection E as <-. split; [exact Hz | reflexivity].
  - discriminate.
  - left. injection E as <-. split; [exact Hz | reflexivity].
  - right. split; [exact Hz|].
    destruct (pages_from h n (peek_ptr h p)) as [l'|] eqn:Hrest; [|discriminate].
    injection E as <-. exists n, l'. repeat split. exact Hrest.
Qed.

(** The walk over the free list finds [Object] exactly when it is a node. *)
Lemma ValidateObject_free_list_scan Object l : forall fuel n p s,
  free_list_from (heap s) n p = Some l ->
  all_owned (heap s) sizeof_ptr l ->
  (length l < fuel)%nat ->
  ValidateObject_free_list fuel p Object s
  = (if existsb (Z.eqb Object) l then Throw E_MULTIPLE_FREE else Ok tt, s).
Proof.
  induction l as [|q l IH]; intros fuel n p s Hfrom Hown Hfuel;
    (destruct fuel as [|fuel]; [cbn [length] in Hfuel; lia|]);
    cbn [ValidateObject_free_list];
    destruct (free_list_from_inv _ _ _ _ Hfrom)
      as [[Hz E] | (Hz & n' & l' & -> & E & Hrest)]; try discriminate.
  - subst p. reflexivity.
  - injection E as <- <-.
    replace (q =? 0) with false by (symmetry; apply Z.eqb_neq; exact Hz).
    cbn [existsb]. rewrite (Z.eqb_sym Object q).
    destruct (q =? Object); [reflexivity|]. cbn [orb].
    inversion Hown as [|? ? Hq Hown']; subst.
    unfold bind. rewrite (load_ptr_ok _ _ Hq).
    apply (IH fuel n'); [exact Hrest | exact Hown' | cbn [length] in Hfuel; lia].
Qed.

(** The walk over the page list when the pages are counted right: it
    stops at the first page that holds [Object], and throws on the last
    page when none does. *)
Lemma ValidateObject_pages_walk Object pages : forall fuel n p k s,
  pages_from (heap s) n p = Some pages ->
  all_owned (heap s) sizeof_ptr pages ->
  (length pages < fuel)%nat ->
  1 <= k ->
  k + Z.of_nat (length pages) = PagesInUse_ (OAStats_ s) + 1 ->
  PagesInUse_ (OAStats_ s) < UINT_MOD ->
  ValidateObject_pages fuel p k Object s
  = (match find (on_page s Object) pages with
     | Some q => Ok q
     | None => match pages with [] => Ok 0 | _ => Throw E_BAD_ADDRESS end
     end, s).
Proof.
  induction pages as [|q pages IH]; intros fuel n p k s Hfrom Hown Hfuel Hk Hcount Hlim;
    (destruct fuel as [|fuel]; [cbn [length] in Hfuel; lia|]);
    cbn [ValidateObject_pages];
    destruct (pages_from_inv _ _ _ _ Hfrom)
      as [[Hz E] | (Hz & n' & l' & -> & E & Hrest)]; try discriminate.
  - subst p. reflexivity.
  - injection E as <- <-.
    replace (q =? 0) with false by (symmetry; apply Z.eqb_neq; exact Hz).
    rewrite bind_get_eq. cbv zeta. cbn [find].
    change ((q <? Object) && (Object <? q + PageSize_ (OAStats_ s)))
      with (on_page s Object q).
    destruct (on_page s Object q); [reflexivity|].
    cbn [length] in Hcount, Hfuel. rewrite Nat2Z.inj_succ in Hcount.
    inversion Hown as [|? ? Hq Hown']; subst.
    destruct pages as [|q' pages].
    + replace (k =? PagesInUse_ (OAStats_ s)) with true
        by (symmetry; apply Z.eqb_eq; cbn [length] in Hcount; lia).
      reflexivity.
    + replace (k =? PagesInUse_ (OAStats_ s)) with false
        by (symmetry; apply Z.eqb_neq; cbn [length] in Hcount; lia).
      unfold bind. rewrite (load_ptr_ok _ _ Hq).
      rewrite (IH fuel n' _ (u32 (k + 1)) s Hrest Hown' ltac:(lia)).
      * destruct (find (on_page s Object) (q' :: pages)); reflexivity.
      * cbn [length] in *. rewrite u32_small; lia.
      * cbn [length] in *. rewrite u32_small; lia.
      * exact Hlim.
Qed.

(** The walk when more pages are counted than the list holds: with
    [Object] on none of them it runs off the end of the list. *)
Lemma ValidateObject_pages_short Object pages : forall fuel n p k s,
  pages_from (heap s) n p = Some pages ->
  all_owned (heap s) sizeof_ptr pages ->
  (length pages < fuel)%nat ->
  0 <= k ->
  k + Z.of_nat (length pages) <= PagesInUse_ (OAStats_ s) ->
  PagesInUse_ (OAStats_ s) < UINT_MOD ->
  Forall (fun q => on_page s Object q = false) pages ->
  ValidateObject_pages fuel p k Object s = (Ok 0, s).
Proof.
  induction pages as [|q pages IH];
    intros fuel n p k s Hfrom Hown Hfuel Hk Hcount Hlim Hout;
    (destruct fuel as [|fuel]; [cbn [length] in Hfuel; lia|]);
    cbn [ValidateObject_pages];
    destruct (pages_from_inv _ _ _ _ Hfrom)
      as [[Hz E] | (Hz & n' & l' & -> & E & Hrest)]; try discriminate.
  - subst p. reflexivity.
  - injection E as <- <-.
    replace (q =? 0) with false by (symmetry; apply Z.eqb_neq; exact Hz).
    rewrite bind_get_eq. cbv zeta.
    change ((q <? Object) && (Object <? q + PageSize_ (OAStats_ s)))
      with (on_page s Object q).
    inversion Hout as [|? ? Hq0 Hout']; subst. rewrite Hq0.
    cbn [length] in Hcount, Hfuel. rewrite Nat2Z.inj_succ in Hcount.
    replace (k =? PagesInUse_ (OAStats_ s)) with false
      by (symmetry; apply Z.eqb_neq; lia).
    inversion Hown as [|? ? Hq Hown']; subst.
    unfold bind. rewrite (load_ptr_ok _ _ Hq).
    apply (IH fuel n'); try assumption; try lia.
    + apply u32_range.
    + rewrite u32_small; lia.
Qed.

(** The guard bytes to the left and to the right. *)
Lemma ValidateObject_left_intact n : forall q s,
  range_live (heap s) (q - Z.of_nat n) (Z.of_nat n) ->
  (forall a, q - Z.of_nat n <= a < q -> bytes (heap s) a = PAD_PATTERN) ->
  ValidateObject_left n q s = (Ok tt, s).
Proof.
  induction n as [|n IH]; intros q s Hl Hb; cbn [ValidateObject_left]; [reflexivity|].
  rewrite Nat2Z.inj_succ in *.
  unfold bind. rewrite load_byte_ok by (apply Hl; lia).
  rewrite (Hb (q - 1)) by lia. rewrite Z.eqb_refl.
  apply IH.
  - intros a Ha. apply Hl. lia.
  - intros a Ha. apply Hb. lia.
Qed.

Lemma ValidateObject_left_damaged n : forall q s,
  range_live (heap s) (q - Z.of_nat n) (Z.of_nat n) ->
  (exists a, q - Z.of_nat n <= a < q /\ bytes (heap s) a <> PAD_PATTERN) ->
  ValidateObject_left n q s = (Throw E_CORRUPTED_BLOCK, s).
Proof.
  induction n as [|n IH]; intros q s Hl (a & Ha & Hb); [lia|].
  cbn [ValidateObject_left]. rewrite Nat2Z.inj_succ in *.
  unfold bind. rewrite load_byte_ok by (apply Hl; lia).
  destruct (Z.eqb_spec (bytes (heap s) (q - 1)) PAD_PATTERN) as [E | E]; [|reflexivity].
  apply IH.
  - intros x Hx. apply Hl. lia.
  - exists a. split; [|exact Hb].
    destruct (Z.eq_dec a (q - 1)) as [-> | Hne]; [contradiction | lia].
Qed.

Lemma ValidateObject_right_intact n : forall q s,
  range_live (heap s) q (Z.of_nat n) ->
  (forall a, q <= a < q + Z.of_nat n -> bytes (heap s) a = PAD_PATTERN) ->
  ValidateObject_right n q s = (Ok tt, s).
Proof.
  induction n as [|n IH]; intros q s Hl Hb; cbn [ValidateObject_right]; [reflexivity|].
  rewrite Nat2Z.inj_succ in *.
  unfold bind. rewrite load_byte_ok by (apply Hl; lia).
  rewrite (Hb q) by lia. rewrite Z.eqb_refl.
  apply IH.
  - intros a Ha. apply Hl. lia.
  - intros a Ha. apply Hb. lia.
Qed.

Lemma ValidateObject_right_damaged n : forall q s,
  range_live (heap s) q (Z.of_nat n) ->
  (exists a, q <= a < q + Z.of_nat n /\ bytes (heap s) a <> PAD_PATTERN) ->
  ValidateObject_right n q s = (Throw E_CORRUPTED_BLOCK, s).
Proof.
  induction n as [|n IH]; intros q s Hl (a & Ha & Hb); [lia|].
  cbn [ValidateObject_right]. rewrite Nat2Z.inj_succ in *.
  unfold bind. rewrite load_byte_ok by (apply Hl; lia).
  destruct (Z.eqb_spec (bytes (heap s) q) PAD_PATTERN) as [E | E]; [|reflexivity].
  apply IH.
  - intros x Hx. apply Hl. lia.
  - exists a. split; [|exact Hb].
    destruct (Z.eq_dec a q) as [-> | Hne]; [contradiction | lia].
Qed.

Lemma existsb_In Object l : existsb (Z.eqb Object) l = true <-> In Object l.
Proof.
  rewrite existsb_exists. split.
  - intros (x & Hx & E). apply Z.eqb_eq in E. subst. exact Hx.
  - intros Hin. exists Object. split; [exact Hin | apply Z.eqb_refl].
Qed.

(** X11.  Without header blocks the debug check of [Free] finds a block that is
    already free: when the object is a node of the free list, [Free]
    throws [E_MULTIPLE_FREE] and leaves the allocator as it was. *)
Theorem Free_rejects_block_on_free_list fuel n Object s free :
  UseCPPMemManager_ (Config_ s) = false ->
  DebugOn_ (Config_ s) = true ->
  HeaderBlocks_ (Config_ s) = 0 ->
  free_list_from (heap s) n (free_list_ s) = Some free ->
  all_owned (heap s) sizeof_ptr free ->
  (length free < fuel)%nat ->
  In Object free ->
  Free fuel Object s = (Throw E_MULTIPLE_FREE, s).
Proof.
  intros Hpool Hdebug Hhdr Hfrom Hown Hfuel Hin.
  unfold Free. rewrite bind_get_eq, Hpool, Hdebug. cbv zeta. cbn [when].
  unfold bind at 1. unfold ValidateObject. rewrite bind_get_eq, Hhdr.
  cbn [Z.eqb negb]. unfold bind at 1.
  rewrite (ValidateObject_free_list_scan Object free fuel n _ s Hfrom Hown Hfuel).
  replace (existsb (Z.eqb Object) free) with true
    by (symmetry; apply existsb_In; exact Hin).
  reflexivity.
Qed.

(** X12.  The debug check of [Free] rejects an address that lies on no page:
    without header blocks, when the object is not on the free list and as
    many pages are counted as the page list holds, [Free] throws
    [E_BAD_ADDRESS] and leaves the allocator as it was. *)
Theorem Free_rejects_address_off_pages fuel n m Object s free pages :
  UseCPPMemManager_ (Config_ s) = false ->
  DebugOn_ (Config_ s) = true ->
  HeaderBlocks_ (Config_ s) = 0 ->
  free_list_from (heap s) n (free_list_ s) = Some free ->
  all_owned (heap s) sizeof_ptr free ->
  ~ In Object free ->
  pages_from (heap s) m (page_list_ s) = Some pages ->
  all_owned (heap s) sizeof_ptr pages ->
  PagesInUse_ (OAStats_ s) = Z.of_nat (length pages) ->
  PagesInUse_ (OAStats_ s) < UINT_MOD ->
  (length free < fuel)%nat -> (length pages < fuel)%nat ->
  Forall (fun q => on_page s Object q = false) pages ->
  Free fuel Object s = (Throw E_BAD_ADDRESS, s).
Proof.
  intros Hpool Hdebug Hhdr Hfree Hfown Hnotin Hpages Hpown Hcount Hlim Hfuel1 Hfuel2 Hout.
  unfold Free. rewrite bind_get_eq, Hpool, Hdebug. cbv zeta. cbn [when].
  unfold bind at 1. unfold ValidateObject. rewrite bind_get_eq, Hhdr.
  cbn [Z.eqb negb]. unfold bind at 1.
  rewrite (ValidateObject_free_list_scan Object free fuel n _ s Hfree Hfown Hfuel1).
  replace (existsb (Z.eqb Object) free) with false.
  2: { symmetry. apply not_true_is_false. intros E. apply Hnotin, existsb_In, E. }
  unfold bind at 1.
  destruct (Z.eqb_spec (page_list_ s) 0) as [Hz | Hz]; [reflexivity|].
  cbn [ret]. unfold bind at 1.
  rewrite (ValidateObject_pages_walk Object pages fuel m _ 1 s Hpages Hpown Hfuel2
             ltac:(lia) ltac:(lia) Hlim).
  replace (find (on_page s Object) pages) with (@None Z).
  2: { symmetry. clear - Hout. induction Hout as [|q l Hq _ IH]; [reflexivity|].
       cbn [find]. rewrite Hq. exact IH. }
  destruct pages as [|q pages]; [|reflexivity].
  destruct (pages_from_inv _ _ _ _ Hpages) as [[Hz' _] | (_ & n' & l' & _ & E & _)];
    [contradiction | discriminate].
Qed.

(** X13.  When a page has been counted that the page list does not hold, as
    after a request for a page that the system refused, the debug check of
    [Free] no longer rejects an address that lies on no page: the walk
    over the pages runs off the end of the list, and whatever [Free] does
    then, it does not throw [E_BAD_ADDRESS]. *)
Theorem Free_misses_address_off_pages_after_lost_page
        fuel n m Object s free pages :
  UseCPPMemManager_ (Config_ s) = false ->
  DebugOn_ (Config_ s) = true ->
  HeaderBlocks_ (Config_ s) = 0 ->
  free_list_from (heap s) n (free_list_ s) = Some free ->
  all_owned (heap s) sizeof_ptr free ->
  ~ In Object free ->
  pages_from (heap s) m (page_list_ s) = Some pages ->
  all_owned (heap s) sizeof_ptr pages ->
  page_list_ s <> 0 ->
  Z.of_nat (length pages) < PagesInUse_ (OAStats_ s) < UINT_MOD ->
  (length free < fuel)%nat -> (length pages < fuel)%nat ->
  Forall (fun q => on_page s Object q = false) pages ->
  fst (Free fuel Object s) <> Throw E_BAD_ADDRESS.
Proof.
  intros Hpool Hdebug Hhdr Hfree Hfown Hnotin Hpages Hpown Hnz Hcount Hfuel1 Hfuel2 Hout.
  assert (Hw : wp (Free fuel Object) (throws_only (fun e => e <> E_BAD_ADDRESS)) s).
  { unfold Free. apply wp_get_bind. rewrite Hpool. cbv zeta.
    apply throws_only_bind;
      [|intros _ s'; apply throws_only_never, Free_accepted_never_throws].
    rewrite Hdebug. cbn [when].
    unfold ValidateObject. apply wp_get_bind. rewrite Hhdr. cbn [Z.eqb negb].
    pose proof (ValidateObject_free_list_scan Object free fuel n _ s Hfree Hfown Hfuel1)
      as Hscan.
    replace (existsb (Z.eqb Object) free) with false in Hscan.
    2: { symmetry. apply not_true_is_false. intros E. apply Hnotin, existsb_In, E. }
    eapply wp_bind_ok; [exact Hscan|].
    replace (page_list_ s =? 0) with false by (symmetry; apply Z.eqb_neq; exact Hnz).
    apply wp_ret_bind.
    eapply wp_bind_ok.
    { apply (ValidateObject_pages_short Object pages fuel m _ 1 s Hpages Hpown Hfuel2);
        try assumption; lia. }
    cbv zeta.
    destruct (u32 (ObjectSize_ (OAStats_ s) + chunk_size_ s) =? 0); [discriminate|].
    destruct (negb _); [intros e E; injection E as <-; discriminate|].
    apply throws_only_bind; [apply ValidateObject_left_throws; discriminate|].
    intros _ s4. apply ValidateObject_right_throws; discriminate. }
  intros E. exact (Hw _ E eq_refl).
Qed.

End Validation.

Section Blocks.
Context `{Platform}.

(** Without header blocks, with the object not on the free list and the
    pages counted right, [ValidateObject] gets past the free list and to
    the first page that holds the object. *)
Lemma ValidateObject_found fuel n m Object s free pages page :
  HeaderBlocks_ (Config_ s) = 0 ->
  free_list_from (heap s) n (free_list_ s) = Some free ->
  all_owned (heap s) sizeof_ptr free ->
  ~ In Object free ->
  pages_from (heap s) m (page_list_ s) = Some pages ->
  all_owned (heap s) sizeof_ptr pages ->
  PagesInUse_ (OAStats_ s) = Z.of_nat (length pages) ->
  PagesInUse_ (OAStats_ s) < UINT_MOD ->
  (length free < fuel)%nat -> (length pages < fuel)%nat ->
  find (on_page s Object) pages = Some page ->
  ValidateObject fuel Object s
  = (let block := page + (sizeof_ptr + chunk_size_ s - PadBytes_ (Config_ s)) in
     let distance := u32 (Object - block) in
     let stride := u32 (ObjectSize_ (OAStats_ s) + chunk_size_ s) in
     if stride =? 0 then fault
     else if negb (distance mod stride =? 0) then throw E_BAD_BOUNDARY
     else
       ValidateObject_left (Z.to_nat (PadBytes_ (Config_ s))) Object ;;
       ValidateObject_right (Z.to_nat (PadBytes_ (Config_ s)))
                            (Object + ObjectSize_ (OAStats_ s))) s.
Proof.
  intros Hhdr Hfree Hfown Hnotin Hpages Hpown Hcount Hlim Hfuel1 Hfuel2 Hfind.
  unfold ValidateObject. rewrite bind_get_eq, Hhdr. cbn [Z.eqb negb].
  unfold bind at 1.
  rewrite (ValidateObject_free_list_scan Object free fuel n _ s Hfree Hfown Hfuel1).
  replace (existsb (Z.eqb Object) free) with false.
  2: { symmetry. apply not_true_is_false. intros E. apply Hnotin, existsb_In, E. }
  assert (Hnz : page_list_ s <> 0).
  { intros Hz. rewrite Hz in Hpages.
    destruct (pages_from_inv _ _ _ _ Hpages) as [[_ ->] | (Hne & _)];
      [discriminate | contradiction]. }
  replace (page_list_ s =? 0) with false by (symmetry; apply Z.eqb_neq; exact Hnz).
  unfold bind at 1. cbn [ret]. unfold bind at 1.
  rewrite (ValidateObject_pages_walk Object pages fuel m _ 1 s Hpages Hpown Hfuel2
             ltac:(lia) ltac:(lia) Hlim).
  rewrite Hfind. reflexivity.
Qed.

Lemma on_page_bounds s Object pages page :
  find (on_page s Object) pages = Some page ->
  In page pages /\ page < Object < page + PageSize_ (OAStats_ s).
Proof.
  intros Hfind. apply find_some in Hfind. destruct Hfind as [Hin Hon].
  split; [exact Hin|]. unfold on_page in Hon. apply andb_prop in Hon.
  destruct Hon as [H1 H2]. apply Z.ltb_lt in H1. apply Z.ltb_lt in H2. lia.
Qed.

(** X14.  The debug check of [Free] rejects an address inside a page that is not
    the start of an object: without header blocks, when the address is at
    or after the first object of its page but is the payload address of
    none of the page's blocks, [Free] throws [E_BAD_BOUNDARY] and leaves
    the allocator as it was. *)
Theorem Free_rejects_address_off_boundary fuel n m Object s free pages page :
  members_ok sizeof_ptr s ->
  PageSize_ (OAStats_ s) = page_bytes s ->
  UseCPPMemManager_ (Config_ s) = false ->
  DebugOn_ (Config_ s) = true ->
  HeaderBlocks_ (Config_ s) = 0 ->
  free_list_from (heap s) n (free_list_ s) = Some free ->
  all_owned (heap s) sizeof_ptr free ->
  ~ In Object free ->
  pages_from (heap s) m (page_list_ s) = Some pages ->
  all_owned (heap s) sizeof_ptr pages ->
  PagesInUse_ (OAStats_ s) = Z.of_nat (length pages) ->
  PagesInUse_ (OAStats_ s) < UINT_MOD ->
  (length free < fuel)%nat -> (length pages < fuel)%nat ->
  find (on_page s Object) pages = Some page ->
  payload s page 0 <= Object ->
  (forall i, 0 <= i < ObjectsPerPage_ (Config_ s) -> Object <> payload s page i) ->
  Free fuel Object s = (Throw E_BAD_BOUNDARY, s).
Proof.
  intros Hok Hpsz Hpool Hdebug Hhdr Hfree Hfown Hnotin Hpages Hpown Hcount Hlim
         Hfuel1 Hfuel2 Hfind Hfirst Hnone.
  destruct (on_page_bounds _ _ _ _ Hfind) as [_ Hon]. rewrite Hpsz in Hon.
  destruct (page_bytes_range s Hok) as (Hpb & Hch & Hst & _ & Hmod & HK & Hsm).
  pose proof (ok_pad _ _ Hok) as Hpad. pose proof (ok_chunk _ _ Hok) as Hchunk.
  pose proof (ok_header _ _ Hok) as Hh. pose proof (ok_align _ _ Hok) as Hal.
  pose proof (ok_objects _ _ Hok) as HK1.
  pose proof sizeof_ptr_pos as Hpp.
  unfold Free. rewrite bind_get_eq, Hpool, Hdebug. cbv zeta. cbn [when].
  unfold bind at 1.
  rewrite (ValidateObject_found fuel n m Object s free pages page) by assumption.
  cbv zeta.
  replace (page + (sizeof_ptr + chunk_size_ s - PadBytes_ (Config_ s)))
    with (payload s page 0) by (unfold payload; ring).
  change (ObjectSize_ (OAStats_ s) + chunk_size_ s) with (stride s).
  rewrite (u32_small (stride s)) by lia.
  assert (Hd : 0 <= Object - payload s page 0 < UINT_MOD).
  { unfold payload in *. lia. }
  rewrite (u32_small _ Hd).
  replace (stride s =? 0) with false by (symmetry; apply Z.eqb_neq; lia).
  destruct (Z.eqb_spec ((Object - payload s page 0) mod stride s) 0) as [E | E];
    [|reflexivity].
  exfalso.
  pose proof (Z.div_mod (Object - payload s page 0) (stride s) ltac:(lia)) as Hdm.
  rewrite E, Z.add_0_r in Hdm.
  set (i := (Object - payload s page 0) / stride s) in *.
  assert (Hi0 : 0 <= i) by (apply Z.div_pos; lia).
  apply (Hnone i).
  - split; [exact Hi0|].
    assert (stride s * i < stride s * ObjectsPerPage_ (Config_ s)).
    { unfold payload in *. lia. }
    nia.
  - unfold payload in *. lia.
Qed.

Lemma store_ptr_returns a v s :
  range_live (heap s) a sizeof_ptr ->
  exists s', store_ptr a v s = (Ok tt, s') /\ only_bytes s s'.
Proof.
  intros Hl. unfold store_ptr.
  destruct (store_bytes_spec (encode (Pos.to_nat ptr_bytes) v) a s) as (s' & E & Hb & _).
  { rewrite encode_length, sizeof_ptr_nat. exact Hl. }
  exists s'. split; assumption.
Qed.

(** Where the guard bytes of a block of an owned page lie. *)
Lemma guard_bytes_owned s page i :
  members_ok sizeof_ptr s ->
  range_live (heap s) page (page_bytes s) ->
  0 <= i < ObjectsPerPage_ (Config_ s) ->
  range_live (heap s)
             (payload s page i - Z.of_nat (Z.to_nat (PadBytes_ (Config_ s))))
             (Z.of_nat (Z.to_nat (PadBytes_ (Config_ s)))) /\
  range_live (heap s) (payload s page i + ObjectSize_ (OAStats_ s))
             (Z.of_nat (Z.to_nat (PadBytes_ (Config_ s)))) /\
  range_live (heap s) (payload s page i) (ObjectSize_ (OAStats_ s)).
Proof.
  intros Hok Hl Hi.
  destruct (payload_bounds s page i Hok Hi) as (Hlo & Hhi & _).
  pose proof (ok_pad _ _ Hok) as Hpad. pose proof (ok_chunk _ _ Hok) as Hchunk.
  pose proof (ok_header _ _ Hok) as Hh. pose proof (ok_align _ _ Hok) as Hal.
  pose proof (ok_size _ _ Hok) as Hsz.
  destruct (page_bytes_range s Hok) as (_ & _ & Hst & _).
  assert (Hlow : page + sizeof_ptr + PadBytes_ (Config_ s) <= payload s page i).
  { unfold payload. assert (0 <= i * stride s) by nia. lia. }
  rewrite Z2Nat.id by lia.
  repeat split; (eapply range_live_sub; [exact Hl | lia | lia]).
Qed.

Lemma ValidateObject_left_outcome n : forall q s,
  range_live (heap s) (q - Z.of_nat n) (Z.of_nat n) ->
  ValidateObject_left n q s = (Ok tt, s) \/
  ValidateObject_left n q s = (Throw E_CORRUPTED_BLOCK, s).
Proof.
  induction n as [|n IH]; intros q s Hl; cbn [ValidateObject_left]; [left; reflexivity|].
  rewrite Nat2Z.inj_succ in *.
  unfold bind. rewrite load_byte_ok by (apply Hl; lia).
  destruct (bytes (heap s) (q - 1) =? PAD_PATTERN); [|right; reflexivity].
  apply IH. intros a Ha. apply Hl. lia.
Qed.

(** X15.  The debug check of [Free] finds damaged guard bytes: without header
    blocks, when the object is a block of an owned page that is not on the
    free list and one of the [PadBytes_] bytes before it or after it does
    not hold [PAD_PATTERN], [Free] throws [E_CORRUPTED_BLOCK] and leaves
    the allocator as it was. *)
Theorem Free_rejects_corrupted_block fuel n m s free pages page i a :
  members_ok sizeof_ptr s ->
  PageSize_ (OAStats_ s) = page_bytes s ->
  UseCPPMemManager_ (Config_ s) = false ->
  DebugOn_ (Config_ s) = true ->
  HeaderBlocks_ (Config_ s) = 0 ->
  free_list_from (heap s) n (free_list_ s) = Some free ->
  all_owned (heap s) sizeof_ptr free ->
  ~ In (payload s page i) free ->
  pages_from (heap s) m (page_list_ s) = Some pages ->
  all_owned (heap s) (page_bytes s) pages ->
  PagesInUse_ (OAStats_ s) = Z.of_nat (length pages) ->
  PagesInUse_ (OAStats_ s) < UINT_MOD ->
  (length free < fuel)%nat -> (length pages < fuel)%nat ->
  find (on_page s (payload s page i)) pages = Some page ->
  0 <= i < ObjectsPerPage_ (Config_ s) ->
  payload s page i - PadBytes_ (Config_ s) <= a < payload s page i \/
  payload s page i + ObjectSize_ (OAStats_ s) <= a
  < payload s page i + ObjectSize_ (OAStats_ s) + PadBytes_ (Config_ s) ->
  bytes (heap s) a <> PAD_PATTERN ->
  Free fuel (payload s page i) s = (Throw E_CORRUPTED_BLOCK, s).
Proof.
  intros Hok Hpsz Hpool Hdebug Hhdr Hfree Hfown Hnotin Hpages Hpown Hcount Hlim
         Hfuel1 Hfuel2 Hfind Hi Ha Hbad.
  set (Object := payload s page i) in *.
  destruct (on_page_bounds _ _ _ _ Hfind) as [Hin Hon]. rewrite Hpsz in Hon.
  destruct (page_bytes_range s Hok) as (Hpb & Hch & Hst & _ & Hmod & HK & Hsm).
  pose proof (ok_pad _ _ Hok) as Hpad.
  pose proof sizeof_ptr_pos as Hpp.
  assert (Hpage : range_live (heap s) page (page_bytes s)).
  { unfold all_owned in Hpown. rewrite Forall_forall in Hpown. apply Hpown, Hin. }
  assert (Hlinks : all_owned (heap s) sizeof_ptr pages).
  { pose proof (ok_objects _ _ Hok).
    assert (sizeof_ptr <= page_bytes s) by nia.
    unfold all_owned in *. rewrite Forall_forall in *. intros q Hq.
    eapply range_live_sub; [apply Hpown, Hq | lia | lia]. }
  destruct (guard_bytes_owned s page i Hok Hpage Hi) as (Hleft & Hright & _).
  fold Object in Hleft, Hright.
  unfold Free. rewrite bind_get_eq, Hpool, Hdebug. cbv zeta. cbn [when].
  unfold bind at 1.
  rewrite (ValidateObject_found fuel n m Object s free pages page) by assumption.
  cbv zeta.
  replace (page + (sizeof_ptr + chunk_size_ s - PadBytes_ (Config_ s)))
    with (payload s page 0) by (unfold payload; ring).
  change (ObjectSize_ (OAStats_ s) + chunk_size_ s) with (stride s).
  rewrite (u32_small (stride s)) by lia.
  replace (Object - payload s page 0) with (i * stride s)
    by (unfold Object, payload; ring).
  rewrite (u32_small (i * stride s)) by nia.
  replace (stride s =? 0) with false by (symmetry; apply Z.eqb_neq; lia).
  rewrite Z.mod_mul by lia. cbn [Z.eqb negb].
  rewrite <- (Z2Nat.id (PadBytes_ (Config_ s))) in Ha by lia.
  destruct (ValidateObject_left_outcome (Z.to_nat (PadBytes_ (Config_ s))) Object s Hleft)
    as [El | El]; unfold bind; rewrite El; [|reflexivity].
  destruct Ha as [Ha | Ha].
  - rewrite (ValidateObject_left_damaged _ _ _ Hleft) in El; [discriminate|].
    exists a. split; [exact Ha | exact Hbad].
  - rewrite (ValidateObject_right_damaged _ _ _ Hright); [reflexivity|].
    exists a. split; [lia | exact Hbad].
Qed.

(** X16.  [Free] takes back an intact block: without header blocks, when the
    object is a block of an owned page that is not on the free list and
    its guard bytes all hold [PAD_PATTERN], the debug check passes and
    [Free] returns. *)
Theorem Free_accepts_intact_block fuel n m s free pages page i :
  members_ok sizeof_ptr s ->
  PageSize_ (OAStats_ s) = page_bytes s ->
  UseCPPMemManager_ (Config_ s) = false ->
  DebugOn_ (Config_ s) = true ->
  HeaderBlocks_ (Config_ s) = 0 ->
  free_list_from (heap s) n (free_list_ s) = Some free ->
  all_owned (heap s) sizeof_ptr free ->
  ~ In (payload s page i) free ->
  pages_from (heap s) m (page_list_ s) = Some pages ->
  all_owned (heap s) (page_bytes s) pages ->
  PagesInUse_ (OAStats_ s) = Z.of_nat (length pages) ->
  PagesInUse_ (OAStats_ s) < UINT_MOD ->
  (length free < fuel)%nat -> (length pages < fuel)%nat ->
  find (on_page s (payload s page i)) pages = Some page ->
  0 <= i < ObjectsPerPage_ (Config_ s) ->
  (forall a,
     payload s page i - PadBytes_ (Config_ s) <= a < payload s page i \/
     payload s page i + ObjectSize_ (OAStats_ s) <= a
     < payload s page i + ObjectSize_ (OAStats_ s) + PadBytes_ (Config_ s) ->
     bytes (heap s) a = PAD_PATTERN) ->
  exists s', Free fuel (payload s page i) s = (Ok tt, s').
Proof.
  intros Hok Hpsz Hpool Hdebug Hhdr Hfree Hfown Hnotin Hpages Hpown Hcount Hlim
         Hfuel1 Hfuel2 Hfind Hi Hguard.
  set (Object := payload s page i) in *.
  destruct (on_page_bounds _ _ _ _ Hfind) as [Hin Hon]. rewrite Hpsz in Hon.
  destruct (page_bytes_range s Hok) as (Hpb & Hch & Hst & _ & Hmod & HK & Hsm).
  pose proof (ok_pad _ _ Hok) as Hpad. pose proof (ok_size _ _ Hok) as Hsz.
  pose proof sizeof_ptr_pos as Hpp.
  assert (Hpage : range_live (heap s) page (page_bytes s)).
  { unfold all_owned in Hpown. rewrite Forall_forall in Hpown. apply Hpown, Hin. }
  assert (Hlinks : all_owned (heap s) sizeof_ptr pages).
  { pose proof (ok_objects _ _ Hok).
    assert (sizeof_ptr <= page_bytes s) by nia.
    unfold all_owned in *. rewrite Forall_forall in *. intros q Hq.
    eapply range_live_sub; [apply Hpown, Hq | lia | lia]. }
  destruct (guard_bytes_owned s page i Hok Hpage Hi) as (Hleft & Hright & Hobj).
  fold Object in Hleft, Hright, Hobj.
  assert (Hv : ValidateObject fuel Object s = (Ok tt, s)).
  { rewrite (ValidateObject_found fuel n m Object s free pages page) by assumption.
    cbv zeta.
    replace (page + (sizeof_ptr + chunk_size_ s - PadBytes_ (Config_ s)))
      with (payload s page 0) by (unfold payload; ring).
    change (ObjectSize_ (OAStats_ s) + chunk_size_ s) with (stride s).
    rewrite (u32_small (stride s)) by lia.
    replace (Object - payload s page 0) with (i * stride s)
      by (unfold Object, payload; ring).
    rewrite (u32_small (i * stride s)) by nia.
    replace (stride s =? 0) with false by (symmetry; apply Z.eqb_neq; lia).
    rewrite Z.mod_mul by lia. cbn [Z.eqb negb].
    unfold bind. rewrite (ValidateObject_left_intact _ _ _ Hleft).
    - rewrite (ValidateObject_right_intact _ _ _ Hright); [reflexivity|].
      intros a Ha. apply Hguard. rewrite Z2Nat.id in Ha by lia. right. lia.
    - intros a Ha. apply Hguard. rewrite Z2Nat.id in Ha by lia. left. lia. }
  assert (Hw : wp (Free fuel Object) (returns (fun _ _ => True)) s).
  { unfold Free. apply wp_get_bind. rewrite Hpool, Hdebug, Hhdr. cbv zeta.
    cbn [when Z.eqb negb].
    eapply wp_bind_ok; [exact Hv|].
    destruct (fill_spec (Z.to_nat (u32 (ObjectSize_ (OAStats_ s) - sizeof_ptr)))
                        (Object + sizeof_ptr) FREED_PATTERN s) as (s2 & E2 & [b2 Hs2] & _).
    { assert (ObjectSize_ (OAStats_ s) < UINT_MOD) by (unfold stride in Hsm; lia).
      rewrite u32_small by lia. rewrite Z2Nat.id by lia.
      eapply range_live_sub; [exact Hobj | lia | lia]. }
    eapply wp_bind_ok; [unfold bind; rewrite E2; reflexivity|].
    apply wp_ret_bind. apply wp_get_bind.
    assert (Hlink : forall s3, live (heap s3) = live (heap s) ->
                               range_live (heap s3) Object sizeof_ptr).
    { intros s3 Hlv a Ha. rewrite (is_live_ext _ _ _ Hlv). apply Hobj. lia. }
    apply wp_bind.
    destruct (free_list_ s2 =? 0).
    - apply wp_modify_bind.
      destruct (store_ptr_returns Object 0 (set_free_list Object s2)) as (s3 & E3 & _).
      { apply Hlink. rewrite Hs2. reflexivity. }
      eapply wp_eq; [exact E3|]. exact I.
    - destruct (store_ptr_returns Object (free_list_ s2) s2) as (s3 & E3 & _).
      { apply Hlink. rewrite Hs2. reflexivity. }
      eapply wp_bind_ok; [exact E3|]. exact I. }
  destruct (returns_inv _ _ _ Hw) as ([] & s' & E & _).
  exists s'. exact E.
Qed.

End Blocks.

Section ValidatePagesExact.
Context `{Platform}.

Lemma addrs_snoc n : forall a, addrs (S n) a = addrs n a ++ [a + Z.of_nat n].
Proof.
  induction n as [|n IH]; intros a.
  - cbn. rewrite Z.add_0_r. reflexivity.
  - change (addrs (S (S n)) a) with (a :: addrs (S n) (a + 1)).
    rewrite IH. cbn [addrs app]. rewrite Nat2Z.inj_succ.
    replace (a + 1 + Z.of_nat n) with (a + Z.succ (Z.of_nat n)) by lia. reflexivity.
Qed.

Lemma ValidateBlock_left_exact n : forall q s,
  range_live (heap s) (q - Z.of_nat n) (Z.of_nat n) ->
  ValidateBlock_left n q s
  = (Ok (forallb (fun a => bytes (heap s) a =? PAD_PATTERN) (addrs n (q - Z.of_nat n))), s).
Proof.
  induction n as [|n IH]; intros q s Hl; [reflexivity|].
  cbn [ValidateBlock_left]. rewrite addrs_snoc, forallb_app. cbn [forallb].
  rewrite Nat2Z.inj_succ in *.
  replace (q - Z.succ (Z.of_nat n) + Z.of_nat n) with (q - 1) by lia.
  unfold bind. rewrite load_byte_ok by (apply Hl; lia).
  rewrite andb_true_r.
  destruct (bytes (heap s) (q - 1) =? PAD_PATTERN).
  - rewrite IH by (intros a Ha; apply Hl; lia).
    replace (q - 1 - Z.of_nat n) with (q - Z.succ (Z.of_nat n)) by lia.
    rewrite andb_true_r. reflexivity.
  - rewrite andb_false_r. reflexivity.
Qed.

Lemma ValidateBlock_right_exact n : forall q s,
  range_live (heap s) q (Z.of_nat n) ->
  ValidateBlock_right n q s
  = (Ok (forallb (fun a => bytes (heap s) a =? PAD_PATTERN) (addrs n q)), s).
Proof.
  induction n as [|n IH]; intros q s Hl; [reflexivity|].
  cbn [ValidateBlock_right addrs forallb]. rewrite Nat2Z.inj_succ in *.
  unfold bind. rewrite load_byte_ok by (apply Hl; lia).
  destruct (bytes (heap s) q =? PAD_PATTERN); [|reflexivity].
  rewrite IH by (intros a Ha; apply Hl; lia). reflexivity.
Qed.

(** [ValidateBlock] on a block of an owned page tells whether its guard
    bytes are intact, and changes nothing. *)
Lemma ValidateBlock_exact s page i :
  members_ok sizeof_ptr s ->
  range_live (heap s) page (page_bytes s) ->
  0 <= i < ObjectsPerPage_ (Config_ s) ->
  ValidateBlock (payload s page i) s = (Ok (guards_intact s (payload s page i)), s).
Proof.
  intros Hok Hl Hi.
  destruct (guard_bytes_owned s page i Hok Hl Hi) as (Hleft & Hright & _).
  pose proof (ok_pad _ _ Hok) as Hpad.
  unfold ValidateBlock, guards_intact. rewrite bind_get_eq.
  unfold bind. rewrite (ValidateBlock_left_exact _ _ _ Hleft).
  rewrite Z2Nat.id by lia.
  destruct (forallb _ (addrs _ (payload s page i - PadBytes_ (Config_ s))));
    [|reflexivity].
  rewrite (ValidateBlock_right_exact _ _ _ Hright). reflexivity.
Qed.

(** The report so far with the damaged blocks of [blocks] added. *)
Lemma ValidatePages_block_exact s page i acc :
  members_ok sizeof_ptr s ->
  range_live (heap s) page (page_bytes s) ->
  0 <= i < ObjectsPerPage_ (Config_ s) ->
  ValidatePages_block (payload s page i) acc s
  = (Ok (if guards_intact s (payload s page i) then acc
         else (u32 (fst acc + 1),
               snd acc ++ [(payload s page i, ObjectSize_ (OAStats_ s))])), s).
Proof.
  intros Hok Hl Hi. unfold ValidatePages_block. rewrite bind_get_eq.
  unfold bind. rewrite (ValidateBlock_exact s page i Hok Hl Hi). reflexivity.
Qed.

Lemma report_damaged s (b : Z) (acc : Z * list (Z * Z)) (rest bad : list Z) c l :
  acc = (u32 (c + Z.of_nat (length bad)),
         l ++ map (fun b => (b, ObjectSize_ (OAStats_ s))) bad) ->
  (if guards_intact s b then acc
   else (u32 (fst acc + 1), snd acc ++ [(b, ObjectSize_ (OAStats_ s))]))
  = (u32 (c + Z.of_nat (length (bad ++ filter (fun b => negb (guards_intact s b)) [b]))),
     l ++ map (fun b => (b, ObjectSize_ (OAStats_ s)))
              (bad ++ filter (fun b => negb (guards_intact s b)) [b])).
Proof.
  intros ->. cbn [filter]. destruct (guards_intact s b); cbn [negb fst snd].
  - rewrite app_nil_r. reflexivity.
  - rewrite length_app, map_app, app_assoc. cbn [length map].
    rewrite u32_add_l. f_equal. f_equal. lia.
Qed.

Lemma ValidatePages_blocks_exact s page c l n : forall i bad,
  members_ok sizeof_ptr s ->
  range_live (heap s) page (page_bytes s) ->
  0 <= i -> i + Z.of_nat n < ObjectsPerPage_ (Config_ s) ->
  ValidatePages_blocks n (payload s page i)
    (u32 (c + Z.of_nat (length bad)),
     l ++ map (fun b => (b, ObjectSize_ (OAStats_ s))) bad) s
  = (Ok (u32 (c + Z.of_nat (length
             (bad ++ filter (fun b => negb (guards_intact s b))
                            (blocks_up s page (i + 1) n)))),
         l ++ map (fun b => (b, ObjectSize_ (OAStats_ s)))
                  (bad ++ filter (fun b => negb (guards_intact s b))
                                 (blocks_up s page (i + 1) n))), s).
Proof.
  induction n as [|n IH]; intros i bad Hok Hl Hi Hn.
  - cbn. rewrite app_nil_r. reflexivity.
  - rewrite Nat2Z.inj_succ in Hn.
    cbn [ValidatePages_blocks blocks_up]. rewrite bind_get_eq. cbv zeta.
    replace (payload s page i + block_size_ s) with (payload s page (i + 1)).
    2: { rewrite payload_step. unfold stride. rewrite (ok_block _ _ Hok). reflexivity. }
    unfold bind at 1.
    rewrite (ValidatePages_block_exact s page (i + 1) _ Hok Hl ltac:(lia)).
    rewrite (report_damaged s _ _ [] bad c l eq_refl).
    rewrite (IH (i + 1) _ Hok Hl ltac:(lia) ltac:(lia)).
    change (payload s page (i + 1) :: blocks_up s page (i + 1 + 1) n)
      with ([payload s page (i + 1)] ++ blocks_up s page (i + 1 + 1) n).
    rewrite filter_app, <- !app_assoc. reflexivity.
Qed.

Lemma ValidatePages_pages_exact s c l pages : forall fuel n p bad,
  members_ok sizeof_ptr s ->
  LeftAlignSize_ (Config_ s) = Alignment_ (Config_ s) ->
  pages_from (heap s) n p = Some pages ->
  all_owned (heap s) (page_bytes s) pages ->
  (length pages < fuel)%nat ->
  ValidatePages_pages fuel p
    (u32 (c + Z.of_nat (length bad)),
     l ++ map (fun b => (b, ObjectSize_ (OAStats_ s))) bad) s
  = (Ok (u32 (c + Z.of_nat (length (bad ++ damaged_blocks s pages))),
         l ++ map (fun b => (b, ObjectSize_ (OAStats_ s)))
                  (bad ++ damaged_blocks s pages)), s).
Proof.
  induction pages as [|q pages IH]; intros fuel n p bad Hok Hleft Hfrom Hown Hfuel;
    (destruct fuel as [|fuel]; [cbn [length] in Hfuel; lia|]);
    cbn [ValidatePages_pages];
    destruct (pages_from_inv _ _ _ _ Hfrom)
      as [[Hz E] | (Hz & n' & l' & -> & E & Hrest)]; try discriminate.
  - subst p. cbn. rewrite app_nil_r. reflexivity.
  - injection E as <- <-.
    replace (q =? 0) with false by (symmetry; apply Z.eqb_neq; exact Hz).
    rewrite bind_get_eq. cbv zeta.
    inversion Hown as [|? ? Hq Hown']; subst.
    destruct (page_bytes_range s Hok) as (Hpb & Hch & Hst & _ & Hmod & HK & Hsm).
    pose proof (ok_pad _ _ Hok) as Hpad. pose proof (ok_chunk _ _ Hok) as Hchunk.
    pose proof (ok_header _ _ Hok) as Hh. pose proof (ok_align _ _ Hok) as Hal.
    pose proof (ok_objects _ _ Hok) as HK1.
    pose proof sizeof_ptr_pos as Hpp.
    replace (q + (u32 (LeftAlignSize_ (Config_ s) + HeaderBlocks_ (Config_ s)
                       + PadBytes_ (Config_ s)) + sizeof_ptr))
      with (payload s q 0).
    2: { pose proof (ok_size _ _ Hok) as Hsz. rewrite Hleft.
         rewrite u32_small by (unfold stride in Hsm; lia).
         unfold payload. rewrite Hchunk. ring. }
    unfold bind at 1.
    rewrite (ValidatePages_block_exact s q 0 _ Hok Hq ltac:(lia)).
    rewrite (report_damaged s _ _ [] bad c l eq_refl).
    unfold bind at 1.
    rewrite u32_small by lia.
    rewrite (ValidatePages_blocks_exact s q c l
               (Z.to_nat (ObjectsPerPage_ (Config_ s) - 1)) 0 _ Hok Hq
               ltac:(lia) ltac:(lia)).
    unfold bind at 1.
    rewrite load_ptr_ok.
    2: { assert (sizeof_ptr <= page_bytes s) by nia.
         eapply range_live_sub; [exact Hq | lia | lia]. }
    rewrite (IH fuel n' _ _ Hok Hleft Hrest Hown' ltac:(cbn [length] in Hfuel; lia)).
    assert (Hsplit : damaged_blocks s (q :: pages)
                     = (filter (fun b => negb (guards_intact s b)) [payload s q 0]
                        ++ filter (fun b => negb (guards_intact s b))
                                  (blocks_up s q (0 + 1)
                                     (Z.to_nat (ObjectsPerPage_ (Config_ s) - 1))))
                       ++ damaged_blocks s pages).
    { unfold damaged_blocks. cbn [flat_map]. rewrite filter_app. f_equal.
      unfold page_blocks.
      replace (Z.to_nat (ObjectsPerPage_ (Config_ s)))
        with (S (Z.to_nat (ObjectsPerPage_ (Config_ s) - 1))) by lia.
      cbn [blocks_up].
      change (payload s q 0 :: blocks_up s q (0 + 1)
                                 (Z.to_nat (ObjectsPerPage_ (Config_ s) - 1)))
        with ([payload s q 0] ++ blocks_up s q (0 + 1)
                                   (Z.to_nat (ObjectsPerPage_ (Config_ s) - 1))).
      apply filter_app. }
    rewrite Hsplit, <- !app_assoc. reflexivity.
Qed.

(** X17.  [ValidatePages] reports exactly the damaged blocks: on a pool whose
    page list consists of owned pages it calls the callback once for every
    block with a guard byte that does not hold [PAD_PATTERN], page by page
    from the newest and by address within a page, passing the address of
    the object and [ObjectSize_]; it returns the number of these calls and
    changes nothing. *)
Theorem ValidatePages_reports_damaged_blocks fuel n s pages :
  members_ok sizeof_ptr s ->
  LeftAlignSize_ (Config_ s) = Alignment_ (Config_ s) ->
  pages_from (heap s) n (page_list_ s) = Some pages ->
  all_owned (heap s) (page_bytes s) pages ->
  (length pages < fuel)%nat ->
  ValidatePages fuel s
  = (Ok (u32 (Z.of_nat (length (damaged_blocks s pages))),
         map (fun b => (b, ObjectSize_ (OAStats_ s))) (damaged_blocks s pages)), s).
Proof.
  intros Hok Hleft Hfrom Hown Hfuel.
  unfold ValidatePages. rewrite bind_get_eq.
  exact (ValidatePages_pages_exact s 0 [] pages fuel n _ [] Hok Hleft Hfrom Hown Hfuel).
Qed.

End ValidatePagesExact.

Section DumpExact.
Context `{Platform}.

(** The walk of [DumpMemoryInUse] over the whole free list for one block. *)
Lemma DumpMemoryInUse_free_list_scan t_block l : forall fuel n p used s,
  free_list_from (heap s) n p = Some l ->
  all_owned (heap s) sizeof_ptr l ->
  (length l < fuel)%nat ->
  DumpMemoryInUse_free_list fuel p t_block used s
  = (Ok (used && negb (existsb (Z.eqb t_block) l)), s).
Proof.
  induction l as [|q l IH]; intros fuel n p used s Hfrom Hown Hfuel;
    (destruct fuel as [|fuel]; [cbn [length] in Hfuel; lia|]);
    cbn [DumpMemoryInUse_free_list];
    destruct (free_list_from_inv _ _ _ _ Hfrom)
      as [[Hz E] | (Hz & n' & l' & -> & E & Hrest)]; try discriminate.
  - subst p. cbn. rewrite andb_true_r. reflexivity.
  - injection E as <- <-.
    replace (q =? 0) with false by (symmetry; apply Z.eqb_neq; exact Hz).
    inversion Hown as [|? ? Hq Hown']; subst.
    unfold bind. rewrite (load_ptr_ok _ _ Hq).
    rewrite (IH fuel n' _ _ s Hrest Hown' ltac:(cbn [length] in Hfuel; lia)).
    cbn [existsb]. rewrite (Z.eqb_sym t_block q).
    destruct (q =? t_block); cbn [orb negb]; [|reflexivity].
    rewrite andb_false_r. reflexivity.
Qed.

Lemma report_in_use s (f : Z -> bool) b (acc : Z * list (Z * Z)) (used : list Z) c l :
  acc = (u32 (c + Z.of_nat (length used)),
         l ++ map (fun b => (b, ObjectSize_ (OAStats_ s))) used) ->
  (if f b then (u32 (fst acc + 1), snd acc ++ [(b, ObjectSize_ (OAStats_ s))]) else acc)
  = (u32 (c + Z.of_nat (length (used ++ filter f [b]))),
     l ++ map (fun b => (b, ObjectSize_ (OAStats_ s))) (used ++ filter f [b])).
Proof.
  intros ->. cbn [filter]. destruct (f b); cbn [fst snd].
  - rewrite length_app, map_app, app_assoc. cbn [length map].
    rewrite u32_add_l. f_equal. f_equal. lia.
  - rewrite app_nil_r. reflexivity.
Qed.

Lemma DumpMemoryInUse_blocks_scan fuel m s free page c l n : forall i used,
  HeaderBlocks_ (Config_ s) = 0 ->
  block_size_ s = ObjectSize_ (OAStats_ s) + chunk_size_ s ->
  free_list_from (heap s) m (free_list_ s) = Some free ->
  all_owned (heap s) sizeof_ptr free ->
  (length free < fuel)%nat ->
  0 <= i ->
  DumpMemoryInUse_blocks fuel n i
    (if i =? 0 then page else payload s page (i - 1))
    (u32 (c + Z.of_nat (length used)),
     l ++ map (fun b => (b, ObjectSize_ (OAStats_ s))) used) s
  = (Ok (u32 (c + Z.of_nat (length
             (used ++ filter (fun b => negb (existsb (Z.eqb b) free))
                             (blocks_up s page i n)))),
         l ++ map (fun b => (b, ObjectSize_ (OAStats_ s)))
                  (used ++ filter (fun b => negb (existsb (Z.eqb b) free))
                                  (blocks_up s page i n))), s).
Proof.
  induction n as [|n IH]; intros i used Hhdr Hblock Hfree Hown Hfuel Hi.
  - cbn. rewrite app_nil_r. reflexivity.
  - cbn [DumpMemoryInUse_blocks blocks_up]. rewrite bind_get_eq. cbv zeta.
    rewrite Hhdr. cbn [Z.eqb negb].
    replace (if i =? 0
             then (if i =? 0 then page else payload s page (i - 1))
                  + (sizeof_ptr + chunk_size_ s - PadBytes_ (Config_ s))
             else (if i =? 0 then page else payload s page (i - 1)) + block_size_ s)
      with (payload s page i).
    2: { destruct (Z.eqb_spec i 0) as [-> | Hne].
         - unfold payload. ring.
         - rewrite Hblock. replace i with (i - 1 + 1) at 1 by lia.
           rewrite payload_step. reflexivity. }
    unfold bind at 1.
    rewrite (DumpMemoryInUse_free_list_scan (payload s page i) free fuel m _ true s
               Hfree Hown Hfuel).
    cbn [andb].
    rewrite (report_in_use s (fun b => negb (existsb (Z.eqb b) free))
               (payload s page i) _ used c l eq_refl).
    pose proof (IH (i + 1) (used ++ filter (fun b => negb (existsb (Z.eqb b) free))
                                           [payload s page i])
                   Hhdr Hblock Hfree Hown Hfuel ltac:(lia)) as Hnext.
    replace (i + 1 =? 0) with false in Hnext by (symmetry; apply Z.eqb_neq; lia).
    replace (i + 1 - 1) with i in Hnext by lia.
    rewrite Hnext.
    change (payload s page i :: blocks_up s page (i + 1) n)
      with ([payload s page i] ++ blocks_up s page (i + 1) n).
    rewrite filter_app, <- !app_assoc. reflexivity.
Qed.

Lemma DumpMemoryInUse_pages_scan fuel m s free c l pages : forall fuel_pages n p used,
  HeaderBlocks_ (Config_ s) = 0 ->
  block_size_ s = ObjectSize_ (OAStats_ s) + chunk_size_ s ->
  free_list_from (heap s) m (free_list_ s) = Some free ->
  all_owned (heap s) sizeof_ptr free ->
  (length free < fuel)%nat ->
  pages_from (heap s) n p = Some pages ->
  all_owned (heap s) sizeof_ptr pages ->
  (length pages < fuel_pages)%nat ->
  DumpMemoryInUse_pages fuel_pages fuel p
    (u32 (c + Z.of_nat (length used)),
     l ++ map (fun b => (b, ObjectSize_ (OAStats_ s))) used) s
  = (Ok (u32 (c + Z.of_nat (length (used ++ blocks_in_use s free pages))),
         l ++ map (fun b => (b, ObjectSize_ (OAStats_ s)))
                  (used ++ blocks_in_use s free pages)), s).
Proof.
  induction pages as [|q pages IH];
    intros fuel_pages n p used Hhdr Hblock Hfree Hfown Hfuel Hfrom Hown Hfp;
    (destruct fuel_pages as [|fuel_pages]; [cbn [length] in Hfp; lia|]);
    cbn [DumpMemoryInUse_pages];
    destruct (pages_from_inv _ _ _ _ Hfrom)
      as [[Hz E] | (Hz & n' & l' & -> & E & Hrest)]; try discriminate.
  - subst p. cbn. rewrite app_nil_r. reflexivity.
  - injection E as <- <-.
    replace (q =? 0) with false by (symmetry; apply Z.eqb_neq; exact Hz).
    rewrite bind_get_eq.
    inversion Hown as [|? ? Hq Hown']; subst.
    unfold bind at 1.
    rewrite (DumpMemoryInUse_blocks_scan fuel m s free q c l _ 0 used
               Hhdr Hblock Hfree Hfown Hfuel ltac:(lia)).
    unfold bind at 1. rewrite (load_ptr_ok _ _ Hq).
    rewrite (IH fuel_pages n' _ _ Hhdr Hblock Hfree Hfown Hfuel Hrest Hown'
               ltac:(cbn [length] in Hfp; lia)).
    unfold blocks_in_use. cbn [flat_map]. rewrite filter_app, <- !app_assoc.
    reflexivity.
Qed.

(** X18.  Without header blocks [DumpMemoryInUse] reports exactly the blocks in
    use: on a pool with a well-formed free list and page list it calls the
    callback once for every block of every page that is not a node of the
    free list, page by page from the newest and by address within a page,
    passing the address of the object and [ObjectSize_]; it returns the
    number of these calls and changes nothing. *)
Theorem DumpMemoryInUse_reports_blocks_in_use fuel n m s free pages :
  HeaderBlocks_ (Config_ s) = 0 ->
  block_size_ s = ObjectSize_ (OAStats_ s) + chunk_size_ s ->
  free_list_from (heap s) n (free_list_ s) = Some free ->
  all_owned (heap s) sizeof_ptr free ->
  pages_from (heap s) m (page_list_ s) = Some pages ->
  all_owned (heap s) sizeof_ptr pages ->
  (length free < fuel)%nat -> (length pages < fuel)%nat ->
  DumpMemoryInUse fuel s
  = (Ok (u32 (Z.of_nat (length (blocks_in_use s free pages))),
         map (fun b => (b, ObjectSize_ (OAStats_ s))) (blocks_in_use s free pages)), s).
Proof.
  intros Hhdr Hblock Hfree Hfown Hpages Hpown Hfuel1 Hfuel2.
  unfold DumpMemoryInUse. rewrite bind_get_eq.
  exact (DumpMemoryInUse_pages_scan fuel n s free 0 [] pages fuel m _ []
           Hhdr Hblock Hfree Hfown Hfuel1 Hpages Hpown Hfuel2).
Qed.

End DumpExact.

Section NonNull.
Context `{Platform}.

Lemma is_live_buffer h a :
  is_live h a = true -> exists b, In b (live h) /\ fst b <= a < fst b + snd b.
Proof.
  unfold is_live. intros E. apply existsb_exists in E. destruct E as (b & Hin & Hb).
  exists b. split; [exact Hin|]. unfold in_buffer in Hb. apply andb_prop in Hb.
  destruct Hb as [H1 H2]. apply Z.leb_le in H1. apply Z.ltb_lt in H2. lia.
Qed.

Lemma AllocatePage_granted fuel sys s r s' :
  AllocatePage fuel sys s = (r, s') -> r <> Throw E_NO_MEMORY -> 0 < sys.
Proof.
  unfold AllocatePage. rewrite bind_get_eq. unfold bind at 1, modify_stats, modify.
  unfold bind at 1. rewrite bind_get_eq. unfold bind at 1, new_nothrow.
  destruct ((0 <? sys) && _) eqn:Hg.
  - intros _ _. apply andb_prop in Hg. destruct Hg as [Hpos _].
    apply Z.ltb_lt in Hpos. exact Hpos.
  - cbn. intros E Hne. injection E as <- _. contradiction.
Qed.

(** X19.  [Allocate] never returns a null pointer: as long as no owned buffer
    starts at the null address, an address it returns is above null; on
    the pool it is the start of owned storage for a link word at least,
    and in pass-through mode the start of the buffer the system gave. *)
Theorem Allocate_returns_owned_storage fuel sys s p s' :
  buffers_above_null s ->
  Allocate fuel sys s = (Ok p, s') ->
  0 < p /\
  (if UseCPPMemManager_ (Config_ s)
   then live (heap s') = (p, ObjectSize_ (OAStats_ s)) :: live (heap s)
   else range_live (heap s') p sizeof_ptr).
Proof.
  intros Hbuf E. destruct (UseCPPMemManager_ (Config_ s)) eqn:Hpool.
  - unfold Allocate in E. rewrite bind_get_eq, Hpool in E.
    apply bind_inv in E as (q & s1 & E1 & E).
    apply bind_inv in E as ([] & s2 & E2 & E). injection E as <- <-.
    unfold new_throwing in E1. apply bind_inv in E1 as (q' & s0 & E0 & E1).
    unfold new_nothrow in E0.
    destruct ((0 <? sys) && _) eqn:Hg.
    + injection E0 as <- <-. apply andb_prop in Hg. destruct Hg as [Hpos _].
      apply Z.ltb_lt in Hpos.
      replace (sys =? 0) with false in E1 by (symmetry; apply Z.eqb_neq; lia).
      injection E1 as <- <-. split; [exact Hpos|].
      destruct (count_allocation_effect
                  (set_heap (mkHeap (bytes (heap s))
                                    ((sys, ObjectSize_ (OAStats_ s)) :: live (heap s))) s))
        as ((_ & Hlv & _) & Hok & _).
      rewrite E2 in Hlv. exact Hlv.
    + injection E0 as <- <-. discriminate.
  - destruct (Allocate_returned fuel sys s p s' Hpool E)
      as (s1 & s4 & Hpage & _ & _ & Hlink & -> & Hb4 & _).
    assert (Hbuf1 : buffers_above_null s1).
    { destruct (FreeObjects_ (OAStats_ s) =? 0); [|subst s1; exact Hbuf].
      pose proof (AllocatePage_kept keeps_above_null
                    ltac:(intros ? Hx; exact Hx)
                    ltac:(intros ? ? ? H1 H2 Hx; exact (H2 (H1 Hx)))
                    ltac:(intros ? ? [b ->] Hx; exact Hx)
                    ltac:(intros ? ? Hx; exact Hx)
                    ltac:(intros ? ? Hx; exact Hx)
                    ltac:(intros ? ? Hx; exact Hx)
                    fuel sys s) as Hk.
      pose proof (wp_inv _ _ _ _ _ Hk Hpage) as [[Ht _] | [_ Hs1]]; [discriminate|].
      apply Hs1. unfold buffers_above_null, page_granted. cbn.
      constructor; [|exact Hbuf].
      cbn [fst]. apply (AllocatePage_granted fuel sys s _ _ Hpage). discriminate. }
    assert (Hlive : range_live (heap (snd (count_allocation s4))) p sizeof_ptr).
    { destruct (count_allocation_effect s4) as (_ & _ & _ & Hhp). rewrite Hhp.
      destruct Hb4 as [b ->]. exact Hlink. }
    split; [|exact Hlive].
    pose proof sizeof_ptr_pos as Hpp.
    destruct (is_live_buffer _ _ (Hlink p ltac:(lia))) as (b & Hin & Hb).
    unfold buffers_above_null in Hbuf1. rewrite Forall_forall in Hbuf1.
    pose proof (Hbuf1 b Hin). lia.
Qed.

End NonNull.

Section PageList.
Context `{Platform}.

Lemma store_bytes_frame l : forall a s,
  wp (store_bytes a l)
     (fun _ s' => only_bytes s s' /\ same_outside a (a + Z.of_nat (length l)) s s') s.
Proof.
  induction l as [|b l IH]; intros a s; cbn [store_bytes].
  - apply wp_ret. split; [apply only_bytes_refl | apply same_outside_refl].
  - apply wp_bind. unfold wp at 1, store_byte.
    destruct (is_live (heap s) a); cbn [fst snd wp_next].
    + eapply wp_mono; [apply IH|]. intros r s' [Hb Ho].
      split; [eapply only_bytes_trans; [apply only_bytes_poke | exact Hb]|].
      intros x Hx. cbn [length] in Hx. rewrite Nat2Z.inj_succ in Hx.
      rewrite Ho by lia. cbn. destruct (Z.eqb_spec x a); [lia | reflexivity].
    + split; [apply only_bytes_refl | apply same_outside_refl].
Qed.

Lemma store_ptr_frame a v s :
  wp (store_ptr a v)
     (fun _ s' => only_bytes s s' /\ same_outside a (a + sizeof_ptr) s s') s.
Proof.
  unfold store_ptr. eapply wp_mono; [apply store_bytes_frame|].
  intros r s' [Hb Ho]. rewrite encode_length, sizeof_ptr_nat in Ho.
  split; assumption.
Qed.

(** The free-list loop of [AllocatePage] writes nowhere below the block it
    is entered with. *)
Lemma AllocatePage_loop_above fuel : forall i commited temp_free_list s,
  wp (AllocatePage_loop fuel i commited temp_free_list)
     (fun _ s' => forall a, a < temp_free_list -> bytes (heap s') a = bytes (heap s) a) s.
Proof.
  induction fuel as [|fuel IH]; intros i c p s; cbn [AllocatePage_loop].
  - apply wp_timeout. reflexivity.
  - apply wp_get_bind.
    destruct ((i <? ObjectsPerPage_ (Config_ s)) || (PageSize_ (OAStats_ s) <=? c));
      [|apply wp_ret; reflexivity].
    apply wp_bind.
    destruct (i <? u32 (ObjectsPerPage_ (Config_ s) - 1)).
    + pose proof (u32_range (ObjectSize_ (OAStats_ s) + chunk_size_ s)) as Hu.
      apply wp_bind. eapply wp_mono; [apply store_ptr_frame|].
      intros r s1 [[b1 ->] Ho1]. pose proof sizeof_ptr_pos as Hpp.
      destruct r as [[] | e | | ]; cbn [wp_next];
        try (intros a Ha; apply Ho1; lia).
      apply wp_modify_bind. apply wp_ret. cbn [wp_next].
      apply wp_modify_stats_bind. eapply wp_mono; [apply IH|].
      intros r s2 Hr a Ha. rewrite Hr by lia. apply Ho1. lia.
    + apply wp_ret. cbn [wp_next]. apply wp_modify_stats_bind.
      eapply wp_mono; [apply IH|]. intros r s2 Hr a Ha. rewrite Hr by lia. reflexivity.
Qed.

(** The link word [AllocatePage] writes at the start of the new page. *)
Lemma AllocatePage_link fuel sys s s1 :
  AllocatePage fuel sys s = (Ok tt, s1) ->
  peek_ptr (heap s1) sys
  = (if u32 (PagesInUse_ (OAStats_ s) + 1) =? 1 then 0 else page_list_ s) mod ptr_limit.
Proof.
  intros E. unfold AllocatePage in E. rewrite bind_get_eq in E.
  apply bind_inv in E as ([] & s0 & E0 & E). injection E0 as <-.
  apply bind_inv in E as ([] & s0 & E0 & E). injection E0 as <-.
  rewrite bind_get_eq in E.
  apply bind_inv in E as (NewPage & s2 & E2 & E).
  unfold new_nothrow in E2.
  destruct ((0 <? sys) && _) eqn:Hg; injection E2 as <- <-; [|discriminate].
  apply andb_prop in Hg. destruct Hg as [Hpos _]. apply Z.ltb_lt in Hpos.
  replace (sys =? 0) with false in E by (symmetry; apply Z.eqb_neq; lia).
  apply bind_inv in E as ([] & s3 & E3 & E).
  pose proof (wp_inv _ _ _ _ _ (SetSignatures_step sys _) E3) as [[b3 Hs3] _].
  rewrite bind_get_eq in E.
  apply bind_inv in E as ([] & s4 & E4 & E).
  assert (H4 : peek_ptr (heap s4) sys
               = (if u32 (PagesInUse_ (OAStats_ s) + 1) =? 1 then 0 else page_list_ s)
                 mod ptr_limit /\ only_bytes s3 s4).
  { rewrite Hs3 in E4. cbn [OAStats_ set_heap set_Stats PagesInUse_ set_PagesInUse
                            set_PageSize page_list_] in E4.
    destruct (u32 (PagesInUse_ (OAStats_ s) + 1) =? 1);
      apply store_ptr_inv in E4 as (_ & Hb & Hp & _); rewrite <- Hs3 in Hb;
      split; assumption. }
  destruct H4 as [Hp4 [b4 Hs4]].
  apply bind_inv in E as ([] & s5 & E5 & E). injection E5 as <-.
  apply bind_inv in E as ([] & s5 & E5 & E). injection E5 as <-.
  apply bind_inv in E as ([] & s6 & E6 & E).
  apply bind_inv in E as (i' & s7 & E7 & E). injection E as <-.
  pose proof sizeof_ptr_pos as Hpp.
  pose proof (u32_range (chunk_size_ s3 - PadBytes_ (Config_ s3))) as Hoff.
  pose proof (wp_inv _ _ _ _ _ (store_ptr_frame _ _ _) E6) as [_ Ho6].
  pose proof (wp_inv _ _ _ _ _ (AllocatePage_loop_above _ _ _ _ _) E7) as Ho7.
  rewrite <- Hp4. apply peek_ptr_same. intros x Hx.
  rewrite Ho7 by lia. rewrite Ho6 by lia. reflexivity.
Qed.

Lemma pages_from_links h h' n : forall p pages,
  pages_from h n p = Some pages ->
  (forall q, In q pages -> peek_ptr h' q = peek_ptr h q) ->
  pages_from h' n p = Some pages.
Proof.
  induction n as [|n IH]; intros p pages Hfrom Hsame;
    destruct (pages_from_inv _ _ _ _ Hfrom)
      as [[-> ->] | (Hz & n' & l' & En & -> & Hrest)]; try reflexivity;
    try discriminate.
  injection En as <-. cbn [pages_from].
  replace (p =? 0) with false by (symmetry; apply Z.eqb_neq; exact Hz).
  rewrite (Hsame p (or_introl eq_refl)).
  rewrite (IH _ _ Hrest); [reflexivity|].
  intros q Hq. apply Hsame. right. exact Hq.
Qed.

(** X20.  A new page goes to the front of the page list: on a pool whose page
    list holds as many pages as are counted, when the system gives a
    buffer that overlaps the link word of none of them, [AllocatePage]
    returns with the new page first in the page list and the pages that
    were there behind it. *)
Theorem AllocatePage_puts_page_in_front fuel n sys s pages :
  members_ok sizeof_ptr s ->
  UseCPPMemManager_ (Config_ s) = false ->
  valid_grant (page_bytes s) sys ->
  (Z.to_nat (ObjectsPerPage_ (Config_ s)) < fuel)%nat ->
  pages_from (heap s) n (page_list_ s) = Some pages ->
  0 <= page_list_ s < ptr_limit ->
  PagesInUse_ (OAStats_ s) = Z.of_nat (length pages) ->
  PagesInUse_ (OAStats_ s) < UINT_MOD - 1 ->
  Forall (fun q => q + sizeof_ptr <= sys \/ sys + page_bytes s <= q) pages ->
  exists s1,
    AllocatePage fuel sys s = (Ok tt, s1) /\
    pages_from (heap s1) (S n) (page_list_ s1) = Some (sys :: pages) /\
    live (heap s1) = (sys, page_bytes s) :: live (heap s) /\
    PagesInUse_ (OAStats_ s1) = Z.of_nat (length (sys :: pages)).
Proof.
  intros Hok Hpool [Hsys1 Hsys2] Hfuel Hfrom Hrange Hcount Hlim Hapart.
  destruct (AllocatePage_pool fuel sys s Hok Hpool Hsys1 Hsys2 Hfuel)
    as (s1 & E & _ & Hst & Hlv & Hpl & _ & Hframe).
  exists s1. split; [exact E|]. split; [|split; [exact Hlv|]].
  - rewrite Hpl. cbn [pages_from].
    replace (sys =? 0) with false by (symmetry; apply Z.eqb_neq; lia).
    rewrite (AllocatePage_link fuel sys s s1 E).
    assert (Hnext : (if u32 (PagesInUse_ (OAStats_ s) + 1) =? 1 then 0 else page_list_ s)
                    mod ptr_limit = page_list_ s).
    { rewrite u32_small by lia.
      destruct (Z.eqb_spec (PagesInUse_ (OAStats_ s) + 1) 1) as [E1 | E1].
      - assert (Hnil : pages = []) by (destruct pages; [reflexivity | cbn [length] in Hcount; lia]).
        subst pages.
        destruct (pages_from_inv _ _ _ _ Hfrom) as [[-> _] | (_ & n' & l' & _ & Ec & _)];
          [apply Z.mod_0_l; unfold ptr_limit; pose proof sizeof_ptr_pos;
           apply Z.pow_nonzero; lia | discriminate].
      - apply Z.mod_small. exact Hrange. }
    rewrite Hnext.
    rewrite (pages_from_links (heap s) (heap s1) n _ pages Hfrom); [reflexivity|].
    intros q Hq. apply peek_ptr_same. intros x Hx. apply Hframe.
    unfold all_owned in *. rewrite Forall_forall in Hapart.
    destruct (Hapart q Hq); lia.
  - rewrite Hst. cbn [page_counted PagesInUse_ set_FreeObjects set_PagesInUse].
    rewrite u32_small by lia. cbn [length]. lia.
Qed.

End PageList.

Section FreshPage.
Context `{Platform}.

(** The free-list loop of [AllocatePage] writes link words of blocks of
    the page and nothing else. *)
Lemma AllocatePage_loop_links page fuel : forall i s,
  members_ok sizeof_ptr s ->
  PageSize_ (OAStats_ s) = page_bytes s ->
  0 <= i <= ObjectsPerPage_ (Config_ s) ->
  wp (AllocatePage_loop fuel i (i * ObjectSize_ (OAStats_ s))
        (payload s page (Z.min i (ObjectsPerPage_ (Config_ s) - 1))))
     (fun _ s' =>
        forall a,
          (forall k, 0 <= k < ObjectsPerPage_ (Config_ s) ->
                     a < payload s page k \/ payload s page k + sizeof_ptr <= a) ->
          bytes (heap s') a = bytes (heap s) a) s.
Proof.
  induction fuel as [|fuel IH]; intros i s Hok Hps Hi;
    [apply wp_timeout; reflexivity|].
  destruct (page_bytes_range s Hok) as (Hpb & Hch & Hst & Hlt & Hmod & HK & Hsm).
  pose proof Hok as [HK1 Hsz _ Hpad Hhdr Hal Hla Hia Hchunk Hblock Hfits].
  pose proof sizeof_ptr_pos as Hpp.
  set (K := ObjectsPerPage_ (Config_ s)) in *.
  cbn [AllocatePage_loop]. apply wp_get_bind. fold K.
  destruct (Z.ltb_spec i K) as [Hlt' | Hge].
  - cbn [orb].
    assert (Hu1 : u32 (K - 1) = K - 1) by (apply u32_small; lia).
    assert (Hu2 : u32 (ObjectSize_ (OAStats_ s) + chunk_size_ s) = stride s)
      by (apply u32_small; unfold stride in *; lia).
    assert (Hu3 : u32 (i + 1) = i + 1) by (apply u32_small; lia).
    assert (Hu4 : u32 (i * ObjectSize_ (OAStats_ s) + ObjectSize_ (OAStats_ s))
                  = (i + 1) * ObjectSize_ (OAStats_ s)).
    { rewrite u32_small by (unfold K in *; nia). ring. }
    rewrite Hu1, Hu2, Hu3, Hu4.
    rewrite (Z.min_l i (K - 1)) by lia.
    apply wp_bind.
    destruct (Z.ltb_spec i (K - 1)) as [Hlink | Hlast].
    + rewrite <- payload_step.
      apply wp_bind. eapply wp_mono; [apply store_ptr_frame|].
      intros r s1 [[b1 ->] Ho1].
      assert (Hfar : forall a,
                (forall k, 0 <= k < K ->
                           a < payload s page k \/ payload s page k + sizeof_ptr <= a) ->
                b1 a = bytes (heap s) a).
      { intros a Ha. apply Ho1. apply (Ha (i + 1)). lia. }
      destruct r as [[] | e | | ]; cbn [wp_next]; try exact Hfar.
      apply wp_modify_bind. apply wp_ret. cbn [wp_next].
      apply wp_modify_stats_bind.
      match goal with |- wp _ _ ?st => set (s2 := st) end.
      eapply wp_mono.
      { replace ((i + 1) * ObjectSize_ (OAStats_ s))
          with ((i + 1) * ObjectSize_ (OAStats_ s2)) by reflexivity.
        replace (payload s page (i + 1))
          with (payload s2 page (Z.min (i + 1) (ObjectsPerPage_ (Config_ s2) - 1)))
          by (change (ObjectsPerPage_ (Config_ s2)) with K;
              rewrite Z.min_l by lia; reflexivity).
        apply IH.
        - apply (members_ok_same_setup _ _ Hok); repeat split.
        - exact Hps.
        - change (ObjectsPerPage_ (Config_ s2)) with K. lia. }
      intros r s' Hr a Ha. rewrite (Hr a Ha). apply Hfar, Ha.
    + assert (i = K - 1) by lia. subst i.
      apply wp_ret. cbn [wp_next].
      apply wp_modify_stats_bind.
      match goal with |- wp _ _ ?st => set (s2 := st) end.
      eapply wp_mono.
      { replace ((K - 1 + 1) * ObjectSize_ (OAStats_ s))
          with ((K - 1 + 1) * ObjectSize_ (OAStats_ s2)) by reflexivity.
        replace (payload s page (K - 1))
          with (payload s2 page (Z.min (K - 1 + 1) (ObjectsPerPage_ (Config_ s2) - 1)))
          by (change (ObjectsPerPage_ (Config_ s2)) with K;
              rewrite Z.min_r by lia; reflexivity).
        apply IH.
        - apply (members_ok_same_setup _ _ Hok); repeat split.
        - exact Hps.
        - change (ObjectsPerPage_ (Config_ s2)) with K. lia. }
      intros r s' Hr a Ha. exact (Hr a Ha).
  - assert (i = K) by lia. subst i.
    replace (PageSize_ (OAStats_ s) <=? K * ObjectSize_ (OAStats_ s)) with false
      by (symmetry; apply Z.leb_gt; rewrite Hps; unfold K; lia).
    cbn [orb]. apply wp_ret. reflexivity.
Qed.

(** No guard byte of a block lies in the link word of a block. *)
Lemma guard_off_links s page i k a :
  members_ok sizeof_ptr s ->
  0 <= i < ObjectsPerPage_ (Config_ s) ->
  0 <= k < ObjectsPerPage_ (Config_ s) ->
  payload s page i - PadBytes_ (Config_ s) <= a < payload s page i \/
  payload s page i + ObjectSize_ (OAStats_ s) <= a
  < payload s page i + ObjectSize_ (OAStats_ s) + PadBytes_ (Config_ s) ->
  a < payload s page k \/ payload s page k + sizeof_ptr <= a.
Proof.
  intros Hok Hi Hk Ha.
  pose proof Hok as [HK1 Hsz _ Hpad Hhdr Hal Hla Hia Hchunk Hblock Hfits].
  destruct (page_bytes_range s Hok) as (_ & _ & Hst & _).
  assert (Hstride : stride s = ObjectSize_ (OAStats_ s) + chunk_size_ s) by reflexivity.
  destruct (Z.lt_trichotomy k i) as [Hlt | [-> | Hgt]].
  - pose proof (payload_apart s page k i Hok ltac:(lia)). lia.
  - lia.
  - pose proof (payload_apart s page i k Hok ltac:(lia)). lia.
Qed.

Lemma forallb_addrs (P : Z -> bool) n : forall lo,
  (forall a, lo <= a < lo + Z.of_nat n -> P a = true) ->
  forallb P (addrs n lo) = true.
Proof.
  induction n as [|n IH]; intros lo HP; [reflexivity|].
  cbn [addrs forallb]. rewrite Nat2Z.inj_succ in HP.
  rewrite HP by lia. apply IH. intros a Ha. apply HP. lia.
Qed.

(** X21.  A page created in debug mode passes validation: when [AllocatePage]
    gets its buffer with the debug flag on, it returns with the guard
    bytes of every block of the new page holding [PAD_PATTERN], threading
    the free list through the blocks leaves them so, and [ValidateBlock]
    accepts each block of the page. *)
Theorem debug_page_passes_validation fuel sys s :
  members_ok sizeof_ptr s ->
  UseCPPMemManager_ (Config_ s) = false ->
  DebugOn_ (Config_ s) = true ->
  LeftAlignSize_ (Config_ s) = Alignment_ (Config_ s) ->
  InterAlignSize_ (Config_ s) = Alignment_ (Config_ s) ->
  valid_grant (page_bytes s) sys ->
  (Z.to_nat (ObjectsPerPage_ (Config_ s)) < fuel)%nat ->
  exists s1,
    AllocatePage fuel sys s = (Ok tt, s1) /\
    guard_bytes_stamped s1 sys /\
    forall i, 0 <= i < ObjectsPerPage_ (Config_ s) ->
      ValidateBlock (payload s1 sys i) s1 = (Ok true, s1).
Proof.
  intros Hok Hpool Hdebug Hla Hia [Hsys1 Hsys2] Hfuel.
  destruct (AllocatePage_pool fuel sys s Hok Hpool Hsys1 Hsys2 Hfuel)
    as (s1 & E & Hs1 & Hst & Hlv & _).
  pose proof (members_ok_same_setup _ _ Hok Hs1) as Hok1.
  pose proof Hs1 as (Hc1 & Hch1 & _ & Hsz1).
  assert (Hpay : forall i, payload s1 sys i = payload s sys i).
  { intros i. unfold payload, stride. rewrite Hc1, Hch1, Hsz1. reflexivity. }
  assert (Hpb1 : page_bytes s1 = page_bytes s).
  { unfold page_bytes. rewrite Hc1, Hch1, Hsz1. reflexivity. }
  assert (Hguards : guard_bytes_stamped s1 sys).
  { pose proof Hok as [HK1 Hsz _ Hpad Hhdr Hal _ _ Hchunk Hblock Hfits].
    destruct (page_bytes_range s Hok) as (Hpb & Hch & Hst' & Hlt & Hmod & HK & Hsm).
    pose proof sizeof_ptr_pos as Hpp.
    pose proof E as E'. unfold AllocatePage in E'. rewrite bind_get_eq in E'.
    apply bind_inv in E' as ([] & s0 & E0 & E'). injection E0 as <-.
    apply bind_inv in E' as ([] & s0 & E0 & E'). injection E0 as <-.
    rewrite bind_get_eq in E'.
    apply bind_inv in E' as (NewPage & s2 & E2 & E').
    unfold new_nothrow in E2.
    destruct ((0 <? sys) && _) eqn:Hg; injection E2 as <- <-; [|discriminate].
    replace (sys =? 0) with false in E' by (symmetry; apply Z.eqb_neq; lia).
    match type of E' with bind _ _ ?st = _ => set (s2 := st) in * end.
    assert (Hs2 : same_setup s s2) by repeat split.
    assert (Hok2 : members_ok sizeof_ptr s2) by exact (members_ok_same_setup _ _ Hok Hs2).
    assert (Hps2 : PageSize_ (OAStats_ s2) = page_bytes s).
    { cbn. apply u32_small. fold (page_bytes s). lia. }
    assert (Hl2 : range_live (heap s2) sys (page_bytes s2)).
    { intros a Ha. change (page_bytes s2) with (page_bytes s) in Ha.
      apply (is_live_in _ sys (PageSize_ (OAStats_ s2))); [left; reflexivity|].
      rewrite Hps2. exact Ha. }
    apply bind_inv in E' as ([] & s3 & E3 & E').
    pose proof (wp_inv _ _ _ _ _ (SetSignatures_debug sys s2 Hok2 Hdebug Hla Hia Hl2) E3)
      as (b3 & Hs3 & Hstamped).
    rewrite bind_get_eq in E'.
    apply bind_inv in E' as ([] & s4 & E4 & E').
    assert (Ho4 : only_bytes s3 s4 /\ same_outside sys (sys + sizeof_ptr) s3 s4).
    { destruct (PagesInUse_ (OAStats_ s3) =? 1);
        exact (wp_inv _ _ _ _ _ (store_ptr_frame _ _ _) E4). }
    destruct Ho4 as [[b4 Hs4] Ho4].
    apply bind_inv in E' as ([] & s5 & E5 & E'). injection E5 as <-.
    apply bind_inv in E' as ([] & s5 & E5 & E'). injection E5 as <-.
    apply bind_inv in E' as ([] & s6 & E6 & E').
    apply bind_inv in E' as (i' & s7 & E7 & E'). injection E' as ->.
    pose proof (wp_inv _ _ _ _ _ (store_ptr_frame _ _ _) E6) as [[b6 Hs6] Ho6].
    assert (Hoff : u32 (chunk_size_ s3 - PadBytes_ (Config_ s3))
                   = chunk_size_ s - PadBytes_ (Config_ s)).
    { rewrite Hs3. cbn [chunk_size_ Config_ set_heap]. apply u32_small.
      unfold stride in *. lia. }
    rewrite Hoff in E6, E7, Hs6, Ho6.
    replace (sys + sizeof_ptr + (chunk_size_ s - PadBytes_ (Config_ s)))
      with (payload s sys 0) in E6, E7, Hs6, Ho6 by (unfold payload; ring).
    assert (Hs6' : same_setup s s6).
    { rewrite Hs6, Hs4, Hs3. repeat split. }
    assert (Hok6 : members_ok sizeof_ptr s6) by exact (members_ok_same_setup _ _ Hok Hs6').
    assert (Hpay6 : forall i, payload s6 sys i = payload s sys i).
    { intros i. destruct Hs6' as (A1 & A2 & _ & A4).
      unfold payload, stride. rewrite A1, A2, A4. reflexivity. }
    assert (HK6 : ObjectsPerPage_ (Config_ s6) = ObjectsPerPage_ (Config_ s)).
    { destruct Hs6' as (A1 & _). rewrite A1. reflexivity. }
    pose proof (AllocatePage_loop_links sys fuel 0 s6 Hok6) as Hloop.
    rewrite HK6, Z.min_l, Hpay6 in Hloop by lia.
    cbn [Z.mul] in Hloop.
    specialize (Hloop ltac:(rewrite Hs6, Hs4, Hs3; exact Hps2) ltac:(lia)).
    pose proof (wp_inv _ _ _ _ _ Hloop E7) as Ho7. cbv beta in Ho7.
    (* a guard byte keeps what [SetSignatures] stamped *)
    assert (Hkept : forall i a,
              0 <= i < ObjectsPerPage_ (Config_ s) ->
              payload s sys i - PadBytes_ (Config_ s) <= a < payload s sys i \/
              payload s sys i + ObjectSize_ (OAStats_ s) <= a
              < payload s sys i + ObjectSize_ (OAStats_ s) + PadBytes_ (Config_ s) ->
              bytes (heap s1) a = b3 a).
    { intros i a Hi Ha.
      assert (Hlinks : forall k, 0 <= k < ObjectsPerPage_ (Config_ s) ->
                a < payload s sys k \/ payload s sys k + sizeof_ptr <= a).
      { intros k Hk. exact (guard_off_links s sys i k a Hok Hi Hk Ha). }
      rewrite Ho7.
      2: { intros k Hk. rewrite Hpay6. apply Hlinks. exact Hk. }
      rewrite Ho6 by (apply (Hlinks 0); lia).
      rewrite Hs4. cbn [heap set_heap set_free_list set_page_list bytes].
      transitivity (bytes (heap s4) a); [rewrite Hs4; reflexivity|].
      rewrite Ho4; [rewrite Hs3; reflexivity|].
      destruct (payload_bounds s sys i Hok Hi) as (Hlo & _).
      assert (sys + sizeof_ptr + PadBytes_ (Config_ s) <= payload s sys i).
      { unfold payload. assert (0 <= i * stride s) by nia. lia. }
      lia. }
    intros i k Hi Hk. rewrite Hc1 in Hi, Hk. rewrite Hsz1, !Hpay.
    destruct (Hstamped i Hi) as [Hfront Hback].
    destruct (Hfront k) as (Hf1 & _). destruct (Hback k) as (_ & Hb2).
    split.
    - rewrite (Hkept i) by (try exact Hi; lia).
      apply Hf1. exact Hk.
    - rewrite (Hkept i) by (try exact Hi; lia).
      apply Hb2. exact Hk. }
  exists s1. split; [exact E|]. split; [exact Hguards|].
  intros i Hi.
  assert (Hl1 : range_live (heap s1) sys (page_bytes s1)).
  { intros a Ha. rewrite Hpb1 in Ha.
    apply (is_live_in _ sys (page_bytes s)); [rewrite Hlv; left; reflexivity | exact Ha]. }
  rewrite (ValidateBlock_exact s1 sys i Hok1 Hl1) by (rewrite Hc1; exact Hi).
  f_equal. f_equal. unfold guards_intact.
  pose proof (ok_pad _ _ Hok1) as Hpad1.
  apply andb_true_intro. split; apply forallb_addrs; intros a Ha;
    rewrite Z2Nat.id in Ha by lia; apply Z.eqb_eq.
  - destruct (Hguards i (payload s1 sys i - 1 - a)) as [Hleft _];
      [rewrite Hc1; exact Hi | lia |].
    replace (payload s1 sys i - 1 - (payload s1 sys i - 1 - a)) with a in Hleft by lia.
    exact Hleft.
  - destruct (Hguards i (a - (payload s1 sys i + ObjectSize_ (OAStats_ s1))))
      as [_ Hright]; [rewrite Hc1; exact Hi | lia |].
    replace (payload s1 sys i + ObjectSize_ (OAStats_ s1)
             + (a - (payload s1 sys i + ObjectSize_ (OAStats_ s1)))) with a in Hright by lia.
    exact Hright.
Qed.

End FreshPage.
(** * Counting, the page limit, and pages too large for an [unsigned] *)

Section Counting.
Context `{Platform}.

(** The constructor leaves the usage counters alone, however it ends. *)
Lemma ctor_usage fuel ObjectSize config sys s :
  usage_same s (snd (ObjectAllocator_ctor fuel ObjectSize config sys s)).
Proof.
  assert (Hw : wp (ObjectAllocator_ctor fuel ObjectSize config sys)
                  (fun _ s' => usage_same s s') s).
  { unfold ObjectAllocator_ctor.
    apply wp_modify_stats_bind. do 5 apply wp_modify_bind. apply wp_get_bind.
    apply wp_bind.
    match goal with |- wp _ _ ?st => assert (H0 : usage_same s st) by repeat split end.
    destruct (negb _); cbn [when].
    - eapply wp_mono.
      + apply (AllocatePage_kept usage_same usage_same_refl usage_same_trans
                 usage_same_bytes); intros; repeat split.
      + intros r s1 Hr.
        assert (H1 : usage_same s s1).
        { destruct Hr as [[_ ->] | [_ Hs1]].
          - eapply usage_same_trans; [exact H0 | repeat split].
          - eapply usage_same_trans; [exact H0|].
            eapply usage_same_trans; [|exact Hs1]. repeat split. }
        destruct r as [[] | e | | ]; cbn [wp_next]; exact H1.
    - apply wp_ret. cbn [wp_next]. apply wp_modify.
      eapply usage_same_trans; [exact H0 | repeat split]. }
  exact Hw.
Qed.

(** After calls that all returned, the counters of allocations and of
    releases have grown by the numbers of calls made and the count of
    objects in use by their difference, each modulo [2^32]. *)
Lemma run_usage fuel calls : forall s s' a d i,
  run fuel calls s = (Ok tt, s') ->
  Allocations_ (OAStats_ s) = u32 a ->
  Deallocations_ (OAStats_ s) = u32 d ->
  ObjectsInUse_ (OAStats_ s) = u32 i ->
  Allocations_ (OAStats_ s') = u32 (a + allocations calls) /\
  Deallocations_ (OAStats_ s') = u32 (d + releases calls) /\
  ObjectsInUse_ (OAStats_ s') = u32 (i + (allocations calls - releases calls)).
Proof.
  induction calls as [|c calls IH]; intros s s' a d i E Ha Hd Hi.
  - cbn [run ret] in E. injection E as <-.
    unfold allocations, releases. cbn [filter length Z.of_nat].
    rewrite Z.sub_0_r, !Z.add_0_r. repeat split; assumption.
  - cbn [run] in E. unfold bind in E.
    pose proof (do_call_usage fuel c s) as Hstep.
    destruct (do_call fuel c s) as [r1 s1]. cbn [fst snd] in Hstep.
    destruct r1 as [[] | e | | ]; try discriminate.
    assert (Hnext :
      Allocations_ (OAStats_ s1) = u32 (a + (if is_allocate c then 1 else 0)) /\
      Deallocations_ (OAStats_ s1) = u32 (d + (if is_allocate c then 0 else 1)) /\
      ObjectsInUse_ (OAStats_ s1) = u32 (i + (if is_allocate c then 1 else -1))).
    { destruct c as [sys | Object]; cbn [usage_step is_allocate] in *;
        destruct Hstep as (Hi1 & _ & Ha1 & Hd1);
        rewrite Hi1, Ha1, Hd1, Ha, Hd, Hi, ?u32_add_l, ?u32_sub_l, ?Z.add_0_r;
        repeat split; reflexivity. }
    destruct Hnext as (Ha1 & Hd1 & Hi1).
    destruct (IH _ _ _ _ _ E Ha1 Hd1 Hi1) as (Ha' & Hd' & Hi').
    rewrite Ha', Hd', Hi'. unfold allocations, releases. cbn [filter].
    destruct (is_allocate c); cbn [negb length]; rewrite ?Nat2Z.inj_succ;
      repeat split; f_equal; lia.
Qed.

End Counting.

Section ConservationOfBlocks.
Context `{Platform}.

(** C1.  With pass-through disabled, after the constructor and any
    sequence of calls that all return, [n] of them [Allocate] and [m] of
    them [Free] with [m <= n], the in-use count is [n - m], whatever the
    configuration.  For a configuration with at least one object per page,
    objects of at least one byte and a page size that fits an [unsigned],
    the free count is the number of blocks on all pages created so far
    minus [n - m].  The counters are [unsigned]: the equalities hold modulo
    [2^32] in every case, and as written whenever the number of blocks
    created fits an [unsigned]. *)
Theorem C1_conservation_of_blocks fuel ObjectSize config sys h calls s0 s :
  UseCPPMemManager_ config = false ->
  ObjectAllocator_ctor fuel ObjectSize config sys (unconstructed h) = (Ok tt, s0) ->
  run fuel calls s0 = (Ok tt, s) ->
  releases calls <= allocations calls ->
  let in_use := allocations calls - releases calls in
  let blocks := pages_created h s * ObjectsPerPage_ config in
  ObjectsInUse_ (OAStats_ s) = u32 in_use /\
  (wf_config 1 ObjectSize config ->
   FreeObjects_ (OAStats_ s) = u32 (blocks - in_use) /\
   (blocks < UINT_MOD ->
    ObjectsInUse_ (OAStats_ s) = in_use /\
    FreeObjects_ (OAStats_ s) = blocks - in_use)).
Proof.
  intros Hcpp E0 Erun Hnm in_use blocks. split.
  - pose proof (ctor_usage fuel ObjectSize config sys (unconstructed h)) as Hu.
    rewrite E0 in Hu. cbn [snd] in Hu. destruct Hu as (Hi0 & _ & Ha0 & Hd0).
    destruct (run_usage fuel calls s0 s 0 0 0 Erun Ha0 Hd0 Hi0) as (_ & _ & Hi).
    rewrite Hi, Z.add_0_l. reflexivity.
  - intros Hwf.
    pose proof (ctor_members fuel ObjectSize config sys h Hwf Hcpp) as Hc.
    apply (wp_inv _ _ _ _ _ Hc) in E0. destruct E0 as [_ Hctd].
    specialize (Hctd eq_refl).
    pose proof (books_run fuel h _ calls 0 0 s0 s
                  (books_constructed _ _ _ _ _ Hctd) Erun) as Hb.
    rewrite !Z.add_0_l in Hb.
    destruct Hb as [Hok HK _ Hin Hfree Hbound Hrange].
    rewrite HK in *. fold in_use in Hin, Hfree, Hbound. fold blocks in Hfree, Hbound.
    split; [exact Hfree|].
    intros Hblocks. split.
    + rewrite Hin. apply u32_small. unfold in_use in *. lia.
    + rewrite Hfree. apply u32_small. unfold in_use in *. lia.
Qed.

End ConservationOfBlocks.

Section CapacityLimit.
Context `{Platform}.

(** The constructor, when it is to set up the pool and returns, has
    counted one page, whatever the configuration. *)
Lemma ctor_pages fuel ObjectSize config sys s s0 :
  UseCPPMemManager_ config = false ->
  ObjectAllocator_ctor fuel ObjectSize config sys s = (Ok tt, s0) ->
  UseCPPMemManager_ (Config_ s0) = false /\
  MaxPages_ (Config_ s0) = MaxPages_ config /\
  PagesInUse_ (OAStats_ s0) = u32 (PagesInUse_ (OAStats_ s) + 1).
Proof.
  intros Hcpp E.
  assert (Hw : wp (ObjectAllocator_ctor fuel ObjectSize config sys)
    (fun r s' => r = Ok tt ->
       UseCPPMemManager_ (Config_ s') = false /\
       MaxPages_ (Config_ s') = MaxPages_ config /\
       PagesInUse_ (OAStats_ s') = u32 (PagesInUse_ (OAStats_ s) + 1)) s).
  { unfold ObjectAllocator_ctor.
    apply wp_modify_stats_bind. do 5 apply wp_modify_bind. apply wp_get_bind.
    apply wp_bind.
    destruct config as [cpp K P dbg pad hdr al la ia]. cbn in Hcpp. subst cpp.
    cbn [Config_ set_free_list set_page_list set_block_size set_chunk_size
         set_Config UseCPPMemManager_ negb when].
    eapply wp_mono.
    - apply (AllocatePage_kept pages_same pages_same_refl pages_same_trans
               pages_same_bytes); intros; repeat split.
    - intros r s1 Hr. destruct r as [[] | e | | ]; cbn [wp_next]; try discriminate.
      apply wp_modify. intros _.
      destruct Hr as [[Hr _] | [_ (Hc & _ & Hp)]]; [discriminate|].
      cbn [Config_ set_Config UseCPPMemManager_ MaxPages_ OAStats_].
      rewrite Hc, Hp. repeat split. }
  exact (wp_inv _ _ _ _ _ Hw E eq_refl).
Qed.

(** On the pool, [Allocate] reports the page limit only when the pages
    counted are as many as [MaxPages_]. *)
Lemma Allocate_no_pages fuel sys s :
  UseCPPMemManager_ (Config_ s) = false ->
  fst (Allocate fuel sys s) = Throw E_NO_PAGES ->
  PagesInUse_ (OAStats_ s) = MaxPages_ (Config_ s).
Proof.
  intros Hpool.
  assert (Hw : wp (Allocate fuel sys)
    (fun r _ => r = Throw E_NO_PAGES ->
                PagesInUse_ (OAStats_ s) = MaxPages_ (Config_ s)) s).
  { unfold Allocate. apply wp_get_bind. rewrite Hpool.
    assert (Hrest : forall s1, wp
      (s2 <- get ;;
       let temp := free_list_ s2 in
       next <- load_ptr temp ;;
       modify (set_free_list next) ;;
       when (DebugOn_ (Config_ s2))
            (_ <- fill (Z.to_nat (ObjectSize_ (OAStats_ s2))) temp ALLOCATED_PATTERN ;;
             ret tt) ;;
       when (negb (HeaderBlocks_ (Config_ s2) =? 0))
            (store_byte (temp - u32 (PadBytes_ (Config_ s2) + 1)) 1) ;;
       count_allocation ;;
       ret temp) (throws_only (fun _ => False)) s1).
    { intros s1. apply throws_only_never.
      apply never_throws_bind; [apply never_throws_get|]. intros s2. cbv zeta.
      apply never_throws_bind; [apply never_throws_load_ptr|]. intros next.
      apply never_throws_bind; [apply never_throws_modify|]. intros _.
      apply never_throws_bind.
      { apply never_throws_when, never_throws_bind;
          [apply never_throws_fill | intros; apply never_throws_ret]. }
      intros _. apply never_throws_bind.
      { apply never_throws_when, never_throws_store_byte. }
      intros _. apply never_throws_bind; [apply never_throws_count_allocation|].
      intros _. apply never_throws_ret. }
    apply wp_bind.
    destruct (FreeObjects_ (OAStats_ s) =? 0); cbn [when].
    - destruct (Z.eqb_spec (PagesInUse_ (OAStats_ s)) (MaxPages_ (Config_ s)))
        as [HP | HP].
      + apply wp_throw. cbn [wp_next]. intros _. exact HP.
      + eapply wp_mono; [apply AllocatePage_throws|].
        intros r s1 Hr. destruct r as [[] | e1 | | ]; cbn [wp_next]; try discriminate.
        * eapply wp_mono; [apply Hrest|]. intros r2 s2 Hr2 E2.
          exfalso. exact (Hr2 _ E2).
        * intros E2. injection E2 as ->. destruct (Hr _ eq_refl) as [He _].
          discriminate.
    - apply wp_ret. cbn [wp_next].
      eapply wp_mono; [apply Hrest|]. intros r2 s2 Hr2 E2.
      exfalso. exact (Hr2 _ E2). }
  exact Hw.
Qed.

(** With no page limit the page counter is never [0] again, so long as it
    has not wrapped around, whatever the calls and however they end. *)
Lemma unbounded_pages fuel calls : forall s n,
  UseCPPMemManager_ (Config_ s) = false ->
  MaxPages_ (Config_ s) = 0 ->
  1 <= PagesInUse_ (OAStats_ s) <= 1 + n ->
  1 + n + Z.of_nat (length calls) < UINT_MOD ->
  UseCPPMemManager_ (Config_ (run_on fuel calls s)) = false /\
  MaxPages_ (Config_ (run_on fuel calls s)) = 0 /\
  1 <= PagesInUse_ (OAStats_ (run_on fuel calls s)).
Proof.
  induction calls as [|c calls IH]; intros s n Hcpp Hmax Hp Hn; cbn [run_on].
  - split; [exact Hcpp|]. split; [exact Hmax | lia].
  - cbn [length] in Hn. rewrite Nat2Z.inj_succ in Hn.
    assert (Hstep : Config_ (snd (do_call fuel c s)) = Config_ s /\
              1 <= PagesInUse_ (OAStats_ (snd (do_call fuel c s))) <= 1 + (n + 1)).
    { destruct c as [sys | Object]; cbn [do_call].
      - pose proof (Allocate_pages fuel sys s Hcpp) as Hm.
        unfold wp in Hm. unfold bind.
        destruct (Allocate fuel sys s) as [r s1]. cbn [fst snd] in Hm.
        assert (Hgoal : Config_ s1 = Config_ s /\
                        1 <= PagesInUse_ (OAStats_ s1) <= 1 + (n + 1)).
        { destruct Hm as (Hc & [[_ Hpu] | (_ & Hpu & _)]); (split; [exact Hc|]).
          - rewrite Hpu. lia.
          - rewrite Hpu, u32_small by lia. lia. }
        destruct r; exact Hgoal.
      - destruct (Free_pages fuel Object s Hcpp) as (Hc & _ & Hpu).
        split; [exact Hc|]. rewrite Hpu. lia. }
    destruct Hstep as [Hc Hp1].
    apply (IH _ (n + 1)).
    + rewrite Hc. exact Hcpp.
    + rewrite Hc. exact Hmax.
    + exact Hp1.
    + lia.
Qed.

(** C2.  With pass-through disabled.  For [MaxPages_ = P > 0] and
    [ObjectsPerPage_ = K >= 1], objects that hold the link word of the free
    list and a page size that fits an [unsigned]: when the system allocator
    satisfies every page request, the constructor followed by [P * K] calls
    of [Allocate] all return, and the next call of [Allocate] fails with
    [E_NO_PAGES].  For [MaxPages_ = 0], whatever the rest of the
    configuration: from the constructed allocator on, after any calls of
    [Allocate] and [Free] however they ended (fewer than [2^32 - 1] of
    them, so that the page counter cannot have wrapped around), [Allocate]
    does not fail with [E_NO_PAGES]. *)
Theorem C2_capacity_limit fuel ObjectSize config h sys0 :
  UseCPPMemManager_ config = false ->
  (wf_config sizeof_ptr ObjectSize config ->
   0 < MaxPages_ config ->
   forall grants sys_last,
     (Z.to_nat (ObjectsPerPage_ config) < fuel)%nat ->
     valid_grant (config_page_bytes ObjectSize config) sys0 ->
     Forall (valid_grant (config_page_bytes ObjectSize config)) grants ->
     Z.of_nat (length grants) = MaxPages_ config * ObjectsPerPage_ config ->
     exists s0 ps s,
       ObjectAllocator_ctor fuel ObjectSize config sys0 (unconstructed h) = (Ok tt, s0) /\
       allocate_many fuel grants s0 = (Ok ps, s) /\
       length ps = length grants /\
       Allocate fuel sys_last s = (Throw E_NO_PAGES, s)) /\
  (MaxPages_ config = 0 ->
   forall s0 calls sys,
     ObjectAllocator_ctor fuel ObjectSize config sys0 (unconstructed h) = (Ok tt, s0) ->
     Z.of_nat (length calls) < UINT_MOD - 1 ->
     fst (Allocate fuel sys (run_on fuel calls s0)) <> Throw E_NO_PAGES).
Proof.
  intros Hcpp. split.
  - intros Hwf HP grants sys_last Hfuel [Hs1 Hs2] Hg Hlen.
    destruct (ctor_pool fuel ObjectSize config sys0 h Hwf Hcpp Hs1 Hs2 Hfuel)
      as (s0 & E0 & Hctd & Hpool).
    assert (Hpb : page_bytes s0 = config_page_bytes ObjectSize config).
    { unfold page_bytes, config_page_bytes.
      rewrite (ctd_objects _ _ _ _ _ _ Hctd), (ctd_size _ _ _ _ _ _ Hctd).
      rewrite (ok_chunk _ _ (ctd_members _ _ _ _ _ _ Hctd)).
      rewrite (ctd_pad _ _ _ _ _ _ Hctd), (ctd_header _ _ _ _ _ _ Hctd),
        (ctd_align _ _ _ _ _ _ Hctd). reflexivity. }
    assert (Hsrv : serving s0 0).
    { exists sys0. split; [exact Hpool|].
      rewrite (ctd_pages _ _ _ _ _ _ Hctd), (ctd_free _ _ _ _ _ _ Hctd),
        (ctd_objects _ _ _ _ _ _ Hctd), (ctd_max _ _ _ _ _ _ Hctd). lia. }
    destruct (serving_many fuel grants s0 0 Hsrv) as (ps & s & E & Hl & Hsrv' & Hs').
    + rewrite (ctd_objects _ _ _ _ _ _ Hctd), (ctd_max _ _ _ _ _ _ Hctd). lia.
    + rewrite Hpb. exact Hg.
    + rewrite (ctd_objects _ _ _ _ _ _ Hctd). exact Hfuel.
    + exists s0, ps, s. repeat split; try assumption.
      apply serving_full. destruct Hs' as (Ec & _). rewrite Ec.
      rewrite (ctd_objects _ _ _ _ _ _ Hctd), (ctd_max _ _ _ _ _ _ Hctd).
      rewrite Z.add_0_l, Hlen in Hsrv'. exact Hsrv'.
  - intros HP s0 calls sys E0 Hlen.
    destruct (ctor_pages fuel ObjectSize config sys0 _ s0 Hcpp E0) as (Hc0 & Hm0 & Hp0).
    change (PagesInUse_ (OAStats_ (unconstructed h))) with 0 in Hp0.
    change (u32 (0 + 1)) with 1 in Hp0.
    destruct (unbounded_pages fuel calls s0 0 Hc0) as (Hc & Hm & Hp).
    + rewrite Hm0. exact HP.
    + rewrite Hp0. lia.
    + lia.
    + intros E. pose proof (Allocate_no_pages fuel sys _ Hc E) as Heq. lia.
Qed.

End CapacityLimit.

Section Wrapped.
Context `{Platform}.

(** The free-list loop when one object of [2^32 - 1] bytes makes a page:
    the byte count goes down by one in each round, and the loop goes on
    until it is below the recorded page size. *)
Lemma AllocatePage_loop_wrapped temp_free_list fuel : forall i s,
  ObjectsPerPage_ (Config_ s) = 1 ->
  ObjectSize_ (OAStats_ s) = UINT_MOD - 1 ->
  2 <= PageSize_ (OAStats_ s) < UINT_MOD ->
  0 <= i <= UINT_MOD - PageSize_ (OAStats_ s) + 1 ->
  FreeObjects_ (OAStats_ s) = i ->
  AllocatePage_loop fuel i (u32 (- i)) temp_free_list s
  = if Z.of_nat fuel <=? UINT_MOD - PageSize_ (OAStats_ s) + 1 - i
    then (Timeout, set_Stats (set_FreeObjects (i + Z.of_nat fuel) (OAStats_ s)) s)
    else (Ok (UINT_MOD - PageSize_ (OAStats_ s) + 1),
          set_Stats (set_FreeObjects (UINT_MOD - PageSize_ (OAStats_ s) + 1) (OAStats_ s)) s).
Proof.
  assert (Hsame : forall s : ObjectAllocator,
            set_Stats (set_FreeObjects (FreeObjects_ (OAStats_ s)) (OAStats_ s)) s = s).
  { intros [c [a1 a2 a3 a4 a5 a6 a7 a8] cs bs pl fl hp]. reflexivity. }
  pose proof UINT_MOD_eq as HU.
  induction fuel as [|fuel IH]; intros i s HK Hsz HP Hi HF.
  - cbn [AllocatePage_loop timeout Z.of_nat].
    replace (0 <=? _) with true by (symmetry; apply Z.leb_le; lia).
    rewrite Z.add_0_r, <- HF, Hsame. reflexivity.
  - cbn [AllocatePage_loop]. unfold bind at 1, get. rewrite HK.
    assert (Hcount : u32 (- i) = if i =? 0 then 0 else UINT_MOD - i).
    { destruct (Z.eqb_spec i 0) as [-> | Hne]; [reflexivity|].
      unfold u32. replace (- i) with (UINT_MOD - i + (-1) * UINT_MOD) by ring.
      rewrite Z.mod_add by lia. apply Z.mod_small. lia. }
    destruct (Z.eq_dec i (UINT_MOD - PageSize_ (OAStats_ s) + 1)) as [Hend | Hgo].
    + replace ((i <? 1) || (PageSize_ (OAStats_ s) <=? u32 (- i))) with false.
      2: { symmetry. apply orb_false_iff. rewrite Hcount.
           replace (i =? 0) with false by (symmetry; apply Z.eqb_neq; lia).
           split; [apply Z.ltb_ge | apply Z.leb_gt]; lia. }
      replace (Z.of_nat (S fuel) <=? _) with false by (symmetry; apply Z.leb_gt; lia).
      unfold ret. rewrite <- Hend, <- HF, Hsame. reflexivity.
    + replace ((i <? 1) || (PageSize_ (OAStats_ s) <=? u32 (- i))) with true.
      2: { symmetry. apply orb_true_iff. rewrite Hcount.
           destruct (Z.eqb_spec i 0); [left; apply Z.ltb_lt | right; apply Z.leb_le]; lia. }
      change (u32 (1 - 1)) with 0.
      replace (i <? 0) with false by (symmetry; apply Z.ltb_ge; lia).
      unfold bind, ret, modify_stats, modify. rewrite HF, Hsz.
      replace (u32 (i + 1)) with (i + 1) by (symmetry; apply u32_small; lia).
      replace (u32 (u32 (- i) + (UINT_MOD - 1))) with (u32 (- (i + 1))).
      2: { unfold u32. rewrite Zplus_mod_idemp_l. 
           replace (- i + (UINT_MOD - 1)) with (- (i + 1) + 1 * UINT_MOD) by ring.
           rewrite Z.mod_add by lia. reflexivity. }
      rewrite IH; cbn [OAStats_ Config_ set_Stats set_FreeObjects PageSize_ ObjectSize_
                       ObjectsPerPage_ FreeObjects_]; try assumption; try lia.
      rewrite Nat2Z.inj_succ.
      destruct (Z.leb_spec (Z.of_nat fuel)
                  (UINT_MOD - PageSize_ (OAStats_ s) + 1 - (i + 1)));
        [replace (Z.succ (Z.of_nat fuel) <=? _) with true by (symmetry; apply Z.leb_le; lia)
        |replace (Z.succ (Z.of_nat fuel) <=? _) with false by (symmetry; apply Z.leb_gt; lia)].
      * replace (i + Z.succ (Z.of_nat fuel)) with (i + 1 + Z.of_nat fuel) by lia.
        destruct s as [c [a1 a2 a3 a4 a5 a6 a7 a8] cs bs pl fl hp]. reflexivity.
      * destruct s as [c [a1 a2 a3 a4 a5 a6 a7 a8] cs bs pl fl hp]. reflexivity.
Qed.

End Wrapped.

(** * The reference build at work *)

Lemma ran {A} (m : M A) (s : ObjectAllocator) (a : A) :
  fst (m s) = Ok a -> m s = (Ok a, snd (m s)).
Proof. destruct (m s) as [r s']; simpl; intros ->; reflexivity. Qed.

Lemma threw {A} (m : M A) (s : ObjectAllocator) (e : OAException) :
  fst (m s) = Throw e -> m s = (Throw e, snd (m s)).
Proof. destruct (m s) as [r s']; simpl; intros ->; reflexivity. Qed.

Section Reference.
#[local] Existing Instance reference_build.

(** C3.  Double release goes unnoticed when usage headers are enabled.
    With headers, [ValidateObject] reports a multiple free exactly when the
    byte at [Object - PadBytes_] reads zero, on any build; [Allocate] and
    [Free] keep the in-use flag one byte further down, at
    [Object - (PadBytes_ + 1)].  So on the reference build, with debug mode
    on, two guard bytes per side and a one-byte header, a released block
    has its flag at zero and a guard byte where the check looks, and the
    second [Free] of the same pointer returns normally; so it does without
    guard bytes, where the check looks at the first byte of the payload.
    Without headers the scan of the free list finds the pointer. *)
Theorem C3_double_release_undetected_with_headers :
  (forall (build : Platform) fuel Object s,
     HeaderBlocks_ (Config_ s) <> 0 ->
     fst (@ValidateObject build fuel Object s) = Throw E_MULTIPLE_FREE <->
     is_live (heap s) (Object - PadBytes_ (Config_ s)) = true /\
     bytes (heap s) (Object - PadBytes_ (Config_ s)) = 0) /\
  bytes (heap (once_released (example_config true 2 1))) (1053 - (2 + 1)) = 0 /\
  bytes (heap (once_released (example_config true 2 1))) (1053 - 2) = PAD_PATTERN /\
  fst (double_release (example_config true 2 1) (unconstructed blank_heap)) = Ok tt /\
  fst (double_release (example_config true 0 1) (unconstructed blank_heap)) = Ok tt /\
  fst (double_release (example_config true 2 0) (unconstructed blank_heap))
  = Throw E_MULTIPLE_FREE.
Proof.
  split.
  - intros build fuel Object s Hhb. apply ValidateObject_header_check. exact Hhb.
  - vm_compute. repeat split.
Qed.

(** C5.  With usage headers enabled, [DumpMemoryInUse] hands the callback
    not the payload address of a block in use but that address plus
    [PadBytes_], on any build.  On the reference build with two guard
    bytes: of five pointers with the second and fourth released, the three
    still held are [1053], [1011] and [2032]; the count returned is [3] and
    the callback is given [2034], [1013] and [1055].  Without headers it is
    given the pointers themselves. *)
Theorem C5_dump_passes_shifted_addresses_with_headers :
  (forall (build : Platform) fuel s res s',
     HeaderBlocks_ (Config_ s) <> 0 ->
     block_size_ s = stride s ->
     @DumpMemoryInUse build fuel s = (Ok res, s') ->
     Forall (fun c => exists page j,
               0 <= j < ObjectsPerPage_ (Config_ s) /\
               bytes (heap s) (@payload build s page j - PadBytes_ (Config_ s) - 1) = 1 /\
               c = (@payload build s page j + PadBytes_ (Config_ s),
                    ObjectSize_ (OAStats_ s))) (snd res)) /\
  fst (five_minus_two (example_config true 2 1) (unconstructed blank_heap))
  = Ok ([1053; 1032; 1011; 2053; 2032], (3, [(2034, 16); (1013, 16); (1055, 16)])) /\
  fst (five_minus_two (example_config true 2 0) (unconstructed blank_heap))
  = Ok ([1050; 1030; 1010; 2050; 2030], (3, [(2030, 16); (1010, 16); (1050, 16)])).
Proof.
  split.
  - intros build fuel s res s' Hhb Hbs E.
    pose proof (@DumpMemoryInUse_pages_headers build fuel fuel (page_list_ s) (0, []) s
                  Hhb Hbs) as Hd.
    change (@DumpMemoryInUse_pages build fuel fuel (page_list_ s) (0, []) s = (Ok res, s'))
      in E.
    pose proof (wp_inv _ _ _ _ _ Hd E) as Hq. cbv beta in Hq.
    destruct (Hq res eq_refl) as (visited & -> & Hall). exact Hall.
  - vm_compute. repeat split.
Qed.

(** C4.  Guard bytes are not stamped regardless of the debug flag: a page
    created with debug mode off has them as the fresh buffer held them.
    When debug mode is switched on afterwards, the release of an intact
    block of that page is rejected as corrupted, and [ValidatePages]
    reports every block of the page.  Nor are they always stamped in debug
    mode: the constructor creates the first page before it sets the two
    alignment sizes, so with blocks aligned to four bytes the guard bytes
    of that page are not where the blocks have them, the release of a block
    just handed out is rejected as corrupted and [ValidatePages] reports
    every block.  And in debug mode a page is not stamped but overrun when
    its objects cannot hold a link word, or when its size does not fit an
    [unsigned]: the payload fill takes [ObjectSize_ - sizeof(void* )] as an
    [unsigned] count. *)
Lemma C4_guard_bytes_not_always_stamped :
  (fst (ObjectAllocator_ctor 8 16 (example_config false 2 1) 1000
          (unconstructed blank_heap)) = Ok tt /\
   ~ guard_bytes_stamped (example_start (example_config false 2 1)) 1000 /\
   fst (released_after_toggle (example_config false 2 0) (unconstructed blank_heap))
   = Throw E_CORRUPTED_BLOCK /\
   fst (validated_after (example_config false 2 1) true (unconstructed blank_heap))
   = Ok (3, [(1011, 16); (1032, 16); (1053, 16)])) /\
  (DebugOn_ aligned_config = true /\
   fst (ObjectAllocator_ctor 8 16 aligned_config 1000 (unconstructed blank_heap)) = Ok tt /\
   ~ guard_bytes_stamped (example_start aligned_config) 1000 /\
   fst ((ObjectAllocator_ctor 8 16 aligned_config 1000 ;;
         p <- Allocate 8 2000 ;; Free 8 p) (unconstructed blank_heap))
   = Throw E_CORRUPTED_BLOCK /\
   fst (validated_after aligned_config true (unconstructed blank_heap))
   = Ok (3, [(1015, 16); (1040, 16); (1065, 16)])) /\
  (fst (ObjectAllocator_ctor 8 4 (example_config true 2 1) 1000
          (unconstructed blank_heap)) = Fault /\
   fst (ObjectAllocator_ctor 8 4294967295 (mkConfig false 1 1 true 16 0 0 0 0) 1000
          (unconstructed blank_heap)) = Fault).
Proof.
  split; [|split].
  - split; [vm_compute; reflexivity|]. split; [|vm_compute; split; reflexivity].
    intros Hg. destruct (Hg 0 0) as [Hl _]; [vm_compute; split; congruence ..|].
    vm_compute in Hl. discriminate.
  - split; [reflexivity|]. split; [vm_compute; reflexivity|].
    split; [|vm_compute; split; reflexivity].
    intros Hg. destruct (Hg 0 0) as [Hl _]; [vm_compute; split; congruence ..|].
    vm_compute in Hl. discriminate.
  - split; lazy; reflexivity.
Qed.

Lemma C8_pass_through_frame_witness :
  UseCPPMemManager_ pass_through_config = true /\
  served 16 (live blank_heap) pass_through_calls = true /\
  exists s0 s,
    ObjectAllocator_ctor 8 16 pass_through_config 1000 (unconstructed blank_heap)
    = (Ok tt, s0) /\
    run 8 pass_through_calls s0 = (Ok tt, s) /\
    page_list_ s = 0 /\ free_list_ s = 0 /\ PagesInUse_ (OAStats_ s) = 0 /\
    Allocations_ (OAStats_ s) = 2 /\
    Deallocations_ (OAStats_ s) = 1 /\
    ObjectsInUse_ (OAStats_ s) = 1.
Proof.
  split; [reflexivity|]. split; [vm_compute; reflexivity|].
  destruct (C8_pass_through_frame 8 16 pass_through_config 1000 blank_heap
              pass_through_calls eq_refl)
    as (s0 & E0 & _ & _ & _ & _ & Hframe & Hcount).
  destruct Hcount as (s & E & Ha & Hd & Hi); [vm_compute; reflexivity|].
  destruct (Hframe _ _ E) as (Hpl & Hfl & Hpu).
  exists s0, s. repeat split; assumption.
Defined.

(** ** The theorems at work on the reference build *)

Ltac by_evaluation :=
  vm_compute; repeat split; solve [reflexivity | discriminate | intro; discriminate].

Lemma C1_conservation_of_blocks_witness :
  ObjectsInUse_ (OAStats_ (snd (run 8 example_calls (example_start (example_config true 2 0))))) = 1 /\
  FreeObjects_ (OAStats_ (snd (run 8 example_calls (example_start (example_config true 2 0))))) = 2.
Proof.
  assert (Hwf : wf_config 1 16 (example_config true 2 0))
    by (constructor; by_evaluation).
  assert (E0 : ObjectAllocator_ctor 8 16 (example_config true 2 0) 1000 (unconstructed blank_heap)
               = (Ok tt, example_start (example_config true 2 0)))
    by (unfold example_start; apply ran; vm_compute; reflexivity).
  assert (Erun : run 8 example_calls (example_start (example_config true 2 0))
                 = (Ok tt, snd (run 8 example_calls (example_start (example_config true 2 0)))))
    by (apply ran; vm_compute; reflexivity).
  assert (Hle : releases example_calls <= allocations example_calls)
    by (vm_compute; discriminate).
  destruct (C1_conservation_of_blocks 8 16 (example_config true 2 0) 1000 blank_heap
              example_calls _ _ eq_refl E0 Erun Hle) as (_ & Hfits).
  destruct (Hfits Hwf) as (_ & Hlit).
  destruct Hlit as [Hin Hfree]; [vm_compute; reflexivity|].
  rewrite Hin, Hfree. split; vm_compute; reflexivity.
Defined.

Lemma C2_capacity_limit_witness :
  exists s0 ps s,
    ObjectAllocator_ctor 8 16 (example_config true 2 0) 1000 (unconstructed blank_heap)
    = (Ok tt, s0) /\
    allocate_many 8 [2000; 2000; 2000; 2000; 2000; 2000] s0 = (Ok ps, s) /\
    length ps = 6%nat /\
    Allocate 8 3000 s = (Throw E_NO_PAGES, s).
Proof.
  assert (Hwf : wf_config sizeof_ptr 16 (example_config true 2 0))
    by (constructor; by_evaluation).
  destruct (C2_capacity_limit 8 16 (example_config true 2 0) blank_heap 1000 eq_refl)
    as [Hfull _].
  apply (Hfull Hwf ltac:(reflexivity) [2000; 2000; 2000; 2000; 2000; 2000] 3000).
  - vm_compute. lia.
  - by_evaluation.
  - repeat constructor; by_evaluation.
  - reflexivity.
Defined.

Lemma C6_failed_release_changes_nothing_witness :
  Free 8 1050 (once_released (example_config true 2 0)) = (Throw E_MULTIPLE_FREE, (once_released (example_config true 2 0))).
Proof.
  assert (E : Free 8 1050 (once_released (example_config true 2 0))
              = (Throw E_MULTIPLE_FREE, snd (Free 8 1050 (once_released (example_config true 2 0)))))
    by (apply threw; vm_compute; reflexivity).
  rewrite <- (C6_failed_release_changes_nothing 8 1050 (once_released (example_config true 2 0)) E_MULTIPLE_FREE _ E)
    at 2.
  exact E.
Defined.

Lemma C7_page_population_loop_witness :
  exists s',
    AllocatePage_loop 8 0 0 1011 loop_entry = (Ok 3, s') /\
    FreeObjects_ (OAStats_ s') = 3 /\
    free_list_from (heap s') 3 (free_list_ s') = Some [1053; 1032; 1011].
Proof.
  assert (Hok : members_ok sizeof_ptr loop_entry).
  { constructor; by_evaluation. }
  assert (Hl : range_live (heap loop_entry) 1000 (page_bytes loop_entry)).
  { intros a Ha. change (page_bytes loop_entry) with 71 in Ha.
    unfold is_live, in_buffer. simpl. zbool. }
  destruct (C7_page_population_loop 8 loop_entry 1000 Hok)
    as (s' & E & HF & Hfl & _).
  - reflexivity.
  - exact Hl.
  - by_evaluation.
  - reflexivity.
  - reflexivity.
  - by_evaluation.
  - by_evaluation.
  - vm_compute. lia.
  - exists s'. split; [exact E|]. split; [exact HF | exact Hfl].
Defined.

Lemma C9_eager_first_page_witness :
  (forall s,
     ObjectAllocator_ctor 8 16 (example_config true 2 0) 1000 (unconstructed blank_heap)
     = (Ok tt, s) ->
     PagesInUse_ (OAStats_ s) = 1 /\
     page_list_ s <> 0 /\
     FreeObjects_ (OAStats_ s) = 3 /\
     live (heap s) = [(page_list_ s, 68)]) /\
  exists s,
    ObjectAllocator_ctor 8 16 (example_config true 2 0) 1000 (unconstructed blank_heap)
    = (Ok tt, s) /\
    free_list_from (heap s) 3 (free_list_ s) = Some (blocks_down s (page_list_ s) 3).
Proof.
  assert (Hwf : wf_config 1 16 (example_config true 2 0))
    by (constructor; by_evaluation).
  destruct (C9_eager_first_page 8 16 (example_config true 2 0) 1000 blank_heap Hwf eq_refl)
    as [Hwhen Hdoes].
  split; [exact Hwhen|].
  apply Hdoes; [by_evaluation | by_evaluation | vm_compute; lia].
Defined.

Lemma C10_out_of_memory_leaves_statistics_mutated_witness :
  exists s',
    Allocate 8 0 first_page_taken = (Throw E_NO_MEMORY, s') /\
    PagesInUse_ (OAStats_ first_page_taken) = 1 /\
    PagesInUse_ (OAStats_ s') = 2 /\
    OAStats_ s' <> OAStats_ first_page_taken.
Proof.
  destruct (C10_out_of_memory_leaves_statistics_mutated 8 first_page_taken)
    as (s' & E & Hp & _ & _ & Hneq);
    [by_evaluation | by_evaluation | by_evaluation | by_evaluation |].
  exists s'. split; [exact E|]. split; [vm_compute; reflexivity|]. split; [|exact Hneq].
  rewrite Hp. vm_compute. reflexivity.
Defined.

Lemma C4_stamping_follows_debug_flag_witness :
  exists s',
    SetSignatures 1000 loop_entry = (Ok tt, s') /\
    guard_bytes_stamped s' 1000 /\ headers_zeroed s' 1000.
Proof.
  assert (Hok : members_ok sizeof_ptr loop_entry).
  { constructor; vm_compute; repeat split;
      solve [reflexivity | discriminate | intro; discriminate]. }
  assert (Hl : range_live (heap loop_entry) 1000 (page_bytes loop_entry)).
  { intros a Ha. change (page_bytes loop_entry) with 71 in Ha.
    unfold is_live, in_buffer. simpl. zbool. }
  destruct (C4_stamping_follows_debug_flag 1000 loop_entry Hok Hl)
    as (s' & E & _ & Hon & _).
  destruct (Hon eq_refl eq_refl eq_refl) as (Hg & _ & Hh & _).
  exists s'. split; [exact E|]. split; [exact Hg | exact Hh].
Defined.

(** ** Small objects and pages too large for an [unsigned] *)

(** The free-list loop on the first page of [wrapped_config]: it is still
    running after [4294967258] steps and ends in the next. *)
Lemma wrapped_entry_loop fuel :
  AllocatePage_loop fuel 0 0 1024 wrapped_entry
  = if Z.of_nat fuel <=? 4294967258
    then (Timeout,
          set_Stats (set_FreeObjects (Z.of_nat fuel) (OAStats_ wrapped_entry)) wrapped_entry)
    else (Ok 4294967258, wrapped_start).
Proof.
  pose proof (AllocatePage_loop_wrapped 1024 fuel 0 wrapped_entry) as Hloop.
  change (u32 (- 0)) with 0 in Hloop.
  replace (PageSize_ (OAStats_ wrapped_entry)) with 39 in Hloop by (vm_compute; reflexivity).
  change (UINT_MOD - 39 + 1 - 0) with 4294967258 in Hloop.
  change (UINT_MOD - 39 + 1) with 4294967258 in Hloop.
  apply Hloop.
  - reflexivity.
  - reflexivity.
  - split; [discriminate | reflexivity].
  - split; discriminate.
  - reflexivity.
Qed.

(** The constructor for [wrapped_config]: it returns once the loop has had
    its [4294967259] steps, with [4294967258] free objects counted. *)
Lemma wrapped_ctor fuel :
  (Z.of_nat fuel <= 4294967258 ->
   fst (ObjectAllocator_ctor fuel 4294967295 wrapped_config 1000 (unconstructed blank_heap))
   = Timeout) /\
  (4294967258 < Z.of_nat fuel ->
   ObjectAllocator_ctor fuel 4294967295 wrapped_config 1000 (unconstructed blank_heap)
   = (Ok tt, wrapped_start)).
Proof.
  pose proof (wrapped_entry_loop fuel) as Hloop.
  split; intros Hfuel;
    [replace (Z.of_nat fuel <=? 4294967258) with true in Hloop
      by (symmetry; apply Z.leb_le; exact Hfuel)
    |replace (Z.of_nat fuel <=? 4294967258) with false in Hloop
      by (symmetry; apply Z.leb_gt; exact Hfuel)];
    clear Hfuel;
    unfold ObjectAllocator_ctor, AllocatePage;
    remember (AllocatePage_loop fuel) as L eqn:HL;
    lazy;
    match goal with
    | |- context [L 0 0 1024 ?st] =>
      replace st with wrapped_entry by (lazy; reflexivity)
    end;
    rewrite Hloop; reflexivity.
Qed.

(** [Allocate] on the allocator of [wrapped_config]: the first call hands
    out the one block, the second finds the free list empty with free
    objects still counted.  (Evaluation is by need: by value, the size of
    the object would be turned into a unary number for a fill that is not
    made.) *)
Lemma wrapped_allocations fuel :
  Allocate fuel 2000 wrapped_start = (Ok 1024, wrapped_taken) /\
  fst (Allocate fuel 2000 wrapped_taken) = Fault.
Proof.
  unfold Allocate. remember (AllocatePage fuel 2000) as page eqn:Hpage.
  split; lazy; reflexivity.
Qed.

(** C1.  The free count is not the number of blocks created minus the
    objects in use when the size of a page does not fit an [unsigned]:
    with one object of [2^32 - 1] bytes to a page and sixteen guard bytes a
    side, the constructor returns with one page created and [4294967258]
    free objects counted, before any call of [Allocate] or [Free]. *)
Lemma C1_free_count_off_when_page_size_wraps :
  UseCPPMemManager_ wrapped_config = false /\
  ObjectsPerPage_ wrapped_config = 1 /\
  forall fuel, 4294967258 < Z.of_nat fuel ->
    exists s0,
      ObjectAllocator_ctor fuel 4294967295 wrapped_config 1000 (unconstructed blank_heap)
      = (Ok tt, s0) /\
      run fuel [] s0 = (Ok tt, s0) /\
      pages_created blank_heap s0 = 1 /\
      ObjectsInUse_ (OAStats_ s0) = 0 /\
      FreeObjects_ (OAStats_ s0) = 4294967258 /\
      FreeObjects_ (OAStats_ s0)
      <> u32 (pages_created blank_heap s0 * ObjectsPerPage_ wrapped_config
              - (allocations [] - releases [])).
Proof.
  split; [reflexivity|]. split; [reflexivity|]. intros fuel Hfuel.
  exists wrapped_start. split; [apply wrapped_ctor; exact Hfuel|].
  split; [reflexivity|]. repeat split; try (vm_compute; reflexivity).
  vm_compute. discriminate.
Qed.

(** C9.  The free count after construction is not [ObjectsPerPage_] when
    the size of a page does not fit an [unsigned]: for [wrapped_config]
    the constructor returns with one page counted and [4294967258] free
    objects where a page holds one. *)
Lemma C9_free_count_not_objects_per_page :
  UseCPPMemManager_ wrapped_config = false /\
  ObjectsPerPage_ wrapped_config = 1 /\
  forall fuel, 4294967258 < Z.of_nat fuel ->
    exists s,
      ObjectAllocator_ctor fuel 4294967295 wrapped_config 1000 (unconstructed blank_heap)
      = (Ok tt, s) /\
      PagesInUse_ (OAStats_ s) = 1 /\ page_list_ s = 1000 /\
      FreeObjects_ (OAStats_ s) = 4294967258.
Proof.
  split; [reflexivity|]. split; [reflexivity|]. intros fuel Hfuel.
  exists wrapped_start. split; [apply wrapped_ctor; exact Hfuel|].
  repeat split; vm_compute; reflexivity.
Qed.

(** C7.  The loop does not always run [ObjectsPerPage_] times.  With
    objects of four bytes, three to a page, it stores the link of the last
    block past the end of the page buffer.  With one object of [2^32 - 1]
    bytes to a page, the recorded page size is [39]; the byte count, which
    goes down by one each round, keeps the loop going: it is still running
    after [4294967258] steps, and then returns having run [4294967258]
    times and counted as many free objects. *)
Lemma C7_loop_faults_or_overruns :
  (0 < ObjectSize_ (OAStats_ small_entry) /\ ObjectsPerPage_ (Config_ small_entry) = 3 /\
   fst (AllocatePage_loop 8 0 0 1008 small_entry) = Fault) /\
  (0 < ObjectSize_ (OAStats_ wrapped_entry) /\
   ObjectsPerPage_ (Config_ wrapped_entry) = 1 /\
   (forall fuel, Z.of_nat fuel <= 4294967258 ->
      fst (AllocatePage_loop fuel 0 0 1024 wrapped_entry) = Timeout) /\
   (forall fuel, 4294967258 < Z.of_nat fuel ->
      exists s',
        AllocatePage_loop fuel 0 0 1024 wrapped_entry = (Ok 4294967258, s') /\
        FreeObjects_ (OAStats_ s') = FreeObjects_ (OAStats_ wrapped_entry) + 4294967258)).
Proof.
  split; [by_evaluation|].
  split; [reflexivity|]. split; [reflexivity|]. split; intros fuel Hfuel.
  - rewrite wrapped_entry_loop.
    replace (Z.of_nat fuel <=? 4294967258) with true
      by (symmetry; apply Z.leb_le; exact Hfuel).
    reflexivity.
  - rewrite wrapped_entry_loop.
    replace (Z.of_nat fuel <=? 4294967258) with false
      by (symmetry; apply Z.leb_gt; exact Hfuel).
    exists wrapped_start. split; reflexivity.
Qed.

(** C2.  The page limit is not always met after [P * K] allocations.  With
    objects of four bytes the constructor itself runs past the end of the
    first page.  With [wrapped_config], where [P = K = 1], the constructor
    and the first [Allocate] return, but the second call does not fail
    with [E_NO_PAGES]: free objects are still counted, no page is asked
    for, and the empty free list is dereferenced. *)
Lemma C2_page_limit_not_reported :
  fst (ObjectAllocator_ctor 8 4 small_config 1000 (unconstructed blank_heap)) = Fault /\
  MaxPages_ wrapped_config = 1 /\ ObjectsPerPage_ wrapped_config = 1 /\
  forall fuel, 4294967258 < Z.of_nat fuel ->
    exists s0 p s1,
      ObjectAllocator_ctor fuel 4294967295 wrapped_config 1000 (unconstructed blank_heap)
      = (Ok tt, s0) /\
      Allocate fuel 2000 s0 = (Ok p, s1) /\
      fst (Allocate fuel 2000 s1) = Fault.
Proof.
  split; [vm_compute; reflexivity|]. split; [reflexivity|]. split; [reflexivity|].
  intros fuel Hfuel.
  destruct (wrapped_allocations fuel) as (E1 & E2).
  exists wrapped_start, 1024, wrapped_taken.
  split; [apply wrapped_ctor; exact Hfuel|]. split; assumption.
Qed.

(** C8.  The free count is not kept right with the pool bypassed: it
    starts at zero with no page and no free block, and the first
    [Allocate] takes it down to [2^32 - 1]. *)
Lemma C8_free_count_wraps_below_zero :
  exists s,
    (ObjectAllocator_ctor 8 16 pass_through_config 1000 ;; run 8 [CallAllocate 2000])
      (unconstructed blank_heap) = (Ok tt, s) /\
    page_list_ s = 0 /\ PagesInUse_ (OAStats_ s) = 0 /\
    ObjectsInUse_ (OAStats_ s) = 1 /\
    FreeObjects_ (OAStats_ s) = 4294967295.
Proof.
  eexists. split; [vm_compute; reflexivity|]. repeat split.
Qed.

End Reference.
(** * The further theorems at work on the reference build *)

Section ReferenceRuns.
#[local] Existing Instance reference_build.

Ltac evaluated :=
  vm_compute; repeat split; solve [reflexivity | discriminate | intro; discriminate].

(** An address of a given range lies in the buffer that is [k]-th in the
    list of owned buffers of [s], here given as [buffers]. *)
Ltac owned s buffers :=
  let a := fresh "a" in
  let Ha := fresh "Ha" in
  intros a Ha; unfold is_live;
  replace (live (heap s)) with buffers by (vm_compute; reflexivity);
  unfold sizeof_ptr in Ha; cbn [ptr_bytes reference_build] in Ha;
  cbn [existsb]; unfold in_buffer; cbn [fst snd];
  repeat match goal with
         | |- context [?x <=? ?y] => destruct (Z.leb_spec x y)
         | |- context [?x <? ?y] => destruct (Z.ltb_spec x y)
         end; cbn [andb orb]; try reflexivity; lia.

Lemma Free_throws_only_validation_errors_witness :
  UseCPPMemManager_ (Config_ (once_released (example_config true 2 0))) = false /\
  DebugOn_ (Config_ (once_released (example_config true 2 0))) = true /\
  validation_error E_MULTIPLE_FREE.
Proof.
  apply (Free_throws_only_validation_errors 8 1050
           (once_released (example_config true 2 0)) E_MULTIPLE_FREE).
  vm_compute. reflexivity.
Defined.

Lemma Allocate_throws_no_pages_or_no_memory_witness :
  UseCPPMemManager_ (Config_ first_page_taken) = false /\
  FreeObjects_ (OAStats_ first_page_taken) = 0 /\
  ((E_NO_MEMORY = E_NO_PAGES /\
    PagesInUse_ (OAStats_ first_page_taken) = MaxPages_ (Config_ first_page_taken) /\
    page_refused = first_page_taken) \/
   (E_NO_MEMORY = E_NO_MEMORY /\
    PagesInUse_ (OAStats_ first_page_taken) <> MaxPages_ (Config_ first_page_taken) /\
    page_refused = page_requested first_page_taken)).
Proof.
  apply (Allocate_throws_no_pages_or_no_memory 8 0 first_page_taken E_NO_MEMORY
           page_refused).
  unfold page_refused. apply threw. vm_compute. reflexivity.
Defined.

Lemma constructor_throws_no_memory_witness :
  E_NO_MEMORY = E_NO_MEMORY /\
  UseCPPMemManager_ (example_config true 2 0) = false /\
  heap (snd (ObjectAllocator_ctor 8 16 (example_config true 2 0) 0
               (unconstructed blank_heap))) = heap (unconstructed blank_heap) /\
  page_list_ (snd (ObjectAllocator_ctor 8 16 (example_config true 2 0) 0
                     (unconstructed blank_heap))) = 0 /\
  free_list_ (snd (ObjectAllocator_ctor 8 16 (example_config true 2 0) 0
                     (unconstructed blank_heap))) = 0 /\
  PagesInUse_ (OAStats_ (snd (ObjectAllocator_ctor 8 16 (example_config true 2 0) 0
                                (unconstructed blank_heap))))
  = u32 (PagesInUse_ (OAStats_ (unconstructed blank_heap)) + 1) /\
  FreeObjects_ (OAStats_ (snd (ObjectAllocator_ctor 8 16 (example_config true 2 0) 0
                                 (unconstructed blank_heap))))
  = FreeObjects_ (OAStats_ (unconstructed blank_heap)).
Proof.
  apply (constructor_throws_no_memory 8 16 (example_config true 2 0) 0
           (unconstructed blank_heap) E_NO_MEMORY).
  apply threw. vm_compute. reflexivity.
Defined.

Lemma pages_within_limit_witness :
  MaxPages_ (Config_ (run_on 8 example_calls (example_start (example_config true 2 0))))
  = MaxPages_ (Config_ (example_start (example_config true 2 0))) /\
  1 <= PagesInUse_ (OAStats_ (run_on 8 example_calls
                                (example_start (example_config true 2 0))))
    <= MaxPages_ (Config_ (example_start (example_config true 2 0))) /\
  1 <= pages_created blank_heap
         (run_on 8 example_calls (example_start (example_config true 2 0)))
    <= PagesInUse_ (OAStats_ (run_on 8 example_calls
                                (example_start (example_config true 2 0)))).
Proof.
  apply (pages_within_limit 8 blank_heap (example_start (example_config true 2 0))
           example_calls).
  - vm_compute. reflexivity.
  - vm_compute. reflexivity.
  - evaluated.
  - evaluated.
Defined.

Lemma MostObjects_high_water_mark_witness :
  MostObjects_ (OAStats_ (run_on 8 example_calls
                            (example_start (example_config true 2 0))))
  = Z.max (MostObjects_ (OAStats_ (example_start (example_config true 2 0))))
          (peak 8 example_calls (example_start (example_config true 2 0))) /\
  ObjectsInUse_ (OAStats_ (run_on 8 example_calls
                             (example_start (example_config true 2 0))))
  <= MostObjects_ (OAStats_ (run_on 8 example_calls
                               (example_start (example_config true 2 0)))).
Proof.
  apply (MostObjects_high_water_mark 8 example_calls
           (example_start (example_config true 2 0))).
  - evaluated.
  - vm_compute. reflexivity.
  - vm_compute. repeat split.
Defined.

Lemma Allocate_hands_out_page_in_order_witness :
  exists s',
    allocate_many 8 [2000; 2000; 2000] (example_start (example_config true 2 0))
    = (Ok (blocks_from (example_start (example_config true 2 0)) 1000
             (FreeObjects_ (OAStats_ (example_start (example_config true 2 0))) - 1)
             (length [2000; 2000; 2000])), s') /\
    stacked (1000 + sizeof_ptr)
            (1000 + page_bytes (example_start (example_config true 2 0)))
            (ObjectSize_ (OAStats_ (example_start (example_config true 2 0))))
            (blocks_from (example_start (example_config true 2 0)) 1000
               (FreeObjects_ (OAStats_ (example_start (example_config true 2 0))) - 1)
               (length [2000; 2000; 2000])).
Proof.
  apply (Allocate_hands_out_page_in_order 8 (example_start (example_config true 2 0))
           1000 [2000; 2000; 2000]).
  - constructor.
    + constructor; evaluated.
    + vm_compute. reflexivity.
    + vm_compute. reflexivity.
    + replace (page_bytes (example_start (example_config true 2 0))) with 68
        by (vm_compute; reflexivity).
      owned (example_start (example_config true 2 0)) [(1000, 68)].
    + evaluated.
    + evaluated.
    + split; [vm_compute; reflexivity|].
      intros i Hi.
      replace (FreeObjects_ (OAStats_ (example_start (example_config true 2 0))))
        with 3 in Hi by (vm_compute; reflexivity).
      assert (Hcases : i = 0 \/ i = 1 \/ i = 2) by lia.
      destruct Hcases as [-> | [-> | ->]]; vm_compute; reflexivity.
  - vm_compute. discriminate.
Defined.

Lemma Free_then_Allocate_returns_block_witness :
  exists s2,
    Allocate 8 2000 (snd (Free 8 1050 (one_in_use (example_config true 2 0))))
    = (Ok 1050, s2) /\
    free_list_ s2 = free_list_ (one_in_use (example_config true 2 0)) /\
    FreeObjects_ (OAStats_ s2)
    = FreeObjects_ (OAStats_ (one_in_use (example_config true 2 0))) /\
    page_list_ s2 = page_list_ (one_in_use (example_config true 2 0)) /\
    PagesInUse_ (OAStats_ s2)
    = PagesInUse_ (OAStats_ (one_in_use (example_config true 2 0))) /\
    live (heap s2) = live (heap (one_in_use (example_config true 2 0))).
Proof.
  apply (Free_then_Allocate_returns_block 8 8 2000 1050
           (one_in_use (example_config true 2 0))).
  - vm_compute. reflexivity.
  - evaluated.
  - vm_compute. reflexivity.
  - evaluated.
  - apply ran. vm_compute. reflexivity.
Defined.


Lemma Free_marks_block_witness :
  free_list_ (snd (Free 8 1053 (one_in_use (example_config true 2 1)))) = 1053 /\
  peek_ptr (heap (snd (Free 8 1053 (one_in_use (example_config true 2 1))))) 1053
  = free_list_ (one_in_use (example_config true 2 1)) mod ptr_limit /\
  (DebugOn_ (Config_ (one_in_use (example_config true 2 1))) = true ->
   forall a,
     1053 + sizeof_ptr <= a
     < 1053 + sizeof_ptr
       + u32 (ObjectSize_ (OAStats_ (one_in_use (example_config true 2 1))) - sizeof_ptr) ->
     bytes (heap (snd (Free 8 1053 (one_in_use (example_config true 2 1))))) a
     = FREED_PATTERN) /\
  (HeaderBlocks_ (Config_ (one_in_use (example_config true 2 1))) <> 0 ->
   bytes (heap (snd (Free 8 1053 (one_in_use (example_config true 2 1)))))
         (1053 - u32 (PadBytes_ (Config_ (one_in_use (example_config true 2 1))) + 1))
   = 0) /\
  (forall a,
     a < 1053 \/ 1053 + sizeof_ptr <= a ->
     HeaderBlocks_ (Config_ (one_in_use (example_config true 2 1))) = 0 \/
     a <> 1053 - u32 (PadBytes_ (Config_ (one_in_use (example_config true 2 1))) + 1) ->
     DebugOn_ (Config_ (one_in_use (example_config true 2 1))) = false \/
     a < 1053 + sizeof_ptr \/
     1053 + sizeof_ptr
     + u32 (ObjectSize_ (OAStats_ (one_in_use (example_config true 2 1))) - sizeof_ptr)
     <= a ->
     bytes (heap (snd (Free 8 1053 (one_in_use (example_config true 2 1))))) a
     = bytes (heap (one_in_use (example_config true 2 1))) a).
Proof.
  apply (Free_marks_block 8 1053 (one_in_use (example_config true 2 1))).
  - vm_compute. reflexivity.
  - vm_compute. discriminate.
  - apply ran. vm_compute. reflexivity.
Defined.

Lemma Allocate_marks_block_witness :
  (DebugOn_ (Config_ (example_start (example_config true 2 1))) = true ->
   forall a,
     1053 <= a < 1053 + ObjectSize_ (OAStats_ (example_start (example_config true 2 1))) ->
     bytes (heap (snd (Allocate 8 2000 (example_start (example_config true 2 1))))) a
     = ALLOCATED_PATTERN) /\
  (HeaderBlocks_ (Config_ (example_start (example_config true 2 1))) <> 0 ->
   bytes (heap (snd (Allocate 8 2000 (example_start (example_config true 2 1)))))
         (1053 - u32 (PadBytes_ (Config_ (example_start (example_config true 2 1))) + 1))
   = 1) /\
  (FreeObjects_ (OAStats_ (example_start (example_config true 2 1))) <> 0 ->
   1053 = free_list_ (example_start (example_config true 2 1)) /\
   free_list_ (snd (Allocate 8 2000 (example_start (example_config true 2 1))))
   = peek_ptr (heap (example_start (example_config true 2 1))) 1053 /\
   forall a,
     HeaderBlocks_ (Config_ (example_start (example_config true 2 1))) = 0 \/
     a <> 1053 - u32 (PadBytes_ (Config_ (example_start (example_config true 2 1))) + 1) ->
     DebugOn_ (Config_ (example_start (example_config true 2 1))) = false \/
     a < 1053 \/
     1053 + ObjectSize_ (OAStats_ (example_start (example_config true 2 1))) <= a ->
     bytes (heap (snd (Allocate 8 2000 (example_start (example_config true 2 1))))) a
     = bytes (heap (example_start (example_config true 2 1))) a).
Proof.
  apply (Allocate_marks_block 8 2000 (example_start (example_config true 2 1)) 1053).
  - vm_compute. reflexivity.
  - vm_compute. discriminate.
  - apply ran. vm_compute. reflexivity.
Defined.

Lemma destructor_releases_every_page_witness :
  ObjectAllocator_dtor 8 second_page_begun
  = (Ok tt,
     set_page_list 0
       (set_heap (mkHeap (bytes (heap second_page_begun))
                         (without_pages [2000; 1000] (live (heap second_page_begun))))
                 second_page_begun)).
Proof.
  apply (destructor_releases_every_page 8 second_page_begun [2000; 1000]).
  - vm_compute. reflexivity.
  - vm_compute. reflexivity.
  - apply NoDup_cons; [intros [E | []]; discriminate|].
    apply NoDup_cons; [intros []|]. apply NoDup_nil.
  - unfold pages_owned.
    replace (live (heap second_page_begun)) with [(2000, 68); (1000, 68)]
      by (vm_compute; reflexivity).
    apply Forall_cons; [exists 68; split; [left; reflexivity | evaluated]|].
    apply Forall_cons; [exists 68; split; [right; left; reflexivity | evaluated]|].
    apply Forall_nil.
  - vm_compute. lia.
Defined.

Lemma Free_rejects_block_on_free_list_witness :
  Free 8 1050 (once_released (example_config true 2 0))
  = (Throw E_MULTIPLE_FREE, once_released (example_config true 2 0)).
Proof.
  apply (Free_rejects_block_on_free_list 8 3 1050
           (once_released (example_config true 2 0)) [1050; 1030; 1010]).
  - vm_compute. reflexivity.
  - vm_compute. reflexivity.
  - vm_compute. reflexivity.
  - vm_compute. reflexivity.
  - unfold all_owned.
    apply Forall_cons; [owned (once_released (example_config true 2 0)) [(1000, 68)]|].
    apply Forall_cons; [owned (once_released (example_config true 2 0)) [(1000, 68)]|].
    apply Forall_cons; [owned (once_released (example_config true 2 0)) [(1000, 68)]|].
    apply Forall_nil.
  - vm_compute. lia.
  - left. reflexivity.
Defined.

Lemma Free_rejects_address_off_pages_witness :
  Free 8 5000 (one_in_use (example_config true 2 0))
  = (Throw E_BAD_ADDRESS, one_in_use (example_config true 2 0)).
Proof.
  apply (Free_rejects_address_off_pages 8 3 3 5000
           (one_in_use (example_config true 2 0)) [1030; 1010] [1000]).
  - vm_compute. reflexivity.
  - vm_compute. reflexivity.
  - vm_compute. reflexivity.
  - vm_compute. reflexivity.
  - unfold all_owned.
    apply Forall_cons; [owned (one_in_use (example_config true 2 0)) [(1000, 68)]|].
    apply Forall_cons; [owned (one_in_use (example_config true 2 0)) [(1000, 68)]|].
    apply Forall_nil.
  - intros [E | [E | []]]; discriminate.
  - vm_compute. reflexivity.
  - unfold all_owned.
    apply Forall_cons; [owned (one_in_use (example_config true 2 0)) [(1000, 68)]|].
    apply Forall_nil.
  - vm_compute. reflexivity.
  - vm_compute. reflexivity.
  - vm_compute. lia.
  - vm_compute. lia.
  - apply Forall_cons; [vm_compute; reflexivity | apply Forall_nil].
Defined.

Lemma Free_misses_address_off_pages_after_lost_page_witness :
  fst (Free 8 5000 page_refused) <> Throw E_BAD_ADDRESS.
Proof.
  apply (Free_misses_address_off_pages_after_lost_page 8 3 3 5000 page_refused [] [1000]).
  - vm_compute. reflexivity.
  - vm_compute. reflexivity.
  - vm_compute. reflexivity.
  - vm_compute. reflexivity.
  - apply Forall_nil.
  - intros [].
  - vm_compute. reflexivity.
  - unfold all_owned.
    apply Forall_cons; [owned page_refused [(1000, 68)] | apply Forall_nil].
  - vm_compute. discriminate.
  - evaluated.
  - vm_compute. lia.
  - vm_compute. lia.
  - apply Forall_cons; [vm_compute; reflexivity | apply Forall_nil].
Defined.


(** The sizes of the example allocators, to compute block addresses
    with. *)
Ltac sized s H :=
  replace (ObjectsPerPage_ (Config_ s)) with 3 in H by (vm_compute; reflexivity);
  unfold payload, stride in H;
  replace (chunk_size_ s) with 4 in H by (vm_compute; reflexivity);
  replace (PadBytes_ (Config_ s)) with 2 in H by (vm_compute; reflexivity);
  replace (ObjectSize_ (OAStats_ s)) with 16 in H by (vm_compute; reflexivity);
  unfold sizeof_ptr in H; cbn [ptr_bytes reference_build] in H.

Lemma Free_rejects_address_off_boundary_witness :
  Free 8 1051 (one_in_use (example_config true 2 0))
  = (Throw E_BAD_BOUNDARY, one_in_use (example_config true 2 0)).
Proof.
  apply (Free_rejects_address_off_boundary 8 3 3 1051
           (one_in_use (example_config true 2 0)) [1030; 1010] [1000] 1000).
  - constructor; evaluated.
  - vm_compute. reflexivity.
  - vm_compute. reflexivity.
  - vm_compute. reflexivity.
  - vm_compute. reflexivity.
  - vm_compute. reflexivity.
  - unfold all_owned.
    apply Forall_cons; [owned (one_in_use (example_config true 2 0)) [(1000, 68)]|].
    apply Forall_cons; [owned (one_in_use (example_config true 2 0)) [(1000, 68)]|].
    apply Forall_nil.
  - intros [E | [E | []]]; discriminate.
  - vm_compute. reflexivity.
  - unfold all_owned.
    apply Forall_cons; [owned (one_in_use (example_config true 2 0)) [(1000, 68)]|].
    apply Forall_nil.
  - vm_compute. reflexivity.
  - vm_compute. reflexivity.
  - vm_compute. lia.
  - vm_compute. lia.
  - vm_compute. reflexivity.
  - evaluated.
  - intros i Hi E. sized (one_in_use (example_config true 2 0)) Hi.
    sized (one_in_use (example_config true 2 0)) E. lia.
Defined.

Lemma Free_rejects_corrupted_block_witness :
  Free 8 (payload guard_overwritten 1000 2) guard_overwritten
  = (Throw E_CORRUPTED_BLOCK, guard_overwritten).
Proof.
  apply (Free_rejects_corrupted_block 8 3 3 guard_overwritten [1030; 1010] [1000]
           1000 2 1049).
  - constructor; evaluated.
  - vm_compute. reflexivity.
  - vm_compute. reflexivity.
  - vm_compute. reflexivity.
  - vm_compute. reflexivity.
  - vm_compute. reflexivity.
  - unfold all_owned.
    apply Forall_cons; [owned guard_overwritten [(1000, 68)]|].
    apply Forall_cons; [owned guard_overwritten [(1000, 68)]|].
    apply Forall_nil.
  - replace (payload guard_overwritten 1000 2) with 1050 by (vm_compute; reflexivity).
    intros [E | [E | []]]; discriminate.
  - vm_compute. reflexivity.
  - unfold all_owned.
    replace (page_bytes guard_overwritten) with 68 by (vm_compute; reflexivity).
    apply Forall_cons; [owned guard_overwritten [(1000, 68)] | apply Forall_nil].
  - vm_compute. reflexivity.
  - vm_compute. reflexivity.
  - vm_compute. lia.
  - vm_compute. lia.
  - vm_compute. reflexivity.
  - evaluated.
  - left. evaluated.
  - vm_compute. discriminate.
Defined.

Lemma Free_accepts_intact_block_witness :
  exists s', Free 8 (payload (one_in_use (example_config true 2 0)) 1000 2)
                  (one_in_use (example_config true 2 0)) = (Ok tt, s').
Proof.
  apply (Free_accepts_intact_block 8 3 3 (one_in_use (example_config true 2 0))
           [1030; 1010] [1000] 1000 2).
  - constructor; evaluated.
  - vm_compute. reflexivity.
  - vm_compute. reflexivity.
  - vm_compute. reflexivity.
  - vm_compute. reflexivity.
  - vm_compute. reflexivity.
  - unfold all_owned.
    apply Forall_cons; [owned (one_in_use (example_config true 2 0)) [(1000, 68)]|].
    apply Forall_cons; [owned (one_in_use (example_config true 2 0)) [(1000, 68)]|].
    apply Forall_nil.
  - replace (payload (one_in_use (example_config true 2 0)) 1000 2) with 1050
      by (vm_compute; reflexivity).
    intros [E | [E | []]]; discriminate.
  - vm_compute. reflexivity.
  - unfold all_owned.
    replace (page_bytes (one_in_use (example_config true 2 0))) with 68
      by (vm_compute; reflexivity).
    apply Forall_cons;
      [owned (one_in_use (example_config true 2 0)) [(1000, 68)] | apply Forall_nil].
  - vm_compute. reflexivity.
  - vm_compute. reflexivity.
  - vm_compute. lia.
  - vm_compute. lia.
  - vm_compute. reflexivity.
  - evaluated.
  - intros a Ha. sized (one_in_use (example_config true 2 0)) Ha.
    assert (Hcases : a = 1048 \/ a = 1049 \/ a = 1066 \/ a = 1067) by lia.
    destruct Hcases as [-> | [-> | [-> | ->]]]; vm_compute; reflexivity.
Defined.

Lemma ValidatePages_reports_damaged_blocks_witness :
  ValidatePages 8 guard_overwritten
  = (Ok (u32 (Z.of_nat (length (damaged_blocks guard_overwritten [1000]))),
         map (fun b => (b, ObjectSize_ (OAStats_ guard_overwritten)))
             (damaged_blocks guard_overwritten [1000])),
     guard_overwritten) /\
  damaged_blocks guard_overwritten [1000] = [1050].
Proof.
  split; [|vm_compute; reflexivity].
  apply (ValidatePages_reports_damaged_blocks 8 3 guard_overwritten [1000]).
  - constructor; evaluated.
  - vm_compute. reflexivity.
  - vm_compute. reflexivity.
  - unfold all_owned.
    replace (page_bytes guard_overwritten) with 68 by (vm_compute; reflexivity).
    apply Forall_cons; [owned guard_overwritten [(1000, 68)] | apply Forall_nil].
  - vm_compute. lia.
Defined.

Lemma DumpMemoryInUse_reports_blocks_in_use_witness :
  DumpMemoryInUse 8 (one_in_use (example_config true 2 0))
  = (Ok (u32 (Z.of_nat (length (blocks_in_use (one_in_use (example_config true 2 0))
                                              [1030; 1010] [1000]))),
         map (fun b => (b, ObjectSize_ (OAStats_ (one_in_use (example_config true 2 0)))))
             (blocks_in_use (one_in_use (example_config true 2 0)) [1030; 1010] [1000])),
     one_in_use (example_config true 2 0)) /\
  blocks_in_use (one_in_use (example_config true 2 0)) [1030; 1010] [1000] = [1050].
Proof.
  split; [|vm_compute; reflexivity].
  apply (DumpMemoryInUse_reports_blocks_in_use 8 3 3
           (one_in_use (example_config true 2 0)) [1030; 1010] [1000]).
  - vm_compute. reflexivity.
  - vm_compute. reflexivity.
  - vm_compute. reflexivity.
  - unfold all_owned.
    apply Forall_cons; [owned (one_in_use (example_config true 2 0)) [(1000, 68)]|].
    apply Forall_cons; [owned (one_in_use (example_config true 2 0)) [(1000, 68)]|].
    apply Forall_nil.
  - vm_compute. reflexivity.
  - unfold all_owned.
    apply Forall_cons;
      [owned (one_in_use (example_config true 2 0)) [(1000, 68)] | apply Forall_nil].
  - vm_compute. lia.
  - vm_compute. lia.
Defined.

Lemma Allocate_returns_owned_storage_witness :
  0 < 1050 /\
  (if UseCPPMemManager_ (Config_ (example_start (example_config true 2 0)))
   then live (heap (snd (Allocate 8 2000 (example_start (example_config true 2 0)))))
        = (1050, ObjectSize_ (OAStats_ (example_start (example_config true 2 0))))
            :: live (heap (example_start (example_config true 2 0)))
   else range_live (heap (snd (Allocate 8 2000 (example_start (example_config true 2 0)))))
                   1050 sizeof_ptr).
Proof.
  apply (Allocate_returns_owned_storage 8 2000 (example_start (example_config true 2 0))
           1050).
  - unfold buffers_above_null.
    replace (live (heap (example_start (example_config true 2 0)))) with [(1000, 68)]
      by (vm_compute; reflexivity).
    apply Forall_cons; [evaluated | apply Forall_nil].
  - apply ran. vm_compute. reflexivity.
Defined.


Lemma AllocatePage_puts_page_in_front_witness :
  exists s1,
    AllocatePage 8 2000 first_page_taken = (Ok tt, s1) /\
    pages_from (heap s1) (S 3) (page_list_ s1) = Some [2000; 1000] /\
    live (heap s1) = (2000, page_bytes first_page_taken) :: live (heap first_page_taken) /\
    PagesInUse_ (OAStats_ s1) = Z.of_nat (length [2000; 1000]).
Proof.
  apply (AllocatePage_puts_page_in_front 8 3 2000 first_page_taken [1000]).
  - constructor; evaluated.
  - vm_compute. reflexivity.
  - evaluated.
  - vm_compute. lia.
  - vm_compute. reflexivity.
  - evaluated.
  - vm_compute. reflexivity.
  - vm_compute. reflexivity.
  - apply Forall_cons; [left; evaluated | apply Forall_nil].
Defined.


Lemma debug_page_passes_validation_witness :
  exists s1,
    AllocatePage 8 2000 first_page_taken = (Ok tt, s1) /\
    guard_bytes_stamped s1 2000 /\
    forall i, 0 <= i < ObjectsPerPage_ (Config_ first_page_taken) ->
      ValidateBlock (payload s1 2000 i) s1 = (Ok true, s1).
Proof.
  apply (debug_page_passes_validation 8 2000 first_page_taken).
  - constructor; evaluated.
  - vm_compute. reflexivity.
  - vm_compute. reflexivity.
  - vm_compute. reflexivity.
  - vm_compute. reflexivity.
  - evaluated.
  - vm_compute. lia.
Defined.

End ReferenceRuns.
